(** * BRGEMM JIT kernel generator (src/cpu/x64/brgemm/jit_brgemm_kernel.cpp)

    A shallow embedding of the code generator [jit_brgemm_kernel_t]: the
    descriptor it reads, the register allocation it computes, the
    instruction stream it emits, and the lane-level meaning of the few
    instructions whose arithmetic matters to the specification.

    Conventions of the embedding.
    - C++ [int] values are [Z]; the descriptor's [float] scalars [alpha],
      [beta] and [sum_scale] are rationals ([Q]): the generator only ever
      compares them with the constants 0 and 1.
    - The generator drives Xbyak by side effect; here every emitting method
      returns the instructions it appends, in order.  An [assert] of the
      source that fails aborts the generation ([Abort]).
    - General purpose registers are named by the role the source gives them
      ([reg_aux_A], [reg_do_post_ops], ...); [phys] gives the physical
      register each role is bound to.
    - Label/jump patterns of the source ([cmp]/[jz]/[jmp]/[L]) are kept as
      structured nodes of the emitted code ([IfFlagNZ], [Loop],
      [VpadSwitch]). *)

From Stdlib Require Import ZArith Bool String List Lia QArith.
Import ListNotations.
Open Scope string_scope.
Open Scope list_scope.
Open Scope Z_scope.

Set Implicit Arguments.

(** ** Platform *)

Inductive cpu_isa_t : Type :=
| isa_undef
| avx2
| avx2_vnni
| avx2_vnni_2
| avx512_core
| avx512_core_vnni
| avx512_core_bf16
| avx512_core_fp16
| avx512_core_amx
| avx512_core_amx_fp16
| isa_all.

Scheme Equality for cpu_isa_t.

(** The queries on the instruction set come from [cpu_isa_traits.hpp] and
    [jit_generator.hpp], which are not part of the modelled source: the
    development is parametric in them. *)
Class isa_traits : Type := {
  isa_num_vregs : cpu_isa_t -> Z;
  is_superset : cpu_isa_t -> cpu_isa_t -> bool;
  isa_has_masks : cpu_isa_t -> bool;
  isa_has_s8s8 : cpu_isa_t -> bool;
  vlen : Z   (* vreg_traits<Vmm>::vlen, in bytes *)
}.

(** ** Element types *)

Module data_type.
Inductive t : Type :=
| undef | f16 | bf16 | f32 | s32 | s8 | u8 | f64
| f8_e5m2 | f8_e4m3 | s4 | u4 | nf4.
Scheme Equality for t.
Definition eqb := t_beq.

(** [types::is_integral_dt] *)
Definition is_integral_dt (d : t) : bool :=
  match d with
  | s32 | s8 | u8 | s4 | u4 => true
  | _ => false
  end.

(** [types::data_type_size], in bytes. *)
Definition data_type_size (d : t) : Z :=
  match d with
  | f16 | bf16 => 2
  | f32 | s32 => 4
  | f64 => 8
  | s8 | u8 | f8_e5m2 | f8_e4m3 | s4 | u4 | nf4 => 1
  | undef => 0
  end.
End data_type.

Definition data_type_t := data_type.t.

Definition one_of (d : data_type_t) (l : list data_type_t) : bool :=
  existsb (data_type.eqb d) l.

Module brgemm_broadcast.
Inductive t : Type := none | per_tensor | per_m | per_n | per_k.
Scheme Equality for t.
Definition eqb := t_beq.
End brgemm_broadcast.

Definition brgemm_broadcast_t := brgemm_broadcast.t.

Inductive brgemm_batch_kind_t : Type :=
| brgemm_addr | brgemm_offs | brgemm_strd | brgemm_static_offs.

Scheme Equality for brgemm_batch_kind_t.

Inductive brgemm_layout_t : Type := brgemm_row_major | brgemm_col_major.

Scheme Equality for brgemm_layout_t.

Inductive brgemm_kernel_loop_order_t : Type :=
| brgemm_lo_default | brgemm_lo_bl_1load | brgemm_lo_bl_1bcst.

Scheme Equality for brgemm_kernel_loop_order_t.

Inductive brgemm_kernel_innermost_loop_t : Type :=
| brgemm_innermost_undef | brgemm_bd_loop_innermost | brgemm_ld_loop_innermost.

Scheme Equality for brgemm_kernel_innermost_loop_t.

(** ** Kernel descriptor *)

(** [brgemm_attr_t], with the fields the generator reads. *)
Record brgemm_attr_t : Type := {
  max_bs : Z;
  max_top_vpad : Z;
  max_bottom_vpad : Z;
  hint_expected_A_size : Z;
  hint_expected_B_size : Z;
  hint_expected_C_size : Z;
  hint_loop_order : brgemm_kernel_loop_order_t;
  wary_tail_read : bool;
  generate_skip_accumulation : bool;
  use_interleave_stores : bool
}.

Definition INT_MAX : Z := 2147483647.

(** [brgemm_attr_t::brgemm_attr_t()]; the three size hints default to
    [platform::get_per_core_cache_size(1)], a value of the machine. *)
Definition brgemm_attr_default (per_core_cache_size : Z) : brgemm_attr_t := {|
  max_bs := INT_MAX;
  max_top_vpad := 0;
  max_bottom_vpad := 0;
  hint_expected_A_size := per_core_cache_size;
  hint_expected_B_size := per_core_cache_size;
  hint_expected_C_size := per_core_cache_size;
  hint_loop_order := brgemm_lo_default;
  wary_tail_read := true;
  generate_skip_accumulation := false;
  use_interleave_stores := false
|}.

(** [brgemm_desc_t], with the fields and the two nullary methods
    ([is_fp8_via_convert()], [is_input_convert()]) the generator reads.  The
    struct is declared in [brgemm_types.hpp]; the values of the two methods
    are taken as given by the descriptor. *)
Record brgemm_desc_t : Type := {
  isa_impl : cpu_isa_t;
  type : brgemm_batch_kind_t;
  layout : brgemm_layout_t;
  brgattr : brgemm_attr_t;
  (* engine and type family *)
  is_tmm : bool;
  is_int8 : bool;
  is_bf16 : bool;
  is_f16 : bool;
  is_f32 : bool;
  is_fp8 : bool;
  is_bf16_emu : bool;
  has_int8_vnni : bool;
  is_fp8_via_convert : bool;
  is_input_convert : bool;
  (* element types and sizes *)
  dt_a : data_type_t;
  dt_b : data_type_t;
  dt_c : data_type_t;
  dt_d : data_type_t;
  dt_bias : data_type_t;
  sum_dt : data_type_t;
  typesize_A : Z;
  typesize_B : Z;
  typesize_C : Z;
  typesize_D : Z;
  typesize_bias : Z;
  (* leading dimensions *)
  LDA : Z;
  LDB : Z;
  LDC : Z;
  LDD : Z;
  is_runtime_ldc : bool;
  is_runtime_ldd : bool;
  stride_a : Z;
  stride_b : Z;
  (* scalars *)
  alpha : Q;
  beta : Q;
  sum_scale : Q;
  sum_zp : Z;
  (* blocking *)
  bcast_dim : Z;
  reduce_dim : Z;
  bd_block : Z;
  ld_block : Z;
  rd_block : Z;
  bd_block2 : Z;
  ld_block2 : Z;
  bdb : Z;
  bdb_tail : Z;
  bdb2 : Z;
  bdb2_tail : Z;
  ldb2 : Z;
  ldb2_tail : Z;
  ldb_tail : Z;
  rdb : Z;
  rdb_tail : Z;
  rd_step : Z;
  ld_step : Z;
  is_M_tail : bool;
  embd_bcst : bool;
  innermost_loop : brgemm_kernel_innermost_loop_t;
  (* post-processing *)
  with_bias : bool;
  with_scales : bool;
  with_eltwise : bool;
  with_binary : bool;
  with_sum : bool;
  with_dst_scales : bool;
  is_oc_scale : Z;
  zp_type_a : brgemm_broadcast_t;
  zp_type_b : brgemm_broadcast_t;
  zp_type_c : brgemm_broadcast_t;
  req_s8s8_compensation : bool;
  req_cal_comp_pads : bool;
  req_comp_pads_with_bcast : bool;
  (* weights decompression and dynamic quantization *)
  with_wei_decomp : bool;
  with_wei_decomp_scales : bool;
  with_wei_decomp_zero_points : bool;
  with_grouped_wei_decomp : bool;
  with_src_dyn_quant : bool;
  wei_decomp_scales_stride : Z;
  wei_decomp_zero_points_stride : Z;
  wei_decomp_scales_group_size : Z;
  wei_decomp_zero_points_group_size : Z;
  wei_decomp_zero_points_dt : data_type_t;
  src_scales_stride : Z;
  src_scales_group_size : Z
}.

(** ** Resource allocator: the accumulator register budget *)

Section Budget.
Context {T : isa_traits}.
Variable brg : brgemm_desc_t.

(** The member initializer of [max_effective_vregs] in the constructor
    [jit_brgemm_kernel_t::jit_brgemm_kernel_t]. *)
Definition max_effective_vregs : Z :=
  isa_num_vregs brg.(isa_impl)
  - (if brg.(is_int8) && negb brg.(has_int8_vnni) then 2
     else if brg.(is_fp8_via_convert) then 5 else 0)
  - (if one_of brg.(dt_b) [data_type.nf4]
        && cpu_isa_t_beq brg.(isa_impl) avx2 then 5 else 0)
  - (if one_of brg.(dt_b) [data_type.nf4]
        && negb (cpu_isa_t_beq brg.(isa_impl) avx2) then 1 else 0)
  - (if brg.(with_wei_decomp_zero_points)
        && (brg.(wei_decomp_zero_points_stride) =? 0) then 1 else 0)
  - (if brg.(with_src_dyn_quant) then 2 else 0)
  - (if brg.(with_src_dyn_quant) && brg.(with_wei_decomp_zero_points)
        && negb (brg.(wei_decomp_zero_points_stride) =? 0)
     then brg.(ld_block2) else 0).

(** The reservations as the specification words them, one per active
    numeric-format feature. *)
Definition reserved_int8_or_fp8 : Z :=
  if brg.(is_int8) && negb brg.(has_int8_vnni) then 2
  else if brg.(is_fp8_via_convert) then 5
  else 0.

Definition reserved_nf4 : Z :=
  match brg.(dt_b) with
  | data_type.nf4 =>
      match brg.(isa_impl) with
      | avx2 => 5
      | _ => 1
      end
  | _ => 0
  end.

Definition reserved_uniform_wei_zero_point : Z :=
  if brg.(with_wei_decomp_zero_points) then
    if brg.(wei_decomp_zero_points_stride) =? 0 then 1 else 0
  else 0.

Definition reserved_dyn_quant : Z :=
  if brg.(with_src_dyn_quant) then 2 else 0.

Definition reserved_per_column_wei_zero_points : Z :=
  if brg.(with_src_dyn_quant) then
    if brg.(with_wei_decomp_zero_points) then
      if brg.(wei_decomp_zero_points_stride) =? 0 then 0
      else brg.(ld_block2)
    else 0
  else 0.

Definition reserved_vregs : Z :=
  reserved_int8_or_fp8 + reserved_nf4 + reserved_uniform_wei_zero_point
  + reserved_dyn_quant + reserved_per_column_wei_zero_points.
End Budget.


(** ** Methods of the descriptor and services of the library the generator
    calls but does not define *)

Class brgemm_externals : Type := {
  (* brgemm_desc_t::get_A_tensor(m, m_tail) and its siblings *)
  get_A_tensor : brgemm_desc_t -> Z -> bool -> Z;
  get_B_tensor : brgemm_desc_t -> Z -> bool -> Z;
  get_C_tensor : brgemm_desc_t -> Z -> Z -> bool -> bool -> Z;
  get_num_C_tiles : brgemm_desc_t -> Z;
  (* platform::get_per_core_cache_size(1) *)
  per_core_cache_size : Z;
  (* po_injector_t::create(...) returned status::success *)
  postops_injector_created : brgemm_desc_t -> bool;
  (* binary_injector::any_binary_postop_rhs_non_scalar_broadcast *)
  any_binary_postop_rhs_non_scalar_broadcast : brgemm_desc_t -> bool;
  (* data_type_vnni_granularity(data_type::f16) *)
  vnni_granularity_f16 : Z;
  (* sizeof(brgemm_batch_element_t) *)
  sizeof_batch_element : Z;
  (* brgemm_desc_t::MAX_VPAD *)
  MAX_VPAD : Z
}.

(** ** Emitted code *)

(** Physical general purpose registers. *)
Inductive preg : Type :=
| rax | rbx | rdx | rsi | rbp | rsp
| r8 | r9 | r10 | r11 | r12 | r13 | r14 | r15
| abi_param1 | abi_not_param1.

(** The "register decomposition" of the class: one name per role. *)
Inductive gpr : Type :=
| param1
| reg_C | reg_aux_C
| reg_addr_batch | reg_A | reg_B
| reg_aux_A | reg_aux_B | reg_aux_A_vpad
| reg_bdb_loop | reg_ldb_loop
| reg_stride_lda | reg_stride_ldb | reg_stride_ld_block
| reg_s8_input_shift | reg_zp_a_input_shift
| reg_BS_loop | reg_rdb_loop | reg_BS
| reg_a_offset | reg_b_offset
| reg_aux1_batch | reg_aux1_A | reg_aux1_B
| reg_offs_batch | reg_strd_batch
| reg_bias | reg_scales | reg_aux_bias | reg_dst_scales
| reg_zp_comp_a | reg_aux_zp_comp_a | reg_zp_comp_b | reg_aux_zp_comp_b
| reg_zp_c_values | reg_aux_zp_c_values
| reg_wei_scales | reg_aux_wei_scales | reg_wei_zp | reg_aux_wei_zp
| reg_ic | reg_src_scales | reg_tmp_read_values
| reg_aux_scales | reg_aux_dst_scales
| reg_do_post_ops | reg_do_comp | reg_skip_accm
| reg_tmp_gpr | reg_ptr_sum_scale | reg_ptr_sum_zp | reg_zp_a_val
| reg_buf | reg_buf_aux | reg_compensation | reg_aux_compensation
| reg_D | reg_aux_D
| bf16_emu_scratch | reg_converted_stride | reg64_fp8_aux
| reg_mask
| reg_rsp | reg_rdx.

Definition phys (r : gpr) : preg :=
  match r with
  | param1 => abi_param1
  | reg_C => r15
  | reg_aux_C => r14
  | reg_addr_batch | reg_A => r13
  | reg_B => r12
  | reg_aux_A | reg_aux_A_vpad | reg_D => r11
  | reg_aux_B | reg_aux_scales | reg_aux_dst_scales => r10
  | reg_bdb_loop | reg_stride_lda | reg_s8_input_shift
  | reg_zp_a_input_shift | reg_ptr_sum_zp => r9
  | reg_ldb_loop | reg_stride_ldb | reg_stride_ld_block => r8
  | reg_BS_loop | reg_aux_D | reg_mask => rax
  | reg_BS => abi_not_param1
  | reg_a_offset | reg_rdx => rdx
  | reg_b_offset => rsi
  | reg_aux1_batch | reg_aux1_A | reg_offs_batch => rbp
  | reg_aux1_B | reg_buf_aux => abi_param1
  | reg_rsp => rsp
  | reg64_fp8_aux => r13
  | _ => rbx (* reg_rdb_loop and every role bound to it *)
  end.

Inductive label : Type := avx_tail_mask_ | sum_zp_scale_data_.

(** The fields of the invocation parameter block
    ([brgemm_kernel_params_t]) the kernel addresses through [GET_OFF]. *)
Inductive param_field : Type :=
| ptr_A | ptr_B | batch | ptr_C | ptr_D | BS | ptr_buf
| ptr_bias | ptr_scales
| a_zp_compensations | b_zp_compensations | c_zp_values
| ptr_wei_scales | ptr_wei_zero_points | ic | ptr_src_scales
| ptr_dst_scales
| dynamic_LDC | dynamic_LDD
| do_post_ops | skip_accm | zp_a_val | do_apply_comp
| post_ops_binary_rhs_arg_vec | data_C_ptr_.

Scheme Equality for param_field.

(** The fields of one batch element ([brgemm_batch_element_t]) addressed
    through [GET_OFF_BATCH_ELEMENT]. *)
Inductive batch_field : Type :=
| elem_ptr_A | elem_ptr_B | elem_offset_A | elem_offset_B
| elem_vvpad_top | elem_vvpad_bottom.

Inductive operand : Type :=
| Vmm (idx : Z)                          (* Vmm(idx) *)
| VmmK (idx : Z) (k : Z) (zeroing : bool) (* vmm | k  or  vmm | k | T_z *)
| Vmm_lower (idx : Z)                    (* Vmm_lower_t(idx) *)
| Vmm_lowerK (idx : Z) (k : Z) (zeroing : bool)
| Xmm (idx : Z)
| XmmK (idx : Z) (k : Z)
| Tmm (idx : Z)
| Opmask (k : Z)
| Gpr (r : gpr)
| Gpr32 (r : gpr)                        (* r.cvt32() *)
| Gpr16 (r : gpr)
| Gpr8 (r : gpr)
| Mem (base : gpr) (off : Z)             (* ptr[base + off] *)
| MemR (base : gpr) (idx : gpr) (off : Z) (* ptr[base + off + idx] *)
| MemB (base : gpr) (off : Z)            (* ptr_b[base + off] *)
| MemK (base : gpr) (off : Z) (k : Z) (zeroing : bool)
| MemRip (l : label)                     (* ptr[rip + l] *)
| Param (f : param_field)                (* ptr[param1 + GET_OFF(f)] *)
| BatchElem (base : gpr) (f : batch_field)
                                 (* ptr[base + GET_OFF_BATCH_ELEMENT(f)] *)
| Lbl (l : label)
| Imm (z : Z)
| ImmF (q : Q)                           (* float2int(q) *)
| ImmAddr (table : string)               (* the address of a static table *)
| Dt (d : data_type_t)
| Encoding (evex : bool).                (* EvexEncoding / VexEncoding *)

(** One emitted machine instruction, or one call of a helper of the
    library ([load_data], [saturate_cvt_f32], the injector, ...) that emits
    code of its own. *)
Inductive insn : Type :=
| Ins (mnemonic : string) (ops : list operand)
| Call (helper : string) (args : list operand).

#[warnings="-register-all"]
Inductive code : Type :=
| I (i : insn)
  (* mov(r, ptr[rsp + slot]); cmp(r, 0); jz(L); nz; jmp(done); L: z; done: *)
| IfFlagNZ (slot : Z) (nz : list code) (z : list code)
  (* cmp(reg_offs_batch, 0); je(L); nonnull; jmp(done); L: null; done: *)
| IfBatchNull (nonnull : list code) (null : list code)
  (* mov(cnt, n) before; L: body; dec(cnt); cmp(cnt, bound); jg(L) *)
| Loop (cnt : gpr) (bound : Z) (body : list code)
  (* cmp(reg_aux_A_vpad, p); jne(next); body p; jmp(end) ... default *)
| VpadSwitch (cases : list (Z * list code)) (default : list code)
  (* postops_injector_->compute_vector_range(first, last, ...): the chain
     of the injector over the registers [first, last), which runs the
     registered sum lambda where the chain has a sum entry *)
| PostOps (first last : Z) (sum_injector : list code).

(** ** The generation monad *)

Inductive result (A : Type) : Type :=
| Ok (a : A)
| Abort (msg : string).

Arguments Abort {A} msg.

Definition gen : Type := result (list code).

Definition bindr {A B : Type} (r : result A) (k : A -> result B) : result B :=
  match r with
  | Ok a => k a
  | Abort m => Abort m
  end.

Notation "'let*' x ':=' e 'in' k" := (bindr e (fun x => k))
  (at level 10, x name, e at level 100, k at level 200).

Definition skip : gen := Ok [].

Definition andthen (a b : gen) : gen :=
  let* x := a in let* y := b in Ok (x ++ y).

Notation "a ;; b" := (andthen a b) (at level 100, right associativity).

Definition ins (mnemonic : string) (ops : list operand) : gen :=
  Ok [I (Ins mnemonic ops)].

Definition call (helper : string) (args : list operand) : gen :=
  Ok [I (Call helper args)].

Definition when (c : bool) (g : gen) : gen := if c then g else skip.

(** [assert(c)], [assert(!"msg")] *)
Definition assert (c : bool) (msg : string) : gen :=
  if c then skip else Abort msg.

Definition assertr {A : Type} (c : bool) (msg : string) (a : A) : result A :=
  if c then Ok a else Abort msg.

(** [for (int i = lo; i < hi; i++) body(i)] *)
Definition range (lo hi : Z) : list Z :=
  map (fun i => lo + Z.of_nat i) (List.seq 0 (Z.to_nat (hi - lo))).

Fixpoint for_ (l : list Z) (body : Z -> gen) : gen :=
  match l with
  | [] => skip
  | i :: l' => body i ;; for_ l' body
  end.

(** [utils::div_up], [utils::rnd_up]; the division of C++ truncates. *)
Definition div_up (a b : Z) : Z := Z.quot (a + b - 1) b.
Definition rnd_up (a b : Z) : Z := div_up a b * b.

(** [for (int i = lo; i < hi; i += step) body(i)]; with a step that is not
    positive the loop of the source does not advance, and the generation
    has no result. *)
Definition for_step (lo hi step : Z) (body : Z -> gen) : gen :=
  if step <=? 0 then
    if lo <? hi then Abort "loop does not advance" else skip
  else
    for_ (map (fun i => lo + step * Z.of_nat i)
              (List.seq 0 (Z.to_nat (div_up (hi - lo) step))))
         body.

Definition if_flag_nz (slot : Z) (nz z : gen) : gen :=
  let* a := nz in let* b := z in Ok [IfFlagNZ slot a b].

Definition loop (cnt : gpr) (bound : Z) (body : gen) : gen :=
  let* b := body in Ok [Loop cnt bound b].

Definition IMPLICATION (a b : bool) : bool := negb a || b.

Definition is_zero (q : Q) : bool := Qeq_bool q 0.
Definition is_one (q : Q) : bool := Qeq_bool q 1.

(** ** Stack scratch frame *)

Definition origin_offs_batch_offs_ : Z := 0.
Definition origin_strd_batch_offs_ : Z := 0.
Definition reg_bias_offs_ : Z := 8.
Definition reg_aux_bias_offs_ : Z := 16.
Definition reg_do_post_ops_offs_ : Z := 24.
Definition reg_D_offs_ : Z := 32.
Definition reg_aux_D_offs_ : Z := 40.
Definition reg_scales_offs_ : Z := 48.
Definition reg_aux_scales_offs_ : Z := 56.
Definition reg_bdb_loop_offs_ : Z := 64.
Definition reg_ldb_loop_offs_ : Z := 72.
Definition reg_buf_offs_ : Z := 80.
Definition reg_comp_offs_ : Z := reg_buf_offs_.
Definition reg_aux_comp_offs_ : Z := 88.
Definition abi_param1_offs_ : Z := 96.
Definition reg_zp_comp_a_offs_ : Z := 104.
Definition reg_aux_zp_comp_a_offs_ : Z := 112.
Definition reg_zp_comp_b_offs_ : Z := 120.
Definition reg_aux_zp_comp_b_offs_ : Z := 128.
Definition reg_zp_c_values_offs_ : Z := 136.
Definition reg_aux_zp_c_values_offs_ : Z := 144.
Definition reg_data_C_ptr_ : Z := 152.
Definition reg_skip_accm_offs_ : Z := 160.
Definition reg_zp_a_val_offs_ : Z := 168.
Definition reg_do_comp_offs_ : Z := 176.
Definition reg_dst_scales_offs_ : Z := 184.
Definition reg_C_shift_bytes_offs_ : Z := 192.
Definition reg_aux_C_backup_offs_ : Z := 200.
Definition reg_aux_C_bdb_loop_backup_offs_ : Z := 208.
Definition reg_aux_C_bdb_loop_shift_offs_ : Z := 216.
Definition reg_D_shift_bytes_offs_ : Z := 224.
Definition reg_aux_D_backup_offs_ : Z := 232.
Definition reg_aux_D_bdb_loop_backup_offs_ : Z := 240.
Definition reg_aux_D_bdb_loop_shift_offs_ : Z := 248.
Definition reg_wei_scales_offs_ : Z := 256.
Definition reg_aux_wei_scales_offs_ : Z := 264.
Definition reg_wei_zero_points_offs_ : Z := 272.
Definition reg_aux_wei_zero_points_offs_ : Z := 280.
Definition reg_ic_offs_ : Z := 288.
Definition reg_aux2_D_offs_ : Z := 296.
Definition reg_aux2_wei_scales_offs_ : Z := 304.
Definition reg_aux2_wei_zero_points_offs_ : Z := 312.
Definition reg_aux_ic_offs_ : Z := 320.
Definition reg_reg_a_offset_offs_ : Z := 328.
Definition reg_src_scales_offs_ : Z := 336.
Definition reg_aux_src_scales_offs_ : Z := 344.
Definition reg_aux2_src_scales_offs_ : Z := 352.
Definition reg_val_tmp_1_ : Z := 368.
Definition reg_val_tmp_2_ : Z := 376.
Definition stack_space_needed_ : Z := 384.

(** Opmask registers *)
Definition ld_full_mask : Z := 2.
Definition ld_tail_mask : Z := 3.
Definition fp8_col_mask : Z := 4.
Definition kmask_fp8_aux : Z := 5.

Definition zmm_width_in_bytes_ : Z := 64.

(** ** The generator [jit_brgemm_kernel_t]

    The section variables are the members of the class: the descriptor
    [brg], and the three flags that [generate()] and [bdb_loop()] set before
    any of the emitting methods below runs.  A parameter that has the name
    of a descriptor field in the source carries a prime here. *)

Section Generator.
Context {T : isa_traits} {E : brgemm_externals}.
Variable brg : brgemm_desc_t.
Variable n_bcast_1_load : bool.
Variable vpad_exist : bool.
Variable need_comp_pads : bool.

(** Members set by the constructor. *)
Definition is_ldb_loop_ : bool :=
  let is_ldb2_tail := if brg.(ldb2_tail) =? 0 then 0 else 1 in
  let is_ldb_tail := if brg.(ldb_tail) =? 0 then 0 else 1 in
  brg.(ldb2) + is_ldb2_tail + is_ldb_tail >? 1.

Definition has_postops_injector_ : bool :=
  brg.(with_eltwise) || brg.(with_binary) || brg.(with_sum).

Definition with_binary_non_scalar_bcast_ : bool :=
  has_postops_injector_ && any_binary_postop_rhs_non_scalar_broadcast brg.

Definition is_avx512 : bool := is_superset brg.(isa_impl) avx512_core.

(** *** Resource allocator: vector registers *)

Definition accm (ld_block' bd ld : Z) : Z :=
  max_effective_vregs brg - 1 - (bd * ld_block' + ld).

Definition bcst (bd : Z) : result Z :=
  if n_bcast_1_load then
    let idx :=
      max_effective_vregs brg - 1 - (brg.(ld_block2) * brg.(bd_block)) - bd in
    assertr (idx >? 0) "idx > 0" idx
  else Ok 0.

Definition load (ld : Z) : result Z :=
  if n_bcast_1_load then Ok 0
  else
    let idx :=
      max_effective_vregs brg - 1 - (brg.(ld_block2) * brg.(bd_block)) - ld in
    assertr (idx >? 0) "idx > 0" idx.

Definition vmm_tmp (i : Z) : result Z :=
  assertr
    (IMPLICATION (negb brg.(is_tmm))
       ((0 <=? i)
        && (i <? max_effective_vregs brg - brg.(bd_block) * brg.(ld_block2))))
    "vmm_tmp index" i.

Definition vmm_tail_mask : result Z := vmm_tmp 1.
Definition vmm_one_bytes : Z := 3.
Definition vmm_zp_a_shift : Z := 2.
Definition vmm_inp_shift : Z := 1.

Definition bf16_emu_reserv_1 : Z := 0.
Definition bf16_emu_reserv_2 : Z := 1.
Definition bf16_emu_reserv_3 : Z := 2.
Definition bf16_emu_reserv_4 : Z := 3.

Definition xmm_fp8_emu_aux1 : Z := 0.
Definition xmm_fp8_emu_aux2 : Z := 1.
Definition xmm_fp8_emu_aux3 : Z := 2.
Definition xmm_fp8_emu_aux4 : Z := 3.
Definition xmm_fp8_emu_aux5 : Z := 4.

(** Required in every dot product for INT8 non-VNNI computation. *)
Definition int8_ones_words : Z := isa_num_vregs brg.(isa_impl) - 1.
Definition int8_dot_product_temp : Z := isa_num_vregs brg.(isa_impl) - 2.

(** *** Offset calculator *)

Definition typesize_scale : Z :=
  if one_of brg.(dt_b) [data_type.nf4; data_type.s4; data_type.u4]
  then 2 else 1.

Definition A_offset (bd rd : Z) (is_amx : bool) : Z :=
  if is_amx then brg.(typesize_A) * (bd * brg.(bd_block) * brg.(LDA))
  else brg.(typesize_A) * (bd * brg.(LDA) + rd).

Definition B_offset (ld rd : Z) (is_amx : bool) : Z :=
  if is_amx then
    Z.quot (brg.(typesize_B) * (brg.(rd_step) * ld * brg.(ld_block)))
           typesize_scale
  else
    let data_vnni_granularity := brg.(ld_step) in
    let rdb0 := Z.quot rd data_vnni_granularity in
    Z.quot (brg.(typesize_B)
            * (rdb0 * data_vnni_granularity * brg.(LDB)
               + data_vnni_granularity * ld * brg.(ld_block)))
           typesize_scale.

Definition C_offset (bd ld : Z) : Z :=
  let bd_shift := if brg.(is_runtime_ldc) then 0 else bd * brg.(LDC) in
  brg.(typesize_C) * (bd_shift + ld * brg.(ld_block)).

Definition D_offset (bd ld : Z) : Z :=
  let bd_shift := if brg.(is_runtime_ldd) then 0 else bd * brg.(LDD) in
  brg.(typesize_D) * (bd_shift + ld * brg.(ld_block)).

Definition rdb_A_offset : Z := brg.(typesize_A) * brg.(rd_block).

Definition rdb_B_offset : Z :=
  Z.quot (brg.(typesize_B) * brg.(rd_block) * brg.(LDB)) typesize_scale.

Definition ldb_B_offset (ld_block2' : Z) (is_tail : bool) : Z :=
  if is_tail then
    Z.quot (brg.(typesize_B) * brg.(ldb_tail) * brg.(ld_step)) typesize_scale
  else
    Z.quot (brg.(typesize_B) * ld_block2' * brg.(ld_block) * brg.(ld_step))
           typesize_scale.

Definition ldb_C_offset (ld_block2' : Z) (is_tail : bool) : Z :=
  if is_tail then brg.(typesize_C) * brg.(ldb_tail)
  else brg.(typesize_C) * ld_block2' * brg.(ld_block).

Definition ldb_D_offset (ld_block2' : Z) (is_tail : bool) : Z :=
  if is_tail then brg.(typesize_D) * brg.(ldb_tail)
  else brg.(typesize_D) * ld_block2' * brg.(ld_block).

Definition ldb_po_offset (ld_block2' : Z) (is_tail : bool) : Z :=
  if is_tail then brg.(ldb_tail) else ld_block2' * brg.(ld_block).

Definition bdb_A_offset (bd_block2' : Z) : Z :=
  brg.(typesize_A) * bd_block2' * brg.(bd_block) * brg.(LDA).

Definition bdb_C_offset (bd_block2' : Z) : Z :=
  bd_block2' * brg.(bd_block)
  * (if brg.(is_runtime_ldc) then 1 else brg.(typesize_C) * brg.(LDC)).

Definition bdb_D_offset (bd_block2' : Z) : Z :=
  bd_block2' * brg.(bd_block)
  * (if brg.(is_runtime_ldd) then 1 else brg.(typesize_D) * brg.(LDD)).

Definition bdb_po_offset (bd_block2' : Z) : Z :=
  bd_block2' * brg.(bd_block) * brg.(LDD).

Definition bias_offset (ld : Z) (is_tail : bool) : Z :=
  if is_tail then brg.(typesize_bias) * brg.(ldb_tail)
  else brg.(typesize_bias) * ld * brg.(ld_block).

Definition oc_logical_offset (ld : Z) (is_tail : bool) : Z :=
  if is_tail then brg.(ldb_tail) else ld * brg.(ld_block).

Definition compensations_offset (ld : Z) (is_tail : bool) : Z :=
  if is_tail then 4 * brg.(ldb_tail) else 4 * ld * brg.(ld_block).

Definition bdb_compensation_offset (bd_block2' : Z) : Z :=
  4 * bd_block2' * brg.(bd_block) * brg.(LDB).

Definition bd_compensation_offset (ld bd : Z) : Z :=
  4 * (ld * brg.(ld_block) + bd * brg.(LDB)).

Definition scales_offset (ld : Z) (is_tail : bool) : Z :=
  if is_tail then brg.(is_oc_scale) * 4 * brg.(ldb_tail)
  else brg.(is_oc_scale) * 4 * ld * brg.(ld_block).

Definition wei_scales_offset (ld : Z) (is_tail : bool) : Z :=
  if is_tail then 4 * brg.(ldb_tail) else 4 * ld * brg.(ld_block).

Definition wei_zp_offset (ld : Z) (is_tail : bool) : Z :=
  if is_tail then
    data_type.data_type_size brg.(wei_decomp_zero_points_dt) * brg.(ldb_tail)
  else
    data_type.data_type_size brg.(wei_decomp_zero_points_dt) * ld
    * brg.(ld_block).

Definition zp_comp_a_offset (ld : Z) (is_tail : bool) : Z :=
  if is_tail then 4 * brg.(ldb_tail) else 4 * ld * brg.(ld_block).

Definition bdb_zp_comp_a_offset (bd_block2' : Z) : Z :=
  4 * bd_block2' * brg.(bd_block) * brg.(LDB).

Definition bd_zp_comp_a_offset (ld bd : Z) : Z :=
  4 * (ld * brg.(ld_block) + bd * brg.(LDB)).

Definition zp_comp_b_offset (bd : Z) : Z := 4 * bd.

Definition bdb_zp_comp_b_offset (bd_block2' : Z) : Z :=
  zp_comp_b_offset (bd_block2' * brg.(bd_block)).

Definition zp_c_values_offset (ld : Z) (is_tail : bool) : Z :=
  if brgemm_broadcast.eqb brg.(zp_type_c) brgemm_broadcast.per_n then
    if is_tail then 4 * brg.(ldb_tail) else 4 * ld * brg.(ld_block)
  else 0.

(** *** Small emitters *)

Definition vmm_mask (vmm_in : Z) (mask_flag store : bool) (ktail_mask : Z)
  : operand :=
  if mask_flag && is_avx512 then
    if store then VmmK vmm_in ktail_mask false
    else VmmK vmm_in ktail_mask true
  else Vmm vmm_in.

Definition vmm_lower_mask (vmm_lower_in : Z) (mask_flag store : bool)
    (ktail_mask : Z) : operand :=
  if mask_flag && is_avx512 then
    if store then Vmm_lowerK vmm_lower_in ktail_mask false
    else Vmm_lowerK vmm_lower_in ktail_mask true
  else Vmm_lower vmm_lower_in.

Definition maybe_set_avx_mask (is_ld_tail : bool) : gen :=
  if IMPLICATION is_ld_tail (isa_has_masks brg.(isa_impl)) then skip
  else
    let* m := vmm_tail_mask in
    ins "vmovups" [Vmm m; MemRip avx_tail_mask_].

Definition isMEM (op : operand) : bool :=
  match op with
  | Mem _ _ | MemR _ _ _ | MemB _ _ | MemK _ _ _ _ | MemRip _
  | Param _ | BatchElem _ _ => true
  | _ => false
  end.

Definition cvt2ps (type_in : data_type_t) (vmm_in : Z) (op : operand)
    (mask_flag store : bool) (ktail_mask : Z) (tail_size : Z) : gen :=
  let has_tail := isMEM op && negb (tail_size =? Z.quot vlen 4) in
  if IMPLICATION has_tail is_avx512 then
    let vmm := vmm_mask vmm_in mask_flag store ktail_mask in
    (match type_in with
     | data_type.f32
     | data_type.s32 => ins "uni_vmovups" [vmm; op]
     | data_type.bf16 =>
         ins "uni_vpmovzxwd" [vmm; op] ;;
         ins "uni_vpslld" [vmm; vmm; Imm 16]
     | data_type.f16 => ins "vcvtph2ps" [vmm; op]
     | data_type.s8 => ins "uni_vpmovsxbd" [vmm; op]
     | data_type.u8 => ins "uni_vpmovzxbd" [vmm; op]
     | data_type.f8_e5m2 =>
         if brg.(is_fp8_via_convert) then
           ins "mov" [Mem reg_rsp reg_val_tmp_1_; Gpr reg64_fp8_aux] ;;
           call "f8_e5m2_emulator_->vcvt_f8_to_f32" [vmm; op] ;;
           ins "mov" [Gpr reg64_fp8_aux; Mem reg_rsp reg_val_tmp_1_]
         else Abort "Error, native conversion unsupported"
     | data_type.f8_e4m3 =>
         if brg.(is_fp8_via_convert) then
           ins "mov" [Mem reg_rsp reg_val_tmp_1_; Gpr reg64_fp8_aux] ;;
           call "f8_e4m3_emulator_->vcvt_f8_to_f32" [vmm; op] ;;
           ins "mov" [Gpr reg64_fp8_aux; Mem reg_rsp reg_val_tmp_1_]
         else Abort "Error, native conversion unsupported"
     | _ => Abort "unsupported data type"
     end) ;;
    when (data_type.is_integral_dt type_in)
      (ins "uni_vcvtdq2ps" [Vmm vmm_in; Vmm vmm_in])
  else
    call "load_data" [Dt type_in; Vmm vmm_in; op; Imm tail_size] ;;
    when (data_type.is_integral_dt type_in)
      (ins "uni_vcvtdq2ps" [Vmm vmm_in; Vmm vmm_in]).

(** *** Accumulator tile: zeroing *)

Definition zero_accumulators (bd_block2' : Z) (is_bdb_tail : bool)
    (ld_block2' : Z) (is_ld_tail skip_accumulation : bool) : gen :=
  if brg.(is_tmm) then
    (* avoid usage of tile registers if there is no accumulation *)
    if skip_accumulation then skip
    else
      for_ (range 0 bd_block2') (fun bdb =>
      for_ (range 0 ld_block2') (fun ldb =>
        let idx := if is_ld_tail then brg.(ld_block2) else ldb in
        ins "tilezero"
            [Tmm (get_C_tensor brg bdb idx is_bdb_tail is_ld_tail)]))
  else
    let bd_block' := if is_bdb_tail then brg.(bdb_tail) else brg.(bd_block) in
    for_ (range 0 bd_block') (fun bd =>
    for_ (range 0 ld_block2') (fun ld =>
      let vmm := accm ld_block2' bd ld in
      ins "uni_vpxor" [Vmm vmm; Vmm vmm; Vmm vmm])).

(** *** Vector microkernel: the multiply-accumulate primitive *)

Definition dot_product (v1 v2 v3 : operand) : gen :=
  if brg.(is_f32) || brg.(is_f16)
     || (brg.(is_bf16) && cpu_isa_t_beq brg.(isa_impl) avx2_vnni_2)
  then ins "uni_vfmadd231ps" [v1; v2; v3]
  else if brg.(is_bf16) then ins "vdpbf16ps" [v1; v2; v3]
  else if brg.(is_int8) then
    if data_type.eqb brg.(dt_a) data_type.s8 && isa_has_s8s8 brg.(isa_impl)
    then ins "vpdpbssd" [v1; v3; v2]
    else if brg.(has_int8_vnni) then
      ins "vpdpbusd" [v1; v3; v2; Encoding is_avx512]
    else
      ins "vpmaddubsw" [Vmm int8_dot_product_temp; v3; v2] ;;
      ins "vpmaddwd"
          [Vmm int8_dot_product_temp; Vmm int8_dot_product_temp;
           Vmm int8_ones_words] ;;
      ins "vpaddd" [v1; v1; Vmm int8_dot_product_temp]
  else skip.

Definition eq_none (z : brgemm_broadcast_t) : bool :=
  brgemm_broadcast.eqb z brgemm_broadcast.none.

Definition compensation_padding (ld_block2' : Z) (vmm_load vmm_tmp' : Z)
    (ld bd_b bd_e : Z) : gen :=
  (* req_cal_comp_pads -> only calculate compensation along with
     computation and do not use pre-calculated compensation.
     Calculate comp padding as: accum - inp_shift * conv(1, wei_s32) *)
  when brg.(req_s8s8_compensation)
    (when brg.(req_cal_comp_pads)
       (ins "uni_vpxor" [Vmm vmm_tmp'; Vmm vmm_tmp'; Vmm vmm_tmp'] ;;
        dot_product (Vmm vmm_tmp') (Vmm vmm_load) (Vmm vmm_inp_shift)) ;;
     for_ (range bd_b bd_e) (fun bd =>
       let vmm := accm ld_block2' bd ld in
       if brg.(req_cal_comp_pads) then
         ins "uni_vpsubd" [Vmm vmm; Vmm vmm; Vmm vmm_tmp']
       else dot_product (Vmm vmm) (Vmm vmm_load) (Vmm vmm_inp_shift))) ;;
  when (negb (eq_none brg.(zp_type_a)))
    (ins "uni_vpxor" [Vmm vmm_tmp'; Vmm vmm_tmp'; Vmm vmm_tmp'] ;;
     dot_product (Vmm vmm_tmp') (Vmm vmm_load) (Vmm vmm_one_bytes) ;;
     ins "uni_vpmulld" [Vmm vmm_tmp'; Vmm vmm_tmp'; Vmm vmm_zp_a_shift] ;;
     for_ (range bd_b bd_e) (fun bd =>
       let vmm := accm ld_block2' bd ld in
       if brg.(req_cal_comp_pads) then
         ins "uni_vpsubd" [Vmm vmm; Vmm vmm; Vmm vmm_tmp']
       else ins "uni_vpaddd" [Vmm vmm; Vmm vmm; Vmm vmm_tmp'])).

Definition compute_int8_compensation (rd_loop bd_b bd_e bd_block' : Z)
    (ld_block2' : Z) (is_ld_tail : bool) (vpad : Z) : gen :=
  assert brg.(is_int8) "brg.is_int8" ;;
  when (n_bcast_1_load && negb (eq_none brg.(zp_type_a)))
    (ins "mov" [Mem reg_rsp reg_bdb_loop_offs_; Gpr reg_bdb_loop] ;;
     let reg32_scratch := Gpr32 reg_zp_a_input_shift in
     ins "mov" [reg32_scratch; Imm 16843009 (* 0x1010101 *)] ;;
     ins "uni_vpbroadcastd" [Vmm vmm_one_bytes; reg32_scratch] ;;
     ins "mov" [reg32_scratch; Mem reg_rsp reg_zp_a_val_offs_] ;;
     ins "uni_vpbroadcastd" [Vmm vmm_zp_a_shift; reg32_scratch] ;;
     ins "mov" [Gpr reg_bdb_loop; Mem reg_rsp reg_bdb_loop_offs_]) ;;
  for_step 0 rd_loop brg.(rd_step) (fun rd =>
  for_ (range 0 ld_block2') (fun ld =>
    let addr := Mem reg_aux_B (B_offset ld rd false) in
    let is_tail := is_ld_tail && (ld + 1 =? ld_block2') in
    let* vload := load 0 in
    (if IMPLICATION is_tail is_avx512 then
       let vmm_store := vmm_mask vload is_tail false ld_tail_mask in
       ins "uni_vmovups" [vmm_store; addr]
     else
       call "load_bytes"
            [Vmm vload; addr;
             Imm (brg.(typesize_B) * brg.(ldb_tail) * brg.(ld_step))]) ;;
    (if brg.(req_cal_comp_pads) then
       let* vbcst := bcst 0 in
       compensation_padding ld_block2' vload vbcst ld bd_b bd_e
     else if negb (vpad =? 0) then
       when (bd_b >? 0)
         (let* vbcst := bcst 0 in
          compensation_padding ld_block2' vload vbcst ld 0 bd_b) ;;
       when (bd_e <? bd_block')
         (let* vbcst := bcst 0 in
          compensation_padding ld_block2' vload vbcst ld bd_e bd_block')
     else skip))).

(** *** Vector microkernel *)

Definition isa_is (i : cpu_isa_t) : bool := cpu_isa_t_beq brg.(isa_impl) i.

(** The reduction extent of one microkernel call and the size of the
    partial last step ([rd_loop], [rd_tail_size] in the source). *)
Definition rd_tail_size_of (is_rd_tail : bool) : Z :=
  if is_rd_tail && (brg.(is_bf16) || brg.(is_int8))
  then Z.rem brg.(rdb_tail) brg.(rd_step)
  else 0.

Definition rd_loop_of (is_rd_tail : bool) : Z :=
  if is_rd_tail then
    if brg.(is_bf16) || brg.(is_int8) then
      if negb (rd_tail_size_of is_rd_tail =? 0)
      then (Z.quot brg.(rdb_tail) brg.(rd_step) + 1) * brg.(rd_step)
      else brg.(rdb_tail)
    else brg.(rdb_tail)
  else brg.(rd_block).

(** The rows of the block a body specialized for [vpad] works on. *)
Definition bd_begin (vpad : Z) : Z := Z.max 0 vpad.
Definition bd_end (bd_block' vpad : Z) : Z := Z.min bd_block' (bd_block' + vpad).

Definition is_valid_bd (bd_block' vpad : Z) : bool :=
  if need_comp_pads && negb (vpad =? 0)
  then bd_begin vpad <=? bd_end bd_block' vpad
  else bd_begin vpad <? bd_end bd_block' vpad.

(** The lambda [broadcast] of [gemm_microkernel]; the one of
    [gemm_microkernel_dyn_quant] clears the register first
    ([clear_first]). *)
Definition broadcast (clear_first : bool) (rd_tail_size : Z) (v1 : Z)
    (offset : Z) (is_tail : bool) (dt : data_type_t) : gen :=
  (if is_tail then
     when clear_first (ins "uni_vpxor" [Vmm v1; Vmm v1; Vmm v1]) ;;
     call "load_bytes"
          [Xmm v1; Gpr reg_aux_A; Imm offset;
           Imm (rd_tail_size * brg.(typesize_A))] ;;
     ins "uni_vpbroadcastd" [Vmm v1; Xmm v1]
   else if data_type.eqb dt data_type.f32 then
     ins "uni_vbroadcastss" [Vmm v1; Mem reg_aux_A offset]
   else if data_type.eqb dt data_type.bf16 then
     if isa_is avx2_vnni_2
     then ins "vbcstnebf162ps" [Vmm v1; Mem reg_aux_A offset]
     else ins "uni_vpbroadcastd" [Vmm v1; Mem reg_aux_A offset]
   else if one_of dt [data_type.s8; data_type.u8] then
     ins "uni_vpbroadcastd" [Vmm v1; Mem reg_aux_A offset]
   else if data_type.eqb dt data_type.f16 then
     if isa_is avx2_vnni_2
     then ins "vbcstnesh2ps" [Vmm v1; Mem reg_aux_A offset]
     else ins "vcvtph2psx" [Vmm v1; MemB reg_aux_A offset]
   else skip) ;;
  when brg.(req_s8s8_compensation)
    (ins "uni_vpaddb" [Vmm v1; Vmm v1; Vmm vmm_inp_shift]).

(** [prefetch_count_B] of the source counts the rows already visited in
    the current reduction step: row number [k] of the step prefetches the
    [k]-th block of B as long as [k < ld_block2]. *)
Definition prefetch_B (ld_block2' : Z) (k rd : Z) : gen :=
  when (k <? ld_block2')
    (ins "prefetcht0"
         [Mem reg_aux_B
              (B_offset k rd false
               + brg.(LDB) * brg.(rd_block) * brg.(typesize_B))]).

Definition maybe_load_bytes_of (is_rd_tail : bool) (rows_for_rd_tail : Z)
  : bool :=
  ((rows_for_rd_tail >? 0) || brg.(brgattr).(wary_tail_read))
  && is_rd_tail
  && negb (rd_tail_size_of is_rd_tail =? 0)
  && (brg.(is_bf16) || brg.(is_int8)).

(** Dynamic quantization of the source operand. *)
Definition gemm_microkernel_dyn_quant (bd_block2' : Z) (is_bdb_tail : bool)
    (ld_block2' : Z) (is_rd_tail is_ld_tail : bool) (vpad : Z)
    (rows_for_rd_tail : Z) : gen :=
  let bd_block' := if is_bdb_tail then brg.(bdb_tail) else brg.(bd_block) in
  let bd_b := bd_begin vpad in
  let bd_e := bd_end bd_block' vpad in
  if negb (is_valid_bd bd_block' vpad) then skip
  else
  let is_emdbd := brg.(embd_bcst) in
  let rd_loop := rd_loop_of is_rd_tail in
  let rd_tail_size := rd_tail_size_of is_rd_tail in
  let maybe_load_bytes := maybe_load_bytes_of is_rd_tail rows_for_rd_tail in
  let vmm_accm_tmp := fun ld_block' bd ld =>
    max_effective_vregs brg - 1 - (brg.(ld_block2) * brg.(bd_block))
    - ld_block' - (bd * ld_block' + ld) in
  let vmm_zero_point := fun ld => isa_num_vregs brg.(isa_impl) - 3 - ld in
  ins "mov" [Mem reg_rsp reg_bdb_loop_offs_; Gpr reg_bdb_loop] ;;
  ins "mov" [Mem reg_rsp reg_ldb_loop_offs_; Gpr reg_ldb_loop] ;;
  let reg_local_wei_scales := reg_bdb_loop in
  let reg_local_wei_zp := reg_ldb_loop in
  let reg_ptr := reg_local_wei_scales in
  when brg.(with_wei_decomp_zero_points)
    (ins "mov"
         [Gpr reg_local_wei_zp; Mem reg_rsp reg_aux2_wei_zero_points_offs_] ;;
     if brg.(wei_decomp_zero_points_stride) =? 0 then
       ins "mov" [Gpr8 reg_ptr; Mem reg_local_wei_zp 0] ;;
       ins "uni_vpbroadcastb" [Vmm (vmm_zero_point 0); Gpr8 reg_ptr]
     else
       let vmm_indexes := isa_num_vregs brg.(isa_impl) - 1 in
       ins "mov" [Gpr reg_ptr; ImmAddr "index_table"] ;;
       ins "uni_vmovups" [Vmm vmm_indexes; Mem reg_ptr 0] ;;
       for_ (range 0 ld_block2') (fun ld =>
         ins "uni_vpmovzxbd"
             [Vmm (vmm_zero_point ld);
              Mem reg_local_wei_zp
                  (ld * brg.(ld_block)
                   * data_type.data_type_size
                       brg.(wei_decomp_zero_points_dt))] ;;
         ins "vpshufb"
             [Vmm (vmm_zero_point ld); Vmm (vmm_zero_point ld);
              Vmm vmm_indexes])) ;;
  let vmm_neg_one := isa_num_vregs brg.(isa_impl) - 1 in
  ins "mov" [Gpr reg_ptr; ImmAddr "negative_one"] ;;
  ins "uni_vmovups" [Vmm vmm_neg_one; Mem reg_ptr 0] ;;
  let vmm_mask_low_half := isa_num_vregs brg.(isa_impl) - 2 in
  ins "mov" [Gpr reg_ptr; ImmAddr "mask_low_half"] ;;
  ins "uni_vmovups" [Vmm vmm_mask_low_half; Mem reg_ptr 0] ;;
  ins "mov" [Gpr reg_local_wei_scales; Mem reg_rsp reg_aux2_wei_scales_offs_] ;;
  for_ (range bd_b bd_e) (fun bd =>
  for_ (range 0 ld_block2') (fun ld =>
    let vmm_accm := vmm_accm_tmp ld_block2' bd ld in
    ins "uni_vxorps" [Vmm vmm_accm; Vmm vmm_accm; Vmm vmm_accm])) ;;
  for_step 0 rd_loop brg.(rd_step) (fun rd =>
    for_ (range 0 ld_block2') (fun ld =>
      let addr := Mem reg_aux_B (B_offset ld rd false) in
      let* vload := load ld in
      let vmm_load := vmm_mask vload is_ld_tail false ld_tail_mask in
      if data_type.eqb brg.(dt_b) data_type.u8 then
        ins "uni_vmovups" [vmm_load; addr]
      else if data_type.eqb brg.(dt_b) data_type.u4 then
        ins "uni_vmovups" [vmm_load; addr] ;;
        when (Z.rem rd 8 =? 0) (ins "uni_vpsrld" [vmm_load; vmm_load; Imm 4]) ;;
        ins "uni_vandps" [vmm_load; vmm_load; Vmm vmm_mask_low_half]
      else Abort "unsupported combination") ;;
    let have_to_load_bytes :=
      maybe_load_bytes && (rd =? rd_loop - brg.(rd_step)) in
    let rows_by_load_bytes :=
      if have_to_load_bytes then rows_for_rd_tail else 0 in
    for_ (range bd_b bd_e) (fun bd =>
      when (negb is_emdbd)
        (let bd_by_load_bytes :=
           (bd >=? bd_e - rows_by_load_bytes)
           || brg.(brgattr).(wary_tail_read) in
         let* vbcst := bcst 0 in
         broadcast true rd_tail_size vbcst (A_offset bd rd false)
                   (have_to_load_bytes && bd_by_load_bytes) brg.(dt_a)) ;;
      prefetch_B ld_block2' (bd - bd_b) rd ;;
      for_ (range 0 ld_block2') (fun ld =>
        let vmm := vmm_accm_tmp ld_block2' bd ld in
        let* vload := load ld in
        let* vbcst := bcst 0 in
        ins "vpdpbusd" [Vmm vmm; Vmm vload; Vmm vbcst; Encoding is_avx512]) ;;
      when brg.(with_wei_decomp_zero_points)
        (let* vbcst := bcst 0 in
         ins "uni_vpxor" [Vmm vbcst; Vmm vbcst; Vmm vmm_neg_one] ;;
         ins "uni_vpsubb" [Vmm vbcst; Vmm vbcst; Vmm vmm_neg_one] ;;
         for_ (range 0 ld_block2') (fun ld =>
           let vmm := vmm_accm_tmp ld_block2' bd ld in
           let vmm_zp :=
             if brg.(wei_decomp_zero_points_stride) =? 0
             then vmm_zero_point 0 else vmm_zero_point ld in
           ins "vpdpbusd"
               [Vmm vmm; Vmm vmm_zp; Vmm vbcst; Encoding is_avx512])))) ;;
  let reg_local_src_scales := reg_local_wei_zp in
  (let* vmm_src_scales := bcst 0 in
   ins "mov"
       [Gpr reg_local_src_scales; Mem reg_rsp reg_aux2_src_scales_offs_] ;;
   for_ (range bd_b bd_e) (fun bd =>
     ins "uni_vbroadcastss"
         [Vmm vmm_src_scales;
          Mem reg_local_src_scales (bd * brg.(src_scales_stride) * 4)] ;;
     for_ (range 0 ld_block2') (fun ld =>
       let* vload := load ld in
       ins "uni_vmovups"
           [Vmm vload; Mem reg_local_wei_scales (ld * brg.(ld_block) * 4)]) ;;
     for_ (range 0 ld_block2') (fun ld =>
       let vmm_accm_aux := vmm_accm_tmp ld_block2' bd ld in
       let vmm_accm := accm ld_block2' bd ld in
       let* vload := load ld in
       ins "uni_vcvtdq2ps" [Vmm vmm_accm_aux; Vmm vmm_accm_aux] ;;
       ins "uni_vmulps"
           [Vmm vmm_accm_aux; Vmm vmm_accm_aux; Vmm vmm_src_scales] ;;
       ins "uni_vfmadd231ps" [Vmm vmm_accm; Vmm vmm_accm_aux; Vmm vload]))) ;;
  ins "mov" [Gpr reg_ldb_loop; Mem reg_rsp reg_ldb_loop_offs_] ;;
  ins "mov" [Gpr reg_bdb_loop; Mem reg_rsp reg_bdb_loop_offs_].

(** The load of one block of B in the "one load, many broadcasts" body
    ([n_bcast_1_load], lines 2468-2505 of the source). *)
Definition load_B_1load (vmm_load addr : operand) (rd : Z)
    (is_ld_tail : bool) : gen :=
  if data_type.eqb brg.(dt_b) data_type.f16 then
    if isa_is avx2_vnni_2 then
      if Z.rem rd 2 =? 0 then ins "vcvtneeph2ps" [vmm_load; addr]
      else ins "vcvtneoph2ps" [vmm_load; addr]
    else if isa_is avx512_core_fp16 then ins "vcvtph2psx" [vmm_load; addr]
    else ins "vcvtph2ps" [vmm_load; addr]
  else if data_type.eqb brg.(dt_b) data_type.bf16 then
    if isa_is avx2_vnni_2 then
      if Z.rem rd 2 =? 0 then ins "vcvtneebf162ps" [vmm_load; addr]
      else ins "vcvtneobf162ps" [vmm_load; addr]
    else
      ins "vpmovzxwd" [vmm_load; addr] ;;
      ins "uni_vpslld" [vmm_load; vmm_load; Imm 16]
  else if is_ld_tail then
    if is_avx512 then ins "uni_vmovups" [vmm_load; addr]
    else
      call "load_bytes"
           [vmm_load; addr;
            Imm (brg.(typesize_B) * brg.(ldb_tail) * brg.(ld_step))]
  else ins "uni_vmovups" [vmm_load; addr].

(** The load of one block of B in the "one broadcast, many loads" body
    (lines 2755-2793 of the source).  For f16 the test of
    [avx512_core_fp16] is a statement of its own there, not an [else]
    branch of the test of [avx2_vnni_2]. *)
Definition load_B_1bcst (vmm_load addr : operand) (rd : Z)
    (is_ld_tail : bool) : gen :=
  if data_type.eqb brg.(dt_b) data_type.f16 then
    when (isa_is avx2_vnni_2)
      (if Z.rem rd 2 =? 0 then ins "vcvtneeph2ps" [vmm_load; addr]
       else ins "vcvtneoph2ps" [vmm_load; addr]) ;;
    (if isa_is avx512_core_fp16 then ins "vcvtph2psx" [vmm_load; addr]
     else ins "vcvtph2ps" [vmm_load; addr])
  else if data_type.eqb brg.(dt_b) data_type.bf16 then
    if isa_is avx2_vnni_2 then
      if Z.rem rd 2 =? 0 then ins "vcvtneebf162ps" [vmm_load; addr]
      else ins "vcvtneobf162ps" [vmm_load; addr]
    else
      ins "vpmovzxwd" [vmm_load; addr] ;;
      ins "uni_vpslld" [vmm_load; vmm_load; Imm 16]
  else if is_ld_tail then
    if is_avx512 then ins "uni_vmovups" [vmm_load; addr]
    else
      call "load_bytes"
           [vmm_load; addr;
            Imm (brg.(typesize_B) * brg.(ldb_tail) * brg.(ld_step))]
  else ins "uni_vmovups" [vmm_load; addr].

(** Body for [n_bcast_1_load] (lines 2457-2515). *)
Definition gemm_microkernel_1load (ld_block2' : Z) (is_rd_tail : bool)
    (is_ld_tail : bool) (bd_b bd_e : Z) (rows_for_rd_tail : Z) : gen :=
  let is_emdbd := brg.(embd_bcst) in
  let rd_loop := rd_loop_of is_rd_tail in
  let rd_tail_size := rd_tail_size_of is_rd_tail in
  let maybe_load_bytes := maybe_load_bytes_of is_rd_tail rows_for_rd_tail in
  for_step 0 rd_loop brg.(rd_step) (fun rd =>
    let have_to_load_bytes :=
      maybe_load_bytes && (rd =? rd_loop - brg.(rd_step)) in
    let rows_by_load_bytes :=
      if have_to_load_bytes then rows_for_rd_tail else 0 in
    when (negb is_emdbd)
      (for_ (range bd_b bd_e) (fun bd =>
         let bd_by_load_bytes :=
           (bd >=? bd_e - rows_by_load_bytes)
           || brg.(brgattr).(wary_tail_read) in
         let* vbcst := bcst bd in
         broadcast false rd_tail_size vbcst (A_offset bd rd false)
                   (have_to_load_bytes && bd_by_load_bytes) brg.(dt_a))) ;;
    for_ (range 0 ld_block2') (fun ld =>
      let addr := Mem reg_aux_B (B_offset ld rd false) in
      let* vload := load 0 in
      let vmm_load := vmm_mask vload is_ld_tail false ld_tail_mask in
      load_B_1load vmm_load addr rd is_ld_tail ;;
      for_ (range bd_b bd_e) (fun bd =>
        let vmm := accm ld_block2' bd ld in
        if is_emdbd then
          ins "uni_vfmadd231ps"
              [Vmm vmm; Vmm vload; MemB reg_aux_A (A_offset bd rd false)]
        else
          let* vbcst := bcst bd in
          dot_product (Vmm vmm) (Vmm vload) (Vmm vbcst)))).

(** The lambda [load_zero_points] of the weights-decompression body. *)
Definition load_zero_points (reg_ptr : gpr) (vmm_zp : Z) (addr : operand)
  : gen :=
  if brg.(wei_decomp_zero_points_stride) =? 0 then
    match brg.(wei_decomp_zero_points_dt) with
    | data_type.f32 => ins "uni_vbroadcastss" [Vmm vmm_zp; addr]
    | data_type.u8 =>
        ins "movzx" [Gpr32 reg_ptr; addr] ;;
        ins "uni_vmovq" [Xmm vmm_zp; Gpr reg_ptr] ;;
        ins "uni_vcvtdq2ps" [Xmm vmm_zp; Xmm vmm_zp] ;;
        ins "uni_vbroadcastss" [Vmm vmm_zp; Xmm vmm_zp]
    | _ => Abort "unsupported data type"
    end
  else
    match brg.(wei_decomp_zero_points_dt) with
    | data_type.f32 => ins "uni_vmovups" [Vmm vmm_zp; addr]
    | data_type.u8 =>
        ins "uni_vpmovzxbd" [Vmm vmm_zp; addr] ;;
        ins "uni_vcvtdq2ps" [Vmm vmm_zp; Vmm vmm_zp]
    | _ => Abort "unsupported data type"
    end.

(** The decode of one block of packed weights (lines 2630-2677). *)
Definition decode_B (vmm_load addr : operand) (rd : Z)
    (vmm_mask7 vmm_mask8 vmm_lookup vmm_lookup_low vmm_lookup_high : Z)
  : gen :=
  match brg.(dt_b) with
  | data_type.u8 =>
      ins "uni_vpmovzxbd" [vmm_load; addr] ;;
      ins "uni_vcvtdq2ps" [vmm_load; vmm_load]
  | data_type.s8 =>
      ins "uni_vpmovsxbd" [vmm_load; addr] ;;
      ins "uni_vcvtdq2ps" [vmm_load; vmm_load]
  | data_type.u4 =>
      ins "uni_vpmovzxbd" [vmm_load; addr] ;;
      (if Z.rem rd 2 =? 0 then ins "uni_vpsrld" [vmm_load; vmm_load; Imm 4]
       else
         ins "uni_vpslld" [vmm_load; vmm_load; Imm 28] ;;
         ins "uni_vpsrld" [vmm_load; vmm_load; Imm 28]) ;;
      ins "uni_vcvtdq2ps" [vmm_load; vmm_load]
  | data_type.s4 =>
      (if Z.rem rd 2 =? 0 then
         ins "uni_vpmovsxbd" [vmm_load; addr] ;;
         ins "vpsrad" [vmm_load; vmm_load; Imm 4]
       else
         ins "uni_vpmovsxbd" [vmm_load; addr] ;;
         ins "uni_vpslld" [vmm_load; vmm_load; Imm 28] ;;
         ins "vpsrad" [vmm_load; vmm_load; Imm 28]) ;;
      ins "uni_vcvtdq2ps" [vmm_load; vmm_load]
  | data_type.nf4 =>
      ins "uni_vpmovzxbd" [vmm_load; addr] ;;
      (if Z.rem rd 2 =? 0 then ins "uni_vpsrld" [vmm_load; vmm_load; Imm 4]
       else
         ins "uni_vpslld" [vmm_load; vmm_load; Imm 28] ;;
         ins "uni_vpsrld" [vmm_load; vmm_load; Imm 28]) ;;
      if isa_is avx2 then
        let* res := bcst 0 in
        let mask := isa_num_vregs brg.(isa_impl) - 5 in
        ins "vpcmpgtd" [Vmm mask; vmm_load; Vmm vmm_mask7] ;;
        ins "vpermd" [Vmm res; vmm_load; Vmm vmm_lookup_low] ;;
        ins "vpsubd" [vmm_load; vmm_load; Vmm vmm_mask8] ;;
        ins "vpermd" [vmm_load; vmm_load; Vmm vmm_lookup_high] ;;
        ins "vblendvps" [vmm_load; Vmm res; vmm_load; Vmm mask]
      else ins "vpermd" [vmm_load; vmm_load; Vmm vmm_lookup]
  | _ => Abort "unsupported combination"
  end.

(** Body for weights decompression (lines 2517-2751). *)
Definition gemm_microkernel_wei_decomp (ld_block2' : Z)
    (is_rd_tail is_ld_tail : bool) (bd_b bd_e : Z) (rows_for_rd_tail : Z)
  : gen :=
  let is_emdbd := brg.(embd_bcst) in
  let rd_loop := rd_loop_of is_rd_tail in
  let rd_tail_size := rd_tail_size_of is_rd_tail in
  let maybe_load_bytes := maybe_load_bytes_of is_rd_tail rows_for_rd_tail in
  let nv := isa_num_vregs brg.(isa_impl) in
  let reg_local_wei_scales := reg_bdb_loop in
  let reg_local_wei_zp := reg_ldb_loop in
  let reg_ptr := reg_local_wei_zp in
  let accm_tmp := fun (ld_block' bd ld : Z) =>
    max_effective_vregs brg - 1 - 2 * (brg.(ld_block2) * brg.(bd_block)) - ld in
  let is_nf4 := data_type.eqb brg.(dt_b) data_type.nf4 in
  let vmm_mask8 := nv - 1 in
  let vmm_mask7 := nv - 2 in
  let vmm_lookup := nv - 1 in
  let vmm_lookup_low := nv - 3 in
  let vmm_lookup_high := nv - 4 in
  let vmm_zero_points :=
    if is_nf4 then
      if isa_is avx2 then
        if brg.(wei_decomp_zero_points_stride) =? 0 then nv - 6 else nv - 5
      else nv - 2
    else nv - 1 in
  ins "mov" [Mem reg_rsp reg_bdb_loop_offs_; Gpr reg_bdb_loop] ;;
  ins "mov" [Mem reg_rsp reg_ldb_loop_offs_; Gpr reg_ldb_loop] ;;
  when is_nf4
    (if isa_is avx2 then
       ins "mov" [Gpr reg_ptr; ImmAddr "lookup"] ;;
       ins "uni_vmovups" [Vmm vmm_lookup_low; Mem reg_ptr 0] ;;
       ins "mov" [Gpr reg_ptr; ImmAddr "lookup"] ;;
       ins "uni_vmovups" [Vmm vmm_lookup_high; Mem reg_ptr (8 * 4)] ;;
       ins "mov" [Gpr reg_ptr; ImmAddr "mask8"] ;;
       ins "uni_vmovups" [Vmm vmm_mask8; Mem reg_ptr 0] ;;
       ins "mov" [Gpr reg_ptr; ImmAddr "mask7"] ;;
       ins "uni_vmovups" [Vmm vmm_mask7; Mem reg_ptr 0]
     else
       ins "mov" [Gpr reg_ptr; ImmAddr "lookup"] ;;
       ins "uni_vmovups" [Vmm vmm_lookup; Mem reg_ptr 0]) ;;
  ins "mov" [Gpr reg_local_wei_scales; Mem reg_rsp reg_aux2_wei_scales_offs_] ;;
  ins "mov"
      [Gpr reg_local_wei_zp; Mem reg_rsp reg_aux2_wei_zero_points_offs_] ;;
  when (brg.(with_wei_decomp_zero_points)
        && (brg.(wei_decomp_zero_points_stride) =? 0))
    (load_zero_points reg_ptr vmm_zero_points (Mem reg_local_wei_zp 0)) ;;
  for_step 0 rd_loop brg.(rd_step) (fun rd =>
    for_ (range 0 ld_block2') (fun ld =>
      let addr := Mem reg_aux_B (B_offset ld rd false) in
      let* vload := load ld in
      let vmm_load := vmm_mask vload is_ld_tail false ld_tail_mask in
      decode_B vmm_load addr rd vmm_mask7 vmm_mask8 vmm_lookup
               vmm_lookup_low vmm_lookup_high ;;
      when brg.(with_wei_decomp_zero_points)
        (if brg.(wei_decomp_zero_points_stride) =? 0 then
           ins "uni_vsubps" [vmm_load; vmm_load; Vmm vmm_zero_points]
         else
           let* vbcst := bcst 0 in
           load_zero_points reg_ptr vbcst
             (Mem reg_local_wei_zp
                  (ld * brg.(ld_block)
                   * data_type.data_type_size
                       brg.(wei_decomp_zero_points_dt))) ;;
           ins "uni_vsubps" [vmm_load; vmm_load; Vmm vbcst]) ;;
      when (brg.(with_wei_decomp_scales) && negb (brg.(bd_block) =? 1))
        (let* vbcst := bcst 0 in
         (if brg.(wei_decomp_scales_stride) =? 0 then
            ins "uni_vbroadcastss" [Vmm vbcst; Mem reg_local_wei_scales 0]
          else
            ins "uni_vmovups"
                [Vmm vbcst;
                 Mem reg_local_wei_scales (ld * brg.(ld_block) * 4)]) ;;
         ins "uni_vmulps" [vmm_load; vmm_load; Vmm vbcst])) ;;
    let have_to_load_bytes :=
      maybe_load_bytes && (rd =? rd_loop - brg.(rd_step)) in
    let rows_by_load_bytes :=
      if have_to_load_bytes then rows_for_rd_tail else 0 in
    for_ (range bd_b bd_e) (fun bd =>
      when (negb is_emdbd)
        (let bd_by_load_bytes :=
           (bd >=? bd_e - rows_by_load_bytes)
           || brg.(brgattr).(wary_tail_read) in
         let* vbcst := bcst 0 in
         if data_type.eqb brg.(dt_a) data_type.bf16 then
           ins "vpbroadcastw"
               [Vmm vbcst; Mem reg_aux_A (A_offset bd rd false)] ;;
           ins "uni_vpmovzxwd" [Vmm vbcst; Vmm vbcst] ;;
           ins "uni_vpslld" [Vmm vbcst; Vmm vbcst; Imm 16]
         else
           broadcast false rd_tail_size vbcst (A_offset bd rd false)
                     (have_to_load_bytes && bd_by_load_bytes) brg.(dt_a)) ;;
      prefetch_B ld_block2' (bd - bd_b) rd ;;
      for_ (range 0 ld_block2') (fun ld =>
        let vmm :=
          if negb (brg.(bd_block) =? 1) then accm ld_block2' bd ld
          else accm_tmp ld_block2' bd ld in
        let* vload := load ld in
        if (brg.(bd_block) =? 1) && (rd =? 0) then
          if is_emdbd then
            ins "uni_vmulps"
                [Vmm vmm; Vmm vload; MemB reg_aux_A (A_offset bd rd false)]
          else
            let* vbcst := bcst 0 in
            ins "uni_vmulps" [Vmm vmm; Vmm vload; Vmm vbcst]
        else
          if is_emdbd then
            ins "uni_vfmadd231ps"
                [Vmm vmm; Vmm vload; MemB reg_aux_A (A_offset bd rd false)]
          else
            let* vbcst := bcst 0 in
            ins "uni_vfmadd231ps" [Vmm vmm; Vmm vload; Vmm vbcst]))) ;;
  when (brg.(with_wei_decomp_scales) && (brg.(bd_block) =? 1))
    (for_ (range 0 ld_block2') (fun ld =>
       let vmm_accm_tmp := accm_tmp ld_block2' 0 ld in
       let vmm_accm := accm ld_block2' 0 ld in
       let* vbcst := bcst 0 in
       ins "uni_vmovups"
           [Vmm vbcst; Mem reg_local_wei_scales (ld * brg.(ld_block) * 4)] ;;
       ins "uni_vfmadd231ps" [Vmm vmm_accm; Vmm vmm_accm_tmp; Vmm vbcst])) ;;
  ins "mov" [Gpr reg_ldb_loop; Mem reg_rsp reg_ldb_loop_offs_] ;;
  ins "mov" [Gpr reg_bdb_loop; Mem reg_rsp reg_bdb_loop_offs_].

(** Body for "one broadcast, many loads" (lines 2753-2820). *)
Definition gemm_microkernel_1bcst (ld_block2' : Z)
    (is_rd_tail is_ld_tail : bool) (bd_b bd_e : Z) (rows_for_rd_tail : Z)
  : gen :=
  let is_emdbd := brg.(embd_bcst) in
  let rd_loop := rd_loop_of is_rd_tail in
  let rd_tail_size := rd_tail_size_of is_rd_tail in
  let maybe_load_bytes := maybe_load_bytes_of is_rd_tail rows_for_rd_tail in
  for_step 0 rd_loop brg.(rd_step) (fun rd =>
    for_ (range 0 ld_block2') (fun ld =>
      let addr := Mem reg_aux_B (B_offset ld rd false) in
      let* vload := load ld in
      let vmm_load := vmm_mask vload is_ld_tail false ld_tail_mask in
      load_B_1bcst vmm_load addr rd is_ld_tail) ;;
    let have_to_load_bytes :=
      maybe_load_bytes && (rd =? rd_loop - brg.(rd_step)) in
    let rows_by_load_bytes :=
      if have_to_load_bytes then rows_for_rd_tail else 0 in
    for_ (range bd_b bd_e) (fun bd =>
      when (negb is_emdbd)
        (let bd_by_load_bytes :=
           (bd >=? bd_e - rows_by_load_bytes)
           || brg.(brgattr).(wary_tail_read) in
         let* vbcst := bcst 0 in
         broadcast false rd_tail_size vbcst (A_offset bd rd false)
                   (have_to_load_bytes && bd_by_load_bytes) brg.(dt_a)) ;;
      prefetch_B ld_block2' (bd - bd_b) rd ;;
      for_ (range 0 ld_block2') (fun ld =>
        let vmm := accm ld_block2' bd ld in
        let* vload := load ld in
        if is_emdbd then
          ins "uni_vfmadd231ps"
              [Vmm vmm; Vmm vload; MemB reg_aux_A (A_offset bd rd false)]
        else
          let* vbcst := bcst 0 in
          dot_product (Vmm vmm) (Vmm vload) (Vmm vbcst)))).

Definition gemm_microkernel (bd_block2' : Z) (is_bdb_tail : bool)
    (ld_block2' : Z) (is_rd_tail is_ld_tail : bool) (vpad : Z)
    (rows_for_rd_tail : Z) : gen :=
  assert (negb brg.(is_fp8_via_convert)) "No non-AMX path for fp8" ;;
  if brg.(with_src_dyn_quant) then
    gemm_microkernel_dyn_quant bd_block2' is_bdb_tail ld_block2' is_rd_tail
      is_ld_tail vpad rows_for_rd_tail
  else
  let bd_block' := if is_bdb_tail then brg.(bdb_tail) else brg.(bd_block) in
  let bd_b := bd_begin vpad in
  let bd_e := bd_end bd_block' vpad in
  if negb (is_valid_bd bd_block' vpad) then skip
  else
  let comp_vpad :=
    negb (vpad =? 0)
    && (brg.(req_s8s8_compensation) || negb (eq_none brg.(zp_type_a))) in
  when (brg.(req_cal_comp_pads) || comp_vpad)
    (compute_int8_compensation (rd_loop_of is_rd_tail) bd_b bd_e bd_block'
       ld_block2' is_ld_tail vpad) ;;
  if n_bcast_1_load then
    gemm_microkernel_1load ld_block2' is_rd_tail is_ld_tail bd_b bd_e
      rows_for_rd_tail
  else if brg.(with_wei_decomp) then
    gemm_microkernel_wei_decomp ld_block2' is_rd_tail is_ld_tail bd_b bd_e
      rows_for_rd_tail
  else
    gemm_microkernel_1bcst ld_block2' is_rd_tail is_ld_tail bd_b bd_e
      rows_for_rd_tail.

(** *** Tile-engine microkernel *)

Inductive matrix_kind_t : Type := matrix_A | matrix_B.

(** Up-converts the data from fp8 to f16 and saves it at [reg_buf_aux];
    used for matrix A, where no vnni transformation is needed. *)
Definition fp8_to_f16_upconvert (num_rows tile_num_col_bytes : Z)
    (reg_base : gpr) (offset : Z) (reg_data_stride : gpr) (dt : data_type_t)
    (is_rd_tail : bool) : gen :=
  let rd_block' := if is_rd_tail then brg.(rdb_tail) else brg.(rd_block) in
  let max_num_cols := rd_block' in
  let col_tail := Z.rem max_num_cols 32 in
  let* zmm_1 := vmm_tmp 0 in
  let zmm_1_masked :=
    if negb (col_tail =? 0) then VmmK zmm_1 fp8_col_mask true
    else Vmm zmm_1 in
  assert (max_num_cols >? 0) "max_num_cols > 0" ;;
  when (negb (col_tail =? 0))
    (let tail_mask := Z.shiftl 1 col_tail - 1 in
     ins "mov" [Gpr32 reg_tmp_gpr; Imm tail_mask] ;;
     ins "kmovd" [Opmask fp8_col_mask; Gpr32 reg_tmp_gpr]) ;;
  (* using the same register used in col_tail, so order is important *)
  let reg_data_aux := reg_tmp_gpr in
  ins "lea" [Gpr reg_data_aux; Mem reg_base offset] ;;
  for_ (range 0 num_rows) (fun r =>
    (if data_type.eqb dt data_type.f8_e5m2 then
       call "f8_e5m2_emulator_->vcvt_f8_to_f16"
            [zmm_1_masked; Mem reg_data_aux 0]
     else if data_type.eqb dt data_type.f8_e4m3 then
       call "f8_e4m3_emulator_->vcvt_f8_to_f16"
            [zmm_1_masked; Mem reg_data_aux 0]
     else Abort "unsupported data type") ;;
    ins "vmovups" [Mem reg_buf_aux (r * zmm_width_in_bytes_); Vmm zmm_1] ;;
    ins "add" [Gpr reg_data_aux; Gpr reg_data_stride]).

(** Up-converts and transforms the data from fp8_vnni to f16_vnni format;
    used for matrix B. *)
Definition fp8_to_f16_upconvert_to_vnni (num_rows tile_num_col_bytes : Z)
    (reg_base : gpr) (offset : Z) (reg_data_stride : gpr) (dt : data_type_t)
    (is_rd_tail : bool) : gen :=
  let num_cols_ele := Z.quot tile_num_col_bytes 2 in
  let num_N := Z.quot num_cols_ele 2 in
  let* zmm_2 := vmm_tmp 2 in
  assert (num_N >? 0) "bad tile parameters" ;;
  let reg_data_aux := reg_tmp_gpr in
  ins "lea" [Gpr reg_data_aux; Mem reg_base offset] ;;
  let rd_block' := if is_rd_tail then brg.(rdb_tail) else brg.(rd_block) in
  let vnni_granularity := vnni_granularity_f16 in
  let r_end := div_up rd_block' vnni_granularity in
  assert (r_end <=? num_rows) "bad tile parameters" ;;
  (if data_type.eqb dt data_type.f8_e5m2 then
     call "f8_e5m2_emulator_->vcvt_f8_to_f16_vnni_block"
          [Imm r_end; Gpr reg_data_aux; Gpr reg_data_stride; Gpr reg_buf_aux]
   else if data_type.eqb dt data_type.f8_e4m3 then
     call "f8_e4m3_emulator_->vcvt_f8_to_f16_vnni_block"
          [Imm r_end; Gpr reg_data_aux; Gpr reg_data_stride; Gpr reg_buf_aux]
   else Abort "unsupported data type") ;;
  (* zero rest of the tile data *)
  when (r_end <? num_rows)
    (ins "vpxord" [Vmm zmm_2; Vmm zmm_2; Vmm zmm_2] ;;
     for_ (range r_end num_rows) (fun r =>
       ins "vmovups" [Mem reg_buf_aux (r * zmm_width_in_bytes_); Vmm zmm_2])).

Definition maybe_pre_process_data (matrix_kind : matrix_kind_t) (t1 : Z)
    (reg_base : gpr) (offset : Z) (reg_stride : gpr)
    (num_rows num_col_bytes : Z) (is_rd_tail : bool) : gen :=
  let tile_size := 1024 in
  let transform_offset :=
    if brg.(brgattr).(use_interleave_stores)
    then get_num_C_tiles brg * tile_size else 0 in
  ins "add" [Gpr reg_buf_aux; Imm transform_offset] ;;
  (match matrix_kind with
   | matrix_A =>
       fp8_to_f16_upconvert num_rows num_col_bytes reg_base offset
         reg_stride brg.(dt_a) is_rd_tail
   | matrix_B =>
       fp8_to_f16_upconvert_to_vnni num_rows num_col_bytes reg_base offset
         reg_stride brg.(dt_b) is_rd_tail
   end) ;;
  (* load into tmm from the transformed data *)
  ins "mov" [Gpr reg_converted_stride; Imm zmm_width_in_bytes_] ;;
  ins "tileloadd" [Tmm t1; MemR reg_buf_aux reg_converted_stride 0].

Definition maybe_tileloadd_nt (matrix_kind : matrix_kind_t) (idx offset : Z)
    (is_rd_tail is_tail : bool) : gen :=
  let is_A := match matrix_kind with matrix_A => true | matrix_B => false end in
  let tmm_idx :=
    if is_A then get_A_tensor brg idx is_tail
    else get_B_tensor brg idx is_tail in
  let t1 := tmm_idx in
  let reg_base := if is_A then reg_aux_A else reg_aux_B in
  let reg_stride := if is_A then reg_stride_lda else reg_stride_ldb in
  let try_load_nt :=
    brgemm_kernel_innermost_loop_t_beq brg.(innermost_loop)
      (if is_A then brgemm_bd_loop_innermost else brgemm_ld_loop_innermost) in
  if brg.(is_fp8_via_convert) then
    let typesize_A' := if brg.(is_input_convert) then 2 else brg.(typesize_A) in
    let typesize_B' := if brg.(is_input_convert) then 2 else brg.(typesize_B) in
    let rd_step' := Z.quot 4 typesize_A' in
    let rd_block0 :=
      if (brg.(rdb) =? 0) && negb (brg.(rdb_tail) =? 0)
      then brg.(rdb_tail) else brg.(rd_block) in
    let rd_block' :=
      if brg.(is_input_convert) then rnd_up rd_block0 vnni_granularity_f16
      else rd_block0 in
    let A_col := typesize_A' * rd_block' in
    let A_row := if is_tail then brg.(bdb_tail) else brg.(bd_block) in
    let B_col :=
      (if is_tail then brg.(ldb_tail) else brg.(ld_block)) * typesize_B'
      * rd_step' in
    let B_row :=
      if negb (brg.(typesize_C) =? 0) then Z.quot A_col brg.(typesize_C)
      else 0 in
    ins "mov" [Mem reg_rsp reg_val_tmp_1_; Gpr reg64_fp8_aux] ;;
    ins "mov" [Mem reg_rsp reg_val_tmp_2_; Gpr reg_buf_aux] ;;
    ins "mov" [Gpr reg_buf_aux; Mem reg_rsp reg_buf_offs_] ;;
    maybe_pre_process_data matrix_kind t1 reg_base offset reg_stride
      (if is_A then A_row else B_row) (if is_A then A_col else B_col)
      is_rd_tail ;;
    ins "mov" [Gpr reg64_fp8_aux; Mem reg_rsp reg_val_tmp_1_] ;;
    ins "mov" [Gpr reg_buf_aux; Mem reg_rsp reg_val_tmp_2_]
  else
    let cache_footprint :=
      brg.(typesize_A) * brg.(brgattr).(hint_expected_A_size)
      + brg.(typesize_B) * brg.(brgattr).(hint_expected_B_size)
      + brg.(typesize_C) * brg.(brgattr).(hint_expected_C_size) in
    if try_load_nt && (cache_footprint >=? per_core_cache_size) then
      ins "tileloaddt1" [Tmm t1; MemR reg_base reg_stride offset]
    else ins "tileloadd" [Tmm t1; MemR reg_base reg_stride offset].

(** The lambda [tdpbxxd] of [gemm_microkernel_amx]. *)
Definition tdpbxxd (x1 x2 x3 : Z) : gen :=
  let a_is := data_type.eqb brg.(dt_a) in
  let b_is := data_type.eqb brg.(dt_b) in
  if brg.(is_fp8) then
    if brg.(is_fp8_via_convert) then ins "tdpfp16ps" [Tmm x1; Tmm x2; Tmm x3]
    else Abort "Not supported!"
  else if a_is data_type.bf16 && b_is data_type.bf16 then
    ins "tdpbf16ps" [Tmm x1; Tmm x2; Tmm x3]
  else if a_is data_type.f16 && b_is data_type.f16 then
    ins "tdpfp16ps" [Tmm x1; Tmm x2; Tmm x3]
  else if a_is data_type.u8 && b_is data_type.u8 then
    ins "tdpbuud" [Tmm x1; Tmm x2; Tmm x3]
  else if a_is data_type.u8 && b_is data_type.s8 then
    ins "tdpbusd" [Tmm x1; Tmm x2; Tmm x3]
  else if a_is data_type.s8 && b_is data_type.u8 then
    ins "tdpbsud" [Tmm x1; Tmm x2; Tmm x3]
  else if a_is data_type.s8 && b_is data_type.s8 then
    ins "tdpbssd" [Tmm x1; Tmm x2; Tmm x3]
  else Abort "unsupported combination".

Definition gemm_microkernel_amx (bd_block2' : Z) (is_bdb_tail : bool)
    (ld_block2' : Z) (is_rd_tail is_ld_tail : bool) : gen :=
  let rbd_block := if is_rd_tail then 1 else brg.(rdb) in
  for_ (range 0 rbd_block) (fun rdb' =>
    for_ (range 0 bd_block2') (fun bdb' =>
      maybe_tileloadd_nt matrix_A bdb'
        (rdb' * rdb_A_offset + A_offset bdb' 0 true) is_rd_tail is_bdb_tail) ;;
    for_ (range 0 ld_block2') (fun ldb =>
      let idx := if is_ld_tail then brg.(ld_block2) else ldb in
      maybe_tileloadd_nt matrix_B idx
        (rdb' * rdb_B_offset + B_offset ldb 0 true) is_rd_tail is_ld_tail ;;
      for_ (range 0 bd_block2') (fun bdb' =>
        tdpbxxd (get_C_tensor brg bdb' idx is_bdb_tail is_ld_tail)
                (get_A_tensor brg bdb' is_bdb_tail)
                (get_B_tensor brg idx is_ld_tail)))) ;;
  when (negb is_rd_tail)
    (ins "add" [Gpr reg_aux_A; Imm (brg.(rdb) * rdb_A_offset)] ;;
     ins "add" [Gpr reg_aux_B; Imm (brg.(rdb) * rdb_B_offset)]).

(** *** Post-processing and store pipeline *)

Definition advance_ldb_post_op_regs : gen :=
  when brg.(with_bias)
    (ins "mov" [Gpr reg_aux_bias; Mem reg_rsp reg_aux_bias_offs_] ;;
     ins "add" [Gpr reg_aux_bias; Imm (bias_offset 1 false)] ;;
     ins "mov" [Mem reg_rsp reg_aux_bias_offs_; Gpr reg_aux_bias]) ;;
  when brg.(with_scales)
    (ins "mov" [Gpr reg_aux_scales; Mem reg_rsp reg_aux_scales_offs_] ;;
     ins "add" [Gpr reg_aux_scales; Imm (scales_offset 1 false)] ;;
     ins "mov" [Mem reg_rsp reg_aux_scales_offs_; Gpr reg_aux_scales]) ;;
  when (negb (eq_none brg.(zp_type_a)))
    (ins "mov" [Gpr reg_aux_zp_comp_a; Mem reg_rsp reg_aux_zp_comp_a_offs_] ;;
     ins "add" [Gpr reg_aux_zp_comp_a; Imm (zp_comp_a_offset 1 false)] ;;
     ins "mov" [Mem reg_rsp reg_aux_zp_comp_a_offs_; Gpr reg_aux_zp_comp_a]) ;;
  when (brgemm_broadcast.eqb brg.(zp_type_c) brgemm_broadcast.per_n)
    (ins "mov"
         [Gpr reg_aux_zp_c_values; Mem reg_rsp reg_aux_zp_c_values_offs_] ;;
     ins "add" [Gpr reg_aux_zp_c_values; Imm (zp_c_values_offset 1 false)] ;;
     ins "mov"
         [Mem reg_rsp reg_aux_zp_c_values_offs_; Gpr reg_aux_zp_c_values]).

Definition restore_ldb_post_op_regs (ld_block2' : Z) : gen :=
  when brg.(with_bias)
    (ins "mov" [Gpr reg_aux_bias; Mem reg_rsp reg_aux_bias_offs_] ;;
     ins "sub" [Gpr reg_aux_bias; Imm (bias_offset (ld_block2' - 1) false)] ;;
     ins "mov" [Mem reg_rsp reg_aux_bias_offs_; Gpr reg_aux_bias]) ;;
  when brg.(with_scales)
    (ins "mov" [Gpr reg_aux_scales; Mem reg_rsp reg_aux_scales_offs_] ;;
     ins "sub"
         [Gpr reg_aux_scales; Imm (scales_offset (ld_block2' - 1) false)] ;;
     ins "mov" [Mem reg_rsp reg_aux_scales_offs_; Gpr reg_aux_scales]) ;;
  when (negb (eq_none brg.(zp_type_a)))
    (ins "mov" [Gpr reg_aux_zp_comp_a; Mem reg_rsp reg_aux_zp_comp_a_offs_] ;;
     ins "sub"
         [Gpr reg_aux_zp_comp_a;
          Imm (zp_comp_a_offset (ld_block2' - 1) false)] ;;
     ins "mov" [Mem reg_rsp reg_aux_zp_comp_a_offs_; Gpr reg_aux_zp_comp_a]) ;;
  when (brgemm_broadcast.eqb brg.(zp_type_c) brgemm_broadcast.per_n)
    (ins "mov"
         [Gpr reg_aux_zp_c_values; Mem reg_rsp reg_aux_zp_c_values_offs_] ;;
     ins "sub"
         [Gpr reg_aux_zp_c_values;
          Imm (zp_c_values_offset (ld_block2' - 1) false)] ;;
     ins "mov"
         [Mem reg_rsp reg_aux_zp_c_values_offs_; Gpr reg_aux_zp_c_values]).

Definition advance_bdb_post_op_regs (adj_bd_block : Z) : gen :=
  when (negb (eq_none brg.(zp_type_b)))
    (ins "mov" [Gpr reg_aux_zp_comp_b; Mem reg_rsp reg_aux_zp_comp_b_offs_] ;;
     ins "add" [Gpr reg_aux_zp_comp_b; Imm (bdb_zp_comp_b_offset 1)] ;;
     ins "mov" [Mem reg_rsp reg_aux_zp_comp_b_offs_; Gpr reg_aux_zp_comp_b]) ;;
  when (brg.(req_comp_pads_with_bcast) && negb (eq_none brg.(zp_type_a)))
    (ins "mov" [Gpr reg_aux_zp_comp_a; Mem reg_rsp reg_aux_zp_comp_a_offs_] ;;
     ins "add" [Gpr reg_aux_zp_comp_a; Imm (bdb_compensation_offset 1)] ;;
     ins "mov" [Mem reg_rsp reg_aux_zp_comp_a_offs_; Gpr reg_aux_zp_comp_a]).

Definition restore_bdb_post_op_regs (bd_block2' : Z) : gen :=
  let post_processed :=
    (bd_block2' >? 1) && negb (eq_none brg.(zp_type_b)) in
  when (bd_block2' >? 1)
    (when (negb (eq_none brg.(zp_type_b)))
       (ins "mov"
            [Gpr reg_aux_zp_comp_b; Mem reg_rsp reg_aux_zp_comp_b_offs_] ;;
        ins "sub"
            [Gpr reg_aux_zp_comp_b;
             Imm (bdb_zp_comp_b_offset (bd_block2' - 1))] ;;
        ins "mov"
            [Mem reg_rsp reg_aux_zp_comp_b_offs_; Gpr reg_aux_zp_comp_b]) ;;
     when (brg.(req_comp_pads_with_bcast) && negb (eq_none brg.(zp_type_a)))
       (ins "mov"
            [Gpr reg_aux_zp_comp_a; Mem reg_rsp reg_aux_zp_comp_a_offs_] ;;
        ins "sub"
            [Gpr reg_aux_zp_comp_a;
             Imm (bdb_compensation_offset (bd_block2' - 1))] ;;
        ins "mov"
            [Mem reg_rsp reg_aux_zp_comp_a_offs_; Gpr reg_aux_zp_comp_a])) ;;
  when post_processed (ins "mov" [Gpr reg_buf; Mem reg_rsp reg_buf_offs_]).

Definition apply_alpha_beta (bd_block' ld_block2' : Z) (is_ld_tail : bool)
  : gen :=
  let apply_alpha := negb (is_one brg.(alpha)) in
  let dq2ps_required :=
    brg.(is_int8) && (apply_alpha || negb (is_one brg.(beta)))
    && negb brg.(with_src_dyn_quant) in
  let* vmm_alpha := vmm_tmp 0 in
  when apply_alpha
    (ins "mov" [Gpr reg_tmp_gpr; ImmF brg.(alpha)] ;;
     ins "uni_vmovq" [Xmm vmm_alpha; Gpr reg_tmp_gpr] ;;
     ins "uni_vbroadcastss" [Vmm vmm_alpha; Xmm vmm_alpha]) ;;
  for_ (range 0 bd_block') (fun bd =>
  for_ (range 0 ld_block2') (fun ld =>
    let vmm := accm ld_block2' bd ld in
    when dq2ps_required (ins "uni_vcvtdq2ps" [Vmm vmm; Vmm vmm]) ;;
    when apply_alpha (ins "uni_vmulps" [Vmm vmm; Vmm vmm; Vmm vmm_alpha]))) ;;
  if is_zero brg.(beta) then skip
  else
  let use_vadd_for_beta := is_one brg.(beta) && negb dq2ps_required in
  let need_init_beta_vmm := negb (is_one brg.(beta)) in
  let* vmm_prev_dst := vmm_tmp 0 in
  let* vmm_beta := vmm_tail_mask in
  when need_init_beta_vmm
    (ins "mov" [Gpr reg_tmp_gpr; ImmF brg.(beta)] ;;
     ins "uni_vmovq" [Xmm vmm_beta; Gpr reg_tmp_gpr] ;;
     ins "uni_vbroadcastss" [Vmm vmm_beta; Xmm vmm_beta]) ;;
  when (brg.(is_runtime_ldc) && (bd_block' >? 1))
    (ins "mov" [Mem reg_rsp reg_aux_C_backup_offs_; Gpr reg_aux_C]) ;;
  for_ (range 0 bd_block') (fun bd =>
  for_ (range 0 ld_block2') (fun ld =>
    let is_tail := is_ld_tail && (ld + 1 =? ld_block2') in
    let k_mask := if is_tail then ld_tail_mask else ld_full_mask in
    let vmm := accm ld_block2' bd ld in
    let ptr_C := Mem reg_aux_C (C_offset bd ld) in
    (if use_vadd_for_beta then
       if IMPLICATION is_tail is_avx512 then
         let vmm_masked := vmm_mask vmm is_tail false k_mask in
         if brg.(is_int8) && negb brg.(with_src_dyn_quant)
         then ins "uni_vpaddd" [vmm_masked; Vmm vmm; ptr_C]
         else ins "uni_vaddps" [vmm_masked; Vmm vmm; ptr_C]
       else
         let* m := vmm_tail_mask in
         ins "vmaskmovps" [Vmm vmm_prev_dst; Vmm m; ptr_C] ;;
         if brg.(is_int8)
         then ins "uni_vpaddd" [Vmm vmm; Vmm vmm; Vmm vmm_prev_dst]
         else ins "uni_vaddps" [Vmm vmm; Vmm vmm; Vmm vmm_prev_dst]
     else
       let ld_size := if is_tail then brg.(ldb_tail) else brg.(ld_block) in
       cvt2ps brg.(dt_c) vmm_prev_dst ptr_C is_tail false k_mask ld_size ;;
       if is_one brg.(beta)
       then ins "uni_vaddps" [Vmm vmm; Vmm vmm; Vmm vmm_prev_dst]
       else ins "uni_vfmadd231ps" [Vmm vmm; Vmm vmm_prev_dst; Vmm vmm_beta]) ;;
    when (brg.(is_runtime_ldc) && (bd_block' >? 1)
          && (ld =? ld_block2' - 1))
      (ins "add" [Gpr reg_aux_C; Mem reg_rsp reg_C_shift_bytes_offs_]))) ;;
  when (brg.(is_runtime_ldc) && (bd_block' >? 1))
    (ins "mov" [Gpr reg_aux_C; Mem reg_rsp reg_aux_C_backup_offs_]) ;;
  when need_init_beta_vmm (maybe_set_avx_mask is_ld_tail).

(** The lambda [sum_injector] of [apply_post_ops]: the in-line "sum"
    post-op over the rows [bd_start, bd_end). *)
Definition sum_injector (ld_block2' : Z) (is_ld_tail : bool)
    (bd_start bd_end' : Z) : gen :=
  let p_sum_scale_reg_set := negb (is_one brg.(sum_scale)) in
  let p_sum_zp_reg_set := negb (brg.(sum_zp) =? 0) in
  let reset_avx_tail_mask := p_sum_zp_reg_set in
  let guard_sum_scale :=
    with_binary_non_scalar_bcast_ && p_sum_scale_reg_set in
  when guard_sum_scale (ins "push" [Gpr reg_ptr_sum_scale]) ;;
  when p_sum_zp_reg_set (ins "push" [Gpr reg_ptr_sum_zp]) ;;
  (let* vmm_sum_zp := vmm_tmp 1 in
   when p_sum_zp_reg_set
     (ins "mov" [Gpr reg_ptr_sum_zp; ImmAddr "brg.sum_zp"] ;;
      if is_avx512 then
        ins "vcvtdq2ps" [Vmm vmm_sum_zp; MemB reg_ptr_sum_zp 0]
      else
        ins "uni_vpbroadcastd" [Vmm vmm_sum_zp; Mem reg_ptr_sum_zp 0] ;;
        ins "uni_vcvtdq2ps" [Vmm vmm_sum_zp; Vmm vmm_sum_zp]) ;;
   when p_sum_scale_reg_set
     (if is_avx512 then
        (* embd bcast fma *)
        ins "mov" [Gpr reg_ptr_sum_scale; ImmAddr "brg.sum_scale"]
      else ins "lea" [Gpr reg_ptr_sum_scale; MemRip sum_zp_scale_data_]) ;;
   for_ (range bd_start bd_end') (fun bd =>
   for_ (range 0 ld_block2') (fun ld =>
     let vmm := accm ld_block2' bd ld in
     let addr := Mem reg_aux_D (D_offset bd ld) in
     let* vmm_prev_dst := vmm_tmp 0 in
     let is_tail := is_ld_tail && (ld + 1 =? ld_block2') in
     let k_mask := if is_tail then ld_tail_mask else ld_full_mask in
     let ld_size := if is_tail then brg.(ldb_tail) else brg.(ld_block) in
     cvt2ps brg.(sum_dt) vmm_prev_dst addr is_tail false k_mask ld_size ;;
     when p_sum_zp_reg_set
       (ins "uni_vsubps"
            [Vmm vmm_prev_dst; Vmm vmm_prev_dst; Vmm vmm_sum_zp]) ;;
     if p_sum_scale_reg_set then
       if is_avx512 then
         ins "uni_vfmadd231ps"
             [Vmm vmm; Vmm vmm_prev_dst; MemB reg_ptr_sum_scale 0]
       else
         ins "uni_vfmadd231ps"
             [Vmm vmm; Vmm vmm_prev_dst; Mem reg_ptr_sum_scale 0]
     else ins "uni_vaddps" [Vmm vmm; Vmm vmm; Vmm vmm_prev_dst]))) ;;
  when p_sum_zp_reg_set (ins "pop" [Gpr reg_ptr_sum_zp]) ;;
  when guard_sum_scale (ins "pop" [Gpr reg_ptr_sum_scale]) ;;
  when reset_avx_tail_mask (maybe_set_avx_mask is_ld_tail).

Definition apply_post_ops (bd_block' ld_block2' : Z)
    (ldb_and_bdb_offset : Z) (is_ld_tail : bool) : gen :=
  (* register_guard(brg.with_binary, this, {param1}) *)
  let guard_space := if brg.(with_binary) then 8 else 0 in
  when brg.(with_binary) (ins "push" [Gpr param1]) ;;
  when brg.(with_binary)
    (ins "mov" [Gpr param1; Mem reg_rsp (abi_param1_offs_ + guard_space)]) ;;
  when (brg.(is_runtime_ldd) && (bd_block' >? 1))
    (ins "mov" [Mem reg_rsp reg_aux_D_backup_offs_; Gpr reg_aux_D]) ;;
  let bd_block_shift := if brg.(is_runtime_ldd) then 1 else bd_block' in
  for_step 0 bd_block' bd_block_shift (fun bd_block_idx =>
    let bd_start := bd_block_idx in
    let bd_end' := bd_start + bd_block_shift in
    (let* sum_code :=
       if brg.(with_sum)
       then sum_injector ld_block2' is_ld_tail bd_start bd_end'
       else skip in
     Ok [PostOps (max_effective_vregs brg - bd_end' * ld_block2')
                 (max_effective_vregs brg - bd_start * ld_block2')
                 sum_code]) ;;
    when (brg.(is_runtime_ldd) && (bd_block' >? 1))
      (ins "add" [Gpr reg_aux_D; Mem reg_rsp reg_D_shift_bytes_offs_])) ;;
  when (brg.(is_runtime_ldd) && (bd_block' >? 1))
    (ins "mov" [Gpr reg_aux_D; Mem reg_rsp reg_aux_D_backup_offs_]) ;;
  when brg.(with_binary) (ins "pop" [Gpr param1]).

Definition alpha_or_beta_applicable : bool :=
  negb (is_one brg.(alpha)) || negb (is_zero brg.(beta)).

Definition beta_uses_vadd : bool :=
  is_one brg.(beta) && IMPLICATION brg.(is_int8) (is_one brg.(alpha)).

(** The final conversion and store of one accumulator to D on avx512
    (the [switch (brg.dt_d)] of [store_accumulators_apply_post_ops]). *)
Definition store_D_avx512 (addr : operand) (vmm : Z) (is_tail : bool)
    (k_mask : Z) : gen :=
  let vmm_lower := vmm in
  let r_vmm := vmm_mask vmm is_tail true k_mask in
  let r_ymm := vmm_lower_mask vmm_lower is_tail true k_mask in
  let xmm := Xmm vmm in
  let r_xmm := if is_tail then XmmK vmm k_mask else xmm in
  match brg.(dt_d) with
  | data_type.f32
  | data_type.s32 => ins "uni_vmovups" [addr; r_vmm]
  | data_type.bf16 =>
      (if brg.(is_bf16_emu)
       then call "bf16_emu_->vcvtneps2bf16" [Vmm_lower vmm_lower; Vmm vmm]
       else ins "vcvtneps2bf16" [Vmm_lower vmm_lower; Vmm vmm]) ;;
      ins "vmovdqu16" [addr; r_ymm]
  | data_type.f16 =>
      ins "vcvtps2ph" [Vmm_lower vmm_lower; Vmm vmm; Imm 4 (* _op_mxcsr *)] ;;
      ins "vmovdqu16" [addr; r_ymm]
  | data_type.f8_e5m2 =>
      if brg.(is_fp8_via_convert) then
        call "f8_e5m2_emulator_->vcvt_f32_to_f8" [xmm; Vmm vmm] ;;
        ins "vmovdqu8" [addr; r_xmm]
      else Abort "Error, native conversion unsupported"
  | data_type.f8_e4m3 =>
      if brg.(is_fp8_via_convert) then
        call "f8_e4m3_emulator_->vcvt_f32_to_f8" [xmm; Vmm vmm] ;;
        ins "vmovdqu8" [addr; r_xmm]
      else Abort "Error, native conversion unsupported"
  | data_type.s8 => ins "vpmovsdb" [addr; r_vmm]
  | data_type.u8 => ins "vpmovusdb" [addr; r_vmm]
  | _ => Abort "unknown dst_dt"
  end.

Definition store_accumulators_apply_post_ops (bd_block' ld_block2' : Z)
    (ldb_and_bdb_offset : Z) (is_ld_tail : bool) : gen :=
  let k_mask := if negb is_ld_tail then ld_full_mask else ld_tail_mask in
  (* if (brg.is_int8 && alpha_or_beta_applicable && !beta_uses_vadd) ->
     accumulated values are already converted to ps in apply_alpha_beta() *)
  let dq2ps_required :=
    brg.(is_int8) && IMPLICATION alpha_or_beta_applicable beta_uses_vadd
    && negb brg.(with_src_dyn_quant) in
  when brg.(with_scales)
    (ins "mov" [Gpr reg_aux_scales; Mem reg_rsp reg_aux_scales_offs_] ;;
     for_ (range 0 ld_block2') (fun ld =>
       let addr := Mem reg_aux_scales (scales_offset ld false) in
       let is_tail := is_ld_tail && (ld + 1 =? ld_block2') in
       let* vmm_scales := vmm_tmp 0 in
       (if IMPLICATION is_tail (isa_has_masks brg.(isa_impl)) then
          let vmm_masked := vmm_mask vmm_scales is_tail false k_mask in
          ins "uni_vmovups" [vmm_masked; addr]
        else
          let* vmm_scales' := vmm_tmp 0 in
          let* m := vmm_tail_mask in
          ins "vmaskmovps" [Vmm vmm_scales'; Vmm m; addr]) ;;
       for_ (range 0 bd_block') (fun bd =>
         let vmm := accm ld_block2' bd ld in
         when dq2ps_required (ins "uni_vcvtdq2ps" [Vmm vmm; Vmm vmm]) ;;
         ins "uni_vmulps" [Vmm vmm; Vmm vmm; Vmm vmm_scales]))) ;;
  when brg.(with_bias)
    (ins "mov" [Gpr reg_aux_bias; Mem reg_rsp reg_aux_bias_offs_]) ;;
  for_ (range 0 ld_block2') (fun ld =>
    let* vmm_bias := vmm_tmp 0 in
    when brg.(with_bias)
      (let ptr_bias := Mem reg_aux_bias (bias_offset ld false) in
       let is_tail := is_ld_tail && (ld + 1 =? ld_block2') in
       cvt2ps brg.(dt_bias) vmm_bias ptr_bias is_tail false k_mask
              (if is_tail then brg.(ldb_tail) else brg.(ld_block))) ;;
    for_ (range 0 bd_block') (fun bd =>
      let vmm := accm ld_block2' bd ld in
      when (dq2ps_required && negb brg.(with_scales))
        (ins "uni_vcvtdq2ps" [Vmm vmm; Vmm vmm]) ;;
      when brg.(with_bias)
        (ins "uni_vaddps" [Vmm vmm; Vmm vmm; Vmm vmm_bias]))) ;;
  when has_postops_injector_
    (apply_post_ops bd_block' ld_block2' ldb_and_bdb_offset is_ld_tail) ;;
  when brg.(with_dst_scales)
    (ins "mov" [Gpr reg_aux_dst_scales; Mem reg_rsp reg_dst_scales_offs_] ;;
     let* vmm_dst_scales := vmm_tmp 0 in
     ins "vbroadcastss" [Vmm vmm_dst_scales; Mem reg_aux_dst_scales 0] ;;
     for_ (range 0 ld_block2') (fun ld =>
     for_ (range 0 bd_block') (fun bd =>
       let vmm := accm ld_block2' bd ld in
       ins "vmulps" [Vmm vmm; Vmm vmm; Vmm vmm_dst_scales]))) ;;
  when (negb (eq_none brg.(zp_type_c)))
    (ins "mov"
         [Gpr reg_aux_zp_c_values; Mem reg_rsp reg_aux_zp_c_values_offs_] ;;
     let* vmm_zp_c := vmm_tmp 0 in
     when (brgemm_broadcast.eqb brg.(zp_type_c) brgemm_broadcast.per_tensor)
       (if is_avx512 then
          ins "uni_vcvtdq2ps" [Vmm vmm_zp_c; MemB reg_aux_zp_c_values 0]
        else
          ins "uni_vpbroadcastd" [Vmm vmm_zp_c; Mem reg_aux_zp_c_values 0] ;;
          ins "uni_vcvtdq2ps" [Vmm vmm_zp_c; Vmm vmm_zp_c]) ;;
     for_ (range 0 ld_block2') (fun ld =>
       let is_tail := is_ld_tail && (ld + 1 =? ld_block2') in
       when (brgemm_broadcast.eqb brg.(zp_type_c) brgemm_broadcast.per_n)
         (let zp_c_off := zp_c_values_offset ld false in
          cvt2ps data_type.s32 vmm_zp_c (Mem reg_aux_zp_c_values zp_c_off)
                 is_tail false k_mask
                 (if is_tail then brg.(ldb_tail) else brg.(ld_block))) ;;
       for_ (range 0 bd_block') (fun bd =>
         let vmm := accm ld_block2' bd ld in
         ins "uni_vaddps" [Vmm vmm; Vmm vmm; Vmm vmm_zp_c]))) ;;
  let dt_requires_saturation :=
    one_of brg.(dt_d) [data_type.u8; data_type.s8; data_type.s32] in
  (let* vmm_lbound := vmm_tail_mask in
   let* vmm_ubound := vmm_tmp 0 in
   assert (negb (vmm_lbound =? vmm_ubound))
          "vmm_lbound.getIdx() != vmm_ubound.getIdx()" ;;
   when dt_requires_saturation
     (call "init_saturate_f32"
           [Vmm vmm_lbound; Vmm vmm_ubound; Gpr reg_tmp_gpr;
            Dt data_type.f32; Dt brg.(dt_d)] ;;
      for_ (range 0 bd_block') (fun bd =>
      for_ (range 0 ld_block2') (fun ld =>
        let vmm := accm ld_block2' bd ld in
        call "saturate_cvt_f32"
             [Vmm vmm; Vmm vmm_lbound; Vmm vmm_ubound; Dt brg.(dt_d)])))) ;;
  when brg.(is_bf16_emu) (call "bf16_emu_->init_vcvtneps2bf16" []) ;;
  when (brg.(is_runtime_ldd) && (bd_block' >? 1))
    (ins "mov" [Mem reg_rsp reg_aux_D_backup_offs_; Gpr reg_aux_D]) ;;
  when brg.(is_fp8_via_convert)
    (ins "mov" [Mem reg_rsp reg_val_tmp_1_; Gpr reg64_fp8_aux]) ;;
  for_ (range 0 bd_block') (fun bd =>
  for_ (range 0 ld_block2') (fun ld =>
    let addr := Mem reg_aux_D (D_offset bd ld) in
    let vmm := accm ld_block2' bd ld in
    let is_tail := is_ld_tail && (ld + 1 =? ld_block2') in
    (if is_avx512 then store_D_avx512 addr vmm is_tail k_mask
     else
       let ld_block' := if is_tail then brg.(ldb_tail) else brg.(ld_block) in
       if is_tail && (data_type.data_type_size brg.(dt_b) =? 4) then
         let* m := vmm_tail_mask in
         ins "vmaskmovps" [addr; Vmm m; Vmm vmm]
       else
         call "store_data"
              [Dt brg.(dt_d); Vmm vmm; Gpr reg_aux_D; Imm (D_offset bd ld);
               Imm ld_block']) ;;
    when (brg.(is_runtime_ldd) && (bd_block' >? 1)
          && (ld =? ld_block2' - 1))
      (ins "add" [Gpr reg_aux_D; Mem reg_rsp reg_D_shift_bytes_offs_]))) ;;
  when brg.(is_fp8_via_convert)
    (ins "mov" [Gpr reg64_fp8_aux; Mem reg_rsp reg_val_tmp_1_]) ;;
  when (brg.(is_runtime_ldd) && (bd_block' >? 1))
    (ins "mov" [Gpr reg_aux_D; Mem reg_rsp reg_aux_D_backup_offs_]).

(** Apply compensation to accumulated values, to avoid the loss of
    accuracy when converting s32 to f32. *)
Definition apply_compensation (bd_block' ld_block2' : Z) (is_ld_tail : bool)
  : gen :=
  let k_mask := if negb is_ld_tail then ld_full_mask else ld_tail_mask in
  when (negb brg.(req_cal_comp_pads) && negb (eq_none brg.(zp_type_a)))
    (let* vmm_zp_a_val := vmm_tmp 1 in
     ins "mov" [Gpr reg_zp_a_val; Mem reg_rsp reg_zp_a_val_offs_] ;;
     ins "uni_vpbroadcastd" [Vmm vmm_zp_a_val; Gpr32 reg_zp_a_val] ;;
     ins "mov" [Gpr reg_aux_zp_comp_a; Mem reg_rsp reg_aux_zp_comp_a_offs_] ;;
     let* vmm_zp_comp_a := vmm_tmp 0 in
     for_ (range 0 ld_block2') (fun ld =>
       let is_tail := is_ld_tail && (ld + 1 =? ld_block2') in
       for_ (range 0 bd_block') (fun bd =>
         when (IMPLICATION (negb brg.(req_comp_pads_with_bcast)) (bd =? 0))
           (let zp_comp_a_addr :=
              Mem reg_aux_zp_comp_a (bd_zp_comp_a_offset ld bd) in
            (if IMPLICATION is_tail (isa_has_masks brg.(isa_impl)) then
               let vmm_zp_comp_a_masked :=
                 vmm_mask vmm_zp_comp_a is_tail false k_mask in
               ins "uni_vmovups" [vmm_zp_comp_a_masked; zp_comp_a_addr]
             else
               (* cannot use vmaskmovps as vmm_zp_a_val clashes with
                  vmm_tail_mask *)
               call "load_data"
                    [Dt data_type.s32; Vmm vmm_zp_comp_a; zp_comp_a_addr;
                     Imm brg.(ldb_tail)]) ;;
            ins "uni_vpmulld"
                [Vmm vmm_zp_comp_a; Vmm vmm_zp_comp_a; Vmm vmm_zp_a_val]) ;;
         let vmm := accm ld_block2' bd ld in
         ins "uni_vpaddd" [Vmm vmm; Vmm vmm; Vmm vmm_zp_comp_a])) ;;
     maybe_set_avx_mask is_ld_tail) ;;
  when (negb (eq_none brg.(zp_type_b)))
    (ins "mov" [Gpr reg_aux_zp_comp_b; Mem reg_rsp reg_aux_zp_comp_b_offs_] ;;
     for_ (range 0 bd_block') (fun bd =>
       let zp_comp_b_off := zp_comp_b_offset bd in
       for_ (range 0 ld_block2') (fun ld =>
         let vmm := accm ld_block2' bd ld in
         if is_avx512 then
           let zp_comp_b_addr := MemB reg_aux_zp_comp_b zp_comp_b_off in
           ins "uni_vpaddd" [Vmm vmm; Vmm vmm; zp_comp_b_addr]
         else
           let* vmm_zp_comp_b := vmm_tmp 0 in
           ins "uni_vpbroadcastd"
               [Vmm vmm_zp_comp_b; Mem reg_aux_zp_comp_b zp_comp_b_off] ;;
           ins "uni_vpaddd" [Vmm vmm; Vmm vmm; Vmm vmm_zp_comp_b]))) ;;
  when (negb brg.(req_cal_comp_pads) && brg.(req_s8s8_compensation))
    (ins "mov" [Gpr reg_aux_compensation; Mem reg_rsp reg_aux_comp_offs_] ;;
     let* vmm_comp := vmm_tmp 0 in
     for_ (range 0 ld_block2') (fun ld =>
       let is_tail := is_ld_tail && (ld + 1 =? ld_block2') in
       for_ (range 0 bd_block') (fun bd =>
         when (IMPLICATION (negb brg.(req_comp_pads_with_bcast)) (bd =? 0))
           (let comp_addr :=
              Mem reg_aux_compensation (bd_compensation_offset ld bd) in
            if IMPLICATION is_tail is_avx512 then
              let vmm_comp_masked := vmm_mask vmm_comp is_tail false k_mask in
              ins "uni_vmovups" [vmm_comp_masked; comp_addr]
            else
              let* m := vmm_tail_mask in
              ins "vmaskmovps" [Vmm vmm_comp; Vmm m; comp_addr]) ;;
         let vmm := accm ld_block2' bd ld in
         ins "uni_vpaddd" [Vmm vmm; Vmm vmm; Vmm vmm_comp]))).

Definition store_accumulators_without_post_ops (bd_block' ld_block2' : Z)
    (is_ld_tail : bool) : gen :=
  (* if (brg.is_int8 && alpha_or_beta_applicable && !beta_uses_vadd) ->
     accumulated values are converted to ps in apply_alpha_beta() *)
  let dt_requires_saturation :=
    brg.(is_int8)
    && negb (IMPLICATION alpha_or_beta_applicable beta_uses_vadd) in
  when dt_requires_saturation
    (let* vmm_ubound := vmm_tmp 0 in
     let* vmm_lbound := vmm_tmp 1 in
     call "init_saturate_f32"
          [Vmm vmm_lbound; Vmm vmm_ubound; Gpr reg_tmp_gpr;
           Dt data_type.f32; Dt brg.(dt_d)] ;;
     for_ (range 0 bd_block') (fun bd =>
     for_ (range 0 ld_block2') (fun ld =>
       let vmm := accm ld_block2' bd ld in
       call "saturate_cvt_f32"
            [Vmm vmm; Vmm vmm_lbound; Vmm vmm_ubound; Dt brg.(dt_d)]))) ;;
  when (brg.(is_runtime_ldc) && (bd_block' >? 1))
    (ins "mov" [Mem reg_rsp reg_aux_C_backup_offs_; Gpr reg_aux_C]) ;;
  for_ (range 0 bd_block') (fun bd =>
  for_ (range 0 ld_block2') (fun ld =>
    let vmm := accm ld_block2' bd ld in
    let is_tail := is_ld_tail && (ld + 1 =? ld_block2') in
    (if negb is_tail then
       ins "uni_vmovups" [Mem reg_aux_C (C_offset bd ld); Vmm vmm]
     else if isa_has_masks brg.(isa_impl) then
       ins "uni_vmovups"
           [MemK reg_aux_C (C_offset bd ld) ld_tail_mask true; Vmm vmm]
     else
       let* m := vmm_tail_mask in
       ins "vmaskmovps" [Mem reg_aux_C (C_offset bd ld); Vmm m; Vmm vmm]) ;;
    when (brg.(is_runtime_ldc) && (bd_block' >? 1)
          && (ld =? ld_block2' - 1))
      (ins "add" [Gpr reg_aux_C; Mem reg_rsp reg_C_shift_bytes_offs_]))) ;;
  when (brg.(is_runtime_ldc) && (bd_block' >? 1))
    (ins "mov" [Gpr reg_aux_C; Mem reg_rsp reg_aux_C_backup_offs_]).

Definition has_zero_points : bool :=
  negb (eq_none brg.(zp_type_a) && eq_none brg.(zp_type_b)
        && eq_none brg.(zp_type_c)).

Definition are_post_ops_applicable : bool :=
  brg.(with_eltwise) || brg.(with_binary) || brg.(with_scales)
  || brg.(with_bias) || brg.(with_sum)
  || negb (data_type.eqb brg.(dt_d) brg.(dt_c))
  || brg.(req_s8s8_compensation) || has_zero_points
  || brg.(with_dst_scales).

Definition need_to_apply_alpha_beta : bool :=
  negb (is_zero brg.(beta)) || negb (is_one brg.(alpha)).

Definition need_generate_zp_a_compensation : bool :=
  brg.(is_int8) && (brg.(req_s8s8_compensation) || has_zero_points).

(** The lambda [store_accumulators_amx] of [store_accumulators]. *)
Definition store_accumulators_amx (bd_block2' : Z) (is_bdb_tail : bool)
    (ld_block2' : Z) (is_ld_tail skip_accumulation : bool)
    (apply_post_ops' apply_zp_a_compensation : bool) : gen :=
  ins "mov" [Mem reg_rsp reg_aux_C_bdb_loop_backup_offs_; Gpr reg_aux_C] ;;
  when (brg.(is_runtime_ldc) && (bd_block2' >? 1))
    (ins "xor_" [Gpr reg_buf; Gpr reg_buf] ;;
     ins "imul"
         [Gpr reg_buf; Mem reg_rsp reg_C_shift_bytes_offs_;
          Imm (bdb_C_offset 1)] ;;
     ins "mov" [Mem reg_rsp reg_aux_C_bdb_loop_shift_offs_; Gpr reg_buf]) ;;
  when apply_post_ops'
    (ins "mov" [Mem reg_rsp reg_aux_D_bdb_loop_backup_offs_; Gpr reg_aux_D] ;;
     when (brg.(is_runtime_ldd) && (bd_block2' >? 1))
       (ins "xor_" [Gpr reg_buf; Gpr reg_buf] ;;
        ins "imul"
            [Gpr reg_buf; Mem reg_rsp reg_D_shift_bytes_offs_;
             Imm (bdb_D_offset 1)] ;;
        ins "mov" [Mem reg_rsp reg_aux_D_bdb_loop_shift_offs_; Gpr reg_buf])) ;;
  ins "mov" [Gpr reg_buf; Mem reg_rsp reg_buf_offs_] ;;
  for_ (range 0 bd_block2') (fun bdb' =>
    let adj_bd_block :=
      if brg.(is_M_tail) && is_bdb_tail then brg.(bdb_tail)
      else brg.(bd_block) in
    for_ (range 0 ld_block2') (fun ldb =>
      let idx := if is_ld_tail then brg.(ld_block2) else ldb in
      (if need_to_apply_alpha_beta || are_post_ops_applicable
          || apply_zp_a_compensation then
         (if skip_accumulation then
            for_ (range 0 adj_bd_block) (fun bd =>
              let vreg_acc := accm 1 bd 0 in
              ins "uni_vpxor" [Vmm vreg_acc; Vmm vreg_acc; Vmm vreg_acc])
          else
            ins "tilestored"
                [MemR reg_buf reg_stride_ld_block 0;
                 Tmm (get_C_tensor brg bdb' idx is_bdb_tail is_ld_tail)] ;;
            for_ (range 0 adj_bd_block) (fun bd =>
              let buf_offset := (bd * brg.(ld_block)) * brg.(typesize_C) in
              let vreg_acc :=
                if is_ld_tail then VmmK (accm 1 bd 0) ld_tail_mask true
                else Vmm (accm 1 bd 0) in
              ins "uni_vmovups" [vreg_acc; Mem reg_buf buf_offset])) ;;
         when apply_zp_a_compensation
           (apply_compensation adj_bd_block 1 is_ld_tail) ;;
         when need_to_apply_alpha_beta
           (apply_alpha_beta adj_bd_block 1 is_ld_tail) ;;
         (if apply_post_ops' then
            let ldb_and_bdb_offset :=
              ldb_po_offset ldb false + bdb_po_offset bdb' in
            store_accumulators_apply_post_ops adj_bd_block 1
              ldb_and_bdb_offset is_ld_tail ;;
            when (ldb <? ld_block2' - 1)
              (advance_ldb_post_op_regs ;;
               ins "add" [Gpr reg_aux_D; Imm (ldb_D_offset 1 false)])
          else
            store_accumulators_without_post_ops adj_bd_block 1 is_ld_tail) ;;
         ins "mov" [Gpr reg_buf; Mem reg_rsp reg_buf_offs_]
       else
         let tmm := get_C_tensor brg bdb' idx is_bdb_tail is_ld_tail in
         when skip_accumulation (ins "tilezero" [Tmm tmm]) ;;
         ins "tilestored" [MemR reg_aux_C reg_stride_ld_block 0; Tmm tmm]) ;;
      when (ldb <? ld_block2' - 1)
        (ins "add" [Gpr reg_aux_C; Imm (ldb_C_offset 1 false)])) ;;
    when (ld_block2' >? 1)
      (ins "sub" [Gpr reg_aux_C; Imm (ldb_C_offset (ld_block2' - 1) false)]) ;;
    when (bdb' <? bd_block2' - 1)
      (if brg.(is_runtime_ldc) then
         ins "add" [Gpr reg_aux_C; Mem reg_rsp reg_aux_C_bdb_loop_shift_offs_]
       else ins "add" [Gpr reg_aux_C; Imm (bdb_C_offset 1)]) ;;
    when apply_post_ops'
      (let post_processed1 :=
         (ld_block2' >? 1)
         && (brg.(with_bias) || brg.(with_scales)
             || negb (eq_none brg.(zp_type_a))
             || brgemm_broadcast.eqb brg.(zp_type_c) brgemm_broadcast.per_n
             || brg.(with_dst_scales)) in
       let post_processed2 :=
         (bdb' <? bd_block2' - 1)
         && (negb (eq_none brg.(zp_type_b))
             || (brg.(req_comp_pads_with_bcast)
                 && negb (eq_none brg.(zp_type_a)))) in
       when (ld_block2' >? 1)
         (ins "sub"
              [Gpr reg_aux_D; Imm (ldb_D_offset (ld_block2' - 1) false)] ;;
          restore_ldb_post_op_regs ld_block2') ;;
       when (bdb' <? bd_block2' - 1)
         ((if brg.(is_runtime_ldd) then
             ins "add"
                 [Gpr reg_aux_D; Mem reg_rsp reg_aux_D_bdb_loop_shift_offs_]
           else ins "add" [Gpr reg_aux_D; Imm (bdb_D_offset 1)]) ;;
          advance_bdb_post_op_regs adj_bd_block) ;;
       when (post_processed1 || post_processed2)
         (ins "mov" [Gpr reg_buf; Mem reg_rsp reg_buf_offs_]))) ;;
  ins "mov" [Gpr reg_aux_C; Mem reg_rsp reg_aux_C_bdb_loop_backup_offs_] ;;
  when apply_post_ops'
    (ins "mov" [Gpr reg_aux_D; Mem reg_rsp reg_aux_D_bdb_loop_backup_offs_] ;;
     restore_bdb_post_op_regs bd_block2').

Definition store_accumulators (bd_block2' : Z) (is_bdb_tail : bool)
    (ld_block2' : Z) (is_ld_tail skip_accumulation : bool) : gen :=
  maybe_set_avx_mask is_ld_tail ;;
  if brg.(is_tmm) then
    (if need_to_apply_alpha_beta || are_post_ops_applicable
        || need_generate_zp_a_compensation then
       ins "mov"
           [Gpr reg_stride_ld_block; Imm (brg.(ld_block) * brg.(typesize_C))]
     else if brg.(is_runtime_ldc) then
       ins "mov" [Gpr reg_stride_ld_block; Mem reg_rsp reg_C_shift_bytes_offs_]
     else
       ins "mov" [Gpr reg_stride_ld_block; Imm (brg.(LDC) * brg.(typesize_C))]) ;;
    let amx := store_accumulators_amx bd_block2' is_bdb_tail ld_block2'
                 is_ld_tail skip_accumulation in
    let without_post_ops :=
      if need_generate_zp_a_compensation then
        if_flag_nz reg_do_comp_offs_ (amx false true) (amx false false)
      else amx false false in
    if are_post_ops_applicable then
      if_flag_nz reg_do_post_ops_offs_
        (if need_generate_zp_a_compensation then
           if_flag_nz reg_do_comp_offs_ (amx true true) (amx true false)
         else amx true false)
        without_post_ops
    else without_post_ops
  else
    let bd_block' := if is_bdb_tail then brg.(bdb_tail) else brg.(bd_block) in
    when need_generate_zp_a_compensation
      (if_flag_nz reg_do_comp_offs_
         (apply_compensation bd_block' ld_block2' is_ld_tail) skip) ;;
    when need_to_apply_alpha_beta
      (apply_alpha_beta bd_block' ld_block2' is_ld_tail) ;;
    if are_post_ops_applicable then
      if_flag_nz reg_do_post_ops_offs_
        (store_accumulators_apply_post_ops bd_block' ld_block2' 0 is_ld_tail)
        (store_accumulators_without_post_ops bd_block' ld_block2' is_ld_tail)
    else store_accumulators_without_post_ops bd_block' ld_block2' is_ld_tail.

(** *** Loop nest: bookkeeping of pointers *)

Definition ldb_regs_shift (ld_block2' : Z) (is_tail : bool) : gen :=
  let C_offset' :=
    if is_tail then ldb_C_offset 1 true else ldb_C_offset ld_block2' false in
  let D_offset' :=
    if is_tail then ldb_D_offset 1 true else ldb_D_offset ld_block2' false in
  ins "add" [Gpr reg_aux_C; Imm C_offset'] ;;
  ins "add" [Gpr reg_aux_D; Imm D_offset'] ;;
  ins "add"
      [Gpr reg_b_offset;
       Imm (if is_tail then ldb_B_offset 1 true
            else ldb_B_offset ld_block2' false)] ;;
  when brg.(with_bias)
    (ins "mov" [Gpr reg_aux_bias; Mem reg_rsp reg_aux_bias_offs_] ;;
     ins "add"
         [Gpr reg_aux_bias;
          Imm (if is_tail then bias_offset 1 true
               else bias_offset ld_block2' false)] ;;
     ins "mov" [Mem reg_rsp reg_aux_bias_offs_; Gpr reg_aux_bias]) ;;
  when brg.(req_s8s8_compensation)
    (ins "mov" [Gpr reg_aux_compensation; Mem reg_rsp reg_aux_comp_offs_] ;;
     ins "add"
         [Gpr reg_aux_compensation;
          Imm (if is_tail then compensations_offset 1 true
               else compensations_offset ld_block2' false)] ;;
     ins "mov" [Mem reg_rsp reg_aux_comp_offs_; Gpr reg_aux_compensation]) ;;
  when brg.(with_scales)
    (ins "mov" [Gpr reg_aux_scales; Mem reg_rsp reg_aux_scales_offs_] ;;
     ins "add"
         [Gpr reg_aux_scales;
          Imm (if is_tail then scales_offset 1 true
               else scales_offset ld_block2' false)] ;;
     ins "mov" [Mem reg_rsp reg_aux_scales_offs_; Gpr reg_aux_scales]) ;;
  when brg.(with_wei_decomp)
    (ins "mov" [Gpr reg_aux_wei_scales; Mem reg_rsp reg_aux_wei_scales_offs_] ;;
     ins "add"
         [Gpr reg_aux_wei_scales;
          Imm (if is_tail then wei_scales_offset 1 true
               else wei_scales_offset ld_block2' false)] ;;
     ins "mov" [Mem reg_rsp reg_aux_wei_scales_offs_; Gpr reg_aux_wei_scales] ;;
     ins "mov" [Mem reg_rsp reg_aux2_wei_scales_offs_; Gpr reg_aux_wei_scales] ;;
     ins "mov" [Gpr reg_aux_wei_zp; Mem reg_rsp reg_aux_wei_zero_points_offs_] ;;
     ins "add"
         [Gpr reg_aux_wei_zp;
          Imm (if is_tail then wei_zp_offset 1 true
               else wei_zp_offset ld_block2' false)] ;;
     ins "mov" [Mem reg_rsp reg_aux_wei_zero_points_offs_; Gpr reg_aux_wei_zp] ;;
     ins "mov"
         [Mem reg_rsp reg_aux2_wei_zero_points_offs_; Gpr reg_aux_wei_zp]) ;;
  when (negb (eq_none brg.(zp_type_a)))
    (ins "mov" [Gpr reg_aux_zp_comp_a; Mem reg_rsp reg_aux_zp_comp_a_offs_] ;;
     ins "add"
         [Gpr reg_aux_zp_comp_a;
          Imm (if is_tail then zp_comp_a_offset 1 true
               else zp_comp_a_offset ld_block2' false)] ;;
     ins "mov" [Mem reg_rsp reg_aux_zp_comp_a_offs_; Gpr reg_aux_zp_comp_a]) ;;
  when (brgemm_broadcast.eqb brg.(zp_type_c) brgemm_broadcast.per_n)
    (ins "mov"
         [Gpr reg_aux_zp_c_values; Mem reg_rsp reg_aux_zp_c_values_offs_] ;;
     ins "add"
         [Gpr reg_aux_zp_c_values;
          Imm (if is_tail then zp_c_values_offset 1 true
               else zp_c_values_offset ld_block2' false)] ;;
     ins "mov"
         [Mem reg_rsp reg_aux_zp_c_values_offs_; Gpr reg_aux_zp_c_values]).

Definition advance_bd_block2_post_op_regs (bd_block2' : Z) : gen :=
  when (brg.(req_comp_pads_with_bcast) && brg.(req_s8s8_compensation))
    (ins "mov" [Gpr reg_compensation; Mem reg_rsp reg_comp_offs_] ;;
     ins "add" [Gpr reg_compensation; Imm (bdb_compensation_offset bd_block2')] ;;
     ins "mov" [Mem reg_rsp reg_comp_offs_; Gpr reg_compensation]) ;;
  when (brg.(req_comp_pads_with_bcast) && negb (eq_none brg.(zp_type_a)))
    (ins "mov" [Gpr reg_zp_comp_a; Mem reg_rsp reg_zp_comp_a_offs_] ;;
     ins "add" [Gpr reg_zp_comp_a; Imm (bdb_zp_comp_a_offset bd_block2')] ;;
     ins "mov" [Mem reg_rsp reg_zp_comp_a_offs_; Gpr reg_zp_comp_a]) ;;
  when (negb (eq_none brg.(zp_type_b)))
    (ins "mov" [Gpr reg_zp_comp_b; Mem reg_rsp reg_zp_comp_b_offs_] ;;
     ins "add" [Gpr reg_zp_comp_b; Imm (bdb_zp_comp_b_offset bd_block2')] ;;
     ins "mov" [Mem reg_rsp reg_zp_comp_b_offs_; Gpr reg_zp_comp_b]).

Definition copy_post_ops_stack_values_to_aux (is_reg_tail : bool) : gen :=
  when (negb is_reg_tail)
    (ins "mov" [Gpr reg_aux_C; Gpr reg_C] ;;
     ins "mov" [Gpr reg_aux_D; Gpr reg_D] ;;
     ins "xor_" [Gpr reg_b_offset; Gpr reg_b_offset] ;;
     when brg.(with_bias)
       (ins "mov" [Gpr reg_bias; Mem reg_rsp reg_bias_offs_] ;;
        ins "mov" [Mem reg_rsp reg_aux_bias_offs_; Gpr reg_bias]) ;;
     when brg.(req_s8s8_compensation)
       (ins "mov" [Gpr reg_compensation; Mem reg_rsp reg_comp_offs_] ;;
        ins "mov" [Mem reg_rsp reg_aux_comp_offs_; Gpr reg_compensation]) ;;
     when brg.(with_scales)
       (ins "mov" [Gpr reg_scales; Mem reg_rsp reg_scales_offs_] ;;
        ins "mov" [Mem reg_rsp reg_aux_scales_offs_; Gpr reg_scales]) ;;
     when (negb (eq_none brg.(zp_type_a)))
       (ins "mov" [Gpr reg_zp_comp_a; Mem reg_rsp reg_zp_comp_a_offs_] ;;
        ins "mov" [Mem reg_rsp reg_aux_zp_comp_a_offs_; Gpr reg_zp_comp_a]) ;;
     when (negb (eq_none brg.(zp_type_c)))
       (ins "mov" [Gpr reg_zp_c_values; Mem reg_rsp reg_zp_c_values_offs_] ;;
        ins "mov" [Mem reg_rsp reg_aux_zp_c_values_offs_; Gpr reg_zp_c_values]) ;;
     when brg.(with_wei_decomp_scales)
       (ins "mov" [Gpr reg_wei_scales; Mem reg_rsp reg_wei_scales_offs_] ;;
        ins "mov" [Mem reg_rsp reg_aux_wei_scales_offs_; Gpr reg_wei_scales] ;;
        ins "mov" [Mem reg_rsp reg_aux2_wei_scales_offs_; Gpr reg_wei_scales]) ;;
     when brg.(with_wei_decomp_zero_points)
       (ins "mov" [Gpr reg_wei_zp; Mem reg_rsp reg_wei_zero_points_offs_] ;;
        ins "mov" [Mem reg_rsp reg_aux_wei_zero_points_offs_; Gpr reg_wei_zp] ;;
        ins "mov" [Mem reg_rsp reg_aux2_wei_zero_points_offs_; Gpr reg_wei_zp])) ;;
  when brg.(with_grouped_wei_decomp)
    (ins "mov" [Gpr reg_ic; Mem reg_rsp reg_ic_offs_] ;;
     ins "mov" [Mem reg_rsp reg_aux_ic_offs_; Gpr reg_ic]) ;;
  when brg.(with_src_dyn_quant)
    (ins "mov" [Gpr reg_src_scales; Mem reg_rsp reg_src_scales_offs_] ;;
     ins "mov" [Mem reg_rsp reg_aux_src_scales_offs_; Gpr reg_src_scales] ;;
     ins "mov" [Mem reg_rsp reg_aux2_src_scales_offs_; Gpr reg_src_scales]) ;;
  when (negb (eq_none brg.(zp_type_b)))
    (ins "mov" [Gpr reg_zp_comp_b; Mem reg_rsp reg_zp_comp_b_offs_] ;;
     ins "mov" [Mem reg_rsp reg_aux_zp_comp_b_offs_; Gpr reg_zp_comp_b]).

Definition type_is (k : brgemm_batch_kind_t) : bool :=
  brgemm_batch_kind_t_beq brg.(type) k.

Definition row_major : bool :=
  brgemm_layout_t_beq brg.(layout) brgemm_row_major.

(** Every parameter the kernel reads is copied from the parameter block
    to its slot of the stack frame. *)
Definition read_params : gen :=
  when brg.(with_binary) (ins "mov" [Mem reg_rsp abi_param1_offs_; Gpr param1]) ;;
  (if type_is brgemm_addr then ins "mov" [Gpr reg_addr_batch; Param batch]
   else
     (if row_major then
        ins "mov" [Gpr reg_A; Param ptr_A] ;;
        ins "mov" [Gpr reg_B; Param ptr_B]
      else
        ins "mov" [Gpr reg_A; Param ptr_B] ;;
        ins "mov" [Gpr reg_B; Param ptr_A]) ;;
     if type_is brgemm_offs then
       ins "mov" [Gpr reg_offs_batch; Param batch] ;;
       ins "mov" [Mem reg_rsp origin_offs_batch_offs_; Gpr reg_offs_batch]
     else
       ins "mov" [Gpr reg_strd_batch; Param batch] ;;
       ins "mov" [Mem reg_rsp origin_strd_batch_offs_; Gpr reg_strd_batch]) ;;
  ins "mov" [Gpr reg_C; Param ptr_C] ;;
  ins "mov" [Gpr reg_D; Param ptr_D] ;;
  ins "mov" [Gpr reg_BS; Param BS] ;;
  (* ptr_buf is re-used for passing compensations for
     brg.req_s8s8_compensation case *)
  when (brg.(is_tmm) || brg.(req_s8s8_compensation))
    (ins "mov" [Gpr reg_buf; Param ptr_buf] ;;
     ins "mov" [Mem reg_rsp reg_buf_offs_; Gpr reg_buf]) ;;
  when brg.(with_bias)
    (ins "mov" [Gpr reg_bias; Param ptr_bias] ;;
     ins "mov" [Mem reg_rsp reg_bias_offs_; Gpr reg_bias]) ;;
  when brg.(with_scales)
    (ins "mov" [Gpr reg_scales; Param ptr_scales] ;;
     ins "mov" [Mem reg_rsp reg_scales_offs_; Gpr reg_scales]) ;;
  when (negb (eq_none brg.(zp_type_a)))
    (ins "mov" [Gpr reg_zp_comp_a; Param a_zp_compensations] ;;
     ins "mov" [Mem reg_rsp reg_zp_comp_a_offs_; Gpr reg_zp_comp_a]) ;;
  when (negb (eq_none brg.(zp_type_b)))
    (ins "mov" [Gpr reg_zp_comp_b; Param b_zp_compensations] ;;
     ins "mov" [Mem reg_rsp reg_zp_comp_b_offs_; Gpr reg_zp_comp_b]) ;;
  when brg.(with_wei_decomp)
    (ins "mov" [Gpr reg_wei_scales; Param ptr_wei_scales] ;;
     ins "mov" [Mem reg_rsp reg_wei_scales_offs_; Gpr reg_wei_scales] ;;
     ins "mov" [Gpr reg_wei_zp; Param ptr_wei_zero_points] ;;
     ins "mov" [Mem reg_rsp reg_wei_zero_points_offs_; Gpr reg_wei_zp] ;;
     ins "mov" [Gpr reg_ic; Param ic] ;;
     ins "mov" [Mem reg_rsp reg_ic_offs_; Gpr reg_ic]) ;;
  when brg.(with_src_dyn_quant)
    (ins "mov" [Gpr reg_src_scales; Param ptr_src_scales] ;;
     ins "mov" [Mem reg_rsp reg_src_scales_offs_; Gpr reg_src_scales]) ;;
  when (negb (eq_none brg.(zp_type_c)))
    (ins "mov" [Gpr reg_zp_c_values; Param c_zp_values] ;;
     ins "mov" [Mem reg_rsp reg_zp_c_values_offs_; Gpr reg_zp_c_values]) ;;
  when brg.(with_dst_scales)
    (ins "mov" [Gpr reg_dst_scales; Param ptr_dst_scales] ;;
     ins "mov" [Mem reg_rsp reg_dst_scales_offs_; Gpr reg_dst_scales]) ;;
  when brg.(is_runtime_ldc)
    (ins "mov" [Gpr reg_tmp_read_values; Param dynamic_LDC] ;;
     when (brg.(typesize_C) >? 1)
       (ins "shl" [Gpr reg_tmp_read_values; Imm (Z.shiftr brg.(typesize_C) 1)]) ;;
     ins "mov" [Mem reg_rsp reg_C_shift_bytes_offs_; Gpr reg_tmp_read_values]) ;;
  when brg.(is_runtime_ldd)
    (ins "mov" [Gpr reg_tmp_read_values; Param dynamic_LDD] ;;
     when (brg.(typesize_D) >? 1)
       (ins "shl" [Gpr reg_tmp_read_values; Imm (Z.shiftr brg.(typesize_D) 1)]) ;;
     ins "mov" [Mem reg_rsp reg_D_shift_bytes_offs_; Gpr reg_tmp_read_values]) ;;
  ins "mov" [Gpr reg_do_post_ops; Param do_post_ops] ;;
  ins "mov" [Mem reg_rsp reg_do_post_ops_offs_; Gpr reg_do_post_ops] ;;
  ins "mov" [Gpr reg_skip_accm; Param skip_accm] ;;
  ins "mov" [Mem reg_rsp reg_skip_accm_offs_; Gpr reg_skip_accm] ;;
  ins "mov" [Gpr reg_zp_a_val; Param zp_a_val] ;;
  ins "mov" [Mem reg_rsp reg_zp_a_val_offs_; Gpr reg_zp_a_val] ;;
  ins "mov" [Gpr reg_do_comp; Param do_apply_comp] ;;
  ins "mov" [Mem reg_rsp reg_do_comp_offs_; Gpr reg_do_comp].

Definition restore_A_B_matrices : gen :=
  let restore_reg_batch := (brg.(brgattr).(max_bs) >? 1) || vpad_exist in
  if type_is brgemm_addr then
    when restore_reg_batch (ins "mov" [Gpr reg_aux1_batch; Gpr reg_addr_batch])
  else
    ins "mov" [Gpr reg_aux1_A; Gpr reg_A] ;;
    ins "mov" [Gpr reg_aux1_B; Gpr reg_B] ;;
    if type_is brgemm_offs then
      ins "mov" [Gpr reg_offs_batch; Mem reg_rsp origin_offs_batch_offs_]
    else ins "mov" [Gpr reg_strd_batch; Mem reg_rsp origin_strd_batch_offs_].

Definition set_A_B_matrices : gen :=
  (if type_is brgemm_addr then
     (if brg.(brgattr).(max_bs) >? 1 then
        if row_major then
          ins "mov" [Gpr reg_aux_A; BatchElem reg_aux1_batch elem_ptr_A] ;;
          ins "mov" [Gpr reg_aux_B; BatchElem reg_aux1_batch elem_ptr_B]
        else
          ins "mov" [Gpr reg_aux_A; BatchElem reg_aux1_batch elem_ptr_B] ;;
          ins "mov" [Gpr reg_aux_B; BatchElem reg_aux1_batch elem_ptr_A]
      else
        (* for max_batch == 1 we stored A and B pointers at the beginning
           of kernel in reg_aux1_A and reg_aux1_B *)
        if row_major then
          ins "mov" [Gpr reg_aux_A; Gpr reg_aux1_A] ;;
          ins "mov" [Gpr reg_aux_B; Gpr reg_aux1_B]
        else
          ins "mov" [Gpr reg_aux_A; Gpr reg_aux1_B] ;;
          ins "mov" [Gpr reg_aux_B; Gpr reg_aux1_A]) ;;
     when (brg.(brgattr).(max_bs) >? 1)
       (ins "add" [Gpr reg_aux1_batch; Imm sizeof_batch_element] ;;
        ins "prefetcht0" [Mem reg_aux1_batch 0])
   else if type_is brgemm_offs then
     ins "mov" [Gpr reg_aux_A; Gpr reg_A] ;;
     ins "mov" [Gpr reg_aux_B; Gpr reg_B] ;;
     ins "add" [Gpr reg_aux_A; BatchElem reg_offs_batch elem_offset_A] ;;
     ins "add" [Gpr reg_aux_B; BatchElem reg_offs_batch elem_offset_B] ;;
     ins "add" [Gpr reg_offs_batch; Imm sizeof_batch_element]
   else if type_is brgemm_strd then
     ins "mov" [Gpr reg_aux_A; Gpr reg_aux1_A] ;;
     ins "mov" [Gpr reg_aux_B; Gpr reg_aux1_B] ;;
     call "safe_add" [Gpr reg_aux1_A; Imm brg.(stride_a); Gpr reg_tmp_gpr] ;;
     call "safe_add" [Gpr reg_aux1_B; Imm brg.(stride_b); Gpr reg_tmp_gpr] ;;
     when vpad_exist
       (ins "mov" [Gpr reg_strd_batch; Mem reg_rsp origin_strd_batch_offs_] ;;
        ins "add" [Gpr reg_strd_batch; Imm sizeof_batch_element] ;;
        ins "mov" [Mem reg_rsp origin_strd_batch_offs_; Gpr reg_strd_batch])
   else skip) ;;
  ins "add" [Gpr reg_aux_A; Gpr reg_a_offset] ;;
  ins "add" [Gpr reg_aux_B; Gpr reg_b_offset].

(** *** Loop nest: leading-dimension loop, batch loop, padding dispatch *)

(** The lambda [ic_group_shift] of the reduction loop (grouped weights
    decompression). *)
Definition ic_group_shift (src_offs dst_offs group_size stride : Z) : gen :=
  let reg_local_ic := reg_aux_D in
  let reg_local_wei_params := reg_bdb_loop in
  let reg_local_ic_group := reg_ldb_loop in
  ins "mov" [Gpr reg_local_ic; Mem reg_rsp reg_aux_ic_offs_] ;;
  ins "mov" [Gpr reg_local_ic_group; Imm group_size] ;;
  ins "xor_" [Gpr reg_rdx; Gpr reg_rdx] ;;
  ins "idiv" [Gpr reg_local_ic_group] ;;
  ins "imul" [Gpr reg_local_ic; Gpr reg_local_ic; Imm stride] ;;
  ins "mov" [Gpr reg_local_wei_params; Mem reg_rsp src_offs] ;;
  ins "add" [Gpr reg_local_wei_params; Gpr reg_local_ic] ;;
  ins "mov" [Mem reg_rsp dst_offs; Gpr reg_local_wei_params].

Definition grouped_wei_decomp_shift : gen :=
  let reg_local_ic := reg_aux_D in
  ins "mov" [Mem reg_rsp reg_bdb_loop_offs_; Gpr reg_bdb_loop] ;;
  ins "mov" [Mem reg_rsp reg_aux2_D_offs_; Gpr reg_aux_D] ;;
  ins "mov" [Mem reg_rsp reg_ldb_loop_offs_; Gpr reg_ldb_loop] ;;
  (* preserve rdx for idiv *)
  ins "mov" [Mem reg_rsp reg_reg_a_offset_offs_; Gpr reg_a_offset] ;;
  when (brg.(with_wei_decomp_scales)
        && negb (brg.(wei_decomp_scales_stride) =? 0))
    (ic_group_shift reg_aux_wei_scales_offs_ reg_aux2_wei_scales_offs_
       brg.(wei_decomp_scales_group_size)
       (brg.(wei_decomp_scales_stride) * 4)) ;;
  when (brg.(with_wei_decomp_zero_points)
        && negb (brg.(wei_decomp_zero_points_stride) =? 0))
    (ic_group_shift reg_aux_wei_zero_points_offs_
       reg_aux2_wei_zero_points_offs_
       brg.(wei_decomp_zero_points_group_size)
       (brg.(wei_decomp_zero_points_stride)
        * data_type.data_type_size brg.(wei_decomp_zero_points_dt))) ;;
  when brg.(with_src_dyn_quant)
    (ic_group_shift reg_aux_src_scales_offs_ reg_aux2_src_scales_offs_
       brg.(src_scales_group_size) 4) ;;
  ins "mov" [Gpr reg_local_ic; Mem reg_rsp reg_aux_ic_offs_] ;;
  ins "add" [Gpr reg_local_ic; Imm brg.(rd_block)] ;;
  ins "mov" [Mem reg_rsp reg_aux_ic_offs_; Gpr reg_local_ic] ;;
  ins "mov" [Gpr reg_bdb_loop; Mem reg_rsp reg_bdb_loop_offs_] ;;
  ins "mov" [Gpr reg_aux_D; Mem reg_rsp reg_aux2_D_offs_] ;;
  ins "mov" [Gpr reg_ldb_loop; Mem reg_rsp reg_ldb_loop_offs_] ;;
  ins "mov" [Gpr reg_a_offset; Mem reg_rsp reg_reg_a_offset_offs_].

(** The lambda [ld_loop_body] of [ldb_loop]: the accumulation of one batch
    step, specialized for the padding [vpad]. *)
Definition ld_loop_body (bd_block2' : Z) (is_bdb_tail : bool)
    (ld_block2' : Z) (is_ld_tail : bool) (rows_for_rd_tail : Z) (vpad : Z)
  : gen :=
  set_A_B_matrices ;;
  let bd_block' := if is_bdb_tail then brg.(bdb_tail) else brg.(bd_block) in
  if negb (is_valid_bd bd_block' vpad) then skip
  else
  (if brg.(is_tmm) then
     gemm_microkernel_amx bd_block2' is_bdb_tail ld_block2' false is_ld_tail
   else
     when (brg.(rdb) >? 0)
       (ins "mov" [Gpr reg_rdb_loop; Imm brg.(rdb)] ;;
        loop reg_rdb_loop 0
          (when (brg.(with_grouped_wei_decomp)
                 && (negb (brg.(wei_decomp_scales_stride) =? 0)
                     || negb (brg.(wei_decomp_zero_points_stride) =? 0)))
             grouped_wei_decomp_shift ;;
           gemm_microkernel bd_block2' is_bdb_tail ld_block2' false
             is_ld_tail vpad rows_for_rd_tail ;;
           ins "add" [Gpr reg_aux_A; Imm rdb_A_offset] ;;
           ins "add" [Gpr reg_aux_B; Imm rdb_B_offset]))) ;;
  when (negb (brg.(rdb_tail) =? 0))
    (if brg.(is_tmm) then
       gemm_microkernel_amx bd_block2' is_bdb_tail ld_block2' true is_ld_tail
     else
       gemm_microkernel bd_block2' is_bdb_tail ld_block2' true is_ld_tail
         vpad rows_for_rd_tail).

(** One iteration of the padding loop of [ldb_loop]: [None] when the
    iteration is left by [continue], else the padding the emitted body is
    specialized for ([real_vpad]). *)
Definition vpad_case (is_bdb_tail check_top_vpad check_bottom_vpad : bool)
    (vpad : Z) : option Z :=
  if negb check_top_vpad && (vpad >? 0) then None
  else if negb check_bottom_vpad && (vpad <? 0) then None
  else if check_bottom_vpad && negb (brg.(bdb_tail) =? 0) && (vpad <? 0) then
    if negb is_bdb_tail then
      (* for last full block before bdb_tail && -vpad greater than bdb_tail *)
      if brg.(bdb_tail) <? - vpad then Some (vpad + brg.(bdb_tail)) else None
    else
      (* for block with tail, call ldb_loop() to only calculate
         compensation for padding area when bdb_tail < -vpad for the cases
         using pre-cal compensation *)
      if (brg.(bdb_tail) <? - vpad) && need_comp_pads
         && negb brg.(req_cal_comp_pads)
      then Some (- brg.(bdb_tail))
      else Some vpad
  else Some vpad.

Fixpoint vpad_cases (body : Z -> gen) (case_of : Z -> option Z) (l : list Z)
  : result (list (Z * list code)) :=
  match l with
  | [] => Ok []
  | vpad :: l' =>
      match case_of vpad with
      | None => vpad_cases body case_of l'
      | Some real_vpad =>
          let* b := body real_vpad in
          let* rest := vpad_cases body case_of l' in
          Ok ((vpad, b) :: rest)
      end
  end.

Definition vpad_dispatch (body : Z -> gen)
    (is_bdb_tail check_top_vpad check_bottom_vpad : bool) : gen :=
  let vpad_first := - brg.(brgattr).(max_bottom_vpad) in
  let vpad_last := brg.(brgattr).(max_top_vpad) in
  let n_vpads := vpad_last - vpad_first + 2 in
  let MAX_N_VPADS := 2 * MAX_VPAD in
  assert (n_vpads <? MAX_N_VPADS) "n_vpads < MAX_N_VPADS" ;;
  (if vpad_exist then
     let reg_batch :=
       if type_is brgemm_addr then reg_aux1_batch
       else if type_is brgemm_offs then reg_offs_batch
       else reg_strd_batch in
     when (type_is brgemm_strd)
       (ins "mov" [Gpr reg_strd_batch; Mem reg_rsp origin_strd_batch_offs_]) ;;
     ins "mov" [Gpr reg_aux_A_vpad; BatchElem reg_batch elem_vvpad_top] ;;
     ins "sub" [Gpr reg_aux_A_vpad; BatchElem reg_batch elem_vvpad_bottom]
   else ins "xor_" [Gpr reg_aux_A_vpad; Gpr reg_aux_A_vpad]) ;;
  let* cases :=
    vpad_cases body (vpad_case is_bdb_tail check_top_vpad check_bottom_vpad)
      (range vpad_first (vpad_last + 1)) in
  let* dflt := body 0 in
  Ok [VpadSwitch cases dflt].

(** The code of [ldb_loop] between [zero_accumulators] and
    [store_accumulators]: the batch loop, when the kernel accumulates. *)
Definition ldb_loop_accumulate (bd_block2' : Z) (is_bdb_tail : bool)
    (ld_block2' : Z) (is_ld_tail check_top_vpad check_bottom_vpad : bool)
    (rows_for_rd_tail : Z) (skip_accumulation : bool) : gen :=
  let body := ld_loop_body bd_block2' is_bdb_tail ld_block2' is_ld_tail
                rows_for_rd_tail in
  when (negb (is_zero brg.(alpha)) && negb skip_accumulation)
    (restore_A_B_matrices ;;
     when brg.(is_tmm)
       (ins "mov" [Gpr reg_stride_lda; Imm (brg.(typesize_A) * brg.(LDA))] ;;
        ins "mov"
            [Gpr reg_stride_ldb;
             Imm (brg.(rd_step) * brg.(typesize_B) * brg.(LDB))]) ;;
     when brg.(req_s8s8_compensation)
       (ins "mov" [Mem reg_rsp reg_bdb_loop_offs_; Gpr reg_bdb_loop] ;;
        ins "mov" [Gpr reg_s8_input_shift; Imm 128] ;;
        ins "uni_vpbroadcastb" [Vmm vmm_inp_shift; Gpr8 reg_s8_input_shift] ;;
        ins "mov" [Gpr reg_bdb_loop; Mem reg_rsp reg_bdb_loop_offs_]) ;;
     when (need_comp_pads && negb (eq_none brg.(zp_type_a)))
       (ins "mov" [Mem reg_rsp reg_bdb_loop_offs_; Gpr reg_bdb_loop] ;;
        let reg32_scratch := Gpr32 reg_zp_a_input_shift in
        ins "mov" [reg32_scratch; Imm 16843009 (* 0x1010101 *)] ;;
        ins "uni_vpbroadcastd" [Vmm vmm_one_bytes; reg32_scratch] ;;
        ins "mov" [reg32_scratch; Mem reg_rsp reg_zp_a_val_offs_] ;;
        ins "uni_vpbroadcastd" [Vmm vmm_zp_a_shift; reg32_scratch] ;;
        ins "mov" [Gpr reg_bdb_loop; Mem reg_rsp reg_bdb_loop_offs_]) ;;
     when (brg.(brgattr).(max_bs) >? 1)
       (ins "mov" [Gpr reg_BS_loop; Gpr reg_BS]) ;;
     let BS_body :=
       if check_top_vpad || check_bottom_vpad then
         vpad_dispatch body is_bdb_tail check_top_vpad check_bottom_vpad
       else body 0 in
     if brg.(brgattr).(max_bs) >? 1 then loop reg_BS_loop 0 BS_body
     else BS_body).

Definition ldb_loop (bd_block2' : Z) (is_bdb_tail : bool) (ld_block2' : Z)
    (ldb_loop_length : Z) (is_reg_tail is_ld_tail : bool)
    (check_top_vpad check_bottom_vpad : bool) (rows_for_rd_tail : Z)
    (skip_accumulation : bool) : gen :=
  copy_post_ops_stack_values_to_aux is_reg_tail ;;
  when is_ldb_loop_
    (ins "mov" [Gpr reg_ldb_loop; Imm ldb_loop_length] ;;
     when brg.(is_tmm)
       (ins "mov" [Mem reg_rsp reg_ldb_loop_offs_; Gpr reg_ldb_loop])) ;;
  let body :=
    zero_accumulators bd_block2' is_bdb_tail ld_block2' is_ld_tail
      skip_accumulation ;;
    (if is_ldb_loop_ then ins "mov" [Mem reg_rsp reg_D_offs_; Gpr reg_D]
     else
       ins "mov" [Gpr reg_ldb_loop; Gpr reg_D] ;;
       when brg.(is_tmm)
         (ins "mov" [Mem reg_rsp reg_ldb_loop_offs_; Gpr reg_ldb_loop])) ;;
    when (brg.(brgattr).(max_bs) >? 1)
      (ins "mov" [Mem reg_rsp reg_aux_D_offs_; Gpr reg_aux_D]) ;;
    ldb_loop_accumulate bd_block2' is_bdb_tail ld_block2' is_ld_tail
      check_top_vpad check_bottom_vpad rows_for_rd_tail skip_accumulation ;;
    (if is_ldb_loop_ then ins "mov" [Gpr reg_D; Mem reg_rsp reg_D_offs_]
     else
       when brg.(is_tmm)
         (ins "mov" [Gpr reg_ldb_loop; Mem reg_rsp reg_ldb_loop_offs_]) ;;
       ins "mov" [Gpr reg_D; Gpr reg_ldb_loop]) ;;
    when (brg.(brgattr).(max_bs) >? 1)
      (ins "mov" [Gpr reg_aux_D; Mem reg_rsp reg_aux_D_offs_]) ;;
    store_accumulators bd_block2' is_bdb_tail ld_block2' is_ld_tail
      skip_accumulation ;;
    when is_ldb_loop_
      (when brg.(is_tmm)
         (ins "mov" [Gpr reg_ldb_loop; Mem reg_rsp reg_ldb_loop_offs_]) ;;
       (if negb is_ld_tail then ldb_regs_shift ld_block2' false
        else ldb_regs_shift 1 true) ;;
       when brg.(is_tmm)
         (ins "mov" [Mem reg_rsp reg_ldb_loop_offs_; Gpr reg_ldb_loop])) in
  if is_ldb_loop_ then loop reg_ldb_loop 0 body else body.

End Generator.

(** *** Loop nest: batch-dimension loop and entry point *)

Section Driver.
Context {T : isa_traits} {E : brgemm_externals}.
Variable brg : brgemm_desc_t.
Variable vpad_exist : bool.
Variable need_comp_pads : bool.

(** The reduction-tail bookkeeping at the head of [bdb_loop]. *)
Definition rows_for_rd_tail_of : Z :=
  if brg.(is_tmm) then 0
  else if negb (brg.(rdb_tail) =? 0) && (brg.(is_bf16) || brg.(is_int8)) then
    let rd_tail_size := Z.rem brg.(rdb_tail) brg.(rd_step) in
    if negb (rd_tail_size =? 0)
    then div_up (brg.(rd_step) - rd_tail_size) brg.(reduce_dim)
    else 0
  else 0.

Definition bd_blocks_for_rd_tail_of : Z :=
  if brg.(is_tmm) then 0
  else
    div_up
      (Z.max 0
         (rows_for_rd_tail_of - brg.(bdb_tail)
          + brg.(brgattr).(max_bottom_vpad)))
      brg.(bd_block).

(** The operand-reuse strategy, chosen once per kernel. *)
Definition n_bcast_1_load_of : bool :=
  if brg.(is_tmm) then false
  else
    let ld_block2' :=
      if brg.(ldb2) >? 0 then brg.(ld_block2)
      else if brg.(ldb2_tail) >? 0 then brg.(ldb2_tail) else 1 in
    let free_vregs :=
      max_effective_vregs brg
      - (if brg.(req_s8s8_compensation) then 1 else 0) in
    let by_default :=
      brg.(is_int8)
      && ((brg.(bd_block) * (ld_block2' + 1) <? free_vregs)
          && (bd_blocks_for_rd_tail_of =? 0)
          && (rows_for_rd_tail_of =? 0))
      && negb brg.(with_src_dyn_quant) in
    match brg.(brgattr).(hint_loop_order) with
    | brgemm_lo_default => by_default
    | brgemm_lo_bl_1load => true
    | brgemm_lo_bl_1bcst => false
    end.

Definition do_ldb_loop (bd_block2' : Z) (is_bdb_tail : bool)
    (check_top_vpad check_bottom_vpad : bool) (rows_for_rd_tail : Z)
    (skip_accumulation : bool) : gen :=
  let ldb_loop' :=
    ldb_loop brg n_bcast_1_load_of vpad_exist need_comp_pads in
  when (brg.(ldb2) >? 0)
    (ldb_loop' bd_block2' is_bdb_tail brg.(ld_block2) brg.(ldb2) false false
       check_top_vpad check_bottom_vpad rows_for_rd_tail skip_accumulation) ;;
  when (brg.(ldb2_tail) >? 0)
    (let is_ld_reg_tail := negb (brg.(ldb2) =? 0) in
     ldb_loop' bd_block2' is_bdb_tail brg.(ldb2_tail) 1 is_ld_reg_tail false
       check_top_vpad check_bottom_vpad rows_for_rd_tail skip_accumulation) ;;
  when (brg.(ldb_tail) >? 0)
    (let is_ld_reg_tail :=
       negb ((brg.(ldb2) =? 0) && (brg.(ldb2_tail) =? 0)) in
     ldb_loop' bd_block2' is_bdb_tail 1 1 is_ld_reg_tail true
       check_top_vpad check_bottom_vpad rows_for_rd_tail skip_accumulation).

Definition bdb_loop_body (bd_block2' : Z) (is_bdb_tail : bool)
    (check_top_vpad check_bottom_vpad : bool) (rows_for_rd_tail : Z)
    (skip_accumulation : bool) : gen :=
  do_ldb_loop bd_block2' is_bdb_tail check_top_vpad check_bottom_vpad
    rows_for_rd_tail skip_accumulation ;;
  (if brg.(is_runtime_ldc) then
     ins "mov" [Mem reg_rsp reg_aux_C_bdb_loop_backup_offs_; Gpr reg_C] ;;
     ins "xor_" [Gpr reg_C; Gpr reg_C] ;;
     ins "imul"
         [Gpr reg_C; Mem reg_rsp reg_C_shift_bytes_offs_;
          Imm (bdb_C_offset brg bd_block2')] ;;
     ins "add" [Gpr reg_C; Mem reg_rsp reg_aux_C_bdb_loop_backup_offs_]
   else ins "add" [Gpr reg_C; Imm (bdb_C_offset brg bd_block2')]) ;;
  (if brg.(is_runtime_ldd) then
     ins "mov" [Mem reg_rsp reg_aux_D_bdb_loop_backup_offs_; Gpr reg_D] ;;
     ins "xor_" [Gpr reg_D; Gpr reg_D] ;;
     ins "imul"
         [Gpr reg_D; Mem reg_rsp reg_D_shift_bytes_offs_;
          Imm (bdb_D_offset brg bd_block2')] ;;
     ins "add" [Gpr reg_D; Mem reg_rsp reg_aux_D_bdb_loop_backup_offs_]
   else ins "add" [Gpr reg_D; Imm (bdb_D_offset brg bd_block2')]) ;;
  ins "add" [Gpr reg_a_offset; Imm (bdb_A_offset brg bd_block2')] ;;
  when brg.(with_src_dyn_quant)
    (ins "mov" [Gpr reg_src_scales; Mem reg_rsp reg_src_scales_offs_] ;;
     ins "add"
         [Gpr reg_src_scales;
          Imm (bd_block2' * brg.(bd_block) * brg.(src_scales_stride) * 4)] ;;
     ins "mov" [Mem reg_rsp reg_src_scales_offs_; Gpr reg_src_scales]) ;;
  advance_bd_block2_post_op_regs brg bd_block2'.

(** The part of [bdb_loop_avx512] emitted when virtual padding exists. *)
Definition bdb_loop_avx512_vpad (skip_accumulation : bool) : gen :=
  let rows_for_rd_tail := rows_for_rd_tail_of in
  let bd_blocks_for_rd_tail := bd_blocks_for_rd_tail_of in
  (* max_top_vp is restricted by bd_block due to brgemm_kernel
     implementation *)
  assert ((brg.(brgattr).(max_top_vpad) <=? brg.(bd_block))
          && (brg.(brgattr).(max_bottom_vpad) <=? brg.(bd_block)))
         "max_top_vpad <= bd_block && max_bottom_vpad <= bd_block" ;;
  (* first bd_block *)
  let bdblocks0 := brg.(bdb) in
  when (bdblocks0 >=? 1)
    (bdb_loop_body 1 false true
       (brg.(bcast_dim) - brg.(brgattr).(max_bottom_vpad) <? brg.(bd_block))
       (if brg.(bdb) - bd_blocks_for_rd_tail >? 0 then 0
        else rows_for_rd_tail)
       skip_accumulation) ;;
  let bdblocks1 := if bdblocks0 >=? 1 then bdblocks0 - 1 else bdblocks0 in
  (* middle bd_blocks *)
  when (bdblocks1 >? 1)
    (ins "mov" [Gpr reg_bdb_loop; Imm bdblocks1] ;;
     loop reg_bdb_loop 1
       (bdb_loop_body 1 false false false
          (if bd_blocks_for_rd_tail <=? 1 then 0 else rows_for_rd_tail)
          skip_accumulation)) ;;
  let bdblocks2 := if bdblocks1 >? 1 then 1 else bdblocks1 in
  (* last bd_block *)
  when (bdblocks2 =? 1)
    (bdb_loop_body 1 false false true
       (if bd_blocks_for_rd_tail =? 0 then 0 else rows_for_rd_tail)
       skip_accumulation) ;;
  when (brg.(bdb_tail) >? 0)
    (do_ldb_loop 1 true (brg.(bdb) <? 1) true rows_for_rd_tail
       skip_accumulation).

(** The part of [bdb_loop_avx512] emitted for calls without padding. *)
Definition bdb_loop_avx512_no_vpad (skip_accumulation : bool) : gen :=
  let rows_for_rd_tail := rows_for_rd_tail_of in
  let bd_blocks_for_rd_tail := bd_blocks_for_rd_tail_of in
  let last := if negb (rows_for_rd_tail =? 0) then 1 else 0 in
  when (brg.(bdb) >? 0)
    (ins "mov" [Gpr reg_bdb_loop; Imm brg.(bdb)] ;;
     when (brg.(bdb) >? last)
       (loop reg_bdb_loop last
          (bdb_loop_body 1 false false false
             (if bd_blocks_for_rd_tail <=? 1 then 0 else rows_for_rd_tail)
             skip_accumulation)) ;;
     when (negb (rows_for_rd_tail =? 0))
       (bdb_loop_body 1 false false true
          (if bd_blocks_for_rd_tail =? 0 then 0 else rows_for_rd_tail)
          skip_accumulation)) ;;
  when (brg.(bdb_tail) >? 0)
    (do_ldb_loop 1 true false false rows_for_rd_tail skip_accumulation).

Definition bdb_loop_avx512 (skip_accumulation : bool) : gen :=
  let strd := brgemm_batch_kind_t_beq brg.(type) brgemm_strd in
  if vpad_exist then
    if strd then
      (* if batch is nullptr then it means no vpadding in this call *)
      let* padded := bdb_loop_avx512_vpad skip_accumulation in
      let* plain := bdb_loop_avx512_no_vpad skip_accumulation in
      Ok [IfBatchNull padded plain]
    else bdb_loop_avx512_vpad skip_accumulation
  else bdb_loop_avx512_no_vpad skip_accumulation.

Definition bdb_loop_amx (skip_accumulation : bool) : gen :=
  when (brg.(bd_block2) >=? 1)
    (ins "mov" [Gpr reg_bdb_loop; Imm brg.(bdb2)] ;;
     ins "mov" [Mem reg_rsp reg_bdb_loop_offs_; Gpr reg_bdb_loop] ;;
     loop reg_bdb_loop 0
       (bdb_loop_body brg.(bd_block2) false false false 0 skip_accumulation ;;
        ins "mov" [Gpr reg_bdb_loop; Mem reg_rsp reg_bdb_loop_offs_] ;;
        ins "mov" [Mem reg_rsp reg_bdb_loop_offs_; Gpr reg_bdb_loop])) ;;
  when (brg.(bdb2_tail) >? 0)
    (bdb_loop_body brg.(bdb2_tail) false false false 0 skip_accumulation) ;;
  when (brg.(bdb_tail) >? 0)
    (do_ldb_loop 1 true false false 0 skip_accumulation).

Definition bdb_loop_general (skip_accumulation : bool) : gen :=
  when (brgemm_batch_kind_t_beq brg.(type) brgemm_addr
        && (brg.(brgattr).(max_bs) =? 1) && negb vpad_exist
        && negb skip_accumulation)
    (ins "mov" [Gpr reg_aux1_A; BatchElem reg_addr_batch elem_ptr_A] ;;
     ins "mov" [Gpr reg_aux1_B; BatchElem reg_addr_batch elem_ptr_B]) ;;
  ins "xor_" [Gpr reg_a_offset; Gpr reg_a_offset] ;;
  if brg.(is_tmm) then bdb_loop_amx skip_accumulation
  else bdb_loop_avx512 skip_accumulation.

Definition bdb_loop : gen :=
  if brg.(brgattr).(generate_skip_accumulation) then
    let* accumulate := bdb_loop_general false in
    let* skip_acc := bdb_loop_general true in
    Ok [IfFlagNZ reg_skip_accm_offs_ skip_acc accumulate]
  else bdb_loop_general false.

End Driver.

Section Kernel.
Context {T : isa_traits} {E : brgemm_externals}.
Variable brg : brgemm_desc_t.

Definition vpad_exist_of : bool :=
  (brg.(brgattr).(max_top_vpad) >? 0)
  || (brg.(brgattr).(max_bottom_vpad) >? 0).

Definition need_comp_pads_of : bool :=
  IMPLICATION (eq_none brg.(zp_type_a)) brg.(req_s8s8_compensation)
  && IMPLICATION (negb vpad_exist_of) brg.(req_cal_comp_pads).

Definition has_f8_e5m2_emulator : bool :=
  brg.(is_fp8_via_convert)
  && existsb (data_type.eqb data_type.f8_e5m2)
       [brg.(dt_a); brg.(dt_b); brg.(dt_c); brg.(dt_d)].

Definition has_f8_e4m3_emulator : bool :=
  brg.(is_fp8_via_convert)
  && existsb (data_type.eqb data_type.f8_e4m3)
       [brg.(dt_a); brg.(dt_b); brg.(dt_c); brg.(dt_d)].

(** The assertions of the constructor. *)
Definition construct : gen :=
  (* the implementation uses is_superset(), is_subset() utilities, so
     avoid isa_all, isa_undef in these comparisons *)
  assert (negb (cpu_isa_t_beq brg.(isa_impl) isa_all
                || cpu_isa_t_beq brg.(isa_impl) isa_undef))
         "!utils::one_of(brg.isa_impl, isa_all, isa_undef)" ;;
  when (has_postops_injector_ brg)
    (assert (postops_injector_created brg) "postops_injector creation failed").

Definition generate : gen :=
  let simd := Z.quot vlen 4 in
  call "preamble" [] ;;
  ins "sub" [Gpr reg_rsp; Imm stack_space_needed_] ;;
  when (is_avx512 brg)
    (let full_mask := 18446744073709551615 (* 0xffffffffffffffff *) in
     let tail_mask := Z.shiftl 1 brg.(ldb_tail) - 1 in
     ins "mov" [Gpr reg_mask; Imm full_mask] ;;
     ins "kmovq" [Opmask ld_full_mask; Gpr reg_mask] ;;
     ins "mov" [Gpr reg_mask; Imm tail_mask] ;;
     ins "kmovq" [Opmask ld_tail_mask; Gpr reg_mask]) ;;
  when (brg.(is_int8) && negb brg.(has_int8_vnni))
    (ins "mov" [Gpr16 reg_tmp_gpr; Imm 1] ;;
     ins "vpbroadcastw" [Vmm (int8_ones_words brg); Gpr16 reg_tmp_gpr]) ;;
  read_params brg ;;
  bdb_loop brg vpad_exist_of need_comp_pads_of ;;
  ins "add" [Gpr reg_rsp; Imm stack_space_needed_] ;;
  call "postamble" [] ;;
  ins "align" [Imm 32] ;;
  when (negb (isa_has_masks brg.(isa_impl)) && (brg.(ldb_tail) >? 0))
    (ins "L" [Lbl avx_tail_mask_] ;;
     for_ (range 0 brg.(ldb_tail)) (fun _ => ins "dd" [Imm 4294967295]) ;;
     for_ (range brg.(ldb_tail) simd) (fun _ => ins "dd" [Imm 0])) ;;
  when (negb (is_avx512 brg) && brg.(with_sum)
        && negb (is_one brg.(sum_scale)))
    (ins "L" [Lbl sum_zp_scale_data_] ;;
     for_ (range 0 simd) (fun _ => ins "dd" [ImmF brg.(sum_scale)])) ;;
  when brg.(is_fp8_via_convert)
    (when has_f8_e5m2_emulator
       (call "f8_e5m2_emulator_->prepare_table" []) ;;
     when has_f8_e4m3_emulator
       (call "f8_e4m3_emulator_->prepare_table" [])) ;;
  when brg.(with_eltwise) (call "postops_injector_->prepare_table" []).

(** Kernel construction: the constructor, then the generation pass. *)
Definition create_kernel : gen := construct ;; generate.

End Kernel.

(** ** Lane-level meaning of the instructions of the microkernel

    A vector register is a list of 32-bit lanes.  A lane holds either an
    integer pattern (an unsigned number below 2^32) or a binary32 value,
    kept as the rational it denotes: the conversions and the arithmetic on
    floats are exact here, which they are on the machine for the small
    integers and the table constants this development runs them on. *)

Inductive lane : Type :=
| LInt (z : Z)
| LFlt (q : Q).

Definition wrap32 (z : Z) : Z := z mod 4294967296.

Definition signed32 (z : Z) : Z :=
  let y := wrap32 z in if y <? 2147483648 then y else y - 4294967296.

(** Byte [i] of a lane, unsigned and signed. *)
Definition ubyte (x i : Z) : Z := Z.land (Z.shiftr x (8 * i)) 255.

Definition sbyte (x i : Z) : Z :=
  let b := ubyte x i in if b <? 128 then b else b - 256.

(** 16-bit word [i] of a lane, signed. *)
Definition sword (x i : Z) : Z :=
  let w := Z.land (Z.shiftr x (16 * i)) 65535 in
  if w <? 32768 then w else w - 65536.

Definition sat16 (z : Z) : Z := Z.max (-32768) (Z.min 32767 z).

(** [vpdpbusd]: four products of an unsigned byte of [a] and a signed byte
    of [b], summed into the accumulator without saturation. *)
Definition vpdpbusd_lane (acc a b : Z) : Z :=
  wrap32 (acc + ubyte a 0 * sbyte b 0 + ubyte a 1 * sbyte b 1
          + ubyte a 2 * sbyte b 2 + ubyte a 3 * sbyte b 3).

(** [vpmaddubsw]: adjacent products are added with signed saturation to a
    16-bit word. *)
Definition vpmaddubsw_lane (a b : Z) : Z :=
  let w0 := sat16 (ubyte a 0 * sbyte b 0 + ubyte a 1 * sbyte b 1) in
  let w1 := sat16 (ubyte a 2 * sbyte b 2 + ubyte a 3 * sbyte b 3) in
  (w0 mod 65536) + 65536 * (w1 mod 65536).

(** [vpmaddwd]: the two products of signed words, summed. *)
Definition vpmaddwd_lane (a b : Z) : Z :=
  wrap32 (sword a 0 * sword b 0 + sword a 1 * sword b 1).

Definition vpaddd_lane (a b : Z) : Z := wrap32 (a + b).
Definition vpsubd_lane (a b : Z) : Z := wrap32 (a - b).
Definition vpsrld_lane (a n : Z) : Z := Z.shiftr (wrap32 a) n.
Definition vpslld_lane (a n : Z) : Z := wrap32 (Z.shiftl a n).
Definition vpsrad_lane (a n : Z) : Z := wrap32 (Z.shiftr (signed32 a) n).

Definition vpcmpgtd_lane (a b : Z) : Z :=
  if signed32 a >? signed32 b then 4294967295 else 0.

Definition zx8 (b : Z) : Z := b mod 256.
Definition sx8 (b : Z) : Z :=
  wrap32 (if b mod 256 <? 128 then b mod 256 else b mod 256 - 256).

Definition int_of (l : lane) : Z :=
  match l with LInt z => z | LFlt _ => 0 end.

Definition lift1 (f : Z -> Z) (a : list lane) : list lane :=
  map (fun x => LInt (f (int_of x))) a.

Definition lift2 (f : Z -> Z -> Z) (a b : list lane) : list lane :=
  map (fun xy => LInt (f (int_of (fst xy)) (int_of (snd xy)))) (combine a b).

Fixpoint lift3 (f : Z -> Z -> Z -> Z) (a b c : list lane) : list lane :=
  match a, b, c with
  | x :: a', y :: b', z :: c' =>
      LInt (f (int_of x) (int_of y) (int_of z)) :: lift3 f a' b' c'
  | _, _, _ => []
  end.

(** [vpermd]: lane [i] of the result is the lane of the table selected by
    the low bits of index [i]. *)
Definition vpermd_vec (idx table : list lane) : list lane :=
  map (fun i =>
         nth (Z.to_nat (int_of i mod Z.of_nat (length table))) table (LInt 0))
      idx.

(** [vblendvps]: the sign bit of the mask lane selects the second source. *)
Fixpoint vblendvps_vec (src1 src2 mask : list lane) : list lane :=
  match src1, src2, mask with
  | x :: a', y :: b', m :: c' =>
      (if int_of m >=? 2147483648 then y else x) :: vblendvps_vec a' b' c'
  | _, _, _ => []
  end.

(** [vcvtdq2ps] *)
Definition cvtdq2ps_vec (a : list lane) : list lane :=
  map (fun x => LFlt (inject_Z (signed32 (int_of x)))) a.

Fixpoint evens {A : Type} (l : list A) : list A :=
  match l with
  | x :: _ :: l' => x :: evens l'
  | x :: [] => [x]
  | [] => []
  end.

Definition odds {A : Type} (l : list A) : list A :=
  match l with
  | [] => []
  | _ :: l' => evens l'
  end.

(** The state the microkernel instructions act on: vector registers,
    opmask registers, and the memory behind an address operand, seen as the
    bytes or as the f16 elements a vector load at that address reads. *)
Record vstate : Type := {
  vreg : Z -> list lane;
  kreg : Z -> list bool;
  mem8 : gpr -> Z -> list Z;
  mem16f : gpr -> Z -> list Q
}.

Definition set_vreg (d : Z) (v : list lane) (s : vstate) : vstate := {|
  vreg := fun r => if r =? d then v else s.(vreg) r;
  kreg := s.(kreg);
  mem8 := s.(mem8);
  mem16f := s.(mem16f)
|}.

Fixpoint masked (k : list bool) (zeroing : bool) (new old : list lane)
  : list lane :=
  match k, new, old with
  | b :: k', n :: new', o :: old' =>
      (if b then n else if zeroing then LInt 0 else o)
      :: masked k' zeroing new' old'
  | _, _, _ => []
  end.

(** Writing a destination operand, with zeroing- or merge-masking. *)
Definition write_vec (dst : operand) (v : list lane) (s : vstate)
  : option vstate :=
  match dst with
  | Vmm d => Some (set_vreg d v s)
  | VmmK d k z => Some (set_vreg d (masked (s.(kreg) k) z v (s.(vreg) d)) s)
  | _ => None
  end.

(** Reading a register operand (a mask on a source is ignored). *)
Definition read_vec (src : operand) (s : vstate) : option (list lane) :=
  match src with
  | Vmm r | VmmK r _ _ => Some (s.(vreg) r)
  | _ => None
  end.

Definition nlanes {T : isa_traits} : nat := Z.to_nat (Z.quot vlen 4).

Definition load_mem (ops : list operand)
    (f : gpr -> Z -> list lane) (s : vstate) : option vstate :=
  match ops with
  | [dst; Mem base off] => write_vec dst (f base off) s
  | _ => None
  end.

Definition shift_imm (ops : list operand) (f : Z -> Z -> Z) (s : vstate)
  : option vstate :=
  match ops with
  | [dst; a; Imm n] =>
      match read_vec a s with
      | Some va => write_vec dst (lift1 (fun x => f x n) va) s
      | None => None
      end
  | _ => None
  end.

Definition binop (ops : list operand)
    (f : list lane -> list lane -> list lane) (s : vstate) : option vstate :=
  match ops with
  | [dst; a; b] =>
      match read_vec a s, read_vec b s with
      | Some va, Some vb => write_vec dst (f va vb) s
      | _, _ => None
      end
  | _ => None
  end.

Definition exec_insn {T : isa_traits} (i : insn) (s : vstate)
  : option vstate :=
  match i with
  | Call _ _ => None
  | Ins mn ops =>
      let op := String.eqb mn in
      if op "uni_vpmovzxbd" then
        load_mem ops
          (fun base off =>
             map (fun b => LInt (zx8 b)) (firstn nlanes (s.(mem8) base off))) s
      else if op "uni_vpmovsxbd" then
        load_mem ops
          (fun base off =>
             map (fun b => LInt (sx8 b)) (firstn nlanes (s.(mem8) base off))) s
      else if op "vcvtph2ps" || op "vcvtph2psx" then
        load_mem ops
          (fun base off => map LFlt (firstn nlanes (s.(mem16f) base off))) s
      else if op "vcvtneeph2ps" then
        load_mem ops
          (fun base off =>
             map LFlt (evens (firstn (2 * nlanes) (s.(mem16f) base off)))) s
      else if op "vcvtneoph2ps" then
        load_mem ops
          (fun base off =>
             map LFlt (odds (firstn (2 * nlanes) (s.(mem16f) base off)))) s
      else if op "uni_vpsrld" then shift_imm ops vpsrld_lane s
      else if op "uni_vpslld" then shift_imm ops vpslld_lane s
      else if op "vpsrad" then shift_imm ops vpsrad_lane s
      else if op "uni_vcvtdq2ps" then
        match ops with
        | [dst; a] =>
            match read_vec a s with
            | Some va => write_vec dst (cvtdq2ps_vec va) s
            | None => None
            end
        | _ => None
        end
      else if op "vpdpbusd" then
        match ops with
        | [Vmm d; a; b; Encoding _] =>
            match read_vec a s, read_vec b s with
            | Some va, Some vb =>
                Some (set_vreg d (lift3 vpdpbusd_lane (s.(vreg) d) va vb) s)
            | _, _ => None
            end
        | _ => None
        end
      else if op "vblendvps" then
        match ops with
        | [dst; a; b; m] =>
            match read_vec a s, read_vec b s, read_vec m s with
            | Some va, Some vb, Some vm =>
                write_vec dst (vblendvps_vec va vb vm) s
            | _, _, _ => None
            end
        | _ => None
        end
      else if op "vpmaddubsw" then binop ops (lift2 vpmaddubsw_lane) s
      else if op "vpmaddwd" then binop ops (lift2 vpmaddwd_lane) s
      else if op "vpaddd" then binop ops (lift2 vpaddd_lane) s
      else if op "vpsubd" then binop ops (lift2 vpsubd_lane) s
      else if op "vpcmpgtd" then binop ops (lift2 vpcmpgtd_lane) s
      else if op "vpermd" then binop ops vpermd_vec s
      else if op "uni_vpxor" then binop ops (lift2 Z.lxor) s
      else None
  end.

(** Straight-line execution of emitted code. *)
Fixpoint exec {T : isa_traits} (c : list code) (s : vstate) : option vstate :=
  match c with
  | [] => Some s
  | I i :: c' =>
      match exec_insn i s with
      | Some s' => exec c' s'
      | None => None
      end
  | _ :: _ => None
  end.

Definition exec_gen {T : isa_traits} (g : gen) (s : vstate) : option vstate :=
  match g with
  | Ok c => exec c s
  | Abort _ => None
  end.

(** *** Packed 4-bit weights *)

(** The table [lookup] of the nf4 decode (the codebook). *)
Definition lookup : list Q := [
  (-1)%Q;
  (-0.6961928009986877)%Q;
  (-0.5250730514526367)%Q;
  (-0.39491748809814453)%Q;
  (-0.28444138169288635)%Q;
  (-0.18477343022823334)%Q;
  (-0.09105003625154495)%Q;
  0%Q;
  0.07958029955625534%Q;
  0.16093020141124725%Q;
  0.24611230194568634%Q;
  0.33791524171829224%Q;
  0.44070982933044434%Q;
  0.5626170039176941%Q;
  0.7229568362236023%Q;
  1%Q ].

Definition mask8 : list Z := repeat 8 16.
Definition mask7 : list Z := repeat 7 16.

(** Two codes share a byte: the one of the even reduction index is in the
    high nibble. *)
Definition pack_nibbles (even odd : Z) : Z := 16 * even + odd.

(** The value a 4-bit code stands for. *)
Definition u4_value (c : Z) : Q := inject_Z c.
Definition s4_value (c : Z) : Q := inject_Z (if c <? 8 then c else c - 16).
Definition nf4_value (c : Z) : Q := nth (Z.to_nat c) lookup 0%Q.

(** Re-encoding: the code of a decoded value. *)
Definition Q_to_Z (q : Q) : Z := Z.quot (Qnum q) (Z.pos (Qden q)).

Definition u4_encode (q : Q) : Z := Q_to_Z q.
Definition s4_encode (q : Q) : Z := Q_to_Z q mod 16.

Fixpoint index_of (q : Q) (l : list Q) (i : Z) : option Z :=
  match l with
  | [] => None
  | x :: l' => if Qeq_bool x q then Some i else index_of q l' (i + 1)
  end.

Definition nf4_encode (q : Q) : option Z := index_of q lookup 0.

(** ** Vocabulary of the properties *)

(** The content of register [v] after running generated straight-line
    code. *)
Definition lane_result {T : isa_traits} (v : Z) (g : gen) (s : vstate)
  : option (list lane) :=
  match exec_gen g s with
  | Some s' => Some (s'.(vreg) v)
  | None => None
  end.

(** Both adjacent pairs of byte products of a lane fit a signed 16-bit
    word. *)
Definition fits_int16 (a b : Z) : Prop :=
  -32768 <= ubyte a 0 * sbyte b 0 + ubyte a 1 * sbyte b 1 <= 32767
  /\ -32768 <= ubyte a 2 * sbyte b 2 + ubyte a 3 * sbyte b 3 <= 32767.

Definition lanes_fit_int16 (va vb : list lane) : Prop :=
  Forall (fun xy => fits_int16 (int_of (fst xy)) (int_of (snd xy)))
         (combine va vb).

(** The descriptor takes the u8 x s8 branch of [dot_product]. *)
Definition int8_unsigned_path {T : isa_traits} (brg : brgemm_desc_t) : bool :=
  negb brg.(is_f32) && negb brg.(is_f16) && negb brg.(is_bf16)
  && brg.(is_int8)
  && negb (data_type.eqb brg.(dt_a) data_type.s8
           && isa_has_s8s8 brg.(isa_impl)).

(** A register file with [n] lanes per register and every lane of
    register [r] equal to [x r]. *)
Definition splat_state (n : nat) (x : Z -> Z) : vstate := {|
  vreg := fun r => repeat (LInt (x r)) n;
  kreg := fun _ => repeat true n;
  mem8 := fun _ _ => [];
  mem16f := fun _ _ => []
|}.

(** The code a byte of packed weights holds for reduction index [rd]. *)
Definition nibble_at (rd b : Z) : Z :=
  if Z.rem rd 2 =? 0 then b / 16 else b mod 16.

Definition is_4bit (dt : data_type_t) : bool :=
  one_of dt [data_type.u4; data_type.s4; data_type.nf4].

(** The codebook value of a 4-bit code, and the code of a value. *)
Definition code_value (dt : data_type_t) (c : Z) : Q :=
  match dt with
  | data_type.u4 => u4_value c
  | data_type.s4 => s4_value c
  | data_type.nf4 => nf4_value c
  | _ => 0%Q
  end.

Definition code_encode (dt : data_type_t) (q : Q) : option Z :=
  match dt with
  | data_type.u4 => Some (u4_encode q)
  | data_type.s4 => Some (s4_encode q)
  | data_type.nf4 => nf4_encode q
  | _ => None
  end.

(** The registers the weights-decompression body loads before its
    reduction loop hold the nf4 tables, one vector load each: on avx2 the
    two halves of [lookup] and the constants 7 and 8, in registers of 8
    lanes, elsewhere the whole of [lookup], in a register of 16 lanes. *)
Definition nf4_tables_loaded {T : isa_traits} (brg : brgemm_desc_t)
    (s : vstate) : Prop :=
  let nv := isa_num_vregs brg.(isa_impl) in
  if cpu_isa_t_beq brg.(isa_impl) avx2 then
    nlanes = 8%nat
    /\ s.(vreg) (nv - 3) = map LFlt (firstn nlanes lookup)
    /\ s.(vreg) (nv - 4) = map LFlt (firstn nlanes (skipn 8 lookup))
    /\ s.(vreg) (nv - 1) = map LInt (firstn nlanes mask8)
    /\ s.(vreg) (nv - 2) = map LInt (firstn nlanes mask7)
  else
    nlanes = 16%nat
    /\ s.(vreg) (nv - 1) = map LFlt (firstn nlanes lookup).

(** The decode of one block of packed weights, with the registers
    [gemm_microkernel_wei_decomp] passes. *)
Definition decode_packed {T : isa_traits} (brg : brgemm_desc_t) (vl off rd : Z)
  : gen :=
  let nv := isa_num_vregs brg.(isa_impl) in
  decode_B brg false (Vmm vl) (Mem reg_aux_B off) rd
    (nv - 2) (nv - 1) (nv - 1) (nv - 3) (nv - 4).

(** ** Walking the emitted code *)

(** Every node of a piece of code: the node itself, then the nodes of
    all its branches and bodies. *)
Fixpoint nodes (c : code) : list code :=
  c ::
  match c with
  | I _ => []
  | IfFlagNZ _ nz z => flat_map nodes nz ++ flat_map nodes z
  | IfBatchNull nonnull null => flat_map nodes nonnull ++ flat_map nodes null
  | Loop _ _ body => flat_map nodes body
  | VpadSwitch cases default =>
      flat_map (fun c => flat_map nodes (snd c)) cases
      ++ flat_map nodes default
  | PostOps _ _ sum_injector => flat_map nodes sum_injector
  end.

Definition all_nodes (c : list code) : list code := flat_map nodes c.

(** The instructions, on all paths. *)
Definition insns (c : list code) : list insn :=
  flat_map (fun n => match n with I i => [i] | _ => [] end) (all_nodes c).

(** The stack slots of the runtime flags the code branches on. *)
Definition flag_slots (c : list code) : list Z :=
  flat_map (fun n => match n with IfFlagNZ slot _ _ => [slot] | _ => [] end)
           (all_nodes c).

(** [P] holds of every node of the code that [g] generates. *)
Definition holds (P : code -> Prop) (g : gen) : Prop :=
  match g with
  | Ok c => Forall P (all_nodes c)
  | Abort _ => True
  end.

(** A property of instructions, as a property of nodes. *)
Definition on_insn (P : insn -> Prop) (c : code) : Prop :=
  match c with
  | I i => P i
  | _ => True
  end.

(** The code of a generation that succeeds. *)
Definition code_of (g : gen) : list code :=
  match g with
  | Ok c => c
  | Abort _ => []
  end.

(** Every code that [g] generates ends with [s]. *)
Definition ends_with (s : list code) (g : gen) : Prop :=
  forall c, g = Ok c -> exists pre, c = pre ++ s.

(** Every code that [g] generates has the instruction [i]. *)
Definition emits (i : insn) (g : gen) : Prop :=
  forall c, g = Ok c -> In i (insns c).

(** The stack slots that hold the runtime flags of an invocation:
    [do_post_ops], [do_apply_comp] and [skip_accm], as [read_params] stores
    them. *)
Definition runtime_flag_slots : list Z :=
  [reg_do_post_ops_offs_; reg_do_comp_offs_; reg_skip_accm_offs_].

Definition branches_on_runtime_flag (c : code) : Prop :=
  match c with
  | IfFlagNZ slot _ _ => In slot runtime_flag_slots
  | _ => True
  end.

(** The code copies the field [f] of the parameter block to the stack
    slot [slot]. *)
Definition stores_param (f : param_field) (slot : Z) (c : list code)
  : Prop :=
  exists r,
    In (Ins "mov" [Gpr r; Param f]) (insns c)
    /\ In (Ins "mov" [Mem reg_rsp slot; Gpr r]) (insns c).

(** ** Access to the matrices A and B

    The microkernel addresses A and B through [reg_aux_A] and
    [reg_aux_B], which [set_A_B_matrices] loads in every batch step. *)
Definition is_matrix_pointer (r : gpr) : bool :=
  match r with
  | reg_aux_A | reg_aux_B => true
  | _ => false
  end.

Definition reads_matrix (o : operand) : bool :=
  match o with
  | Mem base _ | MemB base _ | MemK base _ _ _ | MemR base _ _ =>
      is_matrix_pointer base
  | _ => false
  end.

Definition operands (i : insn) : list operand :=
  match i with
  | Ins _ ops => ops
  | Call _ args => args
  end.

Definition no_A_B_load (i : insn) : Prop :=
  existsb reads_matrix (operands i) = false.

(** A move between general purpose registers and stack slots. *)
Definition gpr_or_stack (o : operand) : bool :=
  match o with
  | Gpr _ => true
  | Mem reg_rsp _ => true
  | _ => false
  end.

Definition moves_gpr (c : code) : bool :=
  match c with
  | I (Ins m [dst; src]) =>
      String.eqb m "mov" && gpr_or_stack dst && gpr_or_stack src
  | _ => false
  end.

(** Every lane of the register is the integer zero. *)
Definition zero_reg (s : vstate) (r : Z) : Prop :=
  Forall (eq (LInt 0)) (s.(vreg) r).

(** Zeroing loops: every register the loop clears is zero afterwards, and
    so is every register that was zero before. *)
Definition zeroing {T' : isa_traits} (g : gen) (written : Z -> Prop) : Prop :=
  forall s, exists s',
    exec_gen g s = Some s'
    /\ forall r, written r \/ zero_reg s r -> zero_reg s' r.

(** ** The code one invocation runs

    The values of the runtime flags of an invocation, and the code left
    when every branch on a flag is decided by them. *)
Record runtime_flags : Type := {
  do_post_ops_value : bool;
  do_apply_comp_value : bool;
  skip_accm_value : bool
}.

Definition flag_value (f : runtime_flags) (slot : Z) : bool :=
  if slot =? reg_do_post_ops_offs_ then f.(do_post_ops_value)
  else if slot =? reg_do_comp_offs_ then f.(do_apply_comp_value)
  else if slot =? reg_skip_accm_offs_ then f.(skip_accm_value)
  else false.

Fixpoint resolve (f : runtime_flags) (c : code) : list code :=
  match c with
  | I i => [I i]
  | IfFlagNZ slot nz z =>
      if flag_value f slot then flat_map (resolve f) nz
      else flat_map (resolve f) z
  | IfBatchNull nonnull null =>
      [IfBatchNull (flat_map (resolve f) nonnull) (flat_map (resolve f) null)]
  | Loop cnt bound body => [Loop cnt bound (flat_map (resolve f) body)]
  | VpadSwitch cases default =>
      [VpadSwitch
         (map (fun c => (fst c, flat_map (resolve f) (snd c))) cases)
         (flat_map (resolve f) default)]
  | PostOps first last sum_injector =>
      [PostOps first last (flat_map (resolve f) sum_injector)]
  end.

Definition resolve_all (f : runtime_flags) (c : list code) : list code :=
  flat_map (resolve f) c.

(** A node that is a single instruction. *)
Definition is_insn (c : code) : Prop :=
  match c with
  | I _ => True
  | _ => False
  end.

(** An instruction other than the helpers that clamp to the bounds of a
    data type. *)
Definition no_saturation (i : insn) : Prop :=
  match i with
  | Call h _ =>
      (String.eqb h "init_saturate_f32" || String.eqb h "saturate_cvt_f32")
      = false
  | Ins _ _ => True
  end.

(** The saturation of [store_accumulators_without_post_ops] is emitted. *)
Definition saturates_without_post_ops (brg : brgemm_desc_t) : bool :=
  brg.(is_int8)
  && negb (IMPLICATION (alpha_or_beta_applicable brg) (beta_uses_vadd brg)).

(** ** Accumulator cells

    The instructions of [dot_product] that add into their first operand,
    and the registers of the cells of one block: rows [bd_b, bd_e) and
    columns [0, ld_block2'). *)
Definition accumulates (i : insn) : bool :=
  match i with
  | Ins m _ =>
      existsb (String.eqb m)
        ["uni_vfmadd231ps"; "vdpbf16ps"; "vpdpbssd"; "vpdpbusd"; "vpaddd"]
  | Call _ _ => false
  end.

Definition dest (i : insn) : option operand :=
  match i with
  | Ins _ (d :: _) => Some d
  | _ => None
  end.

Definition is_cell {T : isa_traits} (brg : brgemm_desc_t)
    (ld_block2' bd_b bd_e : Z) (o : operand) : Prop :=
  exists bd ld,
    bd_b <= bd < bd_e /\ 0 <= ld < ld_block2'
    /\ o = Vmm (accm brg ld_block2' bd ld).

Definition accumulates_in_cells {T : isa_traits} (brg : brgemm_desc_t)
    (ld_block2' bd_b bd_e : Z) (i : insn) : Prop :=
  accumulates i = true ->
  exists d, dest i = Some d /\ is_cell brg ld_block2' bd_b bd_e d.

(** The microkernel takes one of its two default bodies. *)
Definition default_body (brg : brgemm_desc_t) (n_bcast_1_load : bool) : bool :=
  negb brg.(with_src_dyn_quant)
  && (n_bcast_1_load || negb brg.(with_wei_decomp)).

(** The microkernel computes compensation for the padding [vpad]. *)
Definition pads_compensated (brg : brgemm_desc_t) (vpad : Z) : bool :=
  brg.(req_cal_comp_pads)
  || (negb (vpad =? 0)
      && (brg.(req_s8s8_compensation) || negb (eq_none brg.(zp_type_a)))).

(** Every operand of the instruction is the register of a cell. *)
Definition clears_cell {T : isa_traits} (brg : brgemm_desc_t)
    (ld_block2' bd_b bd_e : Z) (i : insn) : Prop :=
  exists bd ld,
    bd_b <= bd < bd_e /\ 0 <= ld < ld_block2'
    /\ i = Ins "uni_vpxor"
             [Vmm (accm brg ld_block2' bd ld);
              Vmm (accm brg ld_block2' bd ld);
              Vmm (accm brg ld_block2' bd ld)].

(** The instruction writes to the matrix C. *)
Definition stores_to_C (i : insn) : bool :=
  match dest i with
  | Some (Mem reg_aux_C _) | Some (MemK reg_aux_C _ _ _) => true
  | _ => false
  end.

(** A store to C writes, at the offset of a cell, the register of that
    cell. *)
Definition stores_cell {T : isa_traits} (brg : brgemm_desc_t)
    (ld_block2' bd_b bd_e : Z) (i : insn) : Prop :=
  stores_to_C i = true ->
  exists bd ld m rest,
    bd_b <= bd < bd_e /\ 0 <= ld < ld_block2'
    /\ i = Ins m rest
    /\ (dest i = Some (Mem reg_aux_C (C_offset brg bd ld))
        \/ dest i = Some (MemK reg_aux_C (C_offset brg bd ld) ld_tail_mask
                            true))
    /\ last rest (Imm 0) = Vmm (accm brg ld_block2' bd ld).

(** The keys of every padding dispatch of the code. *)
Definition dispatch_keys (c : list code) : list (list Z) :=
  flat_map (fun n => match n with
                     | VpadSwitch cases _ => [map fst cases]
                     | _ => []
                     end)
           (all_nodes c).

(** The padding loop emits a case for the amount [p]. *)
Definition dispatched (case_of : Z -> option Z) (p : Z) : bool :=
  match case_of p with
  | Some _ => true
  | None => false
  end.

(** ** Concrete platforms and descriptors

    The instruction-set queries as oneDNN's [cpu_isa_traits.hpp] answers
    them for the ISAs named here, for a kernel instantiated on 256-bit
    ([Ymm]) and on 512-bit ([Zmm]) registers.  They instantiate the
    parameters of the development in the closed examples. *)

Definition is_avx512_isa (i : cpu_isa_t) : bool :=
  match i with
  | avx512_core | avx512_core_vnni | avx512_core_bf16 | avx512_core_fp16
  | avx512_core_amx | avx512_core_amx_fp16 => true
  | _ => false
  end.

Definition x64_is_superset (i j : cpu_isa_t) : bool :=
  match j with
  | avx512_core => is_avx512_isa i
  | avx2 =>
      match i with
      | isa_undef | isa_all => false
      | _ => true
      end
  | _ => cpu_isa_t_beq i j
  end.

Definition x64_isa_has_s8s8 (i : cpu_isa_t) : bool :=
  match i with
  | avx2_vnni_2 | avx512_core_amx | avx512_core_amx_fp16 => true
  | _ => false
  end.

Definition ymm_traits : isa_traits := {|
  isa_num_vregs := fun i => if is_avx512_isa i then 32 else 16;
  is_superset := x64_is_superset;
  isa_has_masks := is_avx512_isa;
  isa_has_s8s8 := x64_isa_has_s8s8;
  vlen := 32
|}.

Definition zmm_traits : isa_traits := {|
  isa_num_vregs := fun i => if is_avx512_isa i then 32 else 16;
  is_superset := x64_is_superset;
  isa_has_masks := is_avx512_isa;
  isa_has_s8s8 := x64_isa_has_s8s8;
  vlen := 64
|}.

Definition example_externals : brgemm_externals := {|
  get_A_tensor := fun _ m _ => 4 + m;
  get_B_tensor := fun _ n _ => 6 + n;
  get_C_tensor := fun _ m n _ _ => 2 * m + n;
  get_num_C_tiles := fun _ => 4;
  per_core_cache_size := 2097152;
  postops_injector_created := fun _ => true;
  any_binary_postop_rhs_non_scalar_broadcast := fun _ => false;
  vnni_granularity_f16 := 2;
  sizeof_batch_element := 48;
  MAX_VPAD := 100
|}.


(** Attributes with the batch size bound, the padding bounds and the
    skip-accumulation switch given, the rest as the default constructor
    leaves them. *)
Definition example_attr (bs top bottom : Z) (skip_accumulation : bool)
  : brgemm_attr_t := {|
  max_bs := bs;
  max_top_vpad := top;
  max_bottom_vpad := bottom;
  hint_expected_A_size := 2097152;
  hint_expected_B_size := 2097152;
  hint_expected_C_size := 2097152;
  hint_loop_order := brgemm_lo_default;
  wary_tail_read := true;
  generate_skip_accumulation := skip_accumulation;
  use_interleave_stores := false
|}.

(** u8 x s8 -> s32 on avx2, which has no VNNI: 2 x 8 block, 16 reduction steps. *)
Definition brg_int8_avx2 : brgemm_desc_t := {|
  isa_impl := avx2; type := brgemm_addr; layout := brgemm_row_major;
  brgattr := brgemm_attr_default 2097152; is_tmm := false; is_int8 := true;
  is_bf16 := false; is_f16 := false; is_f32 := false; is_fp8 := false;
  is_bf16_emu := false; has_int8_vnni := false; is_fp8_via_convert := false;
  is_input_convert := false; dt_a := data_type.u8; dt_b := data_type.s8;
  dt_c := data_type.s32; dt_d := data_type.s32; dt_bias := data_type.f32;
  sum_dt := data_type.f32; typesize_A := 1; typesize_B := 1; typesize_C := 4;
  typesize_D := 4; typesize_bias := 4; LDA := 16; LDB := 8; LDC := 8;
  LDD := 8; is_runtime_ldc := false; is_runtime_ldd := false; stride_a := 0;
  stride_b := 0; alpha := 1%Q; beta := 0%Q; sum_scale := 1%Q; sum_zp := 0;
  bcast_dim := 2; reduce_dim := 16; bd_block := 2; ld_block := 8;
  rd_block := 16; bd_block2 := 1; ld_block2 := 1; bdb := 1; bdb_tail := 0;
  bdb2 := 0; bdb2_tail := 0; ldb2 := 1; ldb2_tail := 0; ldb_tail := 0;
  rdb := 1; rdb_tail := 0; rd_step := 4; ld_step := 4; is_M_tail := false;
  embd_bcst := false; innermost_loop := brgemm_innermost_undef;
  with_bias := false; with_scales := false; with_eltwise := false;
  with_binary := false; with_sum := false; with_dst_scales := false;
  is_oc_scale := 0; zp_type_a := brgemm_broadcast.none;
  zp_type_b := brgemm_broadcast.none; zp_type_c := brgemm_broadcast.none;
  req_s8s8_compensation := false; req_cal_comp_pads := false;
  req_comp_pads_with_bcast := false; with_wei_decomp := false;
  with_wei_decomp_scales := false; with_wei_decomp_zero_points := false;
  with_grouped_wei_decomp := false; with_src_dyn_quant := false;
  wei_decomp_scales_stride := 0; wei_decomp_zero_points_stride := 0;
  wei_decomp_scales_group_size := 0; wei_decomp_zero_points_group_size := 0;
  wei_decomp_zero_points_dt := data_type.undef; src_scales_stride := 0;
  src_scales_group_size := 0
|}.

(** The same problem on avx2_vnni. *)
Definition brg_int8_avx2_vnni : brgemm_desc_t := {|
  isa_impl := avx2_vnni; type := brgemm_addr; layout := brgemm_row_major;
  brgattr := brgemm_attr_default 2097152; is_tmm := false; is_int8 := true;
  is_bf16 := false; is_f16 := false; is_f32 := false; is_fp8 := false;
  is_bf16_emu := false; has_int8_vnni := true; is_fp8_via_convert := false;
  is_input_convert := false; dt_a := data_type.u8; dt_b := data_type.s8;
  dt_c := data_type.s32; dt_d := data_type.s32; dt_bias := data_type.f32;
  sum_dt := data_type.f32; typesize_A := 1; typesize_B := 1; typesize_C := 4;
  typesize_D := 4; typesize_bias := 4; LDA := 16; LDB := 8; LDC := 8;
  LDD := 8; is_runtime_ldc := false; is_runtime_ldd := false; stride_a := 0;
  stride_b := 0; alpha := 1%Q; beta := 0%Q; sum_scale := 1%Q; sum_zp := 0;
  bcast_dim := 2; reduce_dim := 16; bd_block := 2; ld_block := 8;
  rd_block := 16; bd_block2 := 1; ld_block2 := 1; bdb := 1; bdb_tail := 0;
  bdb2 := 0; bdb2_tail := 0; ldb2 := 1; ldb2_tail := 0; ldb_tail := 0;
  rdb := 1; rdb_tail := 0; rd_step := 4; ld_step := 4; is_M_tail := false;
  embd_bcst := false; innermost_loop := brgemm_innermost_undef;
  with_bias := false; with_scales := false; with_eltwise := false;
  with_binary := false; with_sum := false; with_dst_scales := false;
  is_oc_scale := 0; zp_type_a := brgemm_broadcast.none;
  zp_type_b := brgemm_broadcast.none; zp_type_c := brgemm_broadcast.none;
  req_s8s8_compensation := false; req_cal_comp_pads := false;
  req_comp_pads_with_bcast := false; with_wei_decomp := false;
  with_wei_decomp_scales := false; with_wei_decomp_zero_points := false;
  with_grouped_wei_decomp := false; with_src_dyn_quant := false;
  wei_decomp_scales_stride := 0; wei_decomp_zero_points_stride := 0;
  wei_decomp_scales_group_size := 0; wei_decomp_zero_points_group_size := 0;
  wei_decomp_zero_points_dt := data_type.undef; src_scales_stride := 0;
  src_scales_group_size := 0
|}.

(** f32 activations with nf4-packed weights on avx2: 2 x 8 block. *)
Definition brg_nf4_avx2 : brgemm_desc_t := {|
  isa_impl := avx2; type := brgemm_addr; layout := brgemm_row_major;
  brgattr := brgemm_attr_default 2097152; is_tmm := false; is_int8 := false;
  is_bf16 := false; is_f16 := false; is_f32 := true; is_fp8 := false;
  is_bf16_emu := false; has_int8_vnni := false; is_fp8_via_convert := false;
  is_input_convert := false; dt_a := data_type.f32; dt_b := data_type.nf4;
  dt_c := data_type.f32; dt_d := data_type.f32; dt_bias := data_type.f32;
  sum_dt := data_type.f32; typesize_A := 4; typesize_B := 4; typesize_C := 4;
  typesize_D := 4; typesize_bias := 4; LDA := 4; LDB := 8; LDC := 8;
  LDD := 8; is_runtime_ldc := false; is_runtime_ldd := false; stride_a := 0;
  stride_b := 0; alpha := 1%Q; beta := 0%Q; sum_scale := 1%Q; sum_zp := 0;
  bcast_dim := 2; reduce_dim := 4; bd_block := 2; ld_block := 8;
  rd_block := 4; bd_block2 := 1; ld_block2 := 1; bdb := 1; bdb_tail := 0;
  bdb2 := 0; bdb2_tail := 0; ldb2 := 1; ldb2_tail := 0; ldb_tail := 0;
  rdb := 1; rdb_tail := 0; rd_step := 1; ld_step := 1; is_M_tail := false;
  embd_bcst := false; innermost_loop := brgemm_innermost_undef;
  with_bias := false; with_scales := false; with_eltwise := false;
  with_binary := false; with_sum := false; with_dst_scales := false;
  is_oc_scale := 0; zp_type_a := brgemm_broadcast.none;
  zp_type_b := brgemm_broadcast.none; zp_type_c := brgemm_broadcast.none;
  req_s8s8_compensation := false; req_cal_comp_pads := false;
  req_comp_pads_with_bcast := false; with_wei_decomp := true;
  with_wei_decomp_scales := false; with_wei_decomp_zero_points := false;
  with_grouped_wei_decomp := false; with_src_dyn_quant := false;
  wei_decomp_scales_stride := 0; wei_decomp_zero_points_stride := 0;
  wei_decomp_scales_group_size := 0; wei_decomp_zero_points_group_size := 0;
  wei_decomp_zero_points_dt := data_type.undef; src_scales_stride := 0;
  src_scales_group_size := 0
|}.

(** A register file for [brg_nf4_avx2] after the prologue of the
    weights-decompression body, and two bytes of packed weights behind
    [reg_aux_B]. *)
Definition nf4_state : vstate := {|
  vreg := fun r =>
    if r =? 13 then map LFlt (firstn 8 lookup)
    else if r =? 12 then map LFlt (skipn 8 lookup)
    else if r =? 15 then repeat (LInt 8) 8
    else if r =? 14 then repeat (LInt 7) 8
    else repeat (LInt 0) 8;
  kreg := fun _ => repeat true 8;
  mem8 := fun _ _ => [pack_nibbles 3 12; pack_nibbles 15 0];
  mem16f := fun _ _ => []
|}.

(** f32 on avx512_core, 4 x 16 block, generated with the skip-accumulation path. *)
Definition brg_f32_skip_accumulation : brgemm_desc_t := {|
  isa_impl := avx512_core; type := brgemm_addr; layout := brgemm_row_major;
  brgattr := example_attr 16 0 0 true; is_tmm := false; is_int8 := false;
  is_bf16 := false; is_f16 := false; is_f32 := true; is_fp8 := false;
  is_bf16_emu := false; has_int8_vnni := false; is_fp8_via_convert := false;
  is_input_convert := false; dt_a := data_type.f32; dt_b := data_type.f32;
  dt_c := data_type.f32; dt_d := data_type.f32; dt_bias := data_type.f32;
  sum_dt := data_type.f32; typesize_A := 4; typesize_B := 4; typesize_C := 4;
  typesize_D := 4; typesize_bias := 4; LDA := 4; LDB := 16; LDC := 16;
  LDD := 16; is_runtime_ldc := false; is_runtime_ldd := false; stride_a := 0;
  stride_b := 0; alpha := 1%Q; beta := 0%Q; sum_scale := 1%Q; sum_zp := 0;
  bcast_dim := 4; reduce_dim := 4; bd_block := 4; ld_block := 16;
  rd_block := 4; bd_block2 := 1; ld_block2 := 1; bdb := 1; bdb_tail := 0;
  bdb2 := 0; bdb2_tail := 0; ldb2 := 1; ldb2_tail := 0; ldb_tail := 0;
  rdb := 1; rdb_tail := 0; rd_step := 1; ld_step := 1; is_M_tail := false;
  embd_bcst := false; innermost_loop := brgemm_innermost_undef;
  with_bias := false; with_scales := false; with_eltwise := false;
  with_binary := false; with_sum := false; with_dst_scales := false;
  is_oc_scale := 0; zp_type_a := brgemm_broadcast.none;
  zp_type_b := brgemm_broadcast.none; zp_type_c := brgemm_broadcast.none;
  req_s8s8_compensation := false; req_cal_comp_pads := false;
  req_comp_pads_with_bcast := false; with_wei_decomp := false;
  with_wei_decomp_scales := false; with_wei_decomp_zero_points := false;
  with_grouped_wei_decomp := false; with_src_dyn_quant := false;
  wei_decomp_scales_stride := 0; wei_decomp_zero_points_stride := 0;
  wei_decomp_scales_group_size := 0; wei_decomp_zero_points_group_size := 0;
  wei_decomp_zero_points_dt := data_type.undef; src_scales_stride := 0;
  src_scales_group_size := 0
|}.

(** f32 on avx512_core, 4 x 16 block, with alpha = 0 and beta = 1. *)
Definition brg_f32_alpha_zero : brgemm_desc_t := {|
  isa_impl := avx512_core; type := brgemm_addr; layout := brgemm_row_major;
  brgattr := example_attr 16 0 0 false; is_tmm := false; is_int8 := false;
  is_bf16 := false; is_f16 := false; is_f32 := true; is_fp8 := false;
  is_bf16_emu := false; has_int8_vnni := false; is_fp8_via_convert := false;
  is_input_convert := false; dt_a := data_type.f32; dt_b := data_type.f32;
  dt_c := data_type.f32; dt_d := data_type.f32; dt_bias := data_type.f32;
  sum_dt := data_type.f32; typesize_A := 4; typesize_B := 4; typesize_C := 4;
  typesize_D := 4; typesize_bias := 4; LDA := 4; LDB := 16; LDC := 16;
  LDD := 16; is_runtime_ldc := false; is_runtime_ldd := false; stride_a := 0;
  stride_b := 0; alpha := 0%Q; beta := 1%Q; sum_scale := 1%Q; sum_zp := 0;
  bcast_dim := 4; reduce_dim := 4; bd_block := 4; ld_block := 16;
  rd_block := 4; bd_block2 := 1; ld_block2 := 1; bdb := 1; bdb_tail := 0;
  bdb2 := 0; bdb2_tail := 0; ldb2 := 1; ldb2_tail := 0; ldb_tail := 0;
  rdb := 1; rdb_tail := 0; rd_step := 1; ld_step := 1; is_M_tail := false;
  embd_bcst := false; innermost_loop := brgemm_innermost_undef;
  with_bias := false; with_scales := false; with_eltwise := false;
  with_binary := false; with_sum := false; with_dst_scales := false;
  is_oc_scale := 0; zp_type_a := brgemm_broadcast.none;
  zp_type_b := brgemm_broadcast.none; zp_type_c := brgemm_broadcast.none;
  req_s8s8_compensation := false; req_cal_comp_pads := false;
  req_comp_pads_with_bcast := false; with_wei_decomp := false;
  with_wei_decomp_scales := false; with_wei_decomp_zero_points := false;
  with_grouped_wei_decomp := false; with_src_dyn_quant := false;
  wei_decomp_scales_stride := 0; wei_decomp_zero_points_stride := 0;
  wei_decomp_scales_group_size := 0; wei_decomp_zero_points_group_size := 0;
  wei_decomp_zero_points_dt := data_type.undef; src_scales_stride := 0;
  src_scales_group_size := 0
|}.

(** u8 x s8 -> s32 on avx512_core_vnni with alpha = 2, a bias and u8 as the type of D. *)
Definition brg_int8_alpha2_bias : brgemm_desc_t := {|
  isa_impl := avx512_core_vnni; type := brgemm_addr;
  layout := brgemm_row_major; brgattr := brgemm_attr_default 2097152;
  is_tmm := false; is_int8 := true; is_bf16 := false; is_f16 := false;
  is_f32 := false; is_fp8 := false; is_bf16_emu := false;
  has_int8_vnni := true; is_fp8_via_convert := false;
  is_input_convert := false; dt_a := data_type.u8; dt_b := data_type.s8;
  dt_c := data_type.s32; dt_d := data_type.u8; dt_bias := data_type.f32;
  sum_dt := data_type.f32; typesize_A := 1; typesize_B := 1; typesize_C := 4;
  typesize_D := 4; typesize_bias := 4; LDA := 16; LDB := 16; LDC := 16;
  LDD := 16; is_runtime_ldc := false; is_runtime_ldd := false; stride_a := 0;
  stride_b := 0; alpha := 2%Q; beta := 0%Q; sum_scale := 1%Q; sum_zp := 0;
  bcast_dim := 2; reduce_dim := 16; bd_block := 2; ld_block := 16;
  rd_block := 16; bd_block2 := 1; ld_block2 := 1; bdb := 1; bdb_tail := 0;
  bdb2 := 0; bdb2_tail := 0; ldb2 := 1; ldb2_tail := 0; ldb_tail := 0;
  rdb := 1; rdb_tail := 0; rd_step := 4; ld_step := 4; is_M_tail := false;
  embd_bcst := false; innermost_loop := brgemm_innermost_undef;
  with_bias := true; with_scales := false; with_eltwise := false;
  with_binary := false; with_sum := false; with_dst_scales := false;
  is_oc_scale := 0; zp_type_a := brgemm_broadcast.none;
  zp_type_b := brgemm_broadcast.none; zp_type_c := brgemm_broadcast.none;
  req_s8s8_compensation := false; req_cal_comp_pads := false;
  req_comp_pads_with_bcast := false; with_wei_decomp := false;
  with_wei_decomp_scales := false; with_wei_decomp_zero_points := false;
  with_grouped_wei_decomp := false; with_src_dyn_quant := false;
  wei_decomp_scales_stride := 0; wei_decomp_zero_points_stride := 0;
  wei_decomp_scales_group_size := 0; wei_decomp_zero_points_group_size := 0;
  wei_decomp_zero_points_dt := data_type.undef; src_scales_stride := 0;
  src_scales_group_size := 0
|}.

(** f32 activations with u8 weights and scales, decompressed in the kernel, on avx512_core: blocks of one row. *)
Definition brg_wei_decomp_one_row : brgemm_desc_t := {|
  isa_impl := avx512_core; type := brgemm_addr; layout := brgemm_row_major;
  brgattr := brgemm_attr_default 2097152; is_tmm := false; is_int8 := false;
  is_bf16 := false; is_f16 := false; is_f32 := true; is_fp8 := false;
  is_bf16_emu := false; has_int8_vnni := false; is_fp8_via_convert := false;
  is_input_convert := false; dt_a := data_type.f32; dt_b := data_type.u8;
  dt_c := data_type.f32; dt_d := data_type.f32; dt_bias := data_type.f32;
  sum_dt := data_type.f32; typesize_A := 4; typesize_B := 1; typesize_C := 4;
  typesize_D := 4; typesize_bias := 4; LDA := 4; LDB := 16; LDC := 16;
  LDD := 16; is_runtime_ldc := false; is_runtime_ldd := false; stride_a := 0;
  stride_b := 0; alpha := 1%Q; beta := 0%Q; sum_scale := 1%Q; sum_zp := 0;
  bcast_dim := 1; reduce_dim := 4; bd_block := 1; ld_block := 16;
  rd_block := 4; bd_block2 := 1; ld_block2 := 1; bdb := 1; bdb_tail := 0;
  bdb2 := 0; bdb2_tail := 0; ldb2 := 1; ldb2_tail := 0; ldb_tail := 0;
  rdb := 1; rdb_tail := 0; rd_step := 1; ld_step := 1; is_M_tail := false;
  embd_bcst := false; innermost_loop := brgemm_innermost_undef;
  with_bias := false; with_scales := false; with_eltwise := false;
  with_binary := false; with_sum := false; with_dst_scales := false;
  is_oc_scale := 0; zp_type_a := brgemm_broadcast.none;
  zp_type_b := brgemm_broadcast.none; zp_type_c := brgemm_broadcast.none;
  req_s8s8_compensation := false; req_cal_comp_pads := false;
  req_comp_pads_with_bcast := false; with_wei_decomp := true;
  with_wei_decomp_scales := true; with_wei_decomp_zero_points := false;
  with_grouped_wei_decomp := false; with_src_dyn_quant := false;
  wei_decomp_scales_stride := 1; wei_decomp_zero_points_stride := 0;
  wei_decomp_scales_group_size := 0; wei_decomp_zero_points_group_size := 0;
  wei_decomp_zero_points_dt := data_type.undef; src_scales_stride := 0;
  src_scales_group_size := 0
|}.

(** f32 on avx512_core, three 4 x 16 blocks, with up to one padded row on either side. *)
Definition brg_f32_vpad : brgemm_desc_t := {|
  isa_impl := avx512_core; type := brgemm_addr; layout := brgemm_row_major;
  brgattr := example_attr 16 1 1 false; is_tmm := false; is_int8 := false;
  is_bf16 := false; is_f16 := false; is_f32 := true; is_fp8 := false;
  is_bf16_emu := false; has_int8_vnni := false; is_fp8_via_convert := false;
  is_input_convert := false; dt_a := data_type.f32; dt_b := data_type.f32;
  dt_c := data_type.f32; dt_d := data_type.f32; dt_bias := data_type.f32;
  sum_dt := data_type.f32; typesize_A := 4; typesize_B := 4; typesize_C := 4;
  typesize_D := 4; typesize_bias := 4; LDA := 4; LDB := 16; LDC := 16;
  LDD := 16; is_runtime_ldc := false; is_runtime_ldd := false; stride_a := 0;
  stride_b := 0; alpha := 1%Q; beta := 0%Q; sum_scale := 1%Q; sum_zp := 0;
  bcast_dim := 12; reduce_dim := 4; bd_block := 4; ld_block := 16;
  rd_block := 4; bd_block2 := 1; ld_block2 := 1; bdb := 3; bdb_tail := 0;
  bdb2 := 0; bdb2_tail := 0; ldb2 := 1; ldb2_tail := 0; ldb_tail := 0;
  rdb := 1; rdb_tail := 0; rd_step := 1; ld_step := 1; is_M_tail := false;
  embd_bcst := false; innermost_loop := brgemm_innermost_undef;
  with_bias := false; with_scales := false; with_eltwise := false;
  with_binary := false; with_sum := false; with_dst_scales := false;
  is_oc_scale := 0; zp_type_a := brgemm_broadcast.none;
  zp_type_b := brgemm_broadcast.none; zp_type_c := brgemm_broadcast.none;
  req_s8s8_compensation := false; req_cal_comp_pads := false;
  req_comp_pads_with_bcast := false; with_wei_decomp := false;
  with_wei_decomp_scales := false; with_wei_decomp_zero_points := false;
  with_grouped_wei_decomp := false; with_src_dyn_quant := false;
  wei_decomp_scales_stride := 0; wei_decomp_zero_points_stride := 0;
  wei_decomp_scales_group_size := 0; wei_decomp_zero_points_group_size := 0;
  wei_decomp_zero_points_dt := data_type.undef; src_scales_stride := 0;
  src_scales_group_size := 0
|}.

(** f8_e5m2 x f8_e5m2 -> f32 on avx512_core_fp16, on vector registers and without conversion of the inputs. *)
Definition brg_fp8_vector : brgemm_desc_t := {|
  isa_impl := avx512_core_fp16; type := brgemm_addr;
  layout := brgemm_row_major; brgattr := example_attr 16 0 0 false;
  is_tmm := false; is_int8 := false; is_bf16 := false; is_f16 := false;
  is_f32 := false; is_fp8 := true; is_bf16_emu := false;
  has_int8_vnni := false; is_fp8_via_convert := false;
  is_input_convert := false; dt_a := data_type.f8_e5m2;
  dt_b := data_type.f8_e5m2; dt_c := data_type.f32; dt_d := data_type.f32;
  dt_bias := data_type.f32; sum_dt := data_type.f32; typesize_A := 1;
  typesize_B := 1; typesize_C := 4; typesize_D := 4; typesize_bias := 4;
  LDA := 4; LDB := 16; LDC := 16; LDD := 16; is_runtime_ldc := false;
  is_runtime_ldd := false; stride_a := 0; stride_b := 0; alpha := 1%Q;
  beta := 0%Q; sum_scale := 1%Q; sum_zp := 0; bcast_dim := 4;
  reduce_dim := 4; bd_block := 4; ld_block := 16; rd_block := 4;
  bd_block2 := 1; ld_block2 := 1; bdb := 1; bdb_tail := 0; bdb2 := 0;
  bdb2_tail := 0; ldb2 := 1; ldb2_tail := 0; ldb_tail := 0; rdb := 1;
  rdb_tail := 0; rd_step := 1; ld_step := 1; is_M_tail := false;
  embd_bcst := false; innermost_loop := brgemm_innermost_undef;
  with_bias := false; with_scales := false; with_eltwise := false;
  with_binary := false; with_sum := false; with_dst_scales := false;
  is_oc_scale := 0; zp_type_a := brgemm_broadcast.none;
  zp_type_b := brgemm_broadcast.none; zp_type_c := brgemm_broadcast.none;
  req_s8s8_compensation := false; req_cal_comp_pads := false;
  req_comp_pads_with_bcast := false; with_wei_decomp := false;
  with_wei_decomp_scales := false; with_wei_decomp_zero_points := false;
  with_grouped_wei_decomp := false; with_src_dyn_quant := false;
  wei_decomp_scales_stride := 0; wei_decomp_zero_points_stride := 0;
  wei_decomp_scales_group_size := 0; wei_decomp_zero_points_group_size := 0;
  wei_decomp_zero_points_dt := data_type.undef; src_scales_stride := 0;
  src_scales_group_size := 0
|}.

(** Sixteen bytes of bias behind every address, a tail mask of five
    lanes, and registers of sixteen lanes. *)
Definition bias_state : vstate := {|
  vreg := fun _ => repeat (LInt 0) 16;
  kreg := fun _ => repeat true 5 ++ repeat false 11;
  mem8 := fun _ _ => [0; 1; 127; 128; 255; 7; 7; 7; 7; 7; 7; 7; 7; 7; 7; 7];
  mem16f := fun _ _ => []
|}.

(** u8 x s8 -> s32 on avx512_core_amx, on tiles: 2 x 2 tiles of 16 x 16, 64 reduction steps. *)
Definition brg_int8_amx : brgemm_desc_t := {|
  isa_impl := avx512_core_amx; type := brgemm_addr;
  layout := brgemm_row_major; brgattr := brgemm_attr_default 2097152;
  is_tmm := true; is_int8 := true; is_bf16 := false; is_f16 := false;
  is_f32 := false; is_fp8 := false; is_bf16_emu := false;
  has_int8_vnni := true; is_fp8_via_convert := false;
  is_input_convert := false; dt_a := data_type.u8; dt_b := data_type.s8;
  dt_c := data_type.s32; dt_d := data_type.s32; dt_bias := data_type.f32;
  sum_dt := data_type.f32; typesize_A := 1; typesize_B := 1; typesize_C := 4;
  typesize_D := 4; typesize_bias := 4; LDA := 64; LDB := 32; LDC := 32;
  LDD := 32; is_runtime_ldc := false; is_runtime_ldd := false; stride_a := 0;
  stride_b := 0; alpha := 1%Q; beta := 0%Q; sum_scale := 1%Q; sum_zp := 0;
  bcast_dim := 32; reduce_dim := 64; bd_block := 16; ld_block := 16;
  rd_block := 64; bd_block2 := 2; ld_block2 := 2; bdb := 2; bdb_tail := 0;
  bdb2 := 1; bdb2_tail := 0; ldb2 := 1; ldb2_tail := 0; ldb_tail := 0;
  rdb := 1; rdb_tail := 0; rd_step := 4; ld_step := 4; is_M_tail := false;
  embd_bcst := false; innermost_loop := brgemm_innermost_undef;
  with_bias := false; with_scales := false; with_eltwise := false;
  with_binary := false; with_sum := false; with_dst_scales := false;
  is_oc_scale := 0; zp_type_a := brgemm_broadcast.none;
  zp_type_b := brgemm_broadcast.none; zp_type_c := brgemm_broadcast.none;
  req_s8s8_compensation := false; req_cal_comp_pads := false;
  req_comp_pads_with_bcast := false; with_wei_decomp := false;
  with_wei_decomp_scales := false; with_wei_decomp_zero_points := false;
  with_grouped_wei_decomp := false; with_src_dyn_quant := false;
  wei_decomp_scales_stride := 0; wei_decomp_zero_points_stride := 0;
  wei_decomp_scales_group_size := 0; wei_decomp_zero_points_group_size := 0;
  wei_decomp_zero_points_dt := data_type.undef; src_scales_stride := 0;
  src_scales_group_size := 0
|}.

(** f8_e5m2 x f8_e5m2 -> f32 on avx512_core_fp16, on vector registers, with the inputs converted to f16. *)
Definition brg_fp8_convert_vector : brgemm_desc_t := {|
  isa_impl := avx512_core_fp16; type := brgemm_addr;
  layout := brgemm_row_major; brgattr := example_attr 16 0 0 false;
  is_tmm := false; is_int8 := false; is_bf16 := false; is_f16 := false;
  is_f32 := false; is_fp8 := true; is_bf16_emu := false;
  has_int8_vnni := false; is_fp8_via_convert := true;
  is_input_convert := false; dt_a := data_type.f8_e5m2;
  dt_b := data_type.f8_e5m2; dt_c := data_type.f32; dt_d := data_type.f32;
  dt_bias := data_type.f32; sum_dt := data_type.f32; typesize_A := 1;
  typesize_B := 1; typesize_C := 4; typesize_D := 4; typesize_bias := 4;
  LDA := 4; LDB := 16; LDC := 16; LDD := 16; is_runtime_ldc := false;
  is_runtime_ldd := false; stride_a := 0; stride_b := 0; alpha := 1%Q;
  beta := 0%Q; sum_scale := 1%Q; sum_zp := 0; bcast_dim := 4;
  reduce_dim := 4; bd_block := 4; ld_block := 16; rd_block := 4;
  bd_block2 := 1; ld_block2 := 1; bdb := 1; bdb_tail := 0; bdb2 := 0;
  bdb2_tail := 0; ldb2 := 1; ldb2_tail := 0; ldb_tail := 0; rdb := 1;
  rdb_tail := 0; rd_step := 1; ld_step := 1; is_M_tail := false;
  embd_bcst := false; innermost_loop := brgemm_innermost_undef;
  with_bias := false; with_scales := false; with_eltwise := false;
  with_binary := false; with_sum := false; with_dst_scales := false;
  is_oc_scale := 0; zp_type_a := brgemm_broadcast.none;
  zp_type_b := brgemm_broadcast.none; zp_type_c := brgemm_broadcast.none;
  req_s8s8_compensation := false; req_cal_comp_pads := false;
  req_comp_pads_with_bcast := false; with_wei_decomp := false;
  with_wei_decomp_scales := false; with_wei_decomp_zero_points := false;
  with_grouped_wei_decomp := false; with_src_dyn_quant := false;
  wei_decomp_scales_stride := 0; wei_decomp_zero_points_stride := 0;
  wei_decomp_scales_group_size := 0; wei_decomp_zero_points_group_size := 0;
  wei_decomp_zero_points_dt := data_type.undef; src_scales_stride := 0;
  src_scales_group_size := 0
|}.

(** f16 x f16 -> f32 on avx2_vnni_2: 2 x 8 block, B in pairs of reduction steps. *)
Definition brg_f16_avx2_vnni_2 : brgemm_desc_t := {|
  isa_impl := avx2_vnni_2; type := brgemm_addr; layout := brgemm_row_major;
  brgattr := example_attr 16 0 0 false; is_tmm := false; is_int8 := false;
  is_bf16 := false; is_f16 := true; is_f32 := false; is_fp8 := false;
  is_bf16_emu := false; has_int8_vnni := false; is_fp8_via_convert := false;
  is_input_convert := false; dt_a := data_type.f16; dt_b := data_type.f16;
  dt_c := data_type.f32; dt_d := data_type.f32; dt_bias := data_type.f32;
  sum_dt := data_type.f32; typesize_A := 2; typesize_B := 2; typesize_C := 4;
  typesize_D := 4; typesize_bias := 4; LDA := 4; LDB := 8; LDC := 8;
  LDD := 8; is_runtime_ldc := false; is_runtime_ldd := false; stride_a := 0;
  stride_b := 0; alpha := 1%Q; beta := 0%Q; sum_scale := 1%Q; sum_zp := 0;
  bcast_dim := 2; reduce_dim := 4; bd_block := 2; ld_block := 8;
  rd_block := 4; bd_block2 := 1; ld_block2 := 1; bdb := 1; bdb_tail := 0;
  bdb2 := 0; bdb2_tail := 0; ldb2 := 1; ldb2_tail := 0; ldb_tail := 0;
  rdb := 1; rdb_tail := 0; rd_step := 1; ld_step := 2; is_M_tail := false;
  embd_bcst := false; innermost_loop := brgemm_innermost_undef;
  with_bias := false; with_scales := false; with_eltwise := false;
  with_binary := false; with_sum := false; with_dst_scales := false;
  is_oc_scale := 0; zp_type_a := brgemm_broadcast.none;
  zp_type_b := brgemm_broadcast.none; zp_type_c := brgemm_broadcast.none;
  req_s8s8_compensation := false; req_cal_comp_pads := false;
  req_comp_pads_with_bcast := false; with_wei_decomp := false;
  with_wei_decomp_scales := false; with_wei_decomp_zero_points := false;
  with_grouped_wei_decomp := false; with_src_dyn_quant := false;
  wei_decomp_scales_stride := 0; wei_decomp_zero_points_stride := 0;
  wei_decomp_scales_group_size := 0; wei_decomp_zero_points_group_size := 0;
  wei_decomp_zero_points_dt := data_type.undef; src_scales_stride := 0;
  src_scales_group_size := 0
|}.

(** Sixteen f16 elements of B behind every address: the pairs of two
    reduction steps of eight columns. *)
Definition f16_state : vstate := {|
  vreg := fun _ => repeat (LInt 0) 8;
  kreg := fun _ => repeat true 8;
  mem8 := fun _ _ => [];
  mem16f := fun _ _ => map inject_Z (range 1 17)
|}.

(** u8 x s8 -> s32 on avx2_vnni with a reduction of 22 steps: one block of 16 and a tail of 6. *)
Definition brg_int8_rd_tail : brgemm_desc_t := {|
  isa_impl := avx2_vnni; type := brgemm_addr; layout := brgemm_row_major;
  brgattr := brgemm_attr_default 2097152; is_tmm := false; is_int8 := true;
  is_bf16 := false; is_f16 := false; is_f32 := false; is_fp8 := false;
  is_bf16_emu := false; has_int8_vnni := true; is_fp8_via_convert := false;
  is_input_convert := false; dt_a := data_type.u8; dt_b := data_type.s8;
  dt_c := data_type.s32; dt_d := data_type.s32; dt_bias := data_type.f32;
  sum_dt := data_type.f32; typesize_A := 1; typesize_B := 1; typesize_C := 4;
  typesize_D := 4; typesize_bias := 4; LDA := 22; LDB := 8; LDC := 8;
  LDD := 8; is_runtime_ldc := false; is_runtime_ldd := false; stride_a := 0;
  stride_b := 0; alpha := 1%Q; beta := 0%Q; sum_scale := 1%Q; sum_zp := 0;
  bcast_dim := 2; reduce_dim := 22; bd_block := 2; ld_block := 8;
  rd_block := 16; bd_block2 := 1; ld_block2 := 1; bdb := 1; bdb_tail := 0;
  bdb2 := 0; bdb2_tail := 0; ldb2 := 1; ldb2_tail := 0; ldb_tail := 0;
  rdb := 1; rdb_tail := 6; rd_step := 4; ld_step := 4; is_M_tail := false;
  embd_bcst := false; innermost_loop := brgemm_innermost_undef;
  with_bias := false; with_scales := false; with_eltwise := false;
  with_binary := false; with_sum := false; with_dst_scales := false;
  is_oc_scale := 0; zp_type_a := brgemm_broadcast.none;
  zp_type_b := brgemm_broadcast.none; zp_type_c := brgemm_broadcast.none;
  req_s8s8_compensation := false; req_cal_comp_pads := false;
  req_comp_pads_with_bcast := false; with_wei_decomp := false;
  with_wei_decomp_scales := false; with_wei_decomp_zero_points := false;
  with_grouped_wei_decomp := false; with_src_dyn_quant := false;
  wei_decomp_scales_stride := 0; wei_decomp_zero_points_stride := 0;
  wei_decomp_scales_group_size := 0; wei_decomp_zero_points_group_size := 0;
  wei_decomp_zero_points_dt := data_type.undef; src_scales_stride := 0;
  src_scales_group_size := 0
|}.


(** ** Further vocabulary *)

(** The register range of an injector call is that of the cells of some
    rows of the block. *)
Definition post_ops_over_rows {T : isa_traits} (brg : brgemm_desc_t)
    (ld_block2' bd_block' : Z) (c : code) : Prop :=
  match c with
  | PostOps first last _ =>
      exists bd_start bd_end',
        0 <= bd_start /\ bd_start < bd_end' <= bd_block'
        /\ forall r, first <= r < last <->
             exists bd ld,
               bd_start <= bd < bd_end' /\ 0 <= ld < ld_block2'
               /\ r = accm brg ld_block2' bd ld
  | _ => True
  end.

(** ** Reads of A

    The offsets from [reg_aux_A] at which an operand, and an instruction,
    reads; [load_bytes] takes the base register and the offset as two
    arguments. *)
Definition A_offset_of (o : operand) : list Z :=
  match o with
  | Mem reg_aux_A off | MemB reg_aux_A off | MemK reg_aux_A off _ _
  | MemR reg_aux_A _ off => [off]
  | _ => []
  end.

Definition reads_A_at (i : insn) : list Z :=
  match i with
  | Call h [_; Gpr reg_aux_A; Imm off; _] =>
      if String.eqb h "load_bytes" then [off] else []
  | Call _ args => flat_map A_offset_of args
  | Ins _ ops => flat_map A_offset_of ops
  end.

(** Every read of A is at a row [bd_b <= bd < bd_e] and a reduction index
    [0 <= rd < rd_loop]. *)
Definition reads_A_rows (brg : brgemm_desc_t) (bd_b bd_e rd_loop : Z)
    (i : insn) : Prop :=
  forall off, In off (reads_A_at i) ->
    exists bd rd,
      bd_b <= bd < bd_e /\ 0 <= rd < rd_loop
      /\ off = A_offset brg bd rd false.

(** ** The stack frame

    [generate] reserves [stack_space_needed_] bytes below the stack
    pointer; a slot is the eight bytes at an offset inside them. *)
Definition is_rsp (r : gpr) : bool :=
  match phys r with
  | rsp => true
  | _ => false
  end.

Definition in_frame (off : Z) : bool :=
  (0 <=? off) && (off + 8 <=? stack_space_needed_).

(** An operand that does not name the stack pointer, or addresses a slot
    of the frame through it. *)
Definition stack_ok (o : operand) : bool :=
  match o with
  | Mem base off | MemB base off | MemK base off _ _ =>
      negb (is_rsp base) || in_frame off
  | MemR base idx _ => negb (is_rsp base) && negb (is_rsp idx)
  | Gpr r | Gpr32 r | Gpr16 r | Gpr8 r => negb (is_rsp r)
  | BatchElem base _ => negb (is_rsp base)
  | _ => true
  end.

(** A node that keeps to the frame: an instruction whose operands are
    all [stack_ok], a branch on a slot of the frame, a loop whose counter
    is not the stack pointer. *)
Definition within_frame (c : code) : Prop :=
  match c with
  | I i => forallb stack_ok (operands i) = true
  | IfFlagNZ slot _ _ => in_frame slot = true
  | Loop cnt _ _ => is_rsp cnt = false
  | _ => True
  end.

(** ** Reads of C

    C is addressed through [reg_C] and its working copy [reg_aux_C].  An
    instruction reads the operands after its first, the destination; a
    helper may read each of its arguments. *)
Definition is_C_base (r : gpr) : bool :=
  match phys r with
  | r14 | r15 => true
  | _ => false
  end.

Definition is_C_mem (o : operand) : bool :=
  match o with
  | Mem base _ | MemB base _ | MemK base _ _ _ => is_C_base base
  | MemR base idx _ => is_C_base base || is_C_base idx
  | _ => false
  end.

Definition no_C_read (i : insn) : Prop :=
  match i with
  | Ins _ ops => existsb is_C_mem (tl ops) = false
  | Call _ args => existsb is_C_mem args = false
  end.

(** ** Tiles

    The tile multiplications [tdpbxxd] chooses from, the loads of a
    tile, and the order of two instructions in straight-line code. *)
Definition is_tile_multiply (i : insn) : bool :=
  match i with
  | Ins m _ =>
      existsb (String.eqb m)
        ["tdpbf16ps"; "tdpfp16ps"; "tdpbuud"; "tdpbusd"; "tdpbsud";
         "tdpbssd"]
  | Call _ _ => false
  end.

Definition loads_tile (t : Z) (i : insn) : Prop :=
  exists m src,
    i = Ins m [Tmm t; src] /\ (m = "tileloadd" \/ m = "tileloaddt1").

Definition before (x y : insn) (c : list code) : Prop :=
  exists pre mid post, c = pre ++ I x :: mid ++ I y :: post.

(** ** Stores to D

    The index of a vector register operand, whole, masked or in part, and
    the instructions that write the register [r] to D at the offset
    [off]: a store whose destination is that address and whose last
    operand is the register, or the helper [store_data]. *)
Definition reg_index (o : operand) : option Z :=
  match o with
  | Vmm i | VmmK i _ _ | Vmm_lower i | Vmm_lowerK i _ _ | Xmm i
  | XmmK i _ => Some i
  | _ => None
  end.

Definition stores_to_D (off r : Z) (i : insn) : Prop :=
  match i with
  | Ins _ ops =>
      hd_error ops = Some (Mem reg_aux_D off)
      /\ reg_index (last ops (Imm 0)) = Some r
  | Call h args =>
      h = "store_data"
      /\ exists dt n, args = [Dt dt; Vmm r; Gpr reg_aux_D; Imm off; Imm n]
  end.

(** ** Bytes read as floats

    The value of a byte read as [u8] and as [s8], and the vector
    [cvt2ps] is to produce from the bytes behind an address: the value of
    the byte in the lanes the mask selects, zero in the others. *)
Definition u8_value (b : Z) : Z := b mod 256.

Definition s8_value (b : Z) : Z :=
  let m := b mod 256 in if m <? 128 then m else m - 256.

Definition bytes_as_floats (value : Z -> Z) (k : list bool) (bytes : list Z)
  : list lane :=
  map (fun kb : bool * Z =>
         LFlt (if fst kb then inject_Z (value (snd kb)) else 0%Q))
      (combine k bytes).

(** ** Reads of B

    The offsets from [reg_aux_B] at which an instruction reads, and the
    columns they belong to: every read is at a column block
    [0 <= ld < ld_block2'] and a reduction index [0 <= rd < rd_loop], at
    the offset of that element or, for a prefetch, at the same place of
    the next reduction block. *)
Definition B_offset_of (o : operand) : list Z :=
  match o with
  | Mem reg_aux_B off | MemB reg_aux_B off | MemK reg_aux_B off _ _
  | MemR reg_aux_B _ off => [off]
  | _ => []
  end.

Definition reads_B_at (i : insn) : list Z :=
  flat_map B_offset_of (operands i).

Definition reads_B_columns {T : isa_traits} (brg : brgemm_desc_t)
    (ld_block2' rd_loop : Z) (i : insn) : Prop :=
  forall off, In off (reads_B_at i) ->
    exists ld rd,
      0 <= ld < ld_block2' /\ 0 <= rd < rd_loop
      /\ (off = B_offset brg ld rd false
          \/ off = B_offset brg ld rd false
                   + brg.(LDB) * brg.(rd_block) * brg.(typesize_B)).

(** ** General purpose registers and stack slots

    The bookkeeping of the kernel moves 64-bit values between general
    purpose registers and the slots of its stack frame and adds offsets
    to them.  A state gives the value of each physical register, of each
    slot, addressed by its offset from the stack pointer, and of each
    field of the parameter block at an address. *)

Scheme Equality for preg.

Record gstate : Type := {
  greg : preg -> Z;
  gslot : Z -> Z;
  gparam : Z -> param_field -> Z
}.

Definition wrap64 (z : Z) : Z := z mod 2 ^ 64.

Definition set_greg (s : gstate) (r : preg) (v : Z) : gstate :=
  {| greg := fun r' => if preg_beq r' r then v else s.(greg) r';
     gslot := s.(gslot);
     gparam := s.(gparam) |}.

Definition set_gslot (s : gstate) (off : Z) (v : Z) : gstate :=
  {| greg := s.(greg);
     gslot := fun o => if o =? off then v else s.(gslot) o;
     gparam := s.(gparam) |}.

Definition gread (s : gstate) (o : operand) : option Z :=
  match o with
  | Gpr r => Some (s.(greg) (phys r))
  | Mem base off => if is_rsp base then Some (s.(gslot) off) else None
  | Imm z => Some (wrap64 z)
  | Param f => Some (s.(gparam) (s.(greg) (phys param1)) f)
  | _ => None
  end.

Definition gwrite (s : gstate) (o : operand) (v : Z) : option gstate :=
  match o with
  | Gpr r => if is_rsp r then None else Some (set_greg s (phys r) v)
  | Mem base off => if is_rsp base then Some (set_gslot s off v) else None
  | _ => None
  end.

Definition gbinop (f : Z -> Z -> Z) (dst src : operand) (s : gstate)
  : option gstate :=
  match gread s dst, gread s src with
  | Some a, Some b => gwrite s dst (wrap64 (f a b))
  | _, _ => None
  end.

(** [mov], [add], [sub], [xor] and [shl] between registers, slots of the
    frame, fields of the parameter block and immediates; every other
    instruction is outside this machine. *)
Definition exec_gpr_insn (i : insn) (s : gstate) : option gstate :=
  match i with
  | Ins m [dst; src] =>
      if String.eqb m "mov" then
        match gread s src with
        | Some v => gwrite s dst v
        | None => None
        end
      else if String.eqb m "add" then gbinop Z.add dst src s
      else if String.eqb m "sub" then gbinop Z.sub dst src s
      else if String.eqb m "xor_" then gbinop Z.lxor dst src s
      else if String.eqb m "shl" then gbinop Z.shiftl dst src s
      else None
  | _ => None
  end.

Fixpoint exec_gpr (c : list code) (s : gstate) : option gstate :=
  match c with
  | [] => Some s
  | I i :: c' =>
      match exec_gpr_insn i s with
      | Some s' => exec_gpr c' s'
      | None => None
      end
  | _ => None
  end.

Definition exec_gpr_gen (g : gen) (s : gstate) : option gstate :=
  match g with
  | Ok c => exec_gpr c s
  | Abort _ => None
  end.

(** Every slot holds a 64-bit value. *)
Definition slots_64bit (s : gstate) : Prop :=
  forall off, 0 <= s.(gslot) off < 2 ^ 64.

(** The code [g] runs to the end from every state and adds [d off],
    modulo 2^64, to the slot at [off]. *)
Definition shifts (g : gen) (d : Z -> Z) : Prop :=
  forall s, exists s',
    exec_gpr_gen g s = Some s'
    /\ (slots_64bit s -> slots_64bit s')
    /\ forall off,
         s'.(gslot) off mod 2 ^ 64 = (s.(gslot) off + d off) mod 2 ^ 64.

(** [n] repetitions of a generator. *)
Definition times (n : Z) (g : gen) : gen := for_ (range 0 n) (fun _ => g).

(** A state for examples: every register and every slot holds [v]. *)
Definition const_gstate (v : Z) : gstate :=
  {| greg := fun _ => v; gslot := fun _ => v; gparam := fun _ _ => v |}.

(** The code [g] runs to the end from every state and leaves the
    registers [regs] and the parameter block as they were. *)
Definition preserves (regs : list preg) (g : gen) : Prop :=
  forall s, exists s',
    exec_gpr_gen g s = Some s'
    /\ (forall r, In r regs -> s'.(greg) r = s.(greg) r)
    /\ s'.(gparam) = s.(gparam).

Definition not_in (regs : list preg) (r : preg) : bool :=
  forallb (fun x => negb (preg_beq x r)) regs.

(** The registers [regs] hold the values [rho] gives them and the
    parameter block is [gp]. *)
Definition regs_are (regs : list preg) (rho : preg -> Z)
    (gp : Z -> param_field -> Z) (s : gstate) : Prop :=
  (forall r, In r regs -> s.(greg) r = rho r) /\ s.(gparam) = gp.

(** * Properties *)

Unset Implicit Arguments.


(** ** Properties of all nodes of generated code

    One rule for each combinator of the generation monad. *)

Section Holds.
Variable P : code -> Prop.

Lemma all_nodes_app : forall a b : list code,
  all_nodes (a ++ b) = all_nodes a ++ all_nodes b.
Proof. intros a b. unfold all_nodes. apply flat_map_app. Qed.

Lemma holds_skip : holds P skip.
Proof. constructor. Qed.

Lemma holds_node : forall c : code,
  Forall P (nodes c) -> holds P (Ok [c]).
Proof.
  intros c H. unfold holds, all_nodes. cbn [flat_map].
  rewrite app_nil_r. exact H.
Qed.

Lemma holds_ins : forall m ops, P (I (Ins m ops)) -> holds P (ins m ops).
Proof. intros m ops H. apply holds_node. cbn. auto. Qed.

Lemma holds_call : forall h args, P (I (Call h args)) -> holds P (call h args).
Proof. intros h args H. apply holds_node. cbn. auto. Qed.

Lemma holds_bindr : forall (A : Type) (r : result A) (k : A -> gen),
  (forall a, r = Ok a -> holds P (k a)) -> holds P (bindr r k).
Proof. intros A [a|m] k H; cbn; [apply H; reflexivity|exact Logic.I]. Qed.

Lemma holds_andthen : forall a b : gen,
  holds P a -> holds P b -> holds P (a ;; b).
Proof.
  intros [a|ma] [b|mb] Ha Hb; cbn; try exact Logic.I.
  rewrite all_nodes_app. apply Forall_app. split; assumption.
Qed.

Lemma holds_when : forall (c : bool) (g : gen),
  (c = true -> holds P g) -> holds P (when c g).
Proof. intros [|] g H; cbn; [apply H; reflexivity|constructor]. Qed.

Lemma holds_assert : forall c msg, holds P (assert c msg).
Proof. intros [|] msg; cbn; [constructor|exact Logic.I]. Qed.

Lemma holds_for : forall (l : list Z) (body : Z -> gen),
  (forall i, In i l -> holds P (body i)) -> holds P (for_ l body).
Proof.
  intros l body. induction l as [|i l IH]; intros H; cbn [for_].
  - apply holds_skip.
  - apply holds_andthen; [apply H; left; reflexivity|].
    apply IH. intros j Hj. apply H. right. exact Hj.
Qed.

Lemma holds_for_step : forall (lo hi step : Z) (body : Z -> gen),
  (forall i, lo <= i -> holds P (body i)) ->
  holds P (for_step lo hi step body).
Proof.
  intros lo hi step body H. unfold for_step.
  destruct (step <=? 0) eqn:Hs.
  - destruct (lo <? hi); [exact Logic.I|apply holds_skip].
  - apply holds_for. intros i Hi. apply in_map_iff in Hi.
    destruct Hi as (n & <- & _). apply H. lia.
Qed.

Lemma holds_loop : forall cnt bound (body : gen),
  (forall b, P (Loop cnt bound b)) -> holds P body ->
  holds P (loop cnt bound body).
Proof.
  intros cnt bound [b|m] HP Hb; cbn; [|exact Logic.I].
  rewrite app_nil_r. constructor; [apply HP|exact Hb].
Qed.

Lemma holds_if_flag_nz : forall slot (nz z : gen),
  (forall a b, P (IfFlagNZ slot a b)) -> holds P nz -> holds P z ->
  holds P (if_flag_nz slot nz z).
Proof.
  intros slot [a|ma] [b|mb] HP Ha Hb; cbn; try exact Logic.I.
  rewrite app_nil_r. constructor; [apply HP|].
  apply Forall_app. split; assumption.
Qed.

Lemma holds_bind_code : forall (g : gen) (k : list code -> gen),
  holds P g -> (forall c, Forall P (all_nodes c) -> holds P (k c)) ->
  holds P (bindr g k).
Proof. intros [c|m] k Hg Hk; cbn; [apply Hk; exact Hg|exact Logic.I]. Qed.

Lemma holds_vpad_cases :
  forall (body : Z -> gen) (case_of : Z -> option Z) (l : list Z) cases,
    (forall v, holds P (body v)) ->
    vpad_cases body case_of l = Ok cases ->
    Forall P (flat_map (fun c => all_nodes (snd c)) cases).
Proof.
  intros body case_of l. induction l as [|v l IH]; intros cases Hb H.
  - injection H as <-. constructor.
  - cbn [vpad_cases] in H. destruct (case_of v) as [rv|]; [|auto].
    specialize (Hb rv) as Hrv. destruct (body rv) as [b|m]; [|discriminate].
    destruct (vpad_cases body case_of l) as [rest|m]; [|discriminate].
    injection H as <-. cbn [flat_map snd]. apply Forall_app. split; auto.
Qed.

End Holds.

(** *** Inversion of the monad *)

Lemma andthen_inv : forall (a b : gen) (c : list code),
  (a ;; b) = Ok c -> exists x y, a = Ok x /\ b = Ok y /\ c = x ++ y.
Proof.
  intros [x|m] [y|m'] c H; try discriminate H.
  injection H as <-. exists x, y. auto.
Qed.

Lemma insns_app : forall a b : list code, insns (a ++ b) = insns a ++ insns b.
Proof.
  intros a b. unfold insns. rewrite all_nodes_app. apply flat_map_app.
Qed.

Lemma ends_with_self : forall s : list code, ends_with s (Ok s).
Proof. intros s c H. injection H as <-. exists []. reflexivity. Qed.

Lemma ends_with_andthen : forall s (a b : gen),
  ends_with s b -> ends_with s (a ;; b).
Proof.
  intros s a b Hb c H. apply andthen_inv in H.
  destruct H as (x & y & _ & Hy & ->). destruct (Hb y Hy) as (pre & ->).
  exists (x ++ pre). apply app_assoc.
Qed.

Lemma emits_andthen_l : forall i (a b : gen), emits i a -> emits i (a ;; b).
Proof.
  intros i a b Ha c H. apply andthen_inv in H.
  destruct H as (x & y & Hx & _ & ->). rewrite insns_app.
  apply in_or_app. left. apply Ha, Hx.
Qed.

Lemma emits_andthen_r : forall i (a b : gen), emits i b -> emits i (a ;; b).
Proof.
  intros i a b Hb c H. apply andthen_inv in H.
  destruct H as (x & y & _ & Hy & ->). rewrite insns_app.
  apply in_or_app. right. apply Hb, Hy.
Qed.

(** *** Ranges and execution *)

Lemma in_range : forall lo hi x, lo <= x < hi -> In x (range lo hi).
Proof.
  intros lo hi x H. unfold range. apply in_map_iff.
  exists (Z.to_nat (x - lo)). split; [lia|].
  apply in_seq. lia.
Qed.

Lemma range_In : forall lo hi x, In x (range lo hi) -> lo <= x < hi.
Proof.
  intros lo hi x H. unfold range in H. apply in_map_iff in H.
  destruct H as [n [<- Hn]]. apply in_seq in Hn. lia.
Qed.

(** A property of bytes that a boolean test decides holds of every byte
    when the test passes on the 256 of them. *)
Lemma exec_app {T' : isa_traits} : forall (a b : list code) (s : vstate),
  exec (a ++ b) s
  = match exec a s with Some s' => exec b s' | None => None end.
Proof.
  intros a. induction a as [|[i| | | | |] a IH]; intros b s; cbn;
    try reflexivity.
  destruct (exec_insn i s); [apply IH|reflexivity].
Qed.

(** One step of a proof that walks a generator along its structure. *)
Ltac hstep :=
  cbv beta;
  lazymatch goal with
  | |- holds _ (andthen _ _) => apply holds_andthen
  | |- holds _ (when _ _) => apply holds_when; intros ?
  | |- holds _ skip => apply holds_skip
  | |- holds _ (Ok []) => apply holds_skip
  | |- holds _ (Abort _) => exact Logic.I
  | |- holds _ (assert _ _) => apply holds_assert
  | |- holds _ (ins _ _) => apply holds_ins
  | |- holds _ (call _ _) => apply holds_call
  | |- holds _ (bindr _ _) =>
      first [ apply holds_bind_code; [|intros ? ?]
            | apply holds_bindr; intros ? ? ]
  | |- holds _ (for_ _ _) => apply holds_for; intros ? ?
  | |- holds _ (for_step _ _ _ _) => apply holds_for_step; intros ? ?
  | |- holds _ (loop _ _ _) => apply holds_loop; [intros ?|]
  | |- holds _ (if_flag_nz _ _ _) => apply holds_if_flag_nz; [intros ? ?| |]
  | |- holds _ (match ?x with _ => _ end) => destruct x eqn:?
  | |- holds _ (let x := _ in _) => cbv zeta
  end.

(** The nodes of a structured node built from code already walked. *)
Ltac hnode leaf :=
  apply holds_node; cbn [nodes]; unfold all_nodes in *;
  constructor; [leaf|rewrite ?Forall_app; auto].

(** Walks a generator: the combinators by their rules, the generators
    called by [sub], the instructions by [leaf]. *)
Ltac hwalk sub leaf :=
  repeat hstep;
  lazymatch goal with
  | |- holds _ (Ok [_]) => hnode leaf
  | |- holds _ _ => sub
  | |- _ => leaf
  end.

(** ** Accumulator cells of the default microkernel bodies

    The instructions that accumulate write to the registers of the cells
    of the rows the body is generated for. *)

Create HintDb cells.

Section Cells.
Context {T : isa_traits} {E : brgemm_externals}.
Variable brg : brgemm_desc_t.
Variables cl cb ce : Z.

Ltac cell_solve :=
  repeat match goal with
         | H : In _ (range _ _) |- _ => apply range_In in H
         end;
  first [ assumption
        | refine (ex_intro _ _ (ex_intro _ _ (conj _ (conj _ eq_refl))));
          lia ].

Ltac cells_leaf :=
  cbn; unfold accumulates_in_cells; cbn;
  first [ exact Logic.I
        | intros Habs; discriminate Habs
        | intros _; eexists; split; [reflexivity|cell_solve] ].

Lemma dot_product_cells : forall v1 v2 v3,
  is_cell brg cl cb ce v1 ->
  holds (on_insn (accumulates_in_cells brg cl cb ce))
    (dot_product brg v1 v2 v3).
Proof.
  intros. unfold dot_product. hwalk ltac:(idtac) ltac:(cells_leaf).
Qed.

Ltac cells_walk :=
  hwalk ltac:(solve [auto with cells]) ltac:(cells_leaf).

Lemma broadcast_cells : forall clear_first rd_tail_size v1 offset is_tail
    dt,
  holds (on_insn (accumulates_in_cells brg cl cb ce)) (broadcast brg
    clear_first rd_tail_size v1 offset is_tail dt).
Proof. intros. unfold broadcast. cells_walk. Qed.
#[local] Hint Resolve broadcast_cells : cells.

Lemma prefetch_B_cells : forall ld_block2' k rd,
  holds (on_insn (accumulates_in_cells brg cl cb ce)) (prefetch_B brg
    ld_block2' k rd).
Proof. intros. unfold prefetch_B. cells_walk. Qed.
#[local] Hint Resolve prefetch_B_cells : cells.

Lemma load_B_1load_cells : forall vmm_load addr rd is_ld_tail,
  holds (on_insn (accumulates_in_cells brg cl cb ce)) (load_B_1load brg
    vmm_load addr rd is_ld_tail).
Proof. intros. unfold load_B_1load. cells_walk. Qed.
#[local] Hint Resolve load_B_1load_cells : cells.

Lemma load_B_1bcst_cells : forall vmm_load addr rd is_ld_tail,
  holds (on_insn (accumulates_in_cells brg cl cb ce)) (load_B_1bcst brg
    vmm_load addr rd is_ld_tail).
Proof. intros. unfold load_B_1bcst. cells_walk. Qed.
#[local] Hint Resolve load_B_1bcst_cells : cells.

Lemma set_A_B_matrices_cells : forall vpad_exist,
  holds (on_insn (accumulates_in_cells brg cl cb ce)) (set_A_B_matrices brg
    vpad_exist).
Proof. intros. unfold set_A_B_matrices. cells_walk. Qed.
#[local] Hint Resolve set_A_B_matrices_cells : cells.

Lemma ic_group_shift_cells : forall src_offs dst_offs group_size stride,
  holds (on_insn (accumulates_in_cells brg cl cb ce)) (ic_group_shift src_offs
    dst_offs group_size stride).
Proof. intros. unfold ic_group_shift. cells_walk. Qed.
#[local] Hint Resolve ic_group_shift_cells : cells.

Lemma grouped_wei_decomp_shift_cells :
  holds (on_insn (accumulates_in_cells brg cl cb ce))
    (grouped_wei_decomp_shift brg).
Proof. intros. unfold grouped_wei_decomp_shift. cells_walk. Qed.
#[local] Hint Resolve grouped_wei_decomp_shift_cells : cells.

End Cells.

Section CellsOfBodies.
Context {T : isa_traits} {E : brgemm_externals}.

Ltac cell_solve :=
  repeat match goal with
         | H : In _ (range _ _) |- _ => apply range_In in H
         end;
  first [ assumption
        | refine (ex_intro _ _ (ex_intro _ _ (conj _ (conj _ eq_refl))));
          lia ].

Ltac cells_leaf :=
  cbn; unfold accumulates_in_cells; cbn;
  first [ exact Logic.I
        | intros Habs; discriminate Habs
        | intros _; eexists; split; [reflexivity|cell_solve] ].

Ltac cells_walk :=
  hwalk ltac:(first [ solve [auto using broadcast_cells, prefetch_B_cells,
                               load_B_1load_cells, load_B_1bcst_cells]
                    | apply dot_product_cells; cell_solve ])
        ltac:(cells_leaf).

Lemma gemm_microkernel_1load_cells :
  forall brg n_bcast_1_load ld_block2' is_rd_tail is_ld_tail bd_b bd_e
    rows_for_rd_tail,
    holds (on_insn (accumulates_in_cells brg ld_block2' bd_b bd_e))
      (gemm_microkernel_1load brg n_bcast_1_load ld_block2' is_rd_tail
         is_ld_tail bd_b bd_e rows_for_rd_tail).
Proof. intros. unfold gemm_microkernel_1load. cells_walk. Qed.

Lemma gemm_microkernel_1bcst_cells :
  forall brg n_bcast_1_load ld_block2' is_rd_tail is_ld_tail bd_b bd_e
    rows_for_rd_tail,
    holds (on_insn (accumulates_in_cells brg ld_block2' bd_b bd_e))
      (gemm_microkernel_1bcst brg n_bcast_1_load ld_block2' is_rd_tail
         is_ld_tail bd_b bd_e rows_for_rd_tail).
Proof. intros. unfold gemm_microkernel_1bcst. cells_walk. Qed.

Lemma gemm_microkernel_cells :
  forall brg n_bcast_1_load need_comp_pads bd_block2' (is_bdb_tail : bool)
    ld_block2' is_rd_tail is_ld_tail vpad rows_for_rd_tail,
    default_body brg n_bcast_1_load = true ->
    pads_compensated brg vpad = false ->
    holds (on_insn
             (accumulates_in_cells brg ld_block2' (bd_begin vpad)
                (bd_end (if is_bdb_tail then brg.(bdb_tail)
                         else brg.(bd_block)) vpad)))
      (gemm_microkernel brg n_bcast_1_load need_comp_pads bd_block2'
         is_bdb_tail ld_block2' is_rd_tail is_ld_tail vpad rows_for_rd_tail).
Proof.
  intros until rows_for_rd_tail. intros Hd Hp.
  unfold default_body in Hd. unfold pads_compensated in Hp.
  unfold gemm_microkernel.
  apply andb_prop in Hd. destruct Hd as (Hq & Hw).
  apply negb_true_iff in Hq. rewrite Hq, Hp.
  destruct n_bcast_1_load; cbn in Hw; cbv beta iota zeta delta [when].
  - hwalk ltac:(solve [auto using gemm_microkernel_1load_cells])
          ltac:(cells_leaf).
  - apply negb_true_iff in Hw. rewrite Hw. cbv iota.
    hwalk ltac:(solve [auto using gemm_microkernel_1bcst_cells])
          ltac:(cells_leaf).
Qed.

Lemma ld_loop_body_cells :
  forall brg n_bcast_1_load vpad_exist need_comp_pads bd_block2'
    (is_bdb_tail : bool) ld_block2' is_ld_tail rows_for_rd_tail vpad,
    brg.(is_tmm) = false ->
    default_body brg n_bcast_1_load = true ->
    pads_compensated brg vpad = false ->
    holds (on_insn
             (accumulates_in_cells brg ld_block2' (bd_begin vpad)
                (bd_end (if is_bdb_tail then brg.(bdb_tail)
                         else brg.(bd_block)) vpad)))
      (ld_loop_body brg n_bcast_1_load vpad_exist need_comp_pads bd_block2'
         is_bdb_tail ld_block2' is_ld_tail rows_for_rd_tail vpad).
Proof.
  intros until vpad. intros Ht Hd Hp. unfold ld_loop_body.
  rewrite Ht. cbv iota.
  hwalk ltac:(solve [auto using gemm_microkernel_cells,
                       set_A_B_matrices_cells, grouped_wei_decomp_shift_cells])
        ltac:(cells_leaf).
Qed.

End CellsOfBodies.

(** ** The load of f16 weights on avx2_vnni_2 *)

(** C1. On avx2_vnni_2 with f16 weights the kernel takes the "one
    broadcast, many loads" body, whose load of B runs [vcvtneeph2ps] and
    then [vcvtph2ps] on the same register: the register ends with eight
    consecutive elements of B, where the load of the other body leaves the
    elements of the even reduction step. *)
Theorem f16_load_of_B_is_overwritten :
  let brg := brg_f16_avx2_vnni_2 in
  let c := code_of (generate (T := ymm_traits) (E := example_externals) brg) in
  generate (T := ymm_traits) (E := example_externals) brg = Ok c
  /\ n_bcast_1_load_of (T := ymm_traits) brg = false
  /\ load_B_1bcst (T := ymm_traits) brg (Vmm 13) (Mem reg_aux_B 0) 0 false
     = Ok [I (Ins "vcvtneeph2ps" [Vmm 13; Mem reg_aux_B 0]);
           I (Ins "vcvtph2ps" [Vmm 13; Mem reg_aux_B 0])]
  /\ In (Ins "vcvtph2ps" [Vmm 13; Mem reg_aux_B 0]) (insns c)
  /\ lane_result (T := ymm_traits) 13
       (load_B_1bcst (T := ymm_traits) brg (Vmm 13) (Mem reg_aux_B 0) 0 false)
       f16_state
     = Some (map (fun z => LFlt (inject_Z z)) [1; 2; 3; 4; 5; 6; 7; 8])
  /\ lane_result (T := ymm_traits) 13
       (load_B_1load (T := ymm_traits) brg (Vmm 13) (Mem reg_aux_B 0) 0 false)
       f16_state
     = Some (map (fun z => LFlt (inject_Z z)) [1; 3; 5; 7; 9; 11; 13; 15]).
Proof.
  intros brg c. subst brg c.
  split; [vm_compute; reflexivity|]. split; [reflexivity|].
  split; [reflexivity|].
  split; [vm_compute; repeat (first [left; reflexivity|right])|].
  split; vm_compute; reflexivity.
Qed.

(** ** A kernel with alpha = 0

    Neither the zeroing of the accumulators nor the store pipeline
    addresses A or B: one lemma for each generator they call. *)

Create HintDb no_AB.

Section AlphaZero.
Context {T : isa_traits} {E : brgemm_externals}.

Lemma vmm_mask_no_matrix : forall brg v mask_flag store k,
  reads_matrix (vmm_mask brg v mask_flag store k) = false.
Proof.
  intros. unfold vmm_mask.
  destruct (mask_flag && is_avx512 brg), store; reflexivity.
Qed.

Lemma vmm_lower_mask_no_matrix : forall brg v mask_flag store k,
  reads_matrix (vmm_lower_mask brg v mask_flag store k) = false.
Proof.
  intros. unfold vmm_lower_mask.
  destruct (mask_flag && is_avx512 brg), store; reflexivity.
Qed.

Ltac no_AB_leaf :=
  cbn; unfold no_A_B_load; cbn;
  rewrite ?vmm_mask_no_matrix, ?vmm_lower_mask_no_matrix;
  repeat match goal with
         | H : reads_matrix _ = false |- _ => rewrite H
         end;
  repeat match goal with
         | |- context [if ?b then _ else _] => destruct b
         end;
  cbn; auto.
Ltac no_AB_walk := hwalk ltac:(solve [auto with no_AB]) ltac:(no_AB_leaf).

Lemma maybe_set_avx_mask_no_AB : forall brg is_ld_tail,
  holds (on_insn no_A_B_load) (maybe_set_avx_mask brg is_ld_tail).
Proof. intros. unfold maybe_set_avx_mask. no_AB_walk. Qed.
#[local] Hint Resolve maybe_set_avx_mask_no_AB : no_AB.

Lemma cvt2ps_no_AB : forall brg type_in vmm_in op mask_flag store ktail_mask
    tail_size,
  reads_matrix op = false ->
  holds (on_insn no_A_B_load) (cvt2ps brg type_in vmm_in op mask_flag store
    ktail_mask tail_size).
Proof. intros. unfold cvt2ps. no_AB_walk. Qed.
#[local] Hint Resolve cvt2ps_no_AB : no_AB.

Lemma zero_accumulators_no_AB : forall brg bd_block2' is_bdb_tail ld_block2'
    is_ld_tail skip_accumulation,
  holds (on_insn no_A_B_load) (zero_accumulators brg bd_block2' is_bdb_tail
    ld_block2' is_ld_tail skip_accumulation).
Proof. intros. unfold zero_accumulators. no_AB_walk. Qed.
#[local] Hint Resolve zero_accumulators_no_AB : no_AB.

Lemma advance_ldb_post_op_regs_no_AB : forall brg,
  holds (on_insn no_A_B_load) (advance_ldb_post_op_regs brg).
Proof. intros. unfold advance_ldb_post_op_regs. no_AB_walk. Qed.
#[local] Hint Resolve advance_ldb_post_op_regs_no_AB : no_AB.

Lemma restore_ldb_post_op_regs_no_AB : forall brg ld_block2',
  holds (on_insn no_A_B_load) (restore_ldb_post_op_regs brg ld_block2').
Proof. intros. unfold restore_ldb_post_op_regs. no_AB_walk. Qed.
#[local] Hint Resolve restore_ldb_post_op_regs_no_AB : no_AB.

Lemma advance_bdb_post_op_regs_no_AB : forall brg adj_bd_block,
  holds (on_insn no_A_B_load) (advance_bdb_post_op_regs brg adj_bd_block).
Proof. intros. unfold advance_bdb_post_op_regs. no_AB_walk. Qed.
#[local] Hint Resolve advance_bdb_post_op_regs_no_AB : no_AB.

Lemma restore_bdb_post_op_regs_no_AB : forall brg bd_block2',
  holds (on_insn no_A_B_load) (restore_bdb_post_op_regs brg bd_block2').
Proof. intros. unfold restore_bdb_post_op_regs. no_AB_walk. Qed.
#[local] Hint Resolve restore_bdb_post_op_regs_no_AB : no_AB.

Lemma apply_alpha_beta_no_AB : forall brg bd_block' ld_block2' is_ld_tail,
  holds (on_insn no_A_B_load) (apply_alpha_beta brg bd_block' ld_block2'
    is_ld_tail).
Proof. intros. unfold apply_alpha_beta. no_AB_walk. Qed.
#[local] Hint Resolve apply_alpha_beta_no_AB : no_AB.

Lemma sum_injector_no_AB : forall brg ld_block2' is_ld_tail bd_start bd_end',
  holds (on_insn no_A_B_load) (sum_injector brg ld_block2' is_ld_tail bd_start
    bd_end').
Proof. intros. unfold sum_injector. no_AB_walk. Qed.
#[local] Hint Resolve sum_injector_no_AB : no_AB.

Lemma apply_post_ops_no_AB : forall brg bd_block' ld_block2'
    ldb_and_bdb_offset is_ld_tail,
  holds (on_insn no_A_B_load) (apply_post_ops brg bd_block' ld_block2'
    ldb_and_bdb_offset is_ld_tail).
Proof. intros. unfold apply_post_ops. no_AB_walk. Qed.
#[local] Hint Resolve apply_post_ops_no_AB : no_AB.

Lemma store_D_avx512_no_AB : forall brg addr vmm is_tail k_mask,
  reads_matrix addr = false ->
  holds (on_insn no_A_B_load) (store_D_avx512 brg addr vmm is_tail k_mask).
Proof. intros. unfold store_D_avx512. no_AB_walk. Qed.
#[local] Hint Resolve store_D_avx512_no_AB : no_AB.

Lemma store_accumulators_apply_post_ops_no_AB : forall brg bd_block'
    ld_block2' ldb_and_bdb_offset is_ld_tail,
  holds (on_insn no_A_B_load) (store_accumulators_apply_post_ops brg bd_block'
    ld_block2' ldb_and_bdb_offset is_ld_tail).
Proof. intros. unfold store_accumulators_apply_post_ops. no_AB_walk. Qed.
#[local] Hint Resolve store_accumulators_apply_post_ops_no_AB : no_AB.

Lemma apply_compensation_no_AB : forall brg bd_block' ld_block2' is_ld_tail,
  holds (on_insn no_A_B_load) (apply_compensation brg bd_block' ld_block2'
    is_ld_tail).
Proof. intros. unfold apply_compensation. no_AB_walk. Qed.
#[local] Hint Resolve apply_compensation_no_AB : no_AB.

Lemma store_accumulators_without_post_ops_no_AB : forall brg bd_block'
    ld_block2' is_ld_tail,
  holds (on_insn no_A_B_load) (store_accumulators_without_post_ops brg
    bd_block' ld_block2' is_ld_tail).
Proof. intros. unfold store_accumulators_without_post_ops. no_AB_walk. Qed.
#[local] Hint Resolve store_accumulators_without_post_ops_no_AB : no_AB.

Lemma store_accumulators_amx_no_AB : forall brg bd_block2' is_bdb_tail
    ld_block2' is_ld_tail skip_accumulation apply_post_ops'
    apply_zp_a_compensation,
  holds (on_insn no_A_B_load) (store_accumulators_amx brg bd_block2'
    is_bdb_tail ld_block2' is_ld_tail skip_accumulation apply_post_ops'
    apply_zp_a_compensation).
Proof. intros. unfold store_accumulators_amx. no_AB_walk. Qed.
#[local] Hint Resolve store_accumulators_amx_no_AB : no_AB.

Lemma store_accumulators_no_AB : forall brg bd_block2' is_bdb_tail ld_block2'
    is_ld_tail skip_accumulation,
  holds (on_insn no_A_B_load) (store_accumulators brg bd_block2' is_bdb_tail
    ld_block2' is_ld_tail skip_accumulation).
Proof. intros. unfold store_accumulators. no_AB_walk. Qed.
#[local] Hint Resolve store_accumulators_no_AB : no_AB.

Lemma ldb_regs_shift_no_AB : forall brg ld_block2' is_tail,
  holds (on_insn no_A_B_load) (ldb_regs_shift brg ld_block2' is_tail).
Proof. intros. unfold ldb_regs_shift. no_AB_walk. Qed.
#[local] Hint Resolve ldb_regs_shift_no_AB : no_AB.

Lemma copy_post_ops_stack_values_to_aux_no_AB : forall brg is_reg_tail,
  holds (on_insn no_A_B_load) (copy_post_ops_stack_values_to_aux brg
    is_reg_tail).
Proof. intros. unfold copy_post_ops_stack_values_to_aux. no_AB_walk. Qed.
#[local] Hint Resolve copy_post_ops_stack_values_to_aux_no_AB : no_AB.

Lemma ldb_loop_accumulate_alpha_zero :
  forall brg n_bcast_1_load vpad_exist need_comp_pads bd_block2' is_bdb_tail
    ld_block2' is_ld_tail check_top_vpad check_bottom_vpad rows_for_rd_tail
    skip_accumulation,
    is_zero brg.(alpha) = true ->
    ldb_loop_accumulate brg n_bcast_1_load vpad_exist need_comp_pads
      bd_block2' is_bdb_tail ld_block2' is_ld_tail check_top_vpad
      check_bottom_vpad rows_for_rd_tail skip_accumulation = Ok [].
Proof. intros. unfold ldb_loop_accumulate. rewrite H. reflexivity. Qed.

Lemma ldb_loop_no_AB :
  forall brg n_bcast_1_load vpad_exist need_comp_pads bd_block2' is_bdb_tail
    ld_block2' ldb_loop_length is_reg_tail is_ld_tail check_top_vpad
    check_bottom_vpad rows_for_rd_tail skip_accumulation,
    is_zero brg.(alpha) = true ->
    holds (on_insn no_A_B_load)
      (ldb_loop brg n_bcast_1_load vpad_exist need_comp_pads bd_block2'
         is_bdb_tail ld_block2' ldb_loop_length is_reg_tail is_ld_tail
         check_top_vpad check_bottom_vpad rows_for_rd_tail
         skip_accumulation).
Proof.
  intros. unfold ldb_loop.
  rewrite ldb_loop_accumulate_alpha_zero by assumption. no_AB_walk.
Qed.
#[local] Hint Resolve ldb_loop_no_AB : no_AB.

Lemma advance_bd_block2_post_op_regs_no_AB : forall brg bd_block2',
  is_zero brg.(alpha) = true ->
  holds (on_insn no_A_B_load) (advance_bd_block2_post_op_regs brg bd_block2').
Proof. intros. unfold advance_bd_block2_post_op_regs. no_AB_walk. Qed.
#[local] Hint Resolve advance_bd_block2_post_op_regs_no_AB : no_AB.

Lemma read_params_no_AB : forall brg,
  is_zero brg.(alpha) = true ->
  holds (on_insn no_A_B_load) (read_params brg).
Proof. intros. unfold read_params. no_AB_walk. Qed.
#[local] Hint Resolve read_params_no_AB : no_AB.

Lemma do_ldb_loop_no_AB : forall brg vpad_exist need_comp_pads bd_block2'
    is_bdb_tail check_top_vpad check_bottom_vpad rows_for_rd_tail
    skip_accumulation,
  is_zero brg.(alpha) = true ->
  holds (on_insn no_A_B_load) (do_ldb_loop brg vpad_exist need_comp_pads
    bd_block2' is_bdb_tail check_top_vpad check_bottom_vpad rows_for_rd_tail
    skip_accumulation).
Proof. intros. unfold do_ldb_loop. no_AB_walk. Qed.
#[local] Hint Resolve do_ldb_loop_no_AB : no_AB.

Lemma bdb_loop_body_no_AB : forall brg vpad_exist need_comp_pads bd_block2'
    is_bdb_tail check_top_vpad check_bottom_vpad rows_for_rd_tail
    skip_accumulation,
  is_zero brg.(alpha) = true ->
  holds (on_insn no_A_B_load) (bdb_loop_body brg vpad_exist need_comp_pads
    bd_block2' is_bdb_tail check_top_vpad check_bottom_vpad rows_for_rd_tail
    skip_accumulation).
Proof. intros. unfold bdb_loop_body. no_AB_walk. Qed.
#[local] Hint Resolve bdb_loop_body_no_AB : no_AB.

Lemma bdb_loop_avx512_vpad_no_AB : forall brg vpad_exist need_comp_pads
    skip_accumulation,
  is_zero brg.(alpha) = true ->
  holds (on_insn no_A_B_load) (bdb_loop_avx512_vpad brg vpad_exist
    need_comp_pads skip_accumulation).
Proof. intros. unfold bdb_loop_avx512_vpad. no_AB_walk. Qed.
#[local] Hint Resolve bdb_loop_avx512_vpad_no_AB : no_AB.

Lemma bdb_loop_avx512_no_vpad_no_AB : forall brg vpad_exist need_comp_pads
    skip_accumulation,
  is_zero brg.(alpha) = true ->
  holds (on_insn no_A_B_load) (bdb_loop_avx512_no_vpad brg vpad_exist
    need_comp_pads skip_accumulation).
Proof. intros. unfold bdb_loop_avx512_no_vpad. no_AB_walk. Qed.
#[local] Hint Resolve bdb_loop_avx512_no_vpad_no_AB : no_AB.

Lemma bdb_loop_avx512_no_AB : forall brg vpad_exist need_comp_pads
    skip_accumulation,
  is_zero brg.(alpha) = true ->
  holds (on_insn no_A_B_load) (bdb_loop_avx512 brg vpad_exist need_comp_pads
    skip_accumulation).
Proof. intros. unfold bdb_loop_avx512. no_AB_walk. Qed.
#[local] Hint Resolve bdb_loop_avx512_no_AB : no_AB.

Lemma bdb_loop_amx_no_AB : forall brg vpad_exist need_comp_pads
    skip_accumulation,
  is_zero brg.(alpha) = true ->
  holds (on_insn no_A_B_load) (bdb_loop_amx brg vpad_exist need_comp_pads
    skip_accumulation).
Proof. intros. unfold bdb_loop_amx. no_AB_walk. Qed.
#[local] Hint Resolve bdb_loop_amx_no_AB : no_AB.

Lemma bdb_loop_general_no_AB : forall brg vpad_exist need_comp_pads
    skip_accumulation,
  is_zero brg.(alpha) = true ->
  holds (on_insn no_A_B_load) (bdb_loop_general brg vpad_exist need_comp_pads
    skip_accumulation).
Proof. intros. unfold bdb_loop_general. no_AB_walk. Qed.
#[local] Hint Resolve bdb_loop_general_no_AB : no_AB.

Lemma bdb_loop_no_AB : forall brg vpad_exist need_comp_pads,
  is_zero brg.(alpha) = true ->
  holds (on_insn no_A_B_load) (bdb_loop brg vpad_exist need_comp_pads).
Proof. intros. unfold bdb_loop. no_AB_walk. Qed.
#[local] Hint Resolve bdb_loop_no_AB : no_AB.

Lemma generate_no_AB : forall brg,
  is_zero brg.(alpha) = true ->
  holds (on_insn no_A_B_load) (generate brg).
Proof. intros. unfold generate. no_AB_walk. Qed.
#[local] Hint Resolve generate_no_AB : no_AB.

Lemma loop_inv : forall cnt bound (body : gen) (c : list code),
  loop cnt bound body = Ok c ->
  exists b, body = Ok b /\ c = [Loop cnt bound b].
Proof.
  intros cnt bound [b|m] c H; [|discriminate H].
  injection H as <-. exists b. auto.
Qed.

Ltac inv_seq H x y Hx :=
  apply andthen_inv in H; destruct H as (x & y & Hx & H & ->).

Lemma ldb_loop_alpha_zero_shape :
  forall brg n_bcast_1_load vpad_exist need_comp_pads bd_block2' is_bdb_tail
    ld_block2' ldb_loop_length is_reg_tail is_ld_tail check_top_vpad
    check_bottom_vpad rows_for_rd_tail skip_accumulation c,
    is_zero brg.(alpha) = true ->
    ldb_loop brg n_bcast_1_load vpad_exist need_comp_pads bd_block2'
      is_bdb_tail ld_block2' ldb_loop_length is_reg_tail is_ld_tail
      check_top_vpad check_bottom_vpad rows_for_rd_tail skip_accumulation
    = Ok c ->
    exists pre z mid st post,
      zero_accumulators brg bd_block2' is_bdb_tail ld_block2' is_ld_tail
        skip_accumulation = Ok z
      /\ store_accumulators brg bd_block2' is_bdb_tail ld_block2' is_ld_tail
           skip_accumulation = Ok st
      /\ forallb moves_gpr mid = true
      /\ c = pre ++ (if is_ldb_loop_ brg
                     then [Loop reg_ldb_loop 0 (z ++ mid ++ st ++ post)]
                     else z ++ mid ++ st ++ post).
Proof.
  intros until c. intros Ha H. unfold ldb_loop in H.
  rewrite ldb_loop_accumulate_alpha_zero in H by assumption.
  cbv zeta in H. inv_seq H p1 r1 Hp1. inv_seq H p2 r2 Hp2.
  assert (Hb : exists b,
    (zero_accumulators brg bd_block2' is_bdb_tail ld_block2' is_ld_tail
       skip_accumulation ;;
     (if is_ldb_loop_ brg
      then ins "mov" [Mem reg_rsp reg_D_offs_; Gpr reg_D]
      else
       ins "mov" [Gpr reg_ldb_loop; Gpr reg_D] ;;
       when (is_tmm brg)
         (ins "mov" [Mem reg_rsp reg_ldb_loop_offs_; Gpr reg_ldb_loop])) ;;
     when (max_bs (brgattr brg) >? 1)
       (ins "mov" [Mem reg_rsp reg_aux_D_offs_; Gpr reg_aux_D]) ;;
     Ok [] ;;
     (if is_ldb_loop_ brg
      then ins "mov" [Gpr reg_D; Mem reg_rsp reg_D_offs_]
      else
       when (is_tmm brg)
         (ins "mov" [Gpr reg_ldb_loop; Mem reg_rsp reg_ldb_loop_offs_]) ;;
       ins "mov" [Gpr reg_D; Gpr reg_ldb_loop]) ;;
     when (max_bs (brgattr brg) >? 1)
       (ins "mov" [Gpr reg_aux_D; Mem reg_rsp reg_aux_D_offs_]) ;;
     store_accumulators brg bd_block2' is_bdb_tail ld_block2' is_ld_tail
       skip_accumulation ;;
     when (is_ldb_loop_ brg)
       (when (is_tmm brg)
          (ins "mov" [Gpr reg_ldb_loop; Mem reg_rsp reg_ldb_loop_offs_]) ;;
        (if negb is_ld_tail
         then ldb_regs_shift brg ld_block2' false
         else ldb_regs_shift brg 1 true) ;;
        when (is_tmm brg)
          (ins "mov" [Mem reg_rsp reg_ldb_loop_offs_; Gpr reg_ldb_loop])))
    = Ok b
    /\ r2 = if is_ldb_loop_ brg then [Loop reg_ldb_loop 0 b] else b).
  { destruct (is_ldb_loop_ brg).
    - apply loop_inv in H. destruct H as (b & Hb & ->). exists b. auto.
    - exists r2. auto. }
  clear H. destruct Hb as (b & Hb & ->).
  inv_seq Hb z y1 Hz. inv_seq Hb m1 y2 Hm1. inv_seq Hb m2 y3 Hm2.
  inv_seq Hb m3 y4 Hm3. inv_seq Hb m4 y5 Hm4. inv_seq Hb m5 y6 Hm5.
  inv_seq Hb st post Hst.
  exists (p1 ++ p2), z, (m1 ++ m2 ++ m3 ++ m4 ++ m5), st, post.
  split; [assumption|]. split; [assumption|]. split.
  - injection Hm3 as <-.
    destruct (is_ldb_loop_ brg), (max_bs (brgattr brg) >? 1), (is_tmm brg);
      cbn in Hm1, Hm2, Hm4, Hm5;
      injection Hm1 as <-; injection Hm2 as <-; injection Hm4 as <-;
      injection Hm5 as <-; reflexivity.
  - rewrite <- !app_assoc. reflexivity.
Qed.

Lemma zeroing_for {T' : isa_traits} :
  forall (l : list Z) (body : Z -> gen) (written : Z -> Z -> Prop),
    (forall x, zeroing (body x) (written x)) ->
    zeroing (for_ l body) (fun r => exists x, In x l /\ written x r).
Proof.
  intros l body written Hb. induction l as [|x l IH]; intros s.
  - exists s. split; [reflexivity|].
    intros r [(y & [] & _)|Hr]. exact Hr.
  - cbn [for_]. destruct (Hb x s) as (s1 & H1 & Z1).
    destruct (IH s1) as (s2 & H2 & Z2).
    destruct (body x) as [cx|]; [|discriminate H1].
    destruct (for_ l body) as [cl|]; [|discriminate H2].
    exists s2. cbn in *. rewrite exec_app, H1. split; [exact H2|].
    intros r [(y & [<-|Hy] & Hw)|Hr].
    + apply Z2. right. apply Z1. left. exact Hw.
    + apply Z2. left. exists y. auto.
    + apply Z2. right. apply Z1. right. exact Hr.
Qed.

Lemma lxor_self_zero : forall v : list lane,
  Forall (eq (LInt 0)) (lift2 Z.lxor v v).
Proof.
  intros v. unfold lift2. induction v as [|x v IH]; cbn; constructor.
  - rewrite Z.lxor_nilpotent. reflexivity.
  - exact IH.
Qed.

Lemma zeroing_vpxor {T' : isa_traits} : forall v : Z,
  zeroing (ins "uni_vpxor" [Vmm v; Vmm v; Vmm v]) (eq v).
Proof.
  intros v s. eexists. split; [reflexivity|].
  intros r [<-|Hr]; unfold zero_reg; cbn.
  - rewrite Z.eqb_refl. apply lxor_self_zero.
  - destruct (r =? v) eqn:Hrv; [apply lxor_self_zero|exact Hr].
Qed.

Lemma zero_accumulators_zeroes :
  forall brg bd_block2' is_bdb_tail ld_block2' is_ld_tail skip_accumulation
    (s : vstate),
    brg.(is_tmm) = false ->
    exists s',
      exec_gen (zero_accumulators brg bd_block2' is_bdb_tail ld_block2'
                  is_ld_tail skip_accumulation) s = Some s'
      /\ forall bd ld,
           0 <= bd < (if is_bdb_tail then brg.(bdb_tail) else brg.(bd_block)) ->
           0 <= ld < ld_block2' ->
           zero_reg s' (accm brg ld_block2' bd ld).
Proof.
  intros brg bd_block2' is_bdb_tail ld_block2' is_ld_tail skip s Ht.
  unfold zero_accumulators. rewrite Ht. cbv zeta.
  set (bd_block' := if is_bdb_tail then bdb_tail brg else bd_block brg).
  destruct (zeroing_for (range 0 bd_block')
              (fun bd => for_ (range 0 ld_block2') (fun ld =>
                 ins "uni_vpxor"
                     [Vmm (accm brg ld_block2' bd ld);
                      Vmm (accm brg ld_block2' bd ld);
                      Vmm (accm brg ld_block2' bd ld)]))
              (fun bd r => exists ld, In ld (range 0 ld_block2')
                                      /\ accm brg ld_block2' bd ld = r))
    with (s := s) as (s' & He & Hz).
  - intros bd. apply (zeroing_for (range 0 ld_block2')
      (fun ld => ins "uni_vpxor"
                     [Vmm (accm brg ld_block2' bd ld);
                      Vmm (accm brg ld_block2' bd ld);
                      Vmm (accm brg ld_block2' bd ld)])
      (fun ld => eq (accm brg ld_block2' bd ld))).
    intros ld. apply zeroing_vpxor.
  - exists s'. split; [exact He|].
    intros bd ld Hbd Hld. apply Hz. left.
    exists bd. split; [apply in_range; lia|].
    exists ld. split; [apply in_range; lia|reflexivity].
Qed.


End AlphaZero.

(** ** Resource allocator *)

(** C2.  For every descriptor the accumulator register budget is the
    platform's vector-register count minus the reservations of the active
    numeric-format features: 2 (int8 without VNNI) else 5 (fp8 through
    conversion) else 0; 5 for nf4 weights on avx2 and 1 for nf4 on any other
    ISA; 1 for stride-0 weight zero-points; 2 for dynamic source
    quantization; and [ld_block2] more when dynamic quantization meets
    per-column weight zero-points. *)
Theorem max_effective_vregs_is_budget :
  forall (T : isa_traits) (brg : brgemm_desc_t),
    max_effective_vregs brg
    = isa_num_vregs brg.(isa_impl) - reserved_vregs brg.
Proof.
  intros T brg.
  unfold max_effective_vregs, reserved_vregs, reserved_int8_or_fp8,
    reserved_nf4, reserved_uniform_wei_zero_point, reserved_dyn_quant,
    reserved_per_column_wei_zero_points, one_of.
  assert (Hnf4 :
    forall d i,
      (if existsb (data_type.eqb d) [data_type.nf4] && cpu_isa_t_beq i avx2
       then 5 else 0)
      + (if existsb (data_type.eqb d) [data_type.nf4]
            && negb (cpu_isa_t_beq i avx2) then 1 else 0)
      = match d with
        | data_type.nf4 => match i with avx2 => 5 | _ => 1 end
        | _ => 0
        end).
  { intros d i; destruct d, i; reflexivity. }
  specialize (Hnf4 (dt_b brg) (isa_impl brg)).
  destruct (is_int8 brg), (has_int8_vnni brg), (is_fp8_via_convert brg),
    (with_wei_decomp_zero_points brg), (with_src_dyn_quant brg),
    (wei_decomp_zero_points_stride brg =? 0);
    cbn [negb andb] in *; lia.
Qed.

(** ** Accumulator cells: zeroing, accumulation, store *)

Section CellRegisters.
Context {T : isa_traits} {E : brgemm_externals}.

Lemma accm_injective : forall brg ld_block2' bd ld bd' ld',
  0 <= ld < ld_block2' -> 0 <= ld' < ld_block2' ->
  accm brg ld_block2' bd ld = accm brg ld_block2' bd' ld' ->
  bd = bd' /\ ld = ld'.
Proof.
  intros brg n bd ld bd' ld' Hl Hl' H. unfold accm in H.
  assert (Hq : bd * n + ld = bd' * n + ld') by lia.
  assert (bd = bd') by nia. subst bd'. split; [reflexivity|lia].
Qed.

Ltac in_ranges :=
  repeat match goal with
         | H : In _ (range _ _) |- _ => apply range_In in H
         end.

Lemma zero_accumulators_cells :
  forall brg bd_block2' (is_bdb_tail : bool) ld_block2' is_ld_tail
    skip_accumulation,
    brg.(is_tmm) = false ->
    holds (on_insn
             (clears_cell brg ld_block2' 0
                (if is_bdb_tail then brg.(bdb_tail) else brg.(bd_block))))
      (zero_accumulators brg bd_block2' is_bdb_tail ld_block2' is_ld_tail
         skip_accumulation).
Proof.
  intros until skip_accumulation. intros Ht.
  unfold zero_accumulators. rewrite Ht. cbv iota.
  hwalk ltac:(idtac)
        ltac:(cbn; in_ranges;
              refine (ex_intro _ _ (ex_intro _ _
                        (conj _ (conj _ eq_refl)))); lia).
Qed.

Lemma store_accumulators_without_post_ops_cells :
  forall brg bd_block' ld_block2' is_ld_tail,
    holds (on_insn (stores_cell brg ld_block2' 0 bd_block'))
      (store_accumulators_without_post_ops brg bd_block' ld_block2'
         is_ld_tail).
Proof.
  intros. unfold store_accumulators_without_post_ops.
  hwalk ltac:(idtac)
        ltac:(cbn; unfold stores_cell; cbn;
              first [ intros Habs; discriminate Habs
                    | intros _; in_ranges; do 4 eexists;
                      (split; [|split]); cycle 2;
                      [ split; [reflexivity|];
                        split; [first [left; reflexivity
                                      |right; reflexivity]
                               |reflexivity]
                      | lia | lia ] ]).
Qed.


End CellRegisters.



(** ** The dispatch on the virtual padding *)

Section Padding.
Context {T : isa_traits} {E : brgemm_externals}.

Lemma vpad_cases_spec :
  forall (body : Z -> gen) (case_of : Z -> option Z) (l : list Z) cases,
    vpad_cases body case_of l = Ok cases ->
    map fst cases = filter (dispatched case_of) l
    /\ forall p b, In (p, b) cases ->
         exists rv, case_of p = Some rv /\ body rv = Ok b.
Proof.
  intros body case_of l. induction l as [|v l IH]; intros cases H.
  - injection H as <-. split; [reflexivity|]. intros p b [].
  - cbn [vpad_cases] in H. cbn [filter]. unfold dispatched at 1.
    destruct (case_of v) as [rv|] eqn:Hv; [|apply IH; exact H].
    destruct (body rv) as [b|] eqn:Hb; [|discriminate H].
    destruct (vpad_cases body case_of l) as [rest|]; [|discriminate H].
    injection H as <-. destruct (IH rest eq_refl) as (Hk & Hc).
    split; [cbn; rewrite Hk; reflexivity|].
    intros p b' [Hp|Hp].
    + injection Hp as <- <-. exists rv. auto.
    + apply Hc. exact Hp.
Qed.

Lemma vpad_dispatch_inv :
  forall brg vpad_exist need_comp_pads (body : Z -> gen) is_bdb_tail
    check_top_vpad check_bottom_vpad c,
    vpad_dispatch brg vpad_exist need_comp_pads body is_bdb_tail
      check_top_vpad check_bottom_vpad = Ok c ->
    exists pre cases dflt,
      c = pre ++ [VpadSwitch cases dflt]
      /\ body 0 = Ok dflt
      /\ vpad_cases body
           (vpad_case brg need_comp_pads is_bdb_tail check_top_vpad
              check_bottom_vpad)
           (range (- brg.(brgattr).(max_bottom_vpad))
                  (brg.(brgattr).(max_top_vpad) + 1)) = Ok cases.
Proof.
  intros until c. intros H. unfold vpad_dispatch in H. cbv zeta in H.
  apply andthen_inv in H. destruct H as (x & y & _ & H & ->).
  apply andthen_inv in H. destruct H as (x' & y' & _ & H & ->).
  destruct (vpad_cases _ _ _) as [cases|]; [|discriminate H].
  cbn [bindr] in H. destruct (body 0) as [dflt|]; [|discriminate H].
  injection H as <-. exists (x ++ x'), cases, dflt.
  rewrite app_assoc. auto.
Qed.

Lemma vpad_case_sides :
  forall brg need_comp_pads is_bdb_tail check_top_vpad check_bottom_vpad p rv,
    vpad_case brg need_comp_pads is_bdb_tail check_top_vpad
      check_bottom_vpad p = Some rv ->
    (0 < p -> check_top_vpad = true)
    /\ (p < 0 -> check_bottom_vpad = true)
    /\ (brg.(bdb_tail) = 0 -> rv = p).
Proof.
  intros until rv. unfold vpad_case. intros H.
  destruct check_top_vpad, check_bottom_vpad, (p >? 0) eqn:Hp,
    (p <? 0) eqn:Hn; cbn in H; try discriminate H;
    repeat split; try reflexivity; try lia; intros Hz;
    try rewrite Hz in H; cbn in H; congruence.
Qed.

Lemma vpad_case_checked :
  forall brg need_comp_pads is_bdb_tail check_top_vpad check_bottom_vpad p,
    (0 < p -> check_top_vpad = true) ->
    (p < 0 -> check_bottom_vpad = true /\ brg.(bdb_tail) = 0) ->
    vpad_case brg need_comp_pads is_bdb_tail check_top_vpad
      check_bottom_vpad p = Some p.
Proof.
  intros until p. intros Ht Hb. unfold vpad_case.
  destruct (p >? 0) eqn:Hp.
  - rewrite Ht by lia. cbn. assert (Hn : (p <? 0) = false) by lia.
    rewrite Hn, !andb_false_r. reflexivity.
  - rewrite andb_false_r. destruct (p <? 0) eqn:Hn.
    + destruct Hb as (-> & ->); [lia|]. reflexivity.
    + rewrite !andb_false_r. reflexivity.
Qed.


End Padding.



(** ** The store phase with the runtime flags decided

    The generators of the store phase that emit straight-line code. *)

Create HintDb straight.

Section PostOpsFlag.
Context {T : isa_traits} {E : brgemm_externals}.

Ltac straight_walk :=
  hwalk ltac:(solve [auto with straight]) ltac:(exact Logic.I).

Lemma maybe_set_avx_mask_straight : forall brg is_ld_tail,
  holds is_insn (maybe_set_avx_mask brg is_ld_tail).
Proof. intros. unfold maybe_set_avx_mask. straight_walk. Qed.
#[local] Hint Resolve maybe_set_avx_mask_straight : straight.

Lemma cvt2ps_straight : forall brg type_in vmm_in op mask_flag store
    ktail_mask tail_size,
  holds is_insn (cvt2ps brg type_in vmm_in op mask_flag store ktail_mask
    tail_size).
Proof. intros. unfold cvt2ps. straight_walk. Qed.
#[local] Hint Resolve cvt2ps_straight : straight.

Lemma apply_alpha_beta_straight : forall brg bd_block' ld_block2' is_ld_tail,
  holds is_insn (apply_alpha_beta brg bd_block' ld_block2' is_ld_tail).
Proof. intros. unfold apply_alpha_beta. straight_walk. Qed.
#[local] Hint Resolve apply_alpha_beta_straight : straight.

Lemma apply_compensation_straight : forall brg bd_block' ld_block2' is_ld_tail,
  holds is_insn (apply_compensation brg bd_block' ld_block2' is_ld_tail).
Proof. intros. unfold apply_compensation. straight_walk. Qed.
#[local] Hint Resolve apply_compensation_straight : straight.

Lemma store_accumulators_without_post_ops_straight : forall brg bd_block'
    ld_block2' is_ld_tail,
  holds is_insn (store_accumulators_without_post_ops brg bd_block' ld_block2'
    is_ld_tail).
Proof. intros. unfold store_accumulators_without_post_ops. straight_walk. Qed.
#[local] Hint Resolve store_accumulators_without_post_ops_straight : straight.

Lemma resolve_all_app : forall f (a b : list code),
  resolve_all f (a ++ b) = resolve_all f a ++ resolve_all f b.
Proof. intros f a b. unfold resolve_all. apply flat_map_app. Qed.

Lemma top_level_nodes : forall (P : code -> Prop) (c : list code),
  Forall P (all_nodes c) -> Forall P c.
Proof.
  intros P c. induction c as [|x c IH]; intros H; constructor.
  - unfold all_nodes in H. cbn [flat_map] in H.
    apply Forall_app in H. destruct H as (H & _).
    destruct x; inversion H; assumption.
  - apply IH. unfold all_nodes in H. cbn [flat_map] in H.
    apply Forall_app in H. apply H.
Qed.

Lemma resolve_all_straight : forall f (c : list code),
  Forall is_insn c -> resolve_all f c = c.
Proof.
  intros f c H. induction H as [|x c Hx _ IH]; [reflexivity|].
  unfold resolve_all in *. cbn [flat_map]. rewrite IH.
  destruct x; try contradiction. reflexivity.
Qed.

Lemma straight_code : forall (g : gen) (c : list code),
  holds is_insn g -> g = Ok c -> Forall is_insn c.
Proof.
  intros g c H ->. apply top_level_nodes. exact H.
Qed.

Lemma if_flag_nz_inv : forall slot (nz z : gen) (c : list code),
  if_flag_nz slot nz z = Ok c ->
  exists a b, nz = Ok a /\ z = Ok b /\ c = [IfFlagNZ slot a b].
Proof.
  intros slot [a|m] [b|m'] c H; try discriminate H.
  injection H as <-. exists a, b. auto.
Qed.

Lemma store_accumulators_without_post_ops_no_saturation :
  forall brg bd_block' ld_block2' is_ld_tail,
    saturates_without_post_ops brg = false ->
    holds (on_insn no_saturation)
      (store_accumulators_without_post_ops brg bd_block' ld_block2'
         is_ld_tail).
Proof.
  intros brg bd_block' ld_block2' is_ld_tail Hs.
  unfold store_accumulators_without_post_ops.
  fold (saturates_without_post_ops brg). rewrite Hs.
  hwalk ltac:(idtac) ltac:(try discriminate; exact Logic.I).
Qed.


End PostOpsFlag.



(** ** Runtime flags

    No generator emits a branch on a stack slot other than the three
    flag slots: one lemma for each generator, in the order of the calls. *)

Create HintDb flags.

Section Flags.
Context {T : isa_traits} {E : brgemm_externals}.

Ltac flags_leaf := cbn; auto.
Ltac flags_walk := hwalk ltac:(solve [auto with flags]) ltac:(flags_leaf).

Lemma maybe_set_avx_mask_flags : forall brg is_ld_tail,
  holds branches_on_runtime_flag (maybe_set_avx_mask brg is_ld_tail).
Proof. intros. unfold maybe_set_avx_mask. flags_walk. Qed.
#[local] Hint Resolve maybe_set_avx_mask_flags : flags.

Lemma cvt2ps_flags : forall brg type_in vmm_in op mask_flag store ktail_mask
    tail_size,
  holds branches_on_runtime_flag (cvt2ps brg type_in vmm_in op mask_flag store
    ktail_mask tail_size).
Proof. intros. unfold cvt2ps. flags_walk. Qed.
#[local] Hint Resolve cvt2ps_flags : flags.

Lemma zero_accumulators_flags : forall brg bd_block2' is_bdb_tail ld_block2'
    is_ld_tail skip_accumulation,
  holds branches_on_runtime_flag (zero_accumulators brg bd_block2' is_bdb_tail
    ld_block2' is_ld_tail skip_accumulation).
Proof. intros. unfold zero_accumulators. flags_walk. Qed.
#[local] Hint Resolve zero_accumulators_flags : flags.

Lemma dot_product_flags : forall brg v1 v2 v3,
  holds branches_on_runtime_flag (dot_product brg v1 v2 v3).
Proof. intros. unfold dot_product. flags_walk. Qed.
#[local] Hint Resolve dot_product_flags : flags.

Lemma compensation_padding_flags : forall brg ld_block2' vmm_load vmm_tmp' ld
    bd_b bd_e,
  holds branches_on_runtime_flag (compensation_padding brg ld_block2' vmm_load
    vmm_tmp' ld bd_b bd_e).
Proof. intros. unfold compensation_padding. flags_walk. Qed.
#[local] Hint Resolve compensation_padding_flags : flags.

Lemma compute_int8_compensation_flags : forall brg n_bcast_1_load rd_loop bd_b
    bd_e bd_block' ld_block2' is_ld_tail vpad,
  holds branches_on_runtime_flag (compute_int8_compensation brg n_bcast_1_load
    rd_loop bd_b bd_e bd_block' ld_block2' is_ld_tail vpad).
Proof. intros. unfold compute_int8_compensation. flags_walk. Qed.
#[local] Hint Resolve compute_int8_compensation_flags : flags.

Lemma broadcast_flags : forall brg clear_first rd_tail_size v1 offset is_tail
    dt,
  holds branches_on_runtime_flag (broadcast brg clear_first rd_tail_size v1
    offset is_tail dt).
Proof. intros. unfold broadcast. flags_walk. Qed.
#[local] Hint Resolve broadcast_flags : flags.

Lemma prefetch_B_flags : forall brg ld_block2' k rd,
  holds branches_on_runtime_flag (prefetch_B brg ld_block2' k rd).
Proof. intros. unfold prefetch_B. flags_walk. Qed.
#[local] Hint Resolve prefetch_B_flags : flags.

Lemma gemm_microkernel_dyn_quant_flags : forall brg n_bcast_1_load
    need_comp_pads bd_block2' is_bdb_tail ld_block2' is_rd_tail is_ld_tail
    vpad rows_for_rd_tail,
  holds branches_on_runtime_flag (gemm_microkernel_dyn_quant brg
    n_bcast_1_load need_comp_pads bd_block2' is_bdb_tail ld_block2' is_rd_tail
    is_ld_tail vpad rows_for_rd_tail).
Proof. intros. unfold gemm_microkernel_dyn_quant. flags_walk. Qed.
#[local] Hint Resolve gemm_microkernel_dyn_quant_flags : flags.

Lemma load_B_1load_flags : forall brg vmm_load addr rd is_ld_tail,
  holds branches_on_runtime_flag (load_B_1load brg vmm_load addr rd
    is_ld_tail).
Proof. intros. unfold load_B_1load. flags_walk. Qed.
#[local] Hint Resolve load_B_1load_flags : flags.

Lemma load_B_1bcst_flags : forall brg vmm_load addr rd is_ld_tail,
  holds branches_on_runtime_flag (load_B_1bcst brg vmm_load addr rd
    is_ld_tail).
Proof. intros. unfold load_B_1bcst. flags_walk. Qed.
#[local] Hint Resolve load_B_1bcst_flags : flags.

Lemma gemm_microkernel_1load_flags : forall brg n_bcast_1_load ld_block2'
    is_rd_tail is_ld_tail bd_b bd_e rows_for_rd_tail,
  holds branches_on_runtime_flag (gemm_microkernel_1load brg n_bcast_1_load
    ld_block2' is_rd_tail is_ld_tail bd_b bd_e rows_for_rd_tail).
Proof. intros. unfold gemm_microkernel_1load. flags_walk. Qed.
#[local] Hint Resolve gemm_microkernel_1load_flags : flags.

Lemma load_zero_points_flags : forall brg reg_ptr vmm_zp addr,
  holds branches_on_runtime_flag (load_zero_points brg reg_ptr vmm_zp addr).
Proof. intros. unfold load_zero_points. flags_walk. Qed.
#[local] Hint Resolve load_zero_points_flags : flags.

Lemma decode_B_flags : forall brg n_bcast_1_load vmm_load addr rd vmm_mask7
    vmm_mask8 vmm_lookup vmm_lookup_low vmm_lookup_high,
  holds branches_on_runtime_flag (decode_B brg n_bcast_1_load vmm_load addr rd
    vmm_mask7 vmm_mask8 vmm_lookup vmm_lookup_low vmm_lookup_high).
Proof. intros. unfold decode_B. flags_walk. Qed.
#[local] Hint Resolve decode_B_flags : flags.

Lemma gemm_microkernel_wei_decomp_flags : forall brg n_bcast_1_load ld_block2'
    is_rd_tail is_ld_tail bd_b bd_e rows_for_rd_tail,
  holds branches_on_runtime_flag (gemm_microkernel_wei_decomp brg
    n_bcast_1_load ld_block2' is_rd_tail is_ld_tail bd_b bd_e
    rows_for_rd_tail).
Proof. intros. unfold gemm_microkernel_wei_decomp. flags_walk. Qed.
#[local] Hint Resolve gemm_microkernel_wei_decomp_flags : flags.

Lemma gemm_microkernel_1bcst_flags : forall brg n_bcast_1_load ld_block2'
    is_rd_tail is_ld_tail bd_b bd_e rows_for_rd_tail,
  holds branches_on_runtime_flag (gemm_microkernel_1bcst brg n_bcast_1_load
    ld_block2' is_rd_tail is_ld_tail bd_b bd_e rows_for_rd_tail).
Proof. intros. unfold gemm_microkernel_1bcst. flags_walk. Qed.
#[local] Hint Resolve gemm_microkernel_1bcst_flags : flags.

Lemma gemm_microkernel_flags : forall brg n_bcast_1_load need_comp_pads
    bd_block2' is_bdb_tail ld_block2' is_rd_tail is_ld_tail vpad
    rows_for_rd_tail,
  holds branches_on_runtime_flag (gemm_microkernel brg n_bcast_1_load
    need_comp_pads bd_block2' is_bdb_tail ld_block2' is_rd_tail is_ld_tail
    vpad rows_for_rd_tail).
Proof. intros. unfold gemm_microkernel. flags_walk. Qed.
#[local] Hint Resolve gemm_microkernel_flags : flags.

Lemma fp8_to_f16_upconvert_flags : forall brg num_rows tile_num_col_bytes
    reg_base offset reg_data_stride dt is_rd_tail,
  holds branches_on_runtime_flag (fp8_to_f16_upconvert brg num_rows
    tile_num_col_bytes reg_base offset reg_data_stride dt is_rd_tail).
Proof. intros. unfold fp8_to_f16_upconvert. flags_walk. Qed.
#[local] Hint Resolve fp8_to_f16_upconvert_flags : flags.

Lemma fp8_to_f16_upconvert_to_vnni_flags : forall brg num_rows
    tile_num_col_bytes reg_base offset reg_data_stride dt is_rd_tail,
  holds branches_on_runtime_flag (fp8_to_f16_upconvert_to_vnni brg num_rows
    tile_num_col_bytes reg_base offset reg_data_stride dt is_rd_tail).
Proof. intros. unfold fp8_to_f16_upconvert_to_vnni. flags_walk. Qed.
#[local] Hint Resolve fp8_to_f16_upconvert_to_vnni_flags : flags.

Lemma maybe_pre_process_data_flags : forall brg matrix_kind t1 reg_base offset
    reg_stride num_rows num_col_bytes is_rd_tail,
  holds branches_on_runtime_flag (maybe_pre_process_data brg matrix_kind t1
    reg_base offset reg_stride num_rows num_col_bytes is_rd_tail).
Proof. intros. unfold maybe_pre_process_data. flags_walk. Qed.
#[local] Hint Resolve maybe_pre_process_data_flags : flags.

Lemma maybe_tileloadd_nt_flags : forall brg matrix_kind idx offset is_rd_tail
    is_tail,
  holds branches_on_runtime_flag (maybe_tileloadd_nt brg matrix_kind idx
    offset is_rd_tail is_tail).
Proof. intros. unfold maybe_tileloadd_nt. flags_walk. Qed.
#[local] Hint Resolve maybe_tileloadd_nt_flags : flags.

Lemma tdpbxxd_flags : forall brg x1 x2 x3,
  holds branches_on_runtime_flag (tdpbxxd brg x1 x2 x3).
Proof. intros. unfold tdpbxxd. flags_walk. Qed.
#[local] Hint Resolve tdpbxxd_flags : flags.

Lemma gemm_microkernel_amx_flags : forall brg bd_block2' is_bdb_tail
    ld_block2' is_rd_tail is_ld_tail,
  holds branches_on_runtime_flag (gemm_microkernel_amx brg bd_block2'
    is_bdb_tail ld_block2' is_rd_tail is_ld_tail).
Proof. intros. unfold gemm_microkernel_amx. flags_walk. Qed.
#[local] Hint Resolve gemm_microkernel_amx_flags : flags.

Lemma advance_ldb_post_op_regs_flags : forall brg,
  holds branches_on_runtime_flag (advance_ldb_post_op_regs brg).
Proof. intros. unfold advance_ldb_post_op_regs. flags_walk. Qed.
#[local] Hint Resolve advance_ldb_post_op_regs_flags : flags.

Lemma restore_ldb_post_op_regs_flags : forall brg ld_block2',
  holds branches_on_runtime_flag (restore_ldb_post_op_regs brg ld_block2').
Proof. intros. unfold restore_ldb_post_op_regs. flags_walk. Qed.
#[local] Hint Resolve restore_ldb_post_op_regs_flags : flags.

Lemma advance_bdb_post_op_regs_flags : forall brg adj_bd_block,
  holds branches_on_runtime_flag (advance_bdb_post_op_regs brg adj_bd_block).
Proof. intros. unfold advance_bdb_post_op_regs. flags_walk. Qed.
#[local] Hint Resolve advance_bdb_post_op_regs_flags : flags.

Lemma restore_bdb_post_op_regs_flags : forall brg bd_block2',
  holds branches_on_runtime_flag (restore_bdb_post_op_regs brg bd_block2').
Proof. intros. unfold restore_bdb_post_op_regs. flags_walk. Qed.
#[local] Hint Resolve restore_bdb_post_op_regs_flags : flags.

Lemma apply_alpha_beta_flags : forall brg bd_block' ld_block2' is_ld_tail,
  holds branches_on_runtime_flag (apply_alpha_beta brg bd_block' ld_block2'
    is_ld_tail).
Proof. intros. unfold apply_alpha_beta. flags_walk. Qed.
#[local] Hint Resolve apply_alpha_beta_flags : flags.

Lemma sum_injector_flags : forall brg ld_block2' is_ld_tail bd_start bd_end',
  holds branches_on_runtime_flag (sum_injector brg ld_block2' is_ld_tail
    bd_start bd_end').
Proof. intros. unfold sum_injector. flags_walk. Qed.
#[local] Hint Resolve sum_injector_flags : flags.

Lemma apply_post_ops_flags : forall brg bd_block' ld_block2'
    ldb_and_bdb_offset is_ld_tail,
  holds branches_on_runtime_flag (apply_post_ops brg bd_block' ld_block2'
    ldb_and_bdb_offset is_ld_tail).
Proof. intros. unfold apply_post_ops. flags_walk. Qed.
#[local] Hint Resolve apply_post_ops_flags : flags.

Lemma store_D_avx512_flags : forall brg addr vmm is_tail k_mask,
  holds branches_on_runtime_flag (store_D_avx512 brg addr vmm is_tail k_mask).
Proof. intros. unfold store_D_avx512. flags_walk. Qed.
#[local] Hint Resolve store_D_avx512_flags : flags.

Lemma store_accumulators_apply_post_ops_flags : forall brg bd_block'
    ld_block2' ldb_and_bdb_offset is_ld_tail,
  holds branches_on_runtime_flag (store_accumulators_apply_post_ops brg
    bd_block' ld_block2' ldb_and_bdb_offset is_ld_tail).
Proof. intros. unfold store_accumulators_apply_post_ops. flags_walk. Qed.
#[local] Hint Resolve store_accumulators_apply_post_ops_flags : flags.

Lemma apply_compensation_flags : forall brg bd_block' ld_block2' is_ld_tail,
  holds branches_on_runtime_flag (apply_compensation brg bd_block' ld_block2'
    is_ld_tail).
Proof. intros. unfold apply_compensation. flags_walk. Qed.
#[local] Hint Resolve apply_compensation_flags : flags.

Lemma store_accumulators_without_post_ops_flags : forall brg bd_block'
    ld_block2' is_ld_tail,
  holds branches_on_runtime_flag (store_accumulators_without_post_ops brg
    bd_block' ld_block2' is_ld_tail).
Proof. intros. unfold store_accumulators_without_post_ops. flags_walk. Qed.
#[local] Hint Resolve store_accumulators_without_post_ops_flags : flags.

Lemma store_accumulators_amx_flags : forall brg bd_block2' is_bdb_tail
    ld_block2' is_ld_tail skip_accumulation apply_post_ops'
    apply_zp_a_compensation,
  holds branches_on_runtime_flag (store_accumulators_amx brg bd_block2'
    is_bdb_tail ld_block2' is_ld_tail skip_accumulation apply_post_ops'
    apply_zp_a_compensation).
Proof. intros. unfold store_accumulators_amx. flags_walk. Qed.
#[local] Hint Resolve store_accumulators_amx_flags : flags.

Lemma store_accumulators_flags : forall brg bd_block2' is_bdb_tail ld_block2'
    is_ld_tail skip_accumulation,
  holds branches_on_runtime_flag (store_accumulators brg bd_block2'
    is_bdb_tail ld_block2' is_ld_tail skip_accumulation).
Proof. intros. unfold store_accumulators. flags_walk. Qed.
#[local] Hint Resolve store_accumulators_flags : flags.

Lemma ldb_regs_shift_flags : forall brg ld_block2' is_tail,
  holds branches_on_runtime_flag (ldb_regs_shift brg ld_block2' is_tail).
Proof. intros. unfold ldb_regs_shift. flags_walk. Qed.
#[local] Hint Resolve ldb_regs_shift_flags : flags.

Lemma advance_bd_block2_post_op_regs_flags : forall brg bd_block2',
  holds branches_on_runtime_flag (advance_bd_block2_post_op_regs brg
    bd_block2').
Proof. intros. unfold advance_bd_block2_post_op_regs. flags_walk. Qed.
#[local] Hint Resolve advance_bd_block2_post_op_regs_flags : flags.

Lemma copy_post_ops_stack_values_to_aux_flags : forall brg is_reg_tail,
  holds branches_on_runtime_flag (copy_post_ops_stack_values_to_aux brg
    is_reg_tail).
Proof. intros. unfold copy_post_ops_stack_values_to_aux. flags_walk. Qed.
#[local] Hint Resolve copy_post_ops_stack_values_to_aux_flags : flags.

Lemma read_params_flags : forall brg,
  holds branches_on_runtime_flag (read_params brg).
Proof. intros. unfold read_params. flags_walk. Qed.
#[local] Hint Resolve read_params_flags : flags.

Lemma restore_A_B_matrices_flags : forall brg vpad_exist,
  holds branches_on_runtime_flag (restore_A_B_matrices brg vpad_exist).
Proof. intros. unfold restore_A_B_matrices. flags_walk. Qed.
#[local] Hint Resolve restore_A_B_matrices_flags : flags.

Lemma set_A_B_matrices_flags : forall brg vpad_exist,
  holds branches_on_runtime_flag (set_A_B_matrices brg vpad_exist).
Proof. intros. unfold set_A_B_matrices. flags_walk. Qed.
#[local] Hint Resolve set_A_B_matrices_flags : flags.

Lemma ic_group_shift_flags : forall src_offs dst_offs group_size stride,
  holds branches_on_runtime_flag (ic_group_shift src_offs dst_offs group_size
    stride).
Proof. intros. unfold ic_group_shift. flags_walk. Qed.
#[local] Hint Resolve ic_group_shift_flags : flags.

Lemma grouped_wei_decomp_shift_flags : forall brg,
  holds branches_on_runtime_flag (grouped_wei_decomp_shift brg).
Proof. intros. unfold grouped_wei_decomp_shift. flags_walk. Qed.
#[local] Hint Resolve grouped_wei_decomp_shift_flags : flags.

Lemma ld_loop_body_flags : forall brg n_bcast_1_load vpad_exist need_comp_pads
    bd_block2' is_bdb_tail ld_block2' is_ld_tail rows_for_rd_tail vpad,
  holds branches_on_runtime_flag (ld_loop_body brg n_bcast_1_load vpad_exist
    need_comp_pads bd_block2' is_bdb_tail ld_block2' is_ld_tail
    rows_for_rd_tail vpad).
Proof. intros. unfold ld_loop_body. flags_walk. Qed.
#[local] Hint Resolve ld_loop_body_flags : flags.

Lemma vpad_dispatch_flags :
  forall brg vpad_exist need_comp_pads body is_bdb_tail check_top check_bottom,
    (forall v, holds branches_on_runtime_flag (body v)) ->
    holds branches_on_runtime_flag
      (vpad_dispatch brg vpad_exist need_comp_pads body is_bdb_tail
         check_top check_bottom).
Proof.
  intros. unfold vpad_dispatch. repeat hstep; try solve [flags_leaf].
  apply holds_node. cbn [nodes]. constructor; [exact Logic.I|].
  apply Forall_app. split; [|assumption].
  eapply holds_vpad_cases; eassumption.
Qed.
#[local] Hint Resolve vpad_dispatch_flags : flags.

Lemma ldb_loop_accumulate_flags : forall brg n_bcast_1_load vpad_exist
    need_comp_pads bd_block2' is_bdb_tail ld_block2' is_ld_tail check_top_vpad
    check_bottom_vpad rows_for_rd_tail skip_accumulation,
  holds branches_on_runtime_flag (ldb_loop_accumulate brg n_bcast_1_load
    vpad_exist need_comp_pads bd_block2' is_bdb_tail ld_block2' is_ld_tail
    check_top_vpad check_bottom_vpad rows_for_rd_tail skip_accumulation).
Proof. intros. unfold ldb_loop_accumulate. flags_walk. Qed.
#[local] Hint Resolve ldb_loop_accumulate_flags : flags.

Lemma ldb_loop_flags : forall brg n_bcast_1_load vpad_exist need_comp_pads
    bd_block2' is_bdb_tail ld_block2' ldb_loop_length is_reg_tail is_ld_tail
    check_top_vpad check_bottom_vpad rows_for_rd_tail skip_accumulation,
  holds branches_on_runtime_flag (ldb_loop brg n_bcast_1_load vpad_exist
    need_comp_pads bd_block2' is_bdb_tail ld_block2' ldb_loop_length
    is_reg_tail is_ld_tail check_top_vpad check_bottom_vpad rows_for_rd_tail
    skip_accumulation).
Proof. intros. unfold ldb_loop. flags_walk. Qed.
#[local] Hint Resolve ldb_loop_flags : flags.

Lemma do_ldb_loop_flags : forall brg vpad_exist need_comp_pads bd_block2'
    is_bdb_tail check_top_vpad check_bottom_vpad rows_for_rd_tail
    skip_accumulation,
  holds branches_on_runtime_flag (do_ldb_loop brg vpad_exist need_comp_pads
    bd_block2' is_bdb_tail check_top_vpad check_bottom_vpad rows_for_rd_tail
    skip_accumulation).
Proof. intros. unfold do_ldb_loop. flags_walk. Qed.
#[local] Hint Resolve do_ldb_loop_flags : flags.

Lemma bdb_loop_body_flags : forall brg vpad_exist need_comp_pads bd_block2'
    is_bdb_tail check_top_vpad check_bottom_vpad rows_for_rd_tail
    skip_accumulation,
  holds branches_on_runtime_flag (bdb_loop_body brg vpad_exist need_comp_pads
    bd_block2' is_bdb_tail check_top_vpad check_bottom_vpad rows_for_rd_tail
    skip_accumulation).
Proof. intros. unfold bdb_loop_body. flags_walk. Qed.
#[local] Hint Resolve bdb_loop_body_flags : flags.

Lemma bdb_loop_avx512_vpad_flags : forall brg vpad_exist need_comp_pads
    skip_accumulation,
  holds branches_on_runtime_flag (bdb_loop_avx512_vpad brg vpad_exist
    need_comp_pads skip_accumulation).
Proof. intros. unfold bdb_loop_avx512_vpad. flags_walk. Qed.
#[local] Hint Resolve bdb_loop_avx512_vpad_flags : flags.

Lemma bdb_loop_avx512_no_vpad_flags : forall brg vpad_exist need_comp_pads
    skip_accumulation,
  holds branches_on_runtime_flag (bdb_loop_avx512_no_vpad brg vpad_exist
    need_comp_pads skip_accumulation).
Proof. intros. unfold bdb_loop_avx512_no_vpad. flags_walk. Qed.
#[local] Hint Resolve bdb_loop_avx512_no_vpad_flags : flags.

Lemma bdb_loop_avx512_flags : forall brg vpad_exist need_comp_pads
    skip_accumulation,
  holds branches_on_runtime_flag (bdb_loop_avx512 brg vpad_exist
    need_comp_pads skip_accumulation).
Proof. intros. unfold bdb_loop_avx512. flags_walk. Qed.
#[local] Hint Resolve bdb_loop_avx512_flags : flags.

Lemma bdb_loop_amx_flags : forall brg vpad_exist need_comp_pads
    skip_accumulation,
  holds branches_on_runtime_flag (bdb_loop_amx brg vpad_exist need_comp_pads
    skip_accumulation).
Proof. intros. unfold bdb_loop_amx. flags_walk. Qed.
#[local] Hint Resolve bdb_loop_amx_flags : flags.

Lemma bdb_loop_general_flags : forall brg vpad_exist need_comp_pads
    skip_accumulation,
  holds branches_on_runtime_flag (bdb_loop_general brg vpad_exist
    need_comp_pads skip_accumulation).
Proof. intros. unfold bdb_loop_general. flags_walk. Qed.
#[local] Hint Resolve bdb_loop_general_flags : flags.

Lemma bdb_loop_flags : forall brg vpad_exist need_comp_pads,
  holds branches_on_runtime_flag (bdb_loop brg vpad_exist need_comp_pads).
Proof. intros. unfold bdb_loop. flags_walk. Qed.
#[local] Hint Resolve bdb_loop_flags : flags.

Lemma generate_flags : forall brg,
  holds branches_on_runtime_flag (generate brg).
Proof. intros. unfold generate. flags_walk. Qed.
#[local] Hint Resolve generate_flags : flags.

Lemma flag_slots_of_nodes : forall c : list code,
  Forall branches_on_runtime_flag (all_nodes c) ->
  incl (flag_slots c) runtime_flag_slots.
Proof.
  intros c H s Hs. unfold flag_slots in Hs. apply in_flat_map in Hs.
  destruct Hs as (n & Hn & Hs). rewrite Forall_forall in H.
  specialize (H n Hn). destruct n; try contradiction.
  destruct Hs as [<-|[]]. exact H.
Qed.

Lemma read_params_ends : forall brg,
  ends_with
    [I (Ins "mov" [Gpr reg_do_post_ops; Param do_post_ops]);
     I (Ins "mov" [Mem reg_rsp reg_do_post_ops_offs_; Gpr reg_do_post_ops]);
     I (Ins "mov" [Gpr reg_skip_accm; Param skip_accm]);
     I (Ins "mov" [Mem reg_rsp reg_skip_accm_offs_; Gpr reg_skip_accm]);
     I (Ins "mov" [Gpr reg_zp_a_val; Param zp_a_val]);
     I (Ins "mov" [Mem reg_rsp reg_zp_a_val_offs_; Gpr reg_zp_a_val]);
     I (Ins "mov" [Gpr reg_do_comp; Param do_apply_comp]);
     I (Ins "mov" [Mem reg_rsp reg_do_comp_offs_; Gpr reg_do_comp])]
    (read_params brg).
Proof.
  intros brg. unfold read_params.
  repeat first [ solve [apply ends_with_self] | apply ends_with_andthen ].
Qed.

Lemma read_params_emits : forall brg i,
  In i [Ins "mov" [Gpr reg_do_post_ops; Param do_post_ops];
        Ins "mov" [Mem reg_rsp reg_do_post_ops_offs_; Gpr reg_do_post_ops];
        Ins "mov" [Gpr reg_skip_accm; Param skip_accm];
        Ins "mov" [Mem reg_rsp reg_skip_accm_offs_; Gpr reg_skip_accm];
        Ins "mov" [Gpr reg_zp_a_val; Param zp_a_val];
        Ins "mov" [Mem reg_rsp reg_zp_a_val_offs_; Gpr reg_zp_a_val];
        Ins "mov" [Gpr reg_do_comp; Param do_apply_comp];
        Ins "mov" [Mem reg_rsp reg_do_comp_offs_; Gpr reg_do_comp]] ->
  emits i (generate brg).
Proof.
  intros brg i Hi. unfold generate.
  do 4 apply emits_andthen_r. apply emits_andthen_l.
  intros c Hc. destruct (read_params_ends brg c Hc) as (pre & ->).
  rewrite insns_app. apply in_or_app. right. exact Hi.
Qed.

(** C6. The kernel keeps three runtime flags, not two: the generated code
    copies [do_post_ops], [do_apply_comp] and also [skip_accm], with the
    zero point of A, from the parameter block to their stack slots, and
    every branch on a runtime flag tests one of these three slots. *)
Theorem runtime_flags_are_three : forall (brg : brgemm_desc_t) (c : list code),
  generate brg = Ok c ->
  stores_param do_post_ops reg_do_post_ops_offs_ c
  /\ stores_param do_apply_comp reg_do_comp_offs_ c
  /\ stores_param skip_accm reg_skip_accm_offs_ c
  /\ stores_param zp_a_val reg_zp_a_val_offs_ c
  /\ incl (flag_slots c) runtime_flag_slots.
Proof.
  intros brg c Hc.
  assert (Hin : forall i, emits i (generate brg) -> In i (insns c))
    by (intros i Hi; apply Hi, Hc).
  repeat split;
    try (eexists; split; apply Hin, read_params_emits; cbn;
         intuition congruence).
  apply flag_slots_of_nodes.
  pose proof (generate_flags brg) as H. rewrite Hc in H. exact H.
Qed.

End Flags.

Lemma runtime_flags_are_three_witness :
  let c := code_of (generate (T := zmm_traits) (E := example_externals)
                      brg_f32_skip_accumulation) in
  stores_param do_post_ops reg_do_post_ops_offs_ c
  /\ stores_param do_apply_comp reg_do_comp_offs_ c
  /\ stores_param skip_accm reg_skip_accm_offs_ c
  /\ stores_param zp_a_val reg_zp_a_val_offs_ c
  /\ incl (flag_slots c) runtime_flag_slots.
Proof.
  apply (runtime_flags_are_three (T := zmm_traits) (E := example_externals)
           brg_f32_skip_accumulation).
  vm_compute. reflexivity.
Defined.

(** The kernel generated with the skip-accumulation path reads
    [skip_accm] and branches on its slot, which is neither the slot of
    [do_post_ops] nor that of [do_apply_comp]. *)
Lemma skip_accm_is_a_third_runtime_flag :
  let c := code_of (generate (T := zmm_traits) (E := example_externals)
                      brg_f32_skip_accumulation) in
  generate (T := zmm_traits) (E := example_externals)
    brg_f32_skip_accumulation = Ok c
  /\ In (Ins "mov" [Gpr reg_skip_accm; Param skip_accm]) (insns c)
  /\ In reg_skip_accm_offs_ (flag_slots c)
  /\ ~ In reg_skip_accm_offs_ [reg_do_post_ops_offs_; reg_do_comp_offs_].
Proof.
  vm_compute. repeat split; auto 20.
  intros [H|[H|[]]]; discriminate H.
Qed.
(** ** Decoding packed 4-bit weights *)

Lemma byte_cases : forall (p : Z -> bool),
  forallb p (range 0 256) = true ->
  forall b, 0 <= b < 256 -> p b = true.
Proof.
  intros p H b Hb. rewrite forallb_forall in H. apply H, in_range, Hb.
Qed.

Lemma u4_even_lane : forall b, 0 <= b < 256 ->
  signed32 (vpsrld_lane (zx8 b) 4) = b / 16.
Proof.
  intros b Hb. apply Z.eqb_eq.
  apply (byte_cases (fun b => signed32 (vpsrld_lane (zx8 b) 4) =? b / 16));
    [vm_compute; reflexivity|exact Hb].
Qed.

Lemma u4_odd_lane : forall b, 0 <= b < 256 ->
  signed32 (vpsrld_lane (vpslld_lane (zx8 b) 28) 28) = b mod 16.
Proof.
  intros b Hb. apply Z.eqb_eq.
  apply (byte_cases
           (fun b => signed32 (vpsrld_lane (vpslld_lane (zx8 b) 28) 28)
                     =? b mod 16));
    [vm_compute; reflexivity|exact Hb].
Qed.

Lemma lift1_map : forall (f g : Z -> Z) (l : list Z),
  lift1 f (map (fun b => LInt (g b)) l) = map (fun b => LInt (f (g b))) l.
Proof. intros. unfold lift1. rewrite map_map. reflexivity. Qed.

Lemma cvtdq2ps_map : forall (g : Z -> Z) (l : list Z),
  cvtdq2ps_vec (map (fun b => LInt (g b)) l)
  = map (fun b => LFlt (inject_Z (signed32 (g b)))) l.
Proof. intros. unfold cvtdq2ps_vec. rewrite map_map. reflexivity. Qed.

Lemma set_vreg_same : forall d v s, vreg (set_vreg d v s) d = v.
Proof. intros. cbn. rewrite Z.eqb_refl. reflexivity. Qed.

Lemma set_vreg_other : forall d v s r, r <> d -> vreg (set_vreg d v s) r = vreg s r.
Proof. intros. cbn. apply Z.eqb_neq in H. rewrite H. reflexivity. Qed.

Lemma In_firstn_In : forall (A : Type) n (l : list A) x,
  In x (firstn n l) -> In x l.
Proof.
  intros A n. induction n as [|n IH]; intros l x H.
  - destruct H.
  - destruct l as [|y l]; [destruct H|].
    destruct H as [H|H]; [left; exact H|right; apply IH; exact H].
Qed.

Lemma s4_even_lane : forall b, 0 <= b < 256 ->
  signed32 (vpsrad_lane (sx8 b) 4)
  = (if b / 16 <? 8 then b / 16 else b / 16 - 16).
Proof.
  intros b Hb. apply Z.eqb_eq.
  apply (byte_cases
           (fun b => signed32 (vpsrad_lane (sx8 b) 4)
                     =? (if b / 16 <? 8 then b / 16 else b / 16 - 16)));
    [vm_compute; reflexivity|exact Hb].
Qed.

Lemma s4_odd_lane : forall b, 0 <= b < 256 ->
  signed32 (vpsrad_lane (vpslld_lane (sx8 b) 28) 28)
  = (if b mod 16 <? 8 then b mod 16 else b mod 16 - 16).
Proof.
  intros b Hb. apply Z.eqb_eq.
  apply (byte_cases
           (fun b => signed32 (vpsrad_lane (vpslld_lane (sx8 b) 28) 28)
                     =? (if b mod 16 <? 8 then b mod 16 else b mod 16 - 16)));
    [vm_compute; reflexivity|exact Hb].
Qed.

Lemma nf4_even_lane : forall b, 0 <= b < 256 ->
  vpsrld_lane (zx8 b) 4 = b / 16.
Proof.
  intros b Hb. apply Z.eqb_eq.
  apply (byte_cases (fun b => vpsrld_lane (zx8 b) 4 =? b / 16));
    [vm_compute; reflexivity|exact Hb].
Qed.

Lemma nf4_odd_lane : forall b, 0 <= b < 256 ->
  vpsrld_lane (vpslld_lane (zx8 b) 28) 28 = b mod 16.
Proof.
  intros b Hb. apply Z.eqb_eq.
  apply (byte_cases
           (fun b => vpsrld_lane (vpslld_lane (zx8 b) 28) 28 =? b mod 16));
    [vm_compute; reflexivity|exact Hb].
Qed.

Lemma nibble_at_range : forall rd b, 0 <= b < 256 -> 0 <= nibble_at rd b < 16.
Proof.
  intros rd b Hb. unfold nibble_at.
  destruct (Z.rem rd 2 =? 0); Z.to_euclidean_division_equations; lia.
Qed.

Ltac run_decode :=
  unfold lane_result, exec_gen, andthen, ins, bindr; cbn [app];
  unfold exec, exec_insn;
  cbn [String.eqb Ascii.eqb Bool.eqb orb load_mem shift_imm binop read_vec
       write_vec].

Lemma decode_u4 :
  forall (T : isa_traits) brg s vl off rd bytes,
    brg.(dt_b) = data_type.u4 ->
    s.(mem8) reg_aux_B off = bytes ->
    Forall (fun b => 0 <= b < 256) bytes ->
    lane_result vl (decode_packed brg vl off rd) s
    = Some (map (fun b => LFlt (code_value data_type.u4 (nibble_at rd b)))
                (firstn nlanes bytes)).
Proof.
  intros T brg s vl off rd bytes Hdt Hmem Hb.
  rewrite Forall_forall in Hb.
  unfold decode_packed, decode_B. rewrite Hdt.
  unfold nibble_at, code_value, u4_value.
  destruct (Z.rem rd 2 =? 0); run_decode;
    rewrite ?set_vreg_same, ?lift1_map, ?cvtdq2ps_map, Hmem;
    f_equal; apply map_ext_in; intros b Hin;
    apply In_firstn_In, Hb in Hin; do 2 f_equal.
  - apply u4_even_lane; exact Hin.
  - apply u4_odd_lane; exact Hin.
Qed.

Lemma decode_s4 :
  forall (T : isa_traits) brg s vl off rd bytes,
    brg.(dt_b) = data_type.s4 ->
    s.(mem8) reg_aux_B off = bytes ->
    Forall (fun b => 0 <= b < 256) bytes ->
    lane_result vl (decode_packed brg vl off rd) s
    = Some (map (fun b => LFlt (code_value data_type.s4 (nibble_at rd b)))
                (firstn nlanes bytes)).
Proof.
  intros T brg s vl off rd bytes Hdt Hmem Hb.
  rewrite Forall_forall in Hb.
  unfold decode_packed, decode_B. rewrite Hdt.
  unfold nibble_at, code_value, s4_value.
  destruct (Z.rem rd 2 =? 0); run_decode;
    rewrite ?set_vreg_same, ?lift1_map, ?cvtdq2ps_map, Hmem;
    f_equal; apply map_ext_in; intros b Hin;
    apply In_firstn_In, Hb in Hin; do 2 f_equal.
  - apply s4_even_lane; exact Hin.
  - apply s4_odd_lane; exact Hin.
Qed.

Lemma vpermd_lookup : forall (tbl : list Q) (g : Z -> Z) (l : list Z),
  Forall (fun b => 0 <= g b < Z.of_nat (List.length tbl)) l ->
  vpermd_vec (map (fun b => LInt (g b)) l) (map LFlt tbl)
  = map (fun b => LFlt (nth (Z.to_nat (g b)) tbl 0%Q)) l.
Proof.
  intros tbl g l H. unfold vpermd_vec. rewrite map_map.
  apply map_ext_in. intros b Hin. rewrite Forall_forall in H.
  specialize (H b Hin). cbn [int_of]. rewrite length_map.
  rewrite Z.mod_small by lia.
  rewrite (nth_indep _ (LInt 0) (LFlt 0%Q)) by (rewrite length_map; lia).
  apply map_nth.
Qed.

Lemma decode_nf4_wide :
  forall (T : isa_traits) brg s vl off rd bytes,
    brg.(dt_b) = data_type.nf4 ->
    cpu_isa_t_beq brg.(isa_impl) avx2 = false ->
    vl <> isa_num_vregs brg.(isa_impl) - 1 ->
    s.(mem8) reg_aux_B off = bytes ->
    Forall (fun b => 0 <= b < 256) bytes ->
    nf4_tables_loaded brg s ->
    lane_result vl (decode_packed brg vl off rd) s
    = Some (map (fun b => LFlt (code_value data_type.nf4 (nibble_at rd b)))
                (firstn nlanes bytes)).
Proof.
  intros T brg s vl off rd bytes Hdt Hisa Hvl Hmem Hb Htab.
  unfold nf4_tables_loaded in Htab. rewrite Hisa in Htab.
  destruct Htab as (Hn & Htab). rewrite Hn in Htab.
  change (firstn 16 lookup) with lookup in Htab.
  unfold decode_packed, decode_B, isa_is. rewrite Hdt, Hisa.
  assert (Hr : forall b, In b (firstn nlanes bytes) -> 0 <= b < 256).
  { intros b Hin. rewrite Forall_forall in Hb.
    apply Hb, In_firstn_In with (n := nlanes), Hin. }
  unfold code_value, nf4_value.
  destruct (Z.rem rd 2 =? 0) eqn:Hrd; run_decode;
    rewrite ?set_vreg_same, ?lift1_map, Hmem;
    rewrite !set_vreg_other by (apply not_eq_sym; exact Hvl);
    rewrite Htab, vpermd_lookup.
  - f_equal. apply map_ext_in. intros b Hin. unfold nibble_at.
    rewrite Hrd, nf4_even_lane by auto. reflexivity.
  - apply Forall_forall. intros b Hin. rewrite nf4_even_lane by auto.
    cbn. specialize (Hr b Hin). Z.to_euclidean_division_equations; lia.
  - f_equal. apply map_ext_in. intros b Hin. unfold nibble_at.
    rewrite Hrd, nf4_odd_lane by auto. reflexivity.
  - apply Forall_forall. intros b Hin. rewrite nf4_odd_lane by auto.
    cbn. specialize (Hr b Hin). Z.to_euclidean_division_equations; lia.
Qed.

Lemma lift2_map_repeat : forall f (g : Z -> Z) c (l : list Z) k,
  (List.length l <= k)%nat ->
  lift2 f (map (fun b => LInt (g b)) l) (repeat (LInt c) k)
  = map (fun b => LInt (f (g b) c)) l.
Proof.
  intros f g c l. induction l as [|b l IH]; intros k Hk.
  - reflexivity.
  - destruct k as [|k]; [cbn in Hk; lia|].
    cbn in Hk. unfold lift2 in *. cbn. f_equal. apply IH. lia.
Qed.

Lemma vpermd_map : forall (g : Z -> Z) (l : list Z) (tbl : list lane),
  vpermd_vec (map (fun b => LInt (g b)) l) tbl
  = map (fun b => nth (Z.to_nat (g b mod Z.of_nat (List.length tbl))) tbl
                      (LInt 0)) l.
Proof.
  intros g l tbl. unfold vpermd_vec. rewrite map_map. reflexivity.
Qed.

Lemma vblendvps_map : forall (f g m : Z -> lane) (l : list Z),
  vblendvps_vec (map f l) (map g l) (map m l)
  = map (fun b => if int_of (m b) >=? 2147483648 then g b else f b) l.
Proof.
  intros f g m l. induction l as [|b l IH]; cbn; [reflexivity|].
  f_equal. exact IH.
Qed.

Lemma firstn_length_le : forall (A : Type) (n : nat) (l : list A),
  (List.length (firstn n l) <= n)%nat.
Proof. intros A n l. rewrite length_firstn. lia. Qed.

Lemma nf4_narrow_lane : forall c, 0 <= c < 16 ->
  (if int_of (LInt (vpcmpgtd_lane c 7)) >=? 2147483648
   then nth (Z.to_nat
               (vpsubd_lane c 8
                mod Z.of_nat (List.length (map LFlt (skipn 8 lookup)))))
            (map LFlt (skipn 8 lookup)) (LInt 0)
   else nth (Z.to_nat
               (c mod Z.of_nat (List.length (map LFlt (firstn 8 lookup)))))
            (map LFlt (firstn 8 lookup)) (LInt 0))
  = LFlt (nf4_value c).
Proof.
  intros c Hc.
  assert (H : In c (range 0 16)) by (apply in_range; lia).
  vm_compute in H.
  repeat (destruct H as [<- | H]; [vm_compute; reflexivity|]).
  contradiction.
Qed.

Ltac vreg_simpl :=
  repeat (rewrite set_vreg_same || (rewrite set_vreg_other by lia)).

Lemma decode_nf4_narrow :
  forall (T : isa_traits) brg s vl off rd bytes,
    brg.(dt_b) = data_type.nf4 ->
    cpu_isa_t_beq brg.(isa_impl) avx2 = true ->
    0 < vl < isa_num_vregs brg.(isa_impl) - 5 ->
    s.(mem8) reg_aux_B off = bytes ->
    Forall (fun b => 0 <= b < 256) bytes ->
    nf4_tables_loaded brg s ->
    lane_result vl (decode_packed brg vl off rd) s
    = Some (map (fun b => LFlt (code_value data_type.nf4 (nibble_at rd b)))
                (firstn nlanes bytes)).
Proof.
  intros T brg s vl off rd bytes Hdt Hisa Hvl Hmem Hb Htab.
  unfold nf4_tables_loaded in Htab. rewrite Hisa in Htab.
  destruct Htab as (Hn & Hlo & Hhi & H8 & H7).
  rewrite Hn in Hlo, Hhi, H8, H7.
  change (firstn 8 (skipn 8 lookup)) with (skipn 8 lookup) in Hhi.
  change (map LInt (firstn 8 mask8)) with (repeat (LInt 8) 8) in H8.
  change (map LInt (firstn 8 mask7)) with (repeat (LInt 7) 8) in H7.
  rewrite <- Hn in H8, H7.
  unfold decode_packed, decode_B, isa_is, bcst. rewrite Hdt, Hisa.
  assert (Hr : forall b, In b (firstn nlanes bytes) -> 0 <= b < 256).
  { intros b Hin. rewrite Forall_forall in Hb.
    apply Hb, In_firstn_In with (n := nlanes), Hin. }
  unfold code_value, nibble_at.
  destruct (Z.rem rd 2 =? 0) eqn:Hrd; run_decode; vreg_simpl;
    rewrite Hmem, ?lift1_map, Hlo, Hhi, H7, H8;
    rewrite !lift2_map_repeat by apply firstn_length_le;
    rewrite !vpermd_map, vblendvps_map;
    f_equal; apply map_ext_in; intros b Hin; specialize (Hr b Hin).
  - rewrite nf4_even_lane by exact Hr. apply nf4_narrow_lane.
    Z.to_euclidean_division_equations; lia.
  - rewrite nf4_odd_lane by exact Hr. apply nf4_narrow_lane.
    Z.to_euclidean_division_equations; lia.
Qed.



(** ** Element types without a vector path *)

(** C8. The construction of a kernel for fp8 inputs on vector registers,
    without conversion of the inputs, succeeds: no assertion fails,
    [dot_product] emits nothing and the kernel has no accumulating
    instruction, where [tdpbxxd] refuses the same combination. *)
Theorem fp8_on_vector_registers_is_not_refused :
  let brg := brg_fp8_vector in
  let c := code_of (create_kernel (T := zmm_traits) (E := example_externals)
                      brg) in
  create_kernel (T := zmm_traits) (E := example_externals) brg = Ok c
  /\ dot_product (T := zmm_traits) brg (Vmm 31) (Vmm 27) (Vmm 0) = Ok []
  /\ forallb (fun i => negb (accumulates i)) (insns c) = true
  /\ tdpbxxd brg 0 1 2 = Abort "Not supported!".
Proof.
  intros brg c. subst brg c.
  split; [vm_compute; reflexivity|]. split; [reflexivity|].
  split; [vm_compute; reflexivity|reflexivity].
Qed.
(** ** Integer dot product without VNNI *)

Lemma sword_pack0 : forall p0 p1,
  -32768 <= p0 <= 32767 ->
  sword ((p0 mod 65536) + 65536 * (p1 mod 65536)) 0 = p0.
Proof.
  intros p0 p1 H0. unfold sword.
  change (16 * 0) with 0. rewrite Z.shiftr_0_r.
  change 65535 with (Z.ones 16). rewrite Z.land_ones by lia.
  change (2 ^ 16) with 65536.
  replace ((p0 mod 65536 + 65536 * (p1 mod 65536)) mod 65536)
    with (p0 mod 65536).
  2:{ rewrite (Z.mul_comm 65536), Z.mod_add by lia.
      rewrite Z.mod_mod by lia. reflexivity. }
  destruct (Z.ltb_spec (p0 mod 65536) 32768);
    Z.to_euclidean_division_equations; lia.
Qed.

Lemma sword_pack1 : forall p0 p1,
  -32768 <= p1 <= 32767 ->
  sword ((p0 mod 65536) + 65536 * (p1 mod 65536)) 1 = p1.
Proof.
  intros p0 p1 H1. unfold sword.
  change (16 * 1) with 16. rewrite Z.shiftr_div_pow2 by lia.
  change (2 ^ 16) with 65536.
  change 65535 with (Z.ones 16). rewrite Z.land_ones by lia.
  change (2 ^ 16) with 65536.
  replace ((p0 mod 65536 + 65536 * (p1 mod 65536)) / 65536)
    with (p1 mod 65536).
  2:{ rewrite (Z.mul_comm 65536), Z.div_add by lia.
      rewrite (Z.div_small (p0 mod 65536)) by (apply Z.mod_pos_bound; lia).
      lia. }
  rewrite Z.mod_mod by lia.
  destruct (Z.ltb_spec (p1 mod 65536) 32768);
    Z.to_euclidean_division_equations; lia.
Qed.

(** On one lane: multiply into saturated words, widen with the ones,
    add. *)
Lemma decomposed_lane : forall acc a b,
  fits_int16 a b ->
  vpaddd_lane acc (vpmaddwd_lane (vpmaddubsw_lane a b) 65537)
  = vpdpbusd_lane acc a b.
Proof.
  intros acc a b [H0 H2].
  unfold vpaddd_lane, vpmaddwd_lane, vpmaddubsw_lane, vpdpbusd_lane.
  unfold sat16.
  rewrite !Z.min_r, !Z.max_r by lia.
  rewrite sword_pack0, sword_pack1 by lia.
  change (sword 65537 0) with 1. change (sword 65537 1) with 1.
  unfold wrap32. rewrite Z.add_mod_idemp_r by lia.
  f_equal. ring.
Qed.

Lemma decomposed_vec : forall n acc va vb,
  length acc = n -> length va = n -> length vb = n ->
  lanes_fit_int16 va vb ->
  lift2 vpaddd_lane acc
    (lift2 vpmaddwd_lane (lift2 vpmaddubsw_lane va vb)
       (repeat (LInt 65537) n))
  = lift3 vpdpbusd_lane acc va vb.
Proof.
  induction n as [|n IH]; intros acc va vb Ha Hva Hvb Hfit.
  - destruct acc, va, vb; try discriminate. reflexivity.
  - destruct acc as [|x acc], va as [|a va], vb as [|b vb];
      try discriminate.
    inversion Hfit as [|? ? Hab Hrest]; subst.
    cbn [repeat lift2 combine map lift3 fst snd int_of].
    f_equal.
    + f_equal. apply decomposed_lane. exact Hab.
    + apply IH; auto.
Qed.

Lemma dot_product_vnni :
  forall (T : isa_traits) brg v1 v2 v3,
    int8_unsigned_path brg = true -> brg.(has_int8_vnni) = true ->
    dot_product brg v1 v2 v3
    = Ok [I (Ins "vpdpbusd" [v1; v3; v2; Encoding (is_avx512 brg)])].
Proof.
  intros T brg v1 v2 v3 Hp Hv. unfold int8_unsigned_path in Hp.
  unfold dot_product.
  destruct (is_f32 brg), (is_f16 brg), (is_bf16 brg), (is_int8 brg);
    try discriminate Hp.
  cbn [negb andb orb] in *. rewrite Hv.
  destruct (data_type.eqb (dt_a brg) data_type.s8
            && isa_has_s8s8 (isa_impl brg)); [discriminate|reflexivity].
Qed.

Lemma dot_product_no_vnni :
  forall (T : isa_traits) brg v1 v2 v3,
    int8_unsigned_path brg = true -> brg.(has_int8_vnni) = false ->
    dot_product brg v1 v2 v3
    = Ok [I (Ins "vpmaddubsw" [Vmm (int8_dot_product_temp brg); v3; v2]);
          I (Ins "vpmaddwd"
               [Vmm (int8_dot_product_temp brg);
                Vmm (int8_dot_product_temp brg);
                Vmm (int8_ones_words brg)]);
          I (Ins "vpaddd" [v1; v1; Vmm (int8_dot_product_temp brg)])].
Proof.
  intros T brg v1 v2 v3 Hp Hv. unfold int8_unsigned_path in Hp.
  unfold dot_product.
  destruct (is_f32 brg), (is_f16 brg), (is_bf16 brg), (is_int8 brg);
    try discriminate Hp.
  cbn [negb andb orb] in *. rewrite Hv.
  destruct (data_type.eqb (dt_a brg) data_type.s8
            && isa_has_s8s8 (isa_impl brg)); [discriminate|reflexivity].
Qed.

(** C9, as amended.  When no adjacent pair of byte products leaves the
    signed 16-bit range, the sequence emitted without VNNI ([vpmaddubsw]
    into the temporary, [vpmaddwd] with the ones, [vpaddd]) leaves in the
    accumulator what [vpdpbusd] leaves there. *)
Theorem non_vnni_dot_product_agrees_without_saturation :
  forall (T : isa_traits) (brg_n brg_v : brgemm_desc_t) (s : vstate)
         (v1 v2 v3 : Z) (n : nat),
    int8_unsigned_path brg_n = true -> brg_n.(has_int8_vnni) = false ->
    int8_unsigned_path brg_v = true -> brg_v.(has_int8_vnni) = true ->
    v1 <> int8_dot_product_temp brg_n ->
    s.(vreg) (int8_ones_words brg_n) = repeat (LInt 65537) n ->
    length (s.(vreg) v1) = n ->
    length (s.(vreg) v2) = n ->
    length (s.(vreg) v3) = n ->
    lanes_fit_int16 (s.(vreg) v3) (s.(vreg) v2) ->
    exists r,
      lane_result v1 (dot_product brg_n (Vmm v1) (Vmm v2) (Vmm v3)) s = Some r
      /\ lane_result v1 (dot_product brg_v (Vmm v1) (Vmm v2) (Vmm v3)) s
         = Some r.
Proof.
  intros T brg_n brg_v s v1 v2 v3 n Hn Hnv Hv Hvv Hne Hones L1 L2 L3 Hfit.
  exists (lift3 vpdpbusd_lane (s.(vreg) v1) (s.(vreg) v3) (s.(vreg) v2)).
  rewrite (dot_product_no_vnni _ _ _ _ _ Hn Hnv).
  rewrite (dot_product_vnni _ _ _ _ _ Hv Hvv).
  unfold lane_result, exec_gen, exec, exec_insn.
  cbn [String.eqb Ascii.eqb Bool.eqb orb binop read_vec write_vec].
  cbn [set_vreg vreg].
  rewrite !Z.eqb_refl.
  assert (Hones' : int8_ones_words brg_n <> int8_dot_product_temp brg_n)
    by (unfold int8_ones_words, int8_dot_product_temp; lia).
  apply Z.eqb_neq in Hne. apply Z.eqb_neq in Hones'.
  rewrite Hne, Hones', Hones.
  split; [|reflexivity].
  f_equal. apply decomposed_vec; assumption.
Qed.

Lemma non_vnni_dot_product_agrees_without_saturation_witness :
  exists r,
    lane_result (T := ymm_traits) 13
      (dot_product (T := ymm_traits) brg_int8_avx2 (Vmm 13) (Vmm 11) (Vmm 0))
      (splat_state 8 (fun r => if r =? 15 then 65537 else 16843009))
    = Some r
    /\ lane_result (T := ymm_traits) 13
         (dot_product (T := ymm_traits) brg_int8_avx2_vnni (Vmm 13) (Vmm 11) (Vmm 0))
         (splat_state 8 (fun r => if r =? 15 then 65537 else 16843009))
       = Some r.
Proof.
  apply (non_vnni_dot_product_agrees_without_saturation
           ymm_traits brg_int8_avx2 brg_int8_avx2_vnni
           (splat_state 8 (fun r => if r =? 15 then 65537 else 16843009))
           13 11 0 8);
    try reflexivity.
  - vm_compute. discriminate.
  - unfold lanes_fit_int16. cbn.
    repeat constructor; vm_compute; discriminate.
Defined.

(** C9 as stated fails: with the unsigned bytes 255, 255 against the signed
    bytes 127, 127 the pair sum 64770 is saturated to 32767 by
    [vpmaddubsw], where [vpdpbusd] accumulates 64770. *)
Lemma non_vnni_dot_product_saturates :
  lane_result (T := ymm_traits) 13
    (dot_product (T := ymm_traits) brg_int8_avx2 (Vmm 13) (Vmm 11) (Vmm 0))
    (splat_state 8 (fun r => if r =? 15 then 65537
                             else if r =? 0 then 65535
                             else if r =? 11 then 32639 else 0))
  = Some (repeat (LInt 32767) 8)
  /\ lane_result (T := ymm_traits) 13
       (dot_product (T := ymm_traits) brg_int8_avx2_vnni (Vmm 13) (Vmm 11) (Vmm 0))
       (splat_state 8 (fun r => if r =? 15 then 65537
                                else if r =? 0 then 65535
                                else if r =? 11 then 32639 else 0))
     = Some (repeat (LInt 64770) 8).
Proof. split; vm_compute; reflexivity. Qed.

(** ** Further rules for walking generators *)

Lemma for_step_elements : forall lo hi step n,
  0 < step -> (n < Z.to_nat (div_up (hi - lo) step))%nat ->
  lo <= lo + step * Z.of_nat n < hi.
Proof.
  intros lo hi step n Hs Hn. unfold div_up in Hn.
  destruct (Z_le_gt_dec (hi - lo + step - 1) 0) as [Hle|Hgt].
  - assert (Hq : Z.quot (hi - lo + step - 1) step <= 0).
    { destruct (Z.eq_dec (hi - lo + step - 1) 0) as [->|Hne].
      - rewrite Z.quot_0_l by lia. lia.
      - apply Z.quot_le_upper_bound; lia. }
    lia.
  - assert (Hm : step * Z.quot (hi - lo + step - 1) step
                 <= hi - lo + step - 1)
      by (apply Z.mul_quot_le; lia).
    assert (Hq : 0 <= Z.quot (hi - lo + step - 1) step)
      by (apply Z.quot_pos; lia).
    nia.
Qed.

Lemma holds_for_step_bounds :
  forall (P : code -> Prop) (lo hi step : Z) (body : Z -> gen),
    (forall i, lo <= i < hi -> (exists k, 0 <= k /\ i = lo + step * k) ->
               holds P (body i)) ->
    holds P (for_step lo hi step body).
Proof.
  intros P lo hi step body H. unfold for_step.
  destruct (step <=? 0) eqn:Hs.
  - destruct (lo <? hi); [exact Logic.I|apply holds_skip].
  - apply holds_for. intros i Hi. apply in_map_iff in Hi.
    destruct Hi as (n & <- & Hn). apply in_seq in Hn.
    apply H; [apply for_step_elements; lia|].
    exists (Z.of_nat n). split; [lia|reflexivity].
Qed.

Lemma assert_andthen_inv : forall (c : bool) (msg : string) (g : gen) code,
  (assert c msg ;; g) = Ok code -> c = true /\ g = Ok code.
Proof.
  intros [|] msg g code H; [|discriminate H].
  split; [reflexivity|]. destruct g; [|discriminate H].
  cbn in H. exact H.
Qed.

Lemma when_inv : forall (c : bool) (g : gen) code,
  when c g = Ok code -> (c = true /\ g = Ok code) \/ (c = false /\ code = []).
Proof.
  intros [|] g code H; [left; auto|right]. injection H as <-. auto.
Qed.

(** The code of one iteration is part of the code of the loop. *)
Lemma for_member : forall (l : list Z) (body : Z -> gen) (c : list code) x,
  for_ l body = Ok c -> In x l ->
  exists pre cx post, body x = Ok cx /\ c = pre ++ cx ++ post.
Proof.
  intros l body. induction l as [|y l IH]; intros c x H Hx; [destruct Hx|].
  cbn [for_] in H. apply andthen_inv in H.
  destruct H as (cy & cl & Hy & Hl & ->). destruct Hx as [->|Hx].
  - exists [], cy, cl. auto.
  - destruct (IH cl x Hl Hx) as (pre & cx & post & Hb & ->).
    exists (cy ++ pre), cx, post. split; [exact Hb|].
    rewrite <- app_assoc. reflexivity.
Qed.

Lemma for_length : forall (l : list Z) (body : Z -> gen) (k : nat),
  (forall x, exists cx, body x = Ok cx /\ List.length cx = k) ->
  exists c, for_ l body = Ok c /\ List.length c = (List.length l * k)%nat.
Proof.
  intros l body k Hb. induction l as [|y l IH].
  - exists []. auto.
  - destruct IH as (cl & Hl & Hn). destruct (Hb y) as (cy & Hy & Hk).
    exists (cy ++ cl). cbn [for_]. rewrite Hy, Hl. split; [reflexivity|].
    rewrite length_app. cbn. lia.
Qed.

Lemma range_length : forall lo hi,
  List.length (range lo hi) = Z.to_nat (hi - lo).
Proof. intros. unfold range. rewrite length_map, length_seq. reflexivity. Qed.

(** The first iteration of a counted loop that is entered. *)
Lemma for_step_first : forall (lo hi step : Z) (body : Z -> gen) (c : list code),
  0 < step -> lo < hi ->
  for_step lo hi step body = Ok c ->
  exists cx post, body lo = Ok cx /\ c = cx ++ post.
Proof.
  intros lo hi step body c Hs Hl H. unfold for_step in H.
  destruct (step <=? 0) eqn:He; [lia|].
  assert (Hk : (0 < Z.to_nat (div_up (hi - lo) step))%nat).
  { unfold div_up.
    assert (1 <= Z.quot (hi - lo + step - 1) step)
      by (apply Z.quot_le_lower_bound; lia).
    lia. }
  destruct (Z.to_nat (div_up (hi - lo) step)) as [|k]; [lia|].
  cbn [seq map for_] in H. apply andthen_inv in H.
  destruct H as (cx & post & Hx & _ & ->).
  exists cx, post. split; [|reflexivity].
  rewrite <- Hx. f_equal. lia.
Qed.

Lemma bindr_inv : forall (A : Type) (r : result A) (k : A -> gen) (c : list code),
  bindr r k = Ok c -> exists a, r = Ok a /\ k a = Ok c.
Proof.
  intros A [a|m] k c H; [|discriminate H]. exists a. auto.
Qed.

Lemma In_I_insns : forall (i : insn) (c : list code),
  In (I i) c -> In i (insns c).
Proof.
  intros i c H. unfold insns, all_nodes. apply in_flat_map.
  exists (I i). split; [|left; reflexivity].
  apply in_flat_map. exists (I i). split; [exact H|left; reflexivity].
Qed.

(** Where a node of the code of a loop comes from. *)
Lemma for_In_inv : forall (l : list Z) (body : Z -> gen) (c : list code) n,
  for_ l body = Ok c -> In n c ->
  exists y pre cy post,
    In y l /\ body y = Ok cy /\ In n cy /\ c = pre ++ cy ++ post.
Proof.
  intros l body. induction l as [|x l IH]; intros c n H Hn.
  - injection H as <-. destruct Hn.
  - cbn [for_] in H. apply andthen_inv in H.
    destruct H as (cx & cl & Hx & Hl & ->).
    apply in_app_or in Hn. destruct Hn as [Hn|Hn].
    + exists x, [], cx, cl. repeat split; auto. left. reflexivity.
    + destruct (IH cl n Hl Hn) as (y & pre & cy & post & Hy & Hb & Hc & ->).
      exists y, (cx ++ pre), cy, post. repeat split; auto.
      * right. exact Hy.
      * rewrite <- app_assoc. reflexivity.
Qed.

Lemma before_app : forall (x y : insn) (a b : list code),
  In (I x) a -> In (I y) b -> before x y (a ++ b).
Proof.
  intros x y a b Ha Hb. apply in_split in Ha. apply in_split in Hb.
  destruct Ha as (a1 & a2 & ->). destruct Hb as (b1 & b2 & ->).
  exists a1, (a2 ++ b1), b2. rewrite <- !app_assoc. reflexivity.
Qed.

Lemma before_skip : forall (x y : insn) (p c : list code),
  before x y c -> before x y (p ++ c).
Proof.
  intros x y p c (pre & mid & post & ->).
  exists (p ++ pre), mid, post. rewrite <- !app_assoc. reflexivity.
Qed.

Lemma holds_In : forall (P : code -> Prop) (g : gen) (c : list code) n,
  holds P g -> g = Ok c -> In n c -> P n.
Proof.
  intros P g c n H -> Hn. cbn in H. rewrite Forall_forall in H.
  apply H. unfold all_nodes. apply in_flat_map. exists n. split; [exact Hn|].
  destruct n; left; reflexivity.
Qed.

(** ** The register allocator *)

Section Allocator.
Context {T : isa_traits}.

Lemma assertr_inv : forall (A : Type) (c : bool) (msg : string) (a r : A),
  assertr c msg a = Ok r -> c = true /\ r = a.
Proof.
  intros A [|] msg a r H; [|discriminate H].
  injection H as <-. auto.
Qed.

Lemma full_block_cell_bound : forall brg bd ld,
  0 <= bd < brg.(bd_block) -> 0 <= ld < brg.(ld_block2) ->
  max_effective_vregs brg - brg.(ld_block2) * brg.(bd_block)
  <= accm brg brg.(ld_block2) bd ld < max_effective_vregs brg.
Proof. intros brg bd ld Hb Hl. unfold accm. nia. Qed.

(** X1. In either loop order the registers for the operands lie strictly
    between register 0 and the accumulators: when the indexed operand
    register ([load ld] in the "one broadcast" order, [bcst bd] in the "one
    load" order) is allocated, the other operand is register 0, the
    allocated register is above 0 and below the register of every cell of
    a full block, and two indices never share a register. *)
Theorem operand_registers_below_accumulators :
  forall (brg : brgemm_desc_t) (n_bcast_1_load : bool) (i j r r' bd ld : Z),
    (if n_bcast_1_load then bcst brg true i else load brg false i) = Ok r ->
    (if n_bcast_1_load then bcst brg true j else load brg false j) = Ok r' ->
    0 <= i -> 0 <= bd < brg.(bd_block) -> 0 <= ld < brg.(ld_block2) ->
    (if n_bcast_1_load then load brg true i else bcst brg false i) = Ok 0
    /\ 0 < r < accm brg brg.(ld_block2) bd ld
    /\ (r = r' -> i = j).
Proof.
  intros brg nb i j r r' bd ld Hr Hr' Hi Hb Hl.
  pose proof (full_block_cell_bound brg bd ld Hb Hl) as Hc.
  destruct nb; cbn in Hr, Hr' |- *;
    apply assertr_inv in Hr; apply assertr_inv in Hr';
    destruct Hr as (Hp & ->); destruct Hr' as (_ & ->);
    (split; [reflexivity|]); split; lia.
Qed.

(** X2. A scratch register is granted only below the accumulators:
    [vmm_tmp i] of a kernel on vector registers fails unless
    [0 <= i < max_effective_vregs - bd_block * ld_block2], and the register
    it returns is register [i], below the register of every cell of a
    full block. *)
Theorem vmm_tmp_is_below_accumulators :
  forall (brg : brgemm_desc_t) (i r bd ld : Z),
    brg.(is_tmm) = false ->
    vmm_tmp brg i = Ok r ->
    0 <= bd < brg.(bd_block) -> 0 <= ld < brg.(ld_block2) ->
    r = i /\ 0 <= r < accm brg brg.(ld_block2) bd ld.
Proof.
  intros brg i r bd ld Ht Hr Hb Hl.
  pose proof (full_block_cell_bound brg bd ld Hb Hl) as Hc.
  unfold vmm_tmp in Hr. apply assertr_inv in Hr. destruct Hr as (Hp & ->).
  rewrite Ht in Hp. cbn in Hp. split; [reflexivity|]. lia.
Qed.

(** X3. The registers the constructor reserves lie above the
    accumulators: every accumulator register is below
    [max_effective_vregs], the two helpers of the int8 dot product without
    VNNI are at or above it, and so are the nf4 tables (five registers on
    avx2, one elsewhere). *)
Theorem reserved_registers_above_accumulators :
  forall (brg : brgemm_desc_t) (ld_block2' bd ld : Z),
    0 <= brg.(ld_block2) -> 0 <= bd -> 0 <= ld < ld_block2' ->
    accm brg ld_block2' bd ld < max_effective_vregs brg
    /\ (brg.(is_int8) && negb brg.(has_int8_vnni) = true ->
        max_effective_vregs brg <= int8_dot_product_temp brg
        /\ int8_dot_product_temp brg < int8_ones_words brg)
    /\ (brg.(dt_b) = data_type.nf4 ->
        max_effective_vregs brg
        <= isa_num_vregs brg.(isa_impl)
           - (if cpu_isa_t_beq brg.(isa_impl) avx2 then 5 else 1)).
Proof.
  intros brg n bd ld H2 Hb Hl.
  split; [unfold accm; nia|].
  unfold max_effective_vregs, int8_dot_product_temp, int8_ones_words.
  split.
  - intros Hi. rewrite Hi.
    repeat match goal with
           | |- context [if ?b then _ else _] => destruct b
           end; lia.
  - intros Hn. rewrite Hn.
    destruct (cpu_isa_t_beq (isa_impl brg) avx2); cbn;
    repeat match goal with
           | |- context [if ?b then _ else _] => destruct b
           end; lia.
Qed.

End Allocator.

Lemma operand_registers_below_accumulators_witness :
  load (T := zmm_traits) brg_f32_alpha_zero true 2 = Ok 0
  /\ 0 < 25 < accm (T := zmm_traits) brg_f32_alpha_zero 1 3 0
  /\ (25 = 26 -> 2 = 1).
Proof.
  apply (operand_registers_below_accumulators (T := zmm_traits)
           brg_f32_alpha_zero true 2 1 25 26 3 0);
    first [reflexivity | cbn; lia].
Defined.

Lemma vmm_tmp_is_below_accumulators_witness :
  1 = 1 /\ 0 <= 1 < accm (T := zmm_traits) brg_f32_alpha_zero 1 3 0.
Proof.
  apply (vmm_tmp_is_below_accumulators (T := zmm_traits) brg_f32_alpha_zero
           1 1 3 0);
    first [reflexivity | cbn; lia].
Defined.

Lemma reserved_registers_above_accumulators_witness :
  accm (T := ymm_traits) brg_int8_avx2 1 1 0
  < max_effective_vregs (T := ymm_traits) brg_int8_avx2
  /\ max_effective_vregs (T := ymm_traits) brg_int8_avx2
     <= int8_dot_product_temp (T := ymm_traits) brg_int8_avx2.
Proof.
  destruct (reserved_registers_above_accumulators (T := ymm_traits)
              brg_int8_avx2 1 1 0) as (Ha & Hi & _).
  - cbn. lia.
  - lia.
  - lia.
  - split; [exact Ha|]. apply Hi. reflexivity.
Defined.

Section StrategyChoice.
Context {T : isa_traits}.

(** X22. The strategy chosen by default has its registers: when
    [bdb_loop] selects "one load, many broadcasts" on its own, for a
    descriptor with a full group of column blocks, [bcst] grants every row
    of the block a broadcast register of positive index; the request
    never fails. *)
Theorem default_1load_has_broadcast_registers :
  forall (brg : brgemm_desc_t) (bd : Z),
    brg.(brgattr).(hint_loop_order) = brgemm_lo_default ->
    n_bcast_1_load_of brg = true ->
    0 < brg.(ldb2) ->
    0 <= bd < brg.(bd_block) ->
    exists r, bcst brg true bd = Ok r /\ 0 < r.
Proof.
  intros brg bd Hh Hn Hl Hb. unfold n_bcast_1_load_of in Hn.
  destruct (is_tmm brg); [discriminate Hn|]. rewrite Hh in Hn.
  cbv zeta in Hn. apply Z.gtb_lt in Hl. rewrite Hl in Hn.
  apply andb_prop in Hn. destruct Hn as (Hn & _).
  apply andb_prop in Hn. destruct Hn as (_ & Hn).
  apply andb_prop in Hn. destruct Hn as (Hn & _).
  apply andb_prop in Hn. destruct Hn as (Hn & _).
  apply Z.ltb_lt in Hn.
  assert (Hf : bd_block brg * (ld_block2 brg + 1) < max_effective_vregs brg)
    by (destruct (req_s8s8_compensation brg); lia).
  unfold bcst. cbv zeta.
  set (idx := max_effective_vregs brg - 1 - ld_block2 brg * bd_block brg - bd).
  assert (Hi : 0 < idx) by (subst idx; nia).
  exists idx. apply Z.gtb_lt in Hi. unfold assertr. rewrite Hi.
  apply Z.gtb_lt in Hi. auto.
Qed.

End StrategyChoice.

Lemma default_1load_has_broadcast_registers_witness :
  exists r, bcst (T := ymm_traits) brg_int8_avx2 true 1 = Ok r /\ 0 < r.
Proof.
  apply (default_1load_has_broadcast_registers (T := ymm_traits)
           brg_int8_avx2 1).
  - reflexivity.
  - reflexivity.
  - reflexivity.
  - simpl. lia.
Defined.

(** ** The register ranges handed to the post-ops injector *)

Section InjectorRanges.
Context {T : isa_traits} {E : brgemm_externals}.

Lemma rows_register_range : forall brg n bd_start bd_end' r,
  0 < n ->
  (max_effective_vregs brg - bd_end' * n <= r
   < max_effective_vregs brg - bd_start * n
   <-> exists bd ld,
         bd_start <= bd < bd_end' /\ 0 <= ld < n /\ r = accm brg n bd ld).
Proof.
  intros brg n bs be r Hn. unfold accm. split.
  - intros Hr. set (k := max_effective_vregs brg - 1 - r).
    exists (k / n), (k mod n).
    pose proof (Z.div_mod k n ltac:(lia)) as Hk.
    pose proof (Z.mod_pos_bound k n Hn) as Hm.
    assert (bs * n <= k < be * n) by (unfold k; lia).
    split; [split|split].
    + apply Z.div_le_lower_bound; lia.
    + apply Z.div_lt_upper_bound; lia.
    + exact Hm.
    + unfold k in *. lia.
  - intros (bd & ld & Hb & Hl & ->). nia.
Qed.

Ltac rows_leaf := first [exact Logic.I | (cbn; exact Logic.I)].

Lemma maybe_set_avx_mask_rows : forall brg n b is_ld_tail,
  holds (post_ops_over_rows brg n b) (maybe_set_avx_mask brg is_ld_tail).
Proof.
  intros. unfold maybe_set_avx_mask. hwalk ltac:(idtac) ltac:(rows_leaf).
Qed.

Lemma cvt2ps_rows :
  forall brg n b type_in vmm_in op mask_flag store ktail_mask tail_size,
    holds (post_ops_over_rows brg n b)
      (cvt2ps brg type_in vmm_in op mask_flag store ktail_mask tail_size).
Proof. intros. unfold cvt2ps. hwalk ltac:(idtac) ltac:(rows_leaf). Qed.

Lemma sum_injector_rows :
  forall brg n b ld_block2' is_ld_tail bd_start bd_end',
    holds (post_ops_over_rows brg n b)
      (sum_injector brg ld_block2' is_ld_tail bd_start bd_end').
Proof.
  intros. unfold sum_injector.
  hwalk ltac:(solve [auto using maybe_set_avx_mask_rows, cvt2ps_rows])
        ltac:(rows_leaf).
Qed.

(** X4. Every call of the post-ops injector that [apply_post_ops] emits
    is over the registers of the cells of some rows of the block: a
    register is in the range handed to the injector exactly when it is
    [accm ld_block2 bd ld] for a row [bd] of the call and a column [ld]
    of the block. *)
Theorem post_ops_ranges_are_accumulator_rows :
  forall (brg : brgemm_desc_t) (bd_block' ld_block2' ldb_and_bdb_offset : Z)
    (is_ld_tail : bool),
    0 < ld_block2' ->
    holds (post_ops_over_rows brg ld_block2' bd_block')
      (apply_post_ops brg bd_block' ld_block2' ldb_and_bdb_offset
         is_ld_tail).
Proof.
  intros brg bd_block' n off is_ld_tail Hn. unfold apply_post_ops.
  cbv zeta. repeat (apply holds_andthen);
    try (apply holds_when; intros _; apply holds_ins; exact Logic.I).
  apply holds_for_step_bounds. intros i Hi (k & Hk & Hik).
  apply holds_andthen;
    [|apply holds_when; intros _; apply holds_ins; exact Logic.I].
  apply holds_bind_code.
  - destruct (with_sum brg); [apply sum_injector_rows|apply holds_skip].
  - intros c Hc. apply holds_node. cbn [nodes]. constructor; [|exact Hc].
    cbn. exists i, (i + (if is_runtime_ldd brg then 1 else bd_block')).
    split; [lia|]. split.
    + destruct (is_runtime_ldd brg); [lia|].
      assert (k = 0) by nia. subst k. lia.
    + intros r. apply rows_register_range. exact Hn.
Qed.

End InjectorRanges.

Lemma post_ops_ranges_are_accumulator_rows_witness :
  holds (post_ops_over_rows (T := zmm_traits) brg_int8_alpha2_bias 1 2)
    (apply_post_ops (T := zmm_traits) (E := example_externals)
       brg_int8_alpha2_bias 2 1 0 false).
Proof.
  apply (post_ops_ranges_are_accumulator_rows (T := zmm_traits)
           (E := example_externals) brg_int8_alpha2_bias 2 1 0 false).
  lia.
Defined.

(** ** Every cell is cleared and stored *)

Section EveryCell.
Context {T : isa_traits} {E : brgemm_externals}.

(** X5. On vector registers [zero_accumulators] always succeeds, emits
    one instruction for each cell of the block and nothing else, and the
    instruction that clears cell [(bd, ld)] is among them. *)
Theorem zero_accumulators_clears_every_cell :
  forall (brg : brgemm_desc_t) (bd_block2' : Z) (is_bdb_tail : bool)
    (ld_block2' : Z) (is_ld_tail skip_accumulation : bool),
    brg.(is_tmm) = false ->
    let bd_block' := if is_bdb_tail then brg.(bdb_tail) else brg.(bd_block) in
    exists c,
      zero_accumulators brg bd_block2' is_bdb_tail ld_block2' is_ld_tail
        skip_accumulation = Ok c
      /\ List.length c = (Z.to_nat bd_block' * Z.to_nat ld_block2')%nat
      /\ forall bd ld,
           0 <= bd < bd_block' -> 0 <= ld < ld_block2' ->
           In (I (Ins "uni_vpxor"
                    [Vmm (accm brg ld_block2' bd ld);
                     Vmm (accm brg ld_block2' bd ld);
                     Vmm (accm brg ld_block2' bd ld)])) c.
Proof.
  intros brg bd2 tail n ldtail skip Ht bd_block'.
  unfold zero_accumulators. rewrite Ht. cbv zeta. fold bd_block'.
  set (row := fun bd => for_ (range 0 n) (fun ld =>
                 ins "uni_vpxor"
                     [Vmm (accm brg n bd ld); Vmm (accm brg n bd ld);
                      Vmm (accm brg n bd ld)])).
  destruct (for_length (range 0 bd_block') row (Z.to_nat n)) as (c & Hc & Hn).
  { intros bd. unfold row.
    destruct (for_length (range 0 n)
                (fun ld => ins "uni_vpxor"
                     [Vmm (accm brg n bd ld); Vmm (accm brg n bd ld);
                      Vmm (accm brg n bd ld)]) 1) as (cx & Hx & Hl).
    - intros ld. eexists. split; reflexivity.
    - exists cx. split; [exact Hx|]. rewrite Hl, range_length. lia. }
  exists c. split; [exact Hc|]. split.
  - rewrite Hn, range_length. f_equal. lia.
  - intros bd ld Hb Hl.
    destruct (for_member _ _ _ bd Hc) as (pre & cx & post & Hx & ->);
      [apply in_range; lia|].
    unfold row in Hx.
    destruct (for_member _ _ _ ld Hx) as (pre' & ci & post' & Hi & ->);
      [apply in_range; lia|].
    injection Hi as <-. apply in_or_app. right. apply in_or_app. left.
    apply in_or_app. right. left. reflexivity.
Qed.

(** X6. [store_accumulators_without_post_ops] stores every cell of the
    block: when it succeeds, its code has for each cell [(bd, ld)] an
    instruction that writes the register of the cell to C at the offset
    of the cell. *)
Theorem store_without_post_ops_stores_every_cell :
  forall (brg : brgemm_desc_t) (bd_block' ld_block2' : Z) (is_ld_tail : bool)
    (c : list code) (bd ld : Z),
    store_accumulators_without_post_ops brg bd_block' ld_block2' is_ld_tail
    = Ok c ->
    0 <= bd < bd_block' -> 0 <= ld < ld_block2' ->
    exists m rest,
      In (I (Ins m rest)) c
      /\ (dest (Ins m rest) = Some (Mem reg_aux_C (C_offset brg bd ld))
          \/ dest (Ins m rest)
             = Some (MemK reg_aux_C (C_offset brg bd ld) ld_tail_mask true))
      /\ last rest (Imm 0) = Vmm (accm brg ld_block2' bd ld).
Proof.
  intros brg bd_block' n is_ld_tail c bd ld H Hb Hl.
  unfold store_accumulators_without_post_ops in H. cbv zeta in H.
  apply andthen_inv in H. destruct H as (x1 & r1 & _ & H & ->).
  apply andthen_inv in H. destruct H as (x2 & r2 & _ & H & ->).
  apply andthen_inv in H. destruct H as (body & x3 & H & _ & ->).
  destruct (for_member _ _ _ bd H) as (pre & cx & post & Hx & ->);
    [apply in_range; lia|].
  destruct (for_member _ _ _ ld Hx) as (pre' & ci & post' & Hi & ->);
    [apply in_range; lia|].
  apply andthen_inv in Hi. destruct Hi as (st & x4 & Hst & _ & ->).
  assert (Hin : forall i, In i st ->
                  In i (x1 ++ x2 ++ (pre ++ (pre' ++ (st ++ x4) ++ post')
                                     ++ post) ++ x3)).
  { intros i Hi. rewrite !in_app_iff. tauto. }
  destruct (negb (is_ld_tail && (ld + 1 =? n))).
  - injection Hst as <-. do 2 eexists. split; [apply Hin; left; reflexivity|].
    split; [left; reflexivity|reflexivity].
  - destruct (isa_has_masks (isa_impl brg)).
    + injection Hst as <-.
      do 2 eexists. split; [apply Hin; left; reflexivity|].
      split; [right; reflexivity|reflexivity].
    + destruct (vmm_tail_mask brg) as [mk|]; [|discriminate Hst].
      injection Hst as <-.
      do 2 eexists. split; [apply Hin; left; reflexivity|].
      split; [left; reflexivity|reflexivity].
Qed.

End EveryCell.

Lemma store_without_post_ops_stores_every_cell_witness :
  exists m rest,
    In (I (Ins m rest))
       (code_of (store_accumulators_without_post_ops (T := zmm_traits)
                   brg_f32_alpha_zero 4 1 false))
    /\ (dest (Ins m rest)
        = Some (Mem reg_aux_C (C_offset brg_f32_alpha_zero 3 0))
        \/ dest (Ins m rest)
           = Some (MemK reg_aux_C (C_offset brg_f32_alpha_zero 3 0)
                     ld_tail_mask true))
    /\ last rest (Imm 0)
       = Vmm (accm (T := zmm_traits) brg_f32_alpha_zero 1 3 0).
Proof.
  apply (store_without_post_ops_stores_every_cell (T := zmm_traits)
           brg_f32_alpha_zero 4 1 false
           (code_of (store_accumulators_without_post_ops (T := zmm_traits)
                       brg_f32_alpha_zero 4 1 false)) 3 0).
  - vm_compute. reflexivity.
  - lia.
  - lia.
Defined.

Lemma zero_accumulators_clears_every_cell_witness :
  exists c,
    zero_accumulators (T := zmm_traits) (E := example_externals)
      brg_f32_alpha_zero 1 false 1 false false = Ok c
    /\ List.length c = 4%nat.
Proof.
  destruct (zero_accumulators_clears_every_cell (T := zmm_traits)
              (E := example_externals) brg_f32_alpha_zero 1 false 1 false
              false) as (c & Hc & Hn & _).
  - reflexivity.
  - exists c. split; [exact Hc|exact Hn].
Defined.

Section EveryCellToD.
Context {T : isa_traits} {E : brgemm_externals}.

Lemma store_D_avx512_stores :
  forall (brg : brgemm_desc_t) (off vmm : Z) (is_tail : bool) (k_mask : Z)
    (c : list code),
    store_D_avx512 brg (Mem reg_aux_D off) vmm is_tail k_mask = Ok c ->
    exists i, In (I i) c /\ stores_to_D off vmm i.
Proof.
  intros brg off vmm is_tail k c H. unfold store_D_avx512 in H.
  cbv zeta in H. unfold vmm_mask, vmm_lower_mask in H.
  destruct (dt_d brg); try discriminate H;
    repeat match type of H with
           | context [if ?b then _ else _] => destruct b
           end;
    try discriminate H; injection H as <-;
    first [ solve [eexists; split;
                   [left; reflexivity|split; reflexivity]]
          | solve [eexists; split;
                   [right; left; reflexivity|split; reflexivity]] ].
Qed.

(** X17. [store_accumulators_apply_post_ops] stores every cell: when it
    succeeds, its code has for each cell [(bd, ld)] of the block an
    instruction that writes the register of the cell to D at the offset
    of the cell. *)
Theorem store_with_post_ops_stores_every_cell :
  forall (brg : brgemm_desc_t) (bd_block' ld_block2' ldb_and_bdb_offset : Z)
    (is_ld_tail : bool) (c : list code) (bd ld : Z),
    store_accumulators_apply_post_ops brg bd_block' ld_block2'
      ldb_and_bdb_offset is_ld_tail = Ok c ->
    0 <= bd < bd_block' -> 0 <= ld < ld_block2' ->
    exists i,
      In (I i) c
      /\ stores_to_D (D_offset brg bd ld) (accm brg ld_block2' bd ld) i.
Proof.
  intros brg bd_block' n off is_ld_tail c bd ld H Hb Hl.
  unfold store_accumulators_apply_post_ops in H. cbv zeta in H.
  do 10 (apply andthen_inv in H; destruct H as (? & ? & _ & H & ->)).
  apply andthen_inv in H. destruct H as (st & ? & H & _ & ->).
  destruct (for_member _ _ _ bd H) as (p1 & c1 & q1 & H1 & ->);
    [apply in_range; lia|].
  destruct (for_member _ _ _ ld H1) as (p2 & c2 & q2 & H2 & ->);
    [apply in_range; lia|].
  apply andthen_inv in H2. destruct H2 as (cs & ? & Hs & _ & ->).
  assert (Hi : exists i,
             In (I i) cs
             /\ stores_to_D (D_offset brg bd ld) (accm brg n bd ld) i).
  { destruct (is_avx512 brg).
    - eapply store_D_avx512_stores. exact Hs.
    - match type of Hs with
      | (if ?b then _ else _) = _ => destruct b
      end.
      + apply bindr_inv in Hs. destruct Hs as (m & _ & Hs).
        injection Hs as <-. eexists. split; [left; reflexivity|].
        split; reflexivity.
      + injection Hs as <-. eexists. split; [left; reflexivity|].
        split; [reflexivity|]. do 2 eexists. reflexivity. }
  destruct Hi as (i & Hi & Hst). exists i. split; [|exact Hst].
  rewrite !in_app_iff. tauto.
Qed.

End EveryCellToD.

Lemma store_with_post_ops_stores_every_cell_witness :
  exists i,
    In (I i)
       (code_of (store_accumulators_apply_post_ops (T := zmm_traits)
                   (E := example_externals) brg_int8_alpha2_bias 2 1 0
                   false))
    /\ stores_to_D (D_offset brg_int8_alpha2_bias 1 0)
         (accm (T := zmm_traits) brg_int8_alpha2_bias 1 1 0) i.
Proof.
  apply (store_with_post_ops_stores_every_cell (T := zmm_traits)
           (E := example_externals) brg_int8_alpha2_bias 2 1 0 false
           (code_of (store_accumulators_apply_post_ops (T := zmm_traits)
                       (E := example_externals) brg_int8_alpha2_bias 2 1 0
                       false)) 1 0).
  - vm_compute. reflexivity.
  - lia.
  - lia.
Defined.

(** ** Rows of A the microkernel reads *)

Create HintDb rowsA.

Section RowsOfA.
Context {T : isa_traits} {E : brgemm_externals}.
Variable brg : brgemm_desc_t.
Variables rb re rl : Z.

Ltac rows_leaf :=
  cbn; unfold reads_A_rows, vmm_mask;
  repeat match goal with
         | |- context [if ?b then _ else _] => destruct b
         end;
  cbn;
  first [ exact Logic.I
        | intros off Hoff; cbn in Hoff;
          repeat match goal with
                 | H : _ \/ _ |- _ => destruct H
                 | H : False |- _ => destruct H
                 end;
          subst; assumption ].

Ltac rows_walk :=
  repeat hstep;
  lazymatch goal with
  | |- holds _ (Ok [_]) => hnode ltac:(rows_leaf)
  | |- holds _ _ =>
      first [ solve [auto with rowsA]
            | progress unfold dot_product; rows_walk ]
  | |- _ => rows_leaf
  end.

Lemma compensation_padding_rowsA : forall ld_block2' vmm_load vmm_tmp' ld
    bd_b bd_e,
  holds (on_insn (reads_A_rows brg rb re rl)) (compensation_padding brg
    ld_block2' vmm_load vmm_tmp' ld bd_b bd_e).
Proof. intros. unfold compensation_padding. rows_walk. Qed.
#[local] Hint Resolve compensation_padding_rowsA : rowsA.

Lemma compute_int8_compensation_rowsA : forall n_bcast_1_load rd_loop bd_b
    bd_e bd_block' ld_block2' is_ld_tail vpad,
  holds (on_insn (reads_A_rows brg rb re rl)) (compute_int8_compensation brg
    n_bcast_1_load rd_loop bd_b bd_e bd_block' ld_block2' is_ld_tail vpad).
Proof. intros. unfold compute_int8_compensation. rows_walk. Qed.
#[local] Hint Resolve compute_int8_compensation_rowsA : rowsA.

Lemma prefetch_B_rowsA : forall ld_block2' k rd,
  holds (on_insn (reads_A_rows brg rb re rl)) (prefetch_B brg ld_block2' k
    rd).
Proof. intros. unfold prefetch_B. rows_walk. Qed.
#[local] Hint Resolve prefetch_B_rowsA : rowsA.

Lemma broadcast_rowsA :
  forall clear_first rd_tail_size v1 offset is_tail dt,
    (exists bd rd, rb <= bd < re /\ 0 <= rd < rl
                   /\ offset = A_offset brg bd rd false) ->
    holds (on_insn (reads_A_rows brg rb re rl))
      (broadcast brg clear_first rd_tail_size v1 offset is_tail dt).
Proof. intros. unfold broadcast. rows_walk. Qed.

End RowsOfA.

Section RowsOfBodies.
Context {T : isa_traits} {E : brgemm_externals}.

Ltac row_solve :=
  repeat match goal with
         | H : In _ (range _ _) |- _ => apply range_In in H
         end;
  refine (ex_intro _ _ (ex_intro _ _ (conj _ (conj _ eq_refl)))); lia.

Ltac rows_leaf :=
  cbn; unfold reads_A_rows, vmm_mask;
  repeat match goal with
         | |- context [if ?b then _ else _] => destruct b
         end;
  cbn;
  first [ exact Logic.I
        | intros off Hoff; cbn in Hoff;
          repeat match goal with
                 | H : _ \/ _ |- _ => destruct H
                 | H : False |- _ => destruct H
                 end;
          subst; row_solve ].

Ltac rows_walk :=
  repeat (first [ apply holds_for_step_bounds; intros ? ? _ | hstep ]);
  lazymatch goal with
  | |- holds _ (Ok [_]) => hnode ltac:(rows_leaf)
  | |- holds _ _ =>
      first [ apply broadcast_rowsA; row_solve
            | solve [auto using prefetch_B_rowsA,
                       compute_int8_compensation_rowsA]
            | progress unfold dot_product, load_B_1load, load_B_1bcst,
                decode_B, load_zero_points; rows_walk ]
  | |- _ => rows_leaf
  end.

Lemma gemm_microkernel_1load_rowsA :
  forall brg n_bcast_1_load ld_block2' is_rd_tail is_ld_tail bd_b bd_e
    rows_for_rd_tail,
    holds (on_insn (reads_A_rows brg bd_b bd_e (rd_loop_of brg is_rd_tail)))
      (gemm_microkernel_1load brg n_bcast_1_load ld_block2' is_rd_tail
         is_ld_tail bd_b bd_e rows_for_rd_tail).
Proof. intros. unfold gemm_microkernel_1load. rows_walk. Qed.

Lemma gemm_microkernel_1bcst_rowsA :
  forall brg n_bcast_1_load ld_block2' is_rd_tail is_ld_tail bd_b bd_e
    rows_for_rd_tail,
    holds (on_insn (reads_A_rows brg bd_b bd_e (rd_loop_of brg is_rd_tail)))
      (gemm_microkernel_1bcst brg n_bcast_1_load ld_block2' is_rd_tail
         is_ld_tail bd_b bd_e rows_for_rd_tail).
Proof. intros. unfold gemm_microkernel_1bcst. rows_walk. Qed.

Lemma gemm_microkernel_wei_decomp_rowsA :
  forall brg n_bcast_1_load ld_block2' is_rd_tail is_ld_tail bd_b bd_e
    rows_for_rd_tail,
    holds (on_insn (reads_A_rows brg bd_b bd_e (rd_loop_of brg is_rd_tail)))
      (gemm_microkernel_wei_decomp brg n_bcast_1_load ld_block2' is_rd_tail
         is_ld_tail bd_b bd_e rows_for_rd_tail).
Proof. intros. unfold gemm_microkernel_wei_decomp. rows_walk. Qed.

Lemma gemm_microkernel_dyn_quant_rowsA :
  forall brg n_bcast_1_load need_comp_pads bd_block2' (is_bdb_tail : bool)
    ld_block2' is_rd_tail is_ld_tail vpad rows_for_rd_tail,
    holds (on_insn
             (reads_A_rows brg (bd_begin vpad)
                (bd_end (if is_bdb_tail then brg.(bdb_tail)
                         else brg.(bd_block)) vpad)
                (rd_loop_of brg is_rd_tail)))
      (gemm_microkernel_dyn_quant brg n_bcast_1_load need_comp_pads
         bd_block2' is_bdb_tail ld_block2' is_rd_tail is_ld_tail vpad
         rows_for_rd_tail).
Proof. intros. unfold gemm_microkernel_dyn_quant. rows_walk. Qed.

(** X7. The vector microkernel reads A only inside the block: every
    address it forms from [reg_aux_A] is the offset of a row
    [max 0 vpad <= bd < min bd_block (bd_block + vpad)], so never of a
    row of the virtual padding, and of a reduction index below the
    extent of the reduction loop. *)
Theorem gemm_microkernel_reads_unpadded_rows :
  forall brg n_bcast_1_load need_comp_pads bd_block2' (is_bdb_tail : bool)
    ld_block2' is_rd_tail is_ld_tail vpad rows_for_rd_tail,
    holds (on_insn
             (reads_A_rows brg (bd_begin vpad)
                (bd_end (if is_bdb_tail then brg.(bdb_tail)
                         else brg.(bd_block)) vpad)
                (rd_loop_of brg is_rd_tail)))
      (gemm_microkernel brg n_bcast_1_load need_comp_pads bd_block2'
         is_bdb_tail ld_block2' is_rd_tail is_ld_tail vpad rows_for_rd_tail).
Proof.
  intros. unfold gemm_microkernel.
  hwalk ltac:(solve [auto using gemm_microkernel_1load_rowsA,
                       gemm_microkernel_1bcst_rowsA,
                       gemm_microkernel_wei_decomp_rowsA,
                       gemm_microkernel_dyn_quant_rowsA,
                       compute_int8_compensation_rowsA])
        ltac:(rows_leaf).
Qed.

End RowsOfBodies.

(** ** The stack frame

    Outside the two instructions of [generate] that reserve and release
    the frame, no generator emits an instruction that names the stack
    pointer other than as the base of a slot of the frame: one lemma for
    each generator, in the order of the calls. *)

Create HintDb frame.

Section Frame.
Context {T : isa_traits} {E : brgemm_externals}.

Lemma vmm_mask_stack_ok : forall brg v mask_flag store k,
  stack_ok (vmm_mask brg v mask_flag store k) = true.
Proof.
  intros. unfold vmm_mask.
  destruct (mask_flag && is_avx512 brg), store; reflexivity.
Qed.

Lemma vmm_lower_mask_stack_ok : forall brg v mask_flag store k,
  stack_ok (vmm_lower_mask brg v mask_flag store k) = true.
Proof.
  intros. unfold vmm_lower_mask.
  destruct (mask_flag && is_avx512 brg), store; reflexivity.
Qed.
#[local] Hint Resolve vmm_mask_stack_ok vmm_lower_mask_stack_ok : frame.
#[local] Hint Extern 1 (stack_ok _ = true) => reflexivity : frame.
#[local] Hint Extern 1 (is_rsp _ = false) => reflexivity : frame.

Ltac frame_leaf :=
  cbn; unfold vmm_mask, vmm_lower_mask;
  repeat match goal with
         | H : stack_ok _ = true |- _ => rewrite H
         | H : is_rsp _ = false |- _ => rewrite H
         end;
  repeat match goal with
         | |- context [if ?b then _ else _] => destruct b
         end;
  cbn; auto.
Ltac frame_walk := hwalk ltac:(solve [auto with frame]) ltac:(frame_leaf).

Lemma maybe_set_avx_mask_frame : forall brg is_ld_tail,
  holds within_frame (maybe_set_avx_mask brg is_ld_tail).
Proof. intros. unfold maybe_set_avx_mask. frame_walk. Qed.
#[local] Hint Resolve maybe_set_avx_mask_frame : frame.

Lemma cvt2ps_frame : forall brg type_in vmm_in op mask_flag store ktail_mask
    tail_size,
  stack_ok op = true ->
  holds within_frame (cvt2ps brg type_in vmm_in op mask_flag store ktail_mask
    tail_size).
Proof. intros. unfold cvt2ps. frame_walk. Qed.
#[local] Hint Resolve cvt2ps_frame : frame.

Lemma zero_accumulators_frame : forall brg bd_block2' is_bdb_tail ld_block2'
    is_ld_tail skip_accumulation,
  holds within_frame (zero_accumulators brg bd_block2' is_bdb_tail ld_block2'
    is_ld_tail skip_accumulation).
Proof. intros. unfold zero_accumulators. frame_walk. Qed.
#[local] Hint Resolve zero_accumulators_frame : frame.

Lemma dot_product_frame : forall brg v1 v2 v3,
  stack_ok v1 = true ->
  stack_ok v2 = true ->
  stack_ok v3 = true ->
  holds within_frame (dot_product brg v1 v2 v3).
Proof. intros. unfold dot_product. frame_walk. Qed.
#[local] Hint Resolve dot_product_frame : frame.

Lemma compensation_padding_frame : forall brg ld_block2' vmm_load vmm_tmp' ld
    bd_b bd_e,
  holds within_frame (compensation_padding brg ld_block2' vmm_load vmm_tmp' ld
    bd_b bd_e).
Proof. intros. unfold compensation_padding. frame_walk. Qed.
#[local] Hint Resolve compensation_padding_frame : frame.

Lemma compute_int8_compensation_frame : forall brg n_bcast_1_load rd_loop bd_b
    bd_e bd_block' ld_block2' is_ld_tail vpad,
  holds within_frame (compute_int8_compensation brg n_bcast_1_load rd_loop
    bd_b bd_e bd_block' ld_block2' is_ld_tail vpad).
Proof. intros. unfold compute_int8_compensation. frame_walk. Qed.
#[local] Hint Resolve compute_int8_compensation_frame : frame.

Lemma broadcast_frame : forall brg clear_first rd_tail_size v1 offset is_tail
    dt,
  holds within_frame (broadcast brg clear_first rd_tail_size v1 offset is_tail
    dt).
Proof. intros. unfold broadcast. frame_walk. Qed.
#[local] Hint Resolve broadcast_frame : frame.

Lemma prefetch_B_frame : forall brg ld_block2' k rd,
  holds within_frame (prefetch_B brg ld_block2' k rd).
Proof. intros. unfold prefetch_B. frame_walk. Qed.
#[local] Hint Resolve prefetch_B_frame : frame.

Lemma gemm_microkernel_dyn_quant_frame : forall brg n_bcast_1_load
    need_comp_pads bd_block2' is_bdb_tail ld_block2' is_rd_tail is_ld_tail
    vpad rows_for_rd_tail,
  holds within_frame (gemm_microkernel_dyn_quant brg n_bcast_1_load
    need_comp_pads bd_block2' is_bdb_tail ld_block2' is_rd_tail is_ld_tail
    vpad rows_for_rd_tail).
Proof. intros. unfold gemm_microkernel_dyn_quant. frame_walk. Qed.
#[local] Hint Resolve gemm_microkernel_dyn_quant_frame : frame.

Lemma load_B_1load_frame : forall brg vmm_load addr rd is_ld_tail,
  stack_ok vmm_load = true ->
  stack_ok addr = true ->
  holds within_frame (load_B_1load brg vmm_load addr rd is_ld_tail).
Proof. intros. unfold load_B_1load. frame_walk. Qed.
#[local] Hint Resolve load_B_1load_frame : frame.

Lemma load_B_1bcst_frame : forall brg vmm_load addr rd is_ld_tail,
  stack_ok vmm_load = true ->
  stack_ok addr = true ->
  holds within_frame (load_B_1bcst brg vmm_load addr rd is_ld_tail).
Proof. intros. unfold load_B_1bcst. frame_walk. Qed.
#[local] Hint Resolve load_B_1bcst_frame : frame.

Lemma gemm_microkernel_1load_frame : forall brg n_bcast_1_load ld_block2'
    is_rd_tail is_ld_tail bd_b bd_e rows_for_rd_tail,
  holds within_frame (gemm_microkernel_1load brg n_bcast_1_load ld_block2'
    is_rd_tail is_ld_tail bd_b bd_e rows_for_rd_tail).
Proof. intros. unfold gemm_microkernel_1load. frame_walk. Qed.
#[local] Hint Resolve gemm_microkernel_1load_frame : frame.

Lemma load_zero_points_frame : forall brg reg_ptr vmm_zp addr,
  is_rsp reg_ptr = false ->
  stack_ok addr = true ->
  holds within_frame (load_zero_points brg reg_ptr vmm_zp addr).
Proof. intros. unfold load_zero_points. frame_walk. Qed.
#[local] Hint Resolve load_zero_points_frame : frame.

Lemma decode_B_frame : forall brg n_bcast_1_load vmm_load addr rd vmm_mask7
    vmm_mask8 vmm_lookup vmm_lookup_low vmm_lookup_high,
  stack_ok vmm_load = true ->
  stack_ok addr = true ->
  holds within_frame (decode_B brg n_bcast_1_load vmm_load addr rd vmm_mask7
    vmm_mask8 vmm_lookup vmm_lookup_low vmm_lookup_high).
Proof. intros. unfold decode_B. frame_walk. Qed.
#[local] Hint Resolve decode_B_frame : frame.

Lemma gemm_microkernel_wei_decomp_frame : forall brg n_bcast_1_load ld_block2'
    is_rd_tail is_ld_tail bd_b bd_e rows_for_rd_tail,
  holds within_frame (gemm_microkernel_wei_decomp brg n_bcast_1_load
    ld_block2' is_rd_tail is_ld_tail bd_b bd_e rows_for_rd_tail).
Proof. intros. unfold gemm_microkernel_wei_decomp. frame_walk. Qed.
#[local] Hint Resolve gemm_microkernel_wei_decomp_frame : frame.

Lemma gemm_microkernel_1bcst_frame : forall brg n_bcast_1_load ld_block2'
    is_rd_tail is_ld_tail bd_b bd_e rows_for_rd_tail,
  holds within_frame (gemm_microkernel_1bcst brg n_bcast_1_load ld_block2'
    is_rd_tail is_ld_tail bd_b bd_e rows_for_rd_tail).
Proof. intros. unfold gemm_microkernel_1bcst. frame_walk. Qed.
#[local] Hint Resolve gemm_microkernel_1bcst_frame : frame.

Lemma gemm_microkernel_frame : forall brg n_bcast_1_load need_comp_pads
    bd_block2' is_bdb_tail ld_block2' is_rd_tail is_ld_tail vpad
    rows_for_rd_tail,
  holds within_frame (gemm_microkernel brg n_bcast_1_load need_comp_pads
    bd_block2' is_bdb_tail ld_block2' is_rd_tail is_ld_tail vpad
    rows_for_rd_tail).
Proof. intros. unfold gemm_microkernel. frame_walk. Qed.
#[local] Hint Resolve gemm_microkernel_frame : frame.

Lemma fp8_to_f16_upconvert_frame : forall brg num_rows tile_num_col_bytes
    reg_base offset reg_data_stride dt is_rd_tail,
  is_rsp reg_base = false ->
  is_rsp reg_data_stride = false ->
  holds within_frame (fp8_to_f16_upconvert brg num_rows tile_num_col_bytes
    reg_base offset reg_data_stride dt is_rd_tail).
Proof. intros. unfold fp8_to_f16_upconvert. frame_walk. Qed.
#[local] Hint Resolve fp8_to_f16_upconvert_frame : frame.

Lemma fp8_to_f16_upconvert_to_vnni_frame : forall brg num_rows
    tile_num_col_bytes reg_base offset reg_data_stride dt is_rd_tail,
  is_rsp reg_base = false ->
  is_rsp reg_data_stride = false ->
  holds within_frame (fp8_to_f16_upconvert_to_vnni brg num_rows
    tile_num_col_bytes reg_base offset reg_data_stride dt is_rd_tail).
Proof. intros. unfold fp8_to_f16_upconvert_to_vnni. frame_walk. Qed.
#[local] Hint Resolve fp8_to_f16_upconvert_to_vnni_frame : frame.

Lemma maybe_pre_process_data_frame : forall brg matrix_kind t1 reg_base offset
    reg_stride num_rows num_col_bytes is_rd_tail,
  is_rsp reg_base = false ->
  is_rsp reg_stride = false ->
  holds within_frame (maybe_pre_process_data brg matrix_kind t1 reg_base
    offset reg_stride num_rows num_col_bytes is_rd_tail).
Proof. intros. unfold maybe_pre_process_data. frame_walk. Qed.
#[local] Hint Resolve maybe_pre_process_data_frame : frame.

Lemma maybe_tileloadd_nt_frame :
  forall brg matrix_kind idx offset is_rd_tail is_tail,
    holds within_frame
      (maybe_tileloadd_nt brg matrix_kind idx offset is_rd_tail is_tail).
Proof.
  intros. unfold maybe_tileloadd_nt. destruct matrix_kind; frame_walk.
Qed.
#[local] Hint Resolve maybe_tileloadd_nt_frame : frame.

Lemma tdpbxxd_frame : forall brg x1 x2 x3,
  holds within_frame (tdpbxxd brg x1 x2 x3).
Proof. intros. unfold tdpbxxd. frame_walk. Qed.
#[local] Hint Resolve tdpbxxd_frame : frame.

Lemma gemm_microkernel_amx_frame : forall brg bd_block2' is_bdb_tail
    ld_block2' is_rd_tail is_ld_tail,
  holds within_frame (gemm_microkernel_amx brg bd_block2' is_bdb_tail
    ld_block2' is_rd_tail is_ld_tail).
Proof. intros. unfold gemm_microkernel_amx. frame_walk. Qed.
#[local] Hint Resolve gemm_microkernel_amx_frame : frame.

Lemma advance_ldb_post_op_regs_frame : forall brg,
  holds within_frame (advance_ldb_post_op_regs brg).
Proof. intros. unfold advance_ldb_post_op_regs. frame_walk. Qed.
#[local] Hint Resolve advance_ldb_post_op_regs_frame : frame.

Lemma restore_ldb_post_op_regs_frame : forall brg ld_block2',
  holds within_frame (restore_ldb_post_op_regs brg ld_block2').
Proof. intros. unfold restore_ldb_post_op_regs. frame_walk. Qed.
#[local] Hint Resolve restore_ldb_post_op_regs_frame : frame.

Lemma advance_bdb_post_op_regs_frame : forall brg adj_bd_block,
  holds within_frame (advance_bdb_post_op_regs brg adj_bd_block).
Proof. intros. unfold advance_bdb_post_op_regs. frame_walk. Qed.
#[local] Hint Resolve advance_bdb_post_op_regs_frame : frame.

Lemma restore_bdb_post_op_regs_frame : forall brg bd_block2',
  holds within_frame (restore_bdb_post_op_regs brg bd_block2').
Proof. intros. unfold restore_bdb_post_op_regs. frame_walk. Qed.
#[local] Hint Resolve restore_bdb_post_op_regs_frame : frame.

Lemma apply_alpha_beta_frame : forall brg bd_block' ld_block2' is_ld_tail,
  holds within_frame (apply_alpha_beta brg bd_block' ld_block2' is_ld_tail).
Proof. intros. unfold apply_alpha_beta. frame_walk. Qed.
#[local] Hint Resolve apply_alpha_beta_frame : frame.

Lemma sum_injector_frame : forall brg ld_block2' is_ld_tail bd_start bd_end',
  holds within_frame (sum_injector brg ld_block2' is_ld_tail bd_start
    bd_end').
Proof. intros. unfold sum_injector. frame_walk. Qed.
#[local] Hint Resolve sum_injector_frame : frame.

Lemma apply_post_ops_frame : forall brg bd_block' ld_block2'
    ldb_and_bdb_offset is_ld_tail,
  holds within_frame (apply_post_ops brg bd_block' ld_block2'
    ldb_and_bdb_offset is_ld_tail).
Proof. intros. unfold apply_post_ops. frame_walk. Qed.
#[local] Hint Resolve apply_post_ops_frame : frame.

Lemma store_D_avx512_frame : forall brg addr vmm is_tail k_mask,
  stack_ok addr = true ->
  holds within_frame (store_D_avx512 brg addr vmm is_tail k_mask).
Proof. intros. unfold store_D_avx512. frame_walk. Qed.
#[local] Hint Resolve store_D_avx512_frame : frame.

Lemma store_accumulators_apply_post_ops_frame : forall brg bd_block'
    ld_block2' ldb_and_bdb_offset is_ld_tail,
  holds within_frame (store_accumulators_apply_post_ops brg bd_block'
    ld_block2' ldb_and_bdb_offset is_ld_tail).
Proof. intros. unfold store_accumulators_apply_post_ops. frame_walk. Qed.
#[local] Hint Resolve store_accumulators_apply_post_ops_frame : frame.

Lemma apply_compensation_frame : forall brg bd_block' ld_block2' is_ld_tail,
  holds within_frame (apply_compensation brg bd_block' ld_block2' is_ld_tail).
Proof. intros. unfold apply_compensation. frame_walk. Qed.
#[local] Hint Resolve apply_compensation_frame : frame.

Lemma store_accumulators_without_post_ops_frame : forall brg bd_block'
    ld_block2' is_ld_tail,
  holds within_frame (store_accumulators_without_post_ops brg bd_block'
    ld_block2' is_ld_tail).
Proof. intros. unfold store_accumulators_without_post_ops. frame_walk. Qed.
#[local] Hint Resolve store_accumulators_without_post_ops_frame : frame.

Lemma store_accumulators_amx_frame : forall brg bd_block2' is_bdb_tail
    ld_block2' is_ld_tail skip_accumulation apply_post_ops'
    apply_zp_a_compensation,
  holds within_frame (store_accumulators_amx brg bd_block2' is_bdb_tail
    ld_block2' is_ld_tail skip_accumulation apply_post_ops'
    apply_zp_a_compensation).
Proof. intros. unfold store_accumulators_amx. frame_walk. Qed.
#[local] Hint Resolve store_accumulators_amx_frame : frame.

Lemma store_accumulators_frame : forall brg bd_block2' is_bdb_tail ld_block2'
    is_ld_tail skip_accumulation,
  holds within_frame (store_accumulators brg bd_block2' is_bdb_tail ld_block2'
    is_ld_tail skip_accumulation).
Proof. intros. unfold store_accumulators. frame_walk. Qed.
#[local] Hint Resolve store_accumulators_frame : frame.

Lemma ldb_regs_shift_frame : forall brg ld_block2' is_tail,
  holds within_frame (ldb_regs_shift brg ld_block2' is_tail).
Proof. intros. unfold ldb_regs_shift. frame_walk. Qed.
#[local] Hint Resolve ldb_regs_shift_frame : frame.

Lemma advance_bd_block2_post_op_regs_frame : forall brg bd_block2',
  holds within_frame (advance_bd_block2_post_op_regs brg bd_block2').
Proof. intros. unfold advance_bd_block2_post_op_regs. frame_walk. Qed.
#[local] Hint Resolve advance_bd_block2_post_op_regs_frame : frame.

Lemma copy_post_ops_stack_values_to_aux_frame : forall brg is_reg_tail,
  holds within_frame (copy_post_ops_stack_values_to_aux brg is_reg_tail).
Proof. intros. unfold copy_post_ops_stack_values_to_aux. frame_walk. Qed.
#[local] Hint Resolve copy_post_ops_stack_values_to_aux_frame : frame.

Lemma read_params_frame : forall brg,
  holds within_frame (read_params brg).
Proof. intros. unfold read_params. frame_walk. Qed.
#[local] Hint Resolve read_params_frame : frame.

Lemma restore_A_B_matrices_frame : forall brg vpad_exist,
  holds within_frame (restore_A_B_matrices brg vpad_exist).
Proof. intros. unfold restore_A_B_matrices. frame_walk. Qed.
#[local] Hint Resolve restore_A_B_matrices_frame : frame.

Lemma set_A_B_matrices_frame : forall brg vpad_exist,
  holds within_frame (set_A_B_matrices brg vpad_exist).
Proof. intros. unfold set_A_B_matrices. frame_walk. Qed.
#[local] Hint Resolve set_A_B_matrices_frame : frame.

Lemma ic_group_shift_frame :
  forall src_offs dst_offs group_size stride,
    in_frame src_offs = true -> in_frame dst_offs = true ->
    holds within_frame (ic_group_shift src_offs dst_offs group_size stride).
Proof.
  intros src_offs dst_offs group_size stride Hs Hd.
  unfold ic_group_shift.
  hwalk ltac:(idtac) ltac:(cbn; rewrite ?Hs, ?Hd; reflexivity).
Qed.
#[local] Hint Resolve ic_group_shift_frame : frame.
#[local] Hint Extern 1 (in_frame _ = true) => reflexivity : frame.

Lemma grouped_wei_decomp_shift_frame : forall brg,
  holds within_frame (grouped_wei_decomp_shift brg).
Proof. intros. unfold grouped_wei_decomp_shift. frame_walk. Qed.
#[local] Hint Resolve grouped_wei_decomp_shift_frame : frame.

Lemma ld_loop_body_frame : forall brg n_bcast_1_load vpad_exist need_comp_pads
    bd_block2' is_bdb_tail ld_block2' is_ld_tail rows_for_rd_tail vpad,
  holds within_frame (ld_loop_body brg n_bcast_1_load vpad_exist
    need_comp_pads bd_block2' is_bdb_tail ld_block2' is_ld_tail
    rows_for_rd_tail vpad).
Proof. intros. unfold ld_loop_body. frame_walk. Qed.
#[local] Hint Resolve ld_loop_body_frame : frame.

Lemma vpad_dispatch_frame :
  forall brg vpad_exist need_comp_pads body is_bdb_tail check_top check_bottom,
    (forall v, holds within_frame (body v)) ->
    holds within_frame
      (vpad_dispatch brg vpad_exist need_comp_pads body is_bdb_tail
         check_top check_bottom).
Proof.
  intros. unfold vpad_dispatch. repeat hstep; try solve [frame_leaf].
  apply holds_node. cbn [nodes]. constructor; [exact Logic.I|].
  apply Forall_app. split; [|assumption].
  eapply holds_vpad_cases; eassumption.
Qed.
#[local] Hint Resolve vpad_dispatch_frame : frame.

Lemma ldb_loop_accumulate_frame : forall brg n_bcast_1_load vpad_exist
    need_comp_pads bd_block2' is_bdb_tail ld_block2' is_ld_tail check_top_vpad
    check_bottom_vpad rows_for_rd_tail skip_accumulation,
  holds within_frame (ldb_loop_accumulate brg n_bcast_1_load vpad_exist
    need_comp_pads bd_block2' is_bdb_tail ld_block2' is_ld_tail check_top_vpad
    check_bottom_vpad rows_for_rd_tail skip_accumulation).
Proof. intros. unfold ldb_loop_accumulate. frame_walk. Qed.
#[local] Hint Resolve ldb_loop_accumulate_frame : frame.

Lemma ldb_loop_frame : forall brg n_bcast_1_load vpad_exist need_comp_pads
    bd_block2' is_bdb_tail ld_block2' ldb_loop_length is_reg_tail is_ld_tail
    check_top_vpad check_bottom_vpad rows_for_rd_tail skip_accumulation,
  holds within_frame (ldb_loop brg n_bcast_1_load vpad_exist need_comp_pads
    bd_block2' is_bdb_tail ld_block2' ldb_loop_length is_reg_tail is_ld_tail
    check_top_vpad check_bottom_vpad rows_for_rd_tail skip_accumulation).
Proof. intros. unfold ldb_loop. frame_walk. Qed.
#[local] Hint Resolve ldb_loop_frame : frame.

Lemma do_ldb_loop_frame : forall brg vpad_exist need_comp_pads bd_block2'
    is_bdb_tail check_top_vpad check_bottom_vpad rows_for_rd_tail
    skip_accumulation,
  holds within_frame (do_ldb_loop brg vpad_exist need_comp_pads bd_block2'
    is_bdb_tail check_top_vpad check_bottom_vpad rows_for_rd_tail
    skip_accumulation).
Proof. intros. unfold do_ldb_loop. frame_walk. Qed.
#[local] Hint Resolve do_ldb_loop_frame : frame.

Lemma bdb_loop_body_frame : forall brg vpad_exist need_comp_pads bd_block2'
    is_bdb_tail check_top_vpad check_bottom_vpad rows_for_rd_tail
    skip_accumulation,
  holds within_frame (bdb_loop_body brg vpad_exist need_comp_pads bd_block2'
    is_bdb_tail check_top_vpad check_bottom_vpad rows_for_rd_tail
    skip_accumulation).
Proof. intros. unfold bdb_loop_body. frame_walk. Qed.
#[local] Hint Resolve bdb_loop_body_frame : frame.

Lemma bdb_loop_avx512_vpad_frame : forall brg vpad_exist need_comp_pads
    skip_accumulation,
  holds within_frame (bdb_loop_avx512_vpad brg vpad_exist need_comp_pads
    skip_accumulation).
Proof. intros. unfold bdb_loop_avx512_vpad. frame_walk. Qed.
#[local] Hint Resolve bdb_loop_avx512_vpad_frame : frame.

Lemma bdb_loop_avx512_no_vpad_frame : forall brg vpad_exist need_comp_pads
    skip_accumulation,
  holds within_frame (bdb_loop_avx512_no_vpad brg vpad_exist need_comp_pads
    skip_accumulation).
Proof. intros. unfold bdb_loop_avx512_no_vpad. frame_walk. Qed.
#[local] Hint Resolve bdb_loop_avx512_no_vpad_frame : frame.

Lemma bdb_loop_avx512_frame : forall brg vpad_exist need_comp_pads
    skip_accumulation,
  holds within_frame (bdb_loop_avx512 brg vpad_exist need_comp_pads
    skip_accumulation).
Proof. intros. unfold bdb_loop_avx512. frame_walk. Qed.
#[local] Hint Resolve bdb_loop_avx512_frame : frame.

Lemma bdb_loop_amx_frame : forall brg vpad_exist need_comp_pads
    skip_accumulation,
  holds within_frame (bdb_loop_amx brg vpad_exist need_comp_pads
    skip_accumulation).
Proof. intros. unfold bdb_loop_amx. frame_walk. Qed.
#[local] Hint Resolve bdb_loop_amx_frame : frame.

Lemma bdb_loop_general_frame : forall brg vpad_exist need_comp_pads
    skip_accumulation,
  holds within_frame (bdb_loop_general brg vpad_exist need_comp_pads
    skip_accumulation).
Proof. intros. unfold bdb_loop_general. frame_walk. Qed.
#[local] Hint Resolve bdb_loop_general_frame : frame.

Lemma bdb_loop_frame : forall brg vpad_exist need_comp_pads,
  holds within_frame (bdb_loop brg vpad_exist need_comp_pads).
Proof. intros. unfold bdb_loop. frame_walk. Qed.
#[local] Hint Resolve bdb_loop_frame : frame.

Lemma holds_code : forall (P : code -> Prop) (g : gen) (c : list code),
  holds P g -> g = Ok c -> Forall P (all_nodes c).
Proof. intros P g c H ->. exact H. Qed.


End Frame.


(** ** A kernel with beta = 0

    Only the beta part of [apply_alpha_beta] reads C: one lemma for each
    generator, in the order of the calls. *)

Create HintDb no_C.

Section BetaZero.
Context {T : isa_traits} {E : brgemm_externals}.
Variable brg : brgemm_desc_t.
Hypothesis Hbeta : is_zero brg.(beta) = true.

Lemma vmm_mask_no_C : forall v mask_flag store k,
  is_C_mem (vmm_mask brg v mask_flag store k) = false.
Proof.
  intros. unfold vmm_mask.
  destruct (mask_flag && is_avx512 brg), store; reflexivity.
Qed.

Lemma vmm_lower_mask_no_C : forall v mask_flag store k,
  is_C_mem (vmm_lower_mask brg v mask_flag store k) = false.
Proof.
  intros. unfold vmm_lower_mask.
  destruct (mask_flag && is_avx512 brg), store; reflexivity.
Qed.
#[local] Hint Resolve vmm_mask_no_C vmm_lower_mask_no_C : no_C.
#[local] Hint Extern 1 (is_C_mem _ = false) => reflexivity : no_C.
#[local] Hint Extern 1 (is_C_base _ = false) => reflexivity : no_C.

Ltac no_C_leaf :=
  cbn; unfold no_C_read; cbn;
  rewrite ?vmm_mask_no_C, ?vmm_lower_mask_no_C;
  repeat match goal with
         | H : is_C_mem _ = false |- _ => rewrite H
         | H : is_C_base _ = false |- _ => rewrite H
         end;
  repeat match goal with
         | |- context [if ?b then _ else _] => destruct b
         end;
  cbn; auto.
Ltac no_C_walk := hwalk ltac:(solve [auto with no_C]) ltac:(no_C_leaf).

Lemma maybe_set_avx_mask_no_C : forall is_ld_tail,
  holds (on_insn no_C_read) (maybe_set_avx_mask brg is_ld_tail).
Proof. intros. unfold maybe_set_avx_mask. no_C_walk. Qed.
#[local] Hint Resolve maybe_set_avx_mask_no_C : no_C.

Lemma cvt2ps_no_C : forall type_in vmm_in op mask_flag store ktail_mask
    tail_size,
  is_C_mem op = false ->
  holds (on_insn no_C_read) (cvt2ps brg type_in vmm_in op mask_flag store
    ktail_mask tail_size).
Proof. intros. unfold cvt2ps. no_C_walk. Qed.
#[local] Hint Resolve cvt2ps_no_C : no_C.

Lemma zero_accumulators_no_C : forall bd_block2' is_bdb_tail ld_block2'
    is_ld_tail skip_accumulation,
  holds (on_insn no_C_read) (zero_accumulators brg bd_block2' is_bdb_tail
    ld_block2' is_ld_tail skip_accumulation).
Proof. intros. unfold zero_accumulators. no_C_walk. Qed.
#[local] Hint Resolve zero_accumulators_no_C : no_C.

Lemma dot_product_no_C : forall v1 v2 v3,
  is_C_mem v1 = false ->
  is_C_mem v2 = false ->
  is_C_mem v3 = false ->
  holds (on_insn no_C_read) (dot_product brg v1 v2 v3).
Proof. intros. unfold dot_product. no_C_walk. Qed.
#[local] Hint Resolve dot_product_no_C : no_C.

Lemma compensation_padding_no_C : forall ld_block2' vmm_load vmm_tmp' ld
    bd_b bd_e,
  holds (on_insn no_C_read) (compensation_padding brg ld_block2' vmm_load
    vmm_tmp' ld bd_b bd_e).
Proof. intros. unfold compensation_padding. no_C_walk. Qed.
#[local] Hint Resolve compensation_padding_no_C : no_C.

Lemma compute_int8_compensation_no_C : forall n_bcast_1_load rd_loop bd_b
    bd_e bd_block' ld_block2' is_ld_tail vpad,
  holds (on_insn no_C_read) (compute_int8_compensation brg n_bcast_1_load
    rd_loop bd_b bd_e bd_block' ld_block2' is_ld_tail vpad).
Proof. intros. unfold compute_int8_compensation. no_C_walk. Qed.
#[local] Hint Resolve compute_int8_compensation_no_C : no_C.

Lemma broadcast_no_C : forall clear_first rd_tail_size v1 offset is_tail
    dt,
  holds (on_insn no_C_read) (broadcast brg clear_first rd_tail_size v1 offset
    is_tail dt).
Proof. intros. unfold broadcast. no_C_walk. Qed.
#[local] Hint Resolve broadcast_no_C : no_C.

Lemma prefetch_B_no_C : forall ld_block2' k rd,
  holds (on_insn no_C_read) (prefetch_B brg ld_block2' k rd).
Proof. intros. unfold prefetch_B. no_C_walk. Qed.
#[local] Hint Resolve prefetch_B_no_C : no_C.

Lemma gemm_microkernel_dyn_quant_no_C : forall n_bcast_1_load
    need_comp_pads bd_block2' is_bdb_tail ld_block2' is_rd_tail is_ld_tail
    vpad rows_for_rd_tail,
  holds (on_insn no_C_read) (gemm_microkernel_dyn_quant brg n_bcast_1_load
    need_comp_pads bd_block2' is_bdb_tail ld_block2' is_rd_tail is_ld_tail
    vpad rows_for_rd_tail).
Proof. intros. unfold gemm_microkernel_dyn_quant. no_C_walk. Qed.
#[local] Hint Resolve gemm_microkernel_dyn_quant_no_C : no_C.

Lemma load_B_1load_no_C : forall vmm_load addr rd is_ld_tail,
  is_C_mem vmm_load = false ->
  is_C_mem addr = false ->
  holds (on_insn no_C_read) (load_B_1load brg vmm_load addr rd is_ld_tail).
Proof. intros. unfold load_B_1load. no_C_walk. Qed.
#[local] Hint Resolve load_B_1load_no_C : no_C.

Lemma load_B_1bcst_no_C : forall vmm_load addr rd is_ld_tail,
  is_C_mem vmm_load = false ->
  is_C_mem addr = false ->
  holds (on_insn no_C_read) (load_B_1bcst brg vmm_load addr rd is_ld_tail).
Proof. intros. unfold load_B_1bcst. no_C_walk. Qed.
#[local] Hint Resolve load_B_1bcst_no_C : no_C.

Lemma gemm_microkernel_1load_no_C : forall n_bcast_1_load ld_block2'
    is_rd_tail is_ld_tail bd_b bd_e rows_for_rd_tail,
  holds (on_insn no_C_read) (gemm_microkernel_1load brg n_bcast_1_load
    ld_block2' is_rd_tail is_ld_tail bd_b bd_e rows_for_rd_tail).
Proof. intros. unfold gemm_microkernel_1load. no_C_walk. Qed.
#[local] Hint Resolve gemm_microkernel_1load_no_C : no_C.

Lemma load_zero_points_no_C : forall reg_ptr vmm_zp addr,
  is_C_base reg_ptr = false ->
  is_C_mem addr = false ->
  holds (on_insn no_C_read) (load_zero_points brg reg_ptr vmm_zp addr).
Proof. intros. unfold load_zero_points. no_C_walk. Qed.
#[local] Hint Resolve load_zero_points_no_C : no_C.

Lemma decode_B_no_C : forall n_bcast_1_load vmm_load addr rd vmm_mask7
    vmm_mask8 vmm_lookup vmm_lookup_low vmm_lookup_high,
  is_C_mem vmm_load = false ->
  is_C_mem addr = false ->
  holds (on_insn no_C_read) (decode_B brg n_bcast_1_load vmm_load addr rd
    vmm_mask7 vmm_mask8 vmm_lookup vmm_lookup_low vmm_lookup_high).
Proof. intros. unfold decode_B. no_C_walk. Qed.
#[local] Hint Resolve decode_B_no_C : no_C.

Lemma gemm_microkernel_wei_decomp_no_C : forall n_bcast_1_load ld_block2'
    is_rd_tail is_ld_tail bd_b bd_e rows_for_rd_tail,
  holds (on_insn no_C_read) (gemm_microkernel_wei_decomp brg n_bcast_1_load
    ld_block2' is_rd_tail is_ld_tail bd_b bd_e rows_for_rd_tail).
Proof. intros. unfold gemm_microkernel_wei_decomp. no_C_walk. Qed.
#[local] Hint Resolve gemm_microkernel_wei_decomp_no_C : no_C.

Lemma gemm_microkernel_1bcst_no_C : forall n_bcast_1_load ld_block2'
    is_rd_tail is_ld_tail bd_b bd_e rows_for_rd_tail,
  holds (on_insn no_C_read) (gemm_microkernel_1bcst brg n_bcast_1_load
    ld_block2' is_rd_tail is_ld_tail bd_b bd_e rows_for_rd_tail).
Proof. intros. unfold gemm_microkernel_1bcst. no_C_walk. Qed.
#[local] Hint Resolve gemm_microkernel_1bcst_no_C : no_C.

Lemma gemm_microkernel_no_C : forall n_bcast_1_load need_comp_pads
    bd_block2' is_bdb_tail ld_block2' is_rd_tail is_ld_tail vpad
    rows_for_rd_tail,
  holds (on_insn no_C_read) (gemm_microkernel brg n_bcast_1_load
    need_comp_pads bd_block2' is_bdb_tail ld_block2' is_rd_tail is_ld_tail
    vpad rows_for_rd_tail).
Proof. intros. unfold gemm_microkernel. no_C_walk. Qed.
#[local] Hint Resolve gemm_microkernel_no_C : no_C.

Lemma fp8_to_f16_upconvert_no_C : forall num_rows tile_num_col_bytes
    reg_base offset reg_data_stride dt is_rd_tail,
  is_C_base reg_base = false ->
  is_C_base reg_data_stride = false ->
  holds (on_insn no_C_read) (fp8_to_f16_upconvert brg num_rows
    tile_num_col_bytes reg_base offset reg_data_stride dt is_rd_tail).
Proof. intros. unfold fp8_to_f16_upconvert. no_C_walk. Qed.
#[local] Hint Resolve fp8_to_f16_upconvert_no_C : no_C.

Lemma fp8_to_f16_upconvert_to_vnni_no_C : forall num_rows
    tile_num_col_bytes reg_base offset reg_data_stride dt is_rd_tail,
  is_C_base reg_base = false ->
  is_C_base reg_data_stride = false ->
  holds (on_insn no_C_read) (fp8_to_f16_upconvert_to_vnni brg num_rows
    tile_num_col_bytes reg_base offset reg_data_stride dt is_rd_tail).
Proof. intros. unfold fp8_to_f16_upconvert_to_vnni. no_C_walk. Qed.
#[local] Hint Resolve fp8_to_f16_upconvert_to_vnni_no_C : no_C.

Lemma maybe_pre_process_data_no_C : forall matrix_kind t1 reg_base offset
    reg_stride num_rows num_col_bytes is_rd_tail,
  is_C_base reg_base = false ->
  is_C_base reg_stride = false ->
  holds (on_insn no_C_read) (maybe_pre_process_data brg matrix_kind t1
    reg_base offset reg_stride num_rows num_col_bytes is_rd_tail).
Proof. intros. unfold maybe_pre_process_data. no_C_walk. Qed.
#[local] Hint Resolve maybe_pre_process_data_no_C : no_C.

Lemma maybe_tileloadd_nt_no_C :
  forall matrix_kind idx offset is_rd_tail is_tail,
    holds (on_insn no_C_read)
      (maybe_tileloadd_nt brg matrix_kind idx offset is_rd_tail is_tail).
Proof.
  intros. unfold maybe_tileloadd_nt. destruct matrix_kind; no_C_walk.
Qed.
#[local] Hint Resolve maybe_tileloadd_nt_no_C : no_C.

Lemma tdpbxxd_no_C : forall x1 x2 x3,
  holds (on_insn no_C_read) (tdpbxxd brg x1 x2 x3).
Proof. intros. unfold tdpbxxd. no_C_walk. Qed.
#[local] Hint Resolve tdpbxxd_no_C : no_C.

Lemma gemm_microkernel_amx_no_C : forall bd_block2' is_bdb_tail ld_block2'
    is_rd_tail is_ld_tail,
  holds (on_insn no_C_read) (gemm_microkernel_amx brg bd_block2' is_bdb_tail
    ld_block2' is_rd_tail is_ld_tail).
Proof. intros. unfold gemm_microkernel_amx. no_C_walk. Qed.
#[local] Hint Resolve gemm_microkernel_amx_no_C : no_C.

Lemma advance_ldb_post_op_regs_no_C :
  holds (on_insn no_C_read) (advance_ldb_post_op_regs brg).
Proof. intros. unfold advance_ldb_post_op_regs. no_C_walk. Qed.
#[local] Hint Resolve advance_ldb_post_op_regs_no_C : no_C.

Lemma restore_ldb_post_op_regs_no_C : forall ld_block2',
  holds (on_insn no_C_read) (restore_ldb_post_op_regs brg ld_block2').
Proof. intros. unfold restore_ldb_post_op_regs. no_C_walk. Qed.
#[local] Hint Resolve restore_ldb_post_op_regs_no_C : no_C.

Lemma advance_bdb_post_op_regs_no_C : forall adj_bd_block,
  holds (on_insn no_C_read) (advance_bdb_post_op_regs brg adj_bd_block).
Proof. intros. unfold advance_bdb_post_op_regs. no_C_walk. Qed.
#[local] Hint Resolve advance_bdb_post_op_regs_no_C : no_C.

Lemma restore_bdb_post_op_regs_no_C : forall bd_block2',
  holds (on_insn no_C_read) (restore_bdb_post_op_regs brg bd_block2').
Proof. intros. unfold restore_bdb_post_op_regs. no_C_walk. Qed.
#[local] Hint Resolve restore_bdb_post_op_regs_no_C : no_C.

Lemma apply_alpha_beta_no_C : forall bd_block' ld_block2' is_ld_tail,
  holds (on_insn no_C_read)
    (apply_alpha_beta brg bd_block' ld_block2' is_ld_tail).
Proof. intros. unfold apply_alpha_beta. rewrite Hbeta. no_C_walk. Qed.
#[local] Hint Resolve apply_alpha_beta_no_C : no_C.

Lemma sum_injector_no_C : forall ld_block2' is_ld_tail bd_start bd_end',
  holds (on_insn no_C_read) (sum_injector brg ld_block2' is_ld_tail bd_start
    bd_end').
Proof. intros. unfold sum_injector. no_C_walk. Qed.
#[local] Hint Resolve sum_injector_no_C : no_C.

Lemma apply_post_ops_no_C : forall bd_block' ld_block2' ldb_and_bdb_offset
    is_ld_tail,
  holds (on_insn no_C_read) (apply_post_ops brg bd_block' ld_block2'
    ldb_and_bdb_offset is_ld_tail).
Proof. intros. unfold apply_post_ops. no_C_walk. Qed.
#[local] Hint Resolve apply_post_ops_no_C : no_C.

Lemma store_D_avx512_no_C : forall addr vmm is_tail k_mask,
  is_C_mem addr = false ->
  holds (on_insn no_C_read) (store_D_avx512 brg addr vmm is_tail k_mask).
Proof. intros. unfold store_D_avx512. no_C_walk. Qed.
#[local] Hint Resolve store_D_avx512_no_C : no_C.

Lemma store_accumulators_apply_post_ops_no_C : forall bd_block' ld_block2'
    ldb_and_bdb_offset is_ld_tail,
  holds (on_insn no_C_read) (store_accumulators_apply_post_ops brg bd_block'
    ld_block2' ldb_and_bdb_offset is_ld_tail).
Proof. intros. unfold store_accumulators_apply_post_ops. no_C_walk. Qed.
#[local] Hint Resolve store_accumulators_apply_post_ops_no_C : no_C.

Lemma apply_compensation_no_C : forall bd_block' ld_block2' is_ld_tail,
  holds (on_insn no_C_read) (apply_compensation brg bd_block' ld_block2'
    is_ld_tail).
Proof. intros. unfold apply_compensation. no_C_walk. Qed.
#[local] Hint Resolve apply_compensation_no_C : no_C.

Lemma store_accumulators_without_post_ops_no_C : forall bd_block'
    ld_block2' is_ld_tail,
  holds (on_insn no_C_read) (store_accumulators_without_post_ops brg bd_block'
    ld_block2' is_ld_tail).
Proof. intros. unfold store_accumulators_without_post_ops. no_C_walk. Qed.
#[local] Hint Resolve store_accumulators_without_post_ops_no_C : no_C.

Lemma store_accumulators_amx_no_C : forall bd_block2' is_bdb_tail
    ld_block2' is_ld_tail skip_accumulation apply_post_ops'
    apply_zp_a_compensation,
  holds (on_insn no_C_read) (store_accumulators_amx brg bd_block2' is_bdb_tail
    ld_block2' is_ld_tail skip_accumulation apply_post_ops'
    apply_zp_a_compensation).
Proof. intros. unfold store_accumulators_amx. no_C_walk. Qed.
#[local] Hint Resolve store_accumulators_amx_no_C : no_C.

Lemma store_accumulators_no_C : forall bd_block2' is_bdb_tail ld_block2'
    is_ld_tail skip_accumulation,
  holds (on_insn no_C_read) (store_accumulators brg bd_block2' is_bdb_tail
    ld_block2' is_ld_tail skip_accumulation).
Proof. intros. unfold store_accumulators. no_C_walk. Qed.
#[local] Hint Resolve store_accumulators_no_C : no_C.

Lemma ldb_regs_shift_no_C : forall ld_block2' is_tail,
  holds (on_insn no_C_read) (ldb_regs_shift brg ld_block2' is_tail).
Proof. intros. unfold ldb_regs_shift. no_C_walk. Qed.
#[local] Hint Resolve ldb_regs_shift_no_C : no_C.

Lemma advance_bd_block2_post_op_regs_no_C : forall bd_block2',
  holds (on_insn no_C_read) (advance_bd_block2_post_op_regs brg bd_block2').
Proof. intros. unfold advance_bd_block2_post_op_regs. no_C_walk. Qed.
#[local] Hint Resolve advance_bd_block2_post_op_regs_no_C : no_C.

Lemma copy_post_ops_stack_values_to_aux_no_C : forall is_reg_tail,
  holds (on_insn no_C_read) (copy_post_ops_stack_values_to_aux brg
    is_reg_tail).
Proof. intros. unfold copy_post_ops_stack_values_to_aux. no_C_walk. Qed.
#[local] Hint Resolve copy_post_ops_stack_values_to_aux_no_C : no_C.

Lemma read_params_no_C :
  holds (on_insn no_C_read) (read_params brg).
Proof. intros. unfold read_params. no_C_walk. Qed.
#[local] Hint Resolve read_params_no_C : no_C.

Lemma restore_A_B_matrices_no_C : forall vpad_exist,
  holds (on_insn no_C_read) (restore_A_B_matrices brg vpad_exist).
Proof. intros. unfold restore_A_B_matrices. no_C_walk. Qed.
#[local] Hint Resolve restore_A_B_matrices_no_C : no_C.

Lemma set_A_B_matrices_no_C : forall vpad_exist,
  holds (on_insn no_C_read) (set_A_B_matrices brg vpad_exist).
Proof. intros. unfold set_A_B_matrices. no_C_walk. Qed.
#[local] Hint Resolve set_A_B_matrices_no_C : no_C.

Lemma ic_group_shift_no_C :
  forall src_offs dst_offs group_size stride,
    holds (on_insn no_C_read)
      (ic_group_shift src_offs dst_offs group_size stride).
Proof. intros. unfold ic_group_shift. no_C_walk. Qed.
#[local] Hint Resolve ic_group_shift_no_C : no_C.

Lemma grouped_wei_decomp_shift_no_C :
  holds (on_insn no_C_read) (grouped_wei_decomp_shift brg).
Proof. intros. unfold grouped_wei_decomp_shift. no_C_walk. Qed.
#[local] Hint Resolve grouped_wei_decomp_shift_no_C : no_C.

Lemma ld_loop_body_no_C : forall n_bcast_1_load vpad_exist need_comp_pads
    bd_block2' is_bdb_tail ld_block2' is_ld_tail rows_for_rd_tail vpad,
  holds (on_insn no_C_read) (ld_loop_body brg n_bcast_1_load vpad_exist
    need_comp_pads bd_block2' is_bdb_tail ld_block2' is_ld_tail
    rows_for_rd_tail vpad).
Proof. intros. unfold ld_loop_body. no_C_walk. Qed.
#[local] Hint Resolve ld_loop_body_no_C : no_C.

Lemma vpad_dispatch_no_C :
  forall vpad_exist need_comp_pads body is_bdb_tail check_top check_bottom,
    (forall v, holds (on_insn no_C_read) (body v)) ->
    holds (on_insn no_C_read)
      (vpad_dispatch brg vpad_exist need_comp_pads body is_bdb_tail
         check_top check_bottom).
Proof.
  intros. unfold vpad_dispatch. repeat hstep; try solve [no_C_leaf].
  apply holds_node. cbn [nodes]. constructor; [exact Logic.I|].
  apply Forall_app. split; [|assumption].
  eapply holds_vpad_cases; eassumption.
Qed.
#[local] Hint Resolve vpad_dispatch_no_C : no_C.

Lemma ldb_loop_accumulate_no_C : forall n_bcast_1_load vpad_exist
    need_comp_pads bd_block2' is_bdb_tail ld_block2' is_ld_tail check_top_vpad
    check_bottom_vpad rows_for_rd_tail skip_accumulation,
  holds (on_insn no_C_read) (ldb_loop_accumulate brg n_bcast_1_load vpad_exist
    need_comp_pads bd_block2' is_bdb_tail ld_block2' is_ld_tail check_top_vpad
    check_bottom_vpad rows_for_rd_tail skip_accumulation).
Proof. intros. unfold ldb_loop_accumulate. no_C_walk. Qed.
#[local] Hint Resolve ldb_loop_accumulate_no_C : no_C.

Lemma ldb_loop_no_C : forall n_bcast_1_load vpad_exist need_comp_pads
    bd_block2' is_bdb_tail ld_block2' ldb_loop_length is_reg_tail is_ld_tail
    check_top_vpad check_bottom_vpad rows_for_rd_tail skip_accumulation,
  holds (on_insn no_C_read) (ldb_loop brg n_bcast_1_load vpad_exist
    need_comp_pads bd_block2' is_bdb_tail ld_block2' ldb_loop_length
    is_reg_tail is_ld_tail check_top_vpad check_bottom_vpad rows_for_rd_tail
    skip_accumulation).
Proof. intros. unfold ldb_loop. no_C_walk. Qed.
#[local] Hint Resolve ldb_loop_no_C : no_C.

Lemma do_ldb_loop_no_C : forall vpad_exist need_comp_pads bd_block2'
    is_bdb_tail check_top_vpad check_bottom_vpad rows_for_rd_tail
    skip_accumulation,
  holds (on_insn no_C_read) (do_ldb_loop brg vpad_exist need_comp_pads
    bd_block2' is_bdb_tail check_top_vpad check_bottom_vpad rows_for_rd_tail
    skip_accumulation).
Proof. intros. unfold do_ldb_loop. no_C_walk. Qed.
#[local] Hint Resolve do_ldb_loop_no_C : no_C.

Lemma bdb_loop_body_no_C : forall vpad_exist need_comp_pads bd_block2'
    is_bdb_tail check_top_vpad check_bottom_vpad rows_for_rd_tail
    skip_accumulation,
  holds (on_insn no_C_read) (bdb_loop_body brg vpad_exist need_comp_pads
    bd_block2' is_bdb_tail check_top_vpad check_bottom_vpad rows_for_rd_tail
    skip_accumulation).
Proof. intros. unfold bdb_loop_body. no_C_walk. Qed.
#[local] Hint Resolve bdb_loop_body_no_C : no_C.

Lemma bdb_loop_avx512_vpad_no_C : forall vpad_exist need_comp_pads
    skip_accumulation,
  holds (on_insn no_C_read) (bdb_loop_avx512_vpad brg vpad_exist
    need_comp_pads skip_accumulation).
Proof. intros. unfold bdb_loop_avx512_vpad. no_C_walk. Qed.
#[local] Hint Resolve bdb_loop_avx512_vpad_no_C : no_C.

Lemma bdb_loop_avx512_no_vpad_no_C : forall vpad_exist need_comp_pads
    skip_accumulation,
  holds (on_insn no_C_read) (bdb_loop_avx512_no_vpad brg vpad_exist
    need_comp_pads skip_accumulation).
Proof. intros. unfold bdb_loop_avx512_no_vpad. no_C_walk. Qed.
#[local] Hint Resolve bdb_loop_avx512_no_vpad_no_C : no_C.

Lemma bdb_loop_avx512_no_C : forall vpad_exist need_comp_pads
    skip_accumulation,
  holds (on_insn no_C_read) (bdb_loop_avx512 brg vpad_exist need_comp_pads
    skip_accumulation).
Proof. intros. unfold bdb_loop_avx512. no_C_walk. Qed.
#[local] Hint Resolve bdb_loop_avx512_no_C : no_C.

Lemma bdb_loop_amx_no_C : forall vpad_exist need_comp_pads
    skip_accumulation,
  holds (on_insn no_C_read) (bdb_loop_amx brg vpad_exist need_comp_pads
    skip_accumulation).
Proof. intros. unfold bdb_loop_amx. no_C_walk. Qed.
#[local] Hint Resolve bdb_loop_amx_no_C : no_C.

Lemma bdb_loop_general_no_C : forall vpad_exist need_comp_pads
    skip_accumulation,
  holds (on_insn no_C_read) (bdb_loop_general brg vpad_exist need_comp_pads
    skip_accumulation).
Proof. intros. unfold bdb_loop_general. no_C_walk. Qed.
#[local] Hint Resolve bdb_loop_general_no_C : no_C.

Lemma bdb_loop_no_C : forall vpad_exist need_comp_pads,
  holds (on_insn no_C_read) (bdb_loop brg vpad_exist need_comp_pads).
Proof. intros. unfold bdb_loop. no_C_walk. Qed.
#[local] Hint Resolve bdb_loop_no_C : no_C.

End BetaZero.

(** X9. A kernel with beta = 0 overwrites C without reading it: no
    instruction of its code has a memory operand addressed through
    [reg_C] or [reg_aux_C] other than as its destination. *)
Theorem beta_zero_never_reads_C :
  forall {T : isa_traits} {E : brgemm_externals} (brg : brgemm_desc_t),
    is_zero brg.(beta) = true ->
    holds (on_insn no_C_read) (generate brg).
Proof.
  intros T E brg Hbeta. unfold generate.
  hwalk ltac:(solve [auto using read_params_no_C, bdb_loop_no_C])
        ltac:(cbn; auto).
Qed.

Lemma beta_zero_never_reads_C_witness :
  holds (on_insn no_C_read)
    (generate (T := ymm_traits) (E := example_externals) brg_int8_avx2).
Proof.
  apply (beta_zero_never_reads_C (T := ymm_traits) (E := example_externals)
           brg_int8_avx2).
  reflexivity.
Defined.

(** ** The skip-accumulation path

    The loop nest generated for [skip_accumulation] addresses neither A
    nor B. *)

Create HintDb skip_no_AB.

Section SkipAccumulation.
Context {T : isa_traits} {E : brgemm_externals}.

#[local] Hint Resolve zero_accumulators_no_AB store_accumulators_no_AB
  ldb_regs_shift_no_AB copy_post_ops_stack_values_to_aux_no_AB : skip_no_AB.

Ltac skip_leaf :=
  cbn; unfold no_A_B_load; cbn;
  repeat match goal with
         | |- context [if ?b then _ else _] => destruct b
         end;
  cbn; auto.
Ltac skip_walk := hwalk ltac:(solve [auto with skip_no_AB]) ltac:(skip_leaf).

Lemma advance_bd_block2_post_op_regs_skip_no_AB : forall brg bd_block2',
  holds (on_insn no_A_B_load) (advance_bd_block2_post_op_regs brg bd_block2').
Proof. intros. unfold advance_bd_block2_post_op_regs. skip_walk. Qed.
#[local] Hint Resolve advance_bd_block2_post_op_regs_skip_no_AB : skip_no_AB.

Lemma ldb_loop_accumulate_skipped :
  forall brg n_bcast_1_load vpad_exist need_comp_pads bd_block2' is_bdb_tail
    ld_block2' is_ld_tail check_top_vpad check_bottom_vpad rows_for_rd_tail,
    ldb_loop_accumulate brg n_bcast_1_load vpad_exist need_comp_pads
      bd_block2' is_bdb_tail ld_block2' is_ld_tail check_top_vpad
      check_bottom_vpad rows_for_rd_tail true = Ok [].
Proof.
  intros. unfold ldb_loop_accumulate. cbn [negb]. rewrite andb_false_r.
  reflexivity.
Qed.

Lemma ldb_loop_skip_no_AB :
  forall brg n_bcast_1_load vpad_exist need_comp_pads bd_block2' is_bdb_tail
    ld_block2' ldb_loop_length is_reg_tail is_ld_tail check_top_vpad
    check_bottom_vpad rows_for_rd_tail skip_accumulation,
    skip_accumulation = true ->
    holds (on_insn no_A_B_load)
      (ldb_loop brg n_bcast_1_load vpad_exist need_comp_pads bd_block2'
         is_bdb_tail ld_block2' ldb_loop_length is_reg_tail is_ld_tail
         check_top_vpad check_bottom_vpad rows_for_rd_tail
         skip_accumulation).
Proof.
  intros. subst. unfold ldb_loop.
  rewrite ldb_loop_accumulate_skipped. skip_walk.
Qed.
#[local] Hint Resolve ldb_loop_skip_no_AB : skip_no_AB.

Lemma do_ldb_loop_skip_no_AB : forall brg vpad_exist need_comp_pads bd_block2'
    is_bdb_tail check_top_vpad check_bottom_vpad rows_for_rd_tail
    skip_accumulation,
  skip_accumulation = true ->
  holds (on_insn no_A_B_load) (do_ldb_loop brg vpad_exist need_comp_pads
    bd_block2' is_bdb_tail check_top_vpad check_bottom_vpad rows_for_rd_tail
    skip_accumulation).
Proof. intros. unfold do_ldb_loop. skip_walk. Qed.
#[local] Hint Resolve do_ldb_loop_skip_no_AB : skip_no_AB.

Lemma bdb_loop_body_skip_no_AB : forall brg vpad_exist need_comp_pads
    bd_block2' is_bdb_tail check_top_vpad check_bottom_vpad rows_for_rd_tail
    skip_accumulation,
  skip_accumulation = true ->
  holds (on_insn no_A_B_load) (bdb_loop_body brg vpad_exist need_comp_pads
    bd_block2' is_bdb_tail check_top_vpad check_bottom_vpad rows_for_rd_tail
    skip_accumulation).
Proof. intros. unfold bdb_loop_body. skip_walk. Qed.
#[local] Hint Resolve bdb_loop_body_skip_no_AB : skip_no_AB.

Lemma bdb_loop_avx512_vpad_skip_no_AB : forall brg vpad_exist need_comp_pads
    skip_accumulation,
  skip_accumulation = true ->
  holds (on_insn no_A_B_load) (bdb_loop_avx512_vpad brg vpad_exist
    need_comp_pads skip_accumulation).
Proof. intros. unfold bdb_loop_avx512_vpad. skip_walk. Qed.
#[local] Hint Resolve bdb_loop_avx512_vpad_skip_no_AB : skip_no_AB.

Lemma bdb_loop_avx512_no_vpad_skip_no_AB : forall brg vpad_exist
    need_comp_pads skip_accumulation,
  skip_accumulation = true ->
  holds (on_insn no_A_B_load) (bdb_loop_avx512_no_vpad brg vpad_exist
    need_comp_pads skip_accumulation).
Proof. intros. unfold bdb_loop_avx512_no_vpad. skip_walk. Qed.
#[local] Hint Resolve bdb_loop_avx512_no_vpad_skip_no_AB : skip_no_AB.

Lemma bdb_loop_avx512_skip_no_AB : forall brg vpad_exist need_comp_pads
    skip_accumulation,
  skip_accumulation = true ->
  holds (on_insn no_A_B_load) (bdb_loop_avx512 brg vpad_exist need_comp_pads
    skip_accumulation).
Proof. intros. unfold bdb_loop_avx512. skip_walk. Qed.
#[local] Hint Resolve bdb_loop_avx512_skip_no_AB : skip_no_AB.

Lemma bdb_loop_amx_skip_no_AB : forall brg vpad_exist need_comp_pads
    skip_accumulation,
  skip_accumulation = true ->
  holds (on_insn no_A_B_load) (bdb_loop_amx brg vpad_exist need_comp_pads
    skip_accumulation).
Proof. intros. unfold bdb_loop_amx. skip_walk. Qed.
#[local] Hint Resolve bdb_loop_amx_skip_no_AB : skip_no_AB.

Lemma bdb_loop_general_skip_no_AB : forall brg vpad_exist need_comp_pads
    skip_accumulation,
  skip_accumulation = true ->
  holds (on_insn no_A_B_load) (bdb_loop_general brg vpad_exist need_comp_pads
    skip_accumulation).
Proof. intros. unfold bdb_loop_general. skip_walk. Qed.
#[local] Hint Resolve bdb_loop_general_skip_no_AB : skip_no_AB.

(** X10. A kernel generated with the skip-accumulation path has one
    branch on the [skip_accm] flag as its loop nest, and the code that
    runs when the flag is set addresses neither A nor B: it clears the
    accumulators and runs the store pipeline only. *)
Theorem skip_accumulation_path_reads_no_input :
  forall (brg : brgemm_desc_t) (vpad_exist need_comp_pads : bool)
    (c : list code),
    brg.(brgattr).(generate_skip_accumulation) = true ->
    bdb_loop brg vpad_exist need_comp_pads = Ok c ->
    exists skip_acc accumulate,
      c = [IfFlagNZ reg_skip_accm_offs_ skip_acc accumulate]
      /\ bdb_loop_general brg vpad_exist need_comp_pads true = Ok skip_acc
      /\ bdb_loop_general brg vpad_exist need_comp_pads false = Ok accumulate
      /\ Forall (on_insn no_A_B_load) (all_nodes skip_acc).
Proof.
  intros brg vpad_exist need_comp_pads c Hg Hc. unfold bdb_loop in Hc.
  rewrite Hg in Hc.
  destruct (bdb_loop_general brg vpad_exist need_comp_pads false)
    as [acc|] eqn:Ha; [|discriminate Hc].
  destruct (bdb_loop_general brg vpad_exist need_comp_pads true)
    as [sk|] eqn:Hs; [|discriminate Hc].
  cbn in Hc. injection Hc as <-. exists sk, acc.
  repeat split.
  pose proof (bdb_loop_general_skip_no_AB brg vpad_exist need_comp_pads true
                eq_refl) as H.
  rewrite Hs in H. exact H.
Qed.

End SkipAccumulation.

Lemma skip_accumulation_path_reads_no_input_witness :
  exists skip_acc accumulate,
    code_of (bdb_loop (T := zmm_traits) (E := example_externals)
               brg_f32_skip_accumulation false false)
    = [IfFlagNZ reg_skip_accm_offs_ skip_acc accumulate]
    /\ bdb_loop_general (T := zmm_traits) (E := example_externals)
         brg_f32_skip_accumulation false false true = Ok skip_acc
    /\ bdb_loop_general (T := zmm_traits) (E := example_externals)
         brg_f32_skip_accumulation false false false = Ok accumulate
    /\ Forall (on_insn no_A_B_load) (all_nodes skip_acc).
Proof.
  apply (skip_accumulation_path_reads_no_input (T := zmm_traits)
           (E := example_externals) brg_f32_skip_accumulation false false).
  - reflexivity.
  - vm_compute. reflexivity.
Defined.

(** ** Pointer bookkeeping on the stack *)

Section Shifts.

Lemma exec_gpr_app : forall (a b : list code) (s : gstate),
  exec_gpr (a ++ b) s
  = match exec_gpr a s with
    | Some s' => exec_gpr b s'
    | None => None
    end.
Proof.
  induction a as [|x a IH]; intros b s; [reflexivity|].
  destruct x; try reflexivity. cbn [app exec_gpr].
  destruct (exec_gpr_insn i s); [apply IH|reflexivity].
Qed.

Lemma shifts_ext : forall (g : gen) (d d' : Z -> Z),
  (forall off, d off = d' off) -> shifts g d -> shifts g d'.
Proof.
  intros g d d' He H s. destruct (H s) as (s' & Hx & Hr & Hs).
  exists s'. split; [exact Hx|]. split; [exact Hr|].
  intros off. rewrite <- He. apply Hs.
Qed.

Lemma shifts_skip : shifts skip (fun _ => 0).
Proof.
  intros s. exists s. split; [reflexivity|]. split; [auto|].
  intros off. rewrite Z.add_0_r. reflexivity.
Qed.

Lemma shifts_andthen : forall (a b : gen) (d1 d2 : Z -> Z),
  shifts a d1 -> shifts b d2 -> shifts (a ;; b) (fun o => d1 o + d2 o).
Proof.
  intros a b d1 d2 Ha Hb s.
  destruct (Ha s) as (s1 & Hx1 & Hr1 & Hs1).
  destruct (Hb s1) as (s2 & Hx2 & Hr2 & Hs2).
  exists s2. destruct a as [ca|]; [|discriminate Hx1].
  destruct b as [cb|]; [|discriminate Hx2].
  cbn in *. rewrite exec_gpr_app, Hx1. split; [exact Hx2|].
  split; [auto|]. intros off. rewrite Hs2.
  rewrite Z.add_assoc, <- Zplus_mod_idemp_l, Hs1, Zplus_mod_idemp_l.
  reflexivity.
Qed.

Lemma shifts_when : forall (c : bool) (g : gen) (d : Z -> Z),
  shifts g d -> shifts (when c g) (fun o => if c then d o else 0).
Proof. intros [|] g d H; [exact H|apply shifts_skip]. Qed.

Lemma shifts_for : forall (l : list Z) (g : gen) (d : Z -> Z),
  shifts g d ->
  shifts (for_ l (fun _ => g)) (fun o => Z.of_nat (List.length l) * d o).
Proof.
  intros l g d H. induction l as [|x l IH].
  - eapply shifts_ext; [|apply shifts_skip]. intros off. cbn. lia.
  - cbn [for_].
    eapply shifts_ext; [|apply shifts_andthen; [exact H|exact IH]].
    intros off. cbv beta. cbn [List.length]. lia.
Qed.

Lemma shifts_times : forall (n : Z) (g : gen) (d : Z -> Z),
  0 <= n -> shifts g d -> shifts (times n g) (fun o => n * d o).
Proof.
  intros n g d Hn H. unfold times.
  eapply shifts_ext; [|apply shifts_for; exact H].
  intros off. cbv beta. rewrite range_length. f_equal. lia.
Qed.

Lemma preg_beq_refl : forall r, preg_beq r r = true.
Proof. destruct r; reflexivity. Qed.

(** The three instructions that reload a slot, add to it and store it. *)
Lemma shifts_add_slot : forall (r : gpr) (a k : Z),
  is_rsp r = false ->
  shifts (ins "mov" [Gpr r; Mem reg_rsp a] ;;
          ins "add" [Gpr r; Imm k] ;;
          ins "mov" [Mem reg_rsp a; Gpr r])
         (fun o => if o =? a then k else 0).
Proof.
  intros r a k Hr s. eexists. split; [|split].
  - cbn. repeat (rewrite ?Hr, ?preg_beq_refl; cbn). reflexivity.
  - intros H off. cbn. destruct (off =? a); [|apply H].
    apply Z.mod_pos_bound. reflexivity.
  - intros off. cbn. destruct (Z.eqb_spec off a) as [->|_].
    + unfold wrap64. rewrite Zmod_mod, Zplus_mod_idemp_r. reflexivity.
    + rewrite Z.add_0_r. reflexivity.
Qed.

Lemma shifts_sub_slot : forall (r : gpr) (a k : Z),
  is_rsp r = false ->
  shifts (ins "mov" [Gpr r; Mem reg_rsp a] ;;
          ins "sub" [Gpr r; Imm k] ;;
          ins "mov" [Mem reg_rsp a; Gpr r])
         (fun o => if o =? a then - k else 0).
Proof.
  intros r a k Hr s. eexists. split; [|split].
  - cbn. repeat (rewrite ?Hr, ?preg_beq_refl; cbn). reflexivity.
  - intros H off. cbn. destruct (off =? a); [|apply H].
    apply Z.mod_pos_bound. reflexivity.
  - intros off. cbn. destruct (Z.eqb_spec off a) as [->|_].
    + unfold wrap64. rewrite Zmod_mod, Zminus_mod_idemp_r.
      rewrite Z.add_opp_r. reflexivity.
    + rewrite Z.add_0_r. reflexivity.
Qed.

Lemma shifts_none : forall (g : gen) (s : gstate),
  shifts g (fun _ => 0) -> slots_64bit s ->
  exists s', exec_gpr_gen g s = Some s'
             /\ forall off, s'.(gslot) off = s.(gslot) off.
Proof.
  intros g s H Hs. destruct (H s) as (s' & Hx & Hr & He).
  exists s'. split; [exact Hx|]. intros off.
  specialize (He off). rewrite Z.add_0_r in He.
  rewrite <- (Z.mod_small (gslot s' off) (2 ^ 64)) by (apply Hr, Hs).
  rewrite He. apply Z.mod_small, Hs.
Qed.

Lemma shifts_load : forall (r : gpr) (a : Z),
  is_rsp r = false ->
  shifts (ins "mov" [Gpr r; Mem reg_rsp a]) (fun _ => 0).
Proof.
  intros r a Hr s. eexists. split; [|split].
  - cbn. rewrite Hr. reflexivity.
  - intros H. exact H.
  - intros off. cbn. rewrite Z.add_0_r. reflexivity.
Qed.

Ltac shifts_walk :=
  repeat first
    [ apply shifts_add_slot; reflexivity
    | apply shifts_sub_slot; reflexivity
    | apply shifts_load; reflexivity
    | apply shifts_andthen
    | apply shifts_when ].

Ltac shifts_cancel :=
  intros off; cbv beta;
  repeat match goal with
         | |- context [if ?b then _ else _] => destruct b
         end;
  ring.

(** X11. The pointers of the post-operations return to their start:
    after [advance_ldb_post_op_regs] has run [ld_block2 - 1] times,
    [restore_ldb_post_op_regs ld_block2] leaves every slot of the frame
    with the value it had before, in 64-bit arithmetic. *)
Theorem ldb_post_op_regs_round_trip :
  forall (brg : brgemm_desc_t) (ld_block2' : Z) (s : gstate),
    1 <= ld_block2' -> slots_64bit s ->
    exists s',
      exec_gpr_gen
        (times (ld_block2' - 1) (advance_ldb_post_op_regs brg) ;;
         restore_ldb_post_op_regs brg ld_block2') s = Some s'
      /\ forall off, s'.(gslot) off = s.(gslot) off.
Proof.
  intros brg n s Hn Hs. apply shifts_none; [|exact Hs].
  eapply shifts_ext;
    [|apply shifts_andthen;
      [apply shifts_times; [lia|unfold advance_ldb_post_op_regs]
      |unfold restore_ldb_post_op_regs]; shifts_walk].
  unfold bias_offset, scales_offset, zp_comp_a_offset, zp_c_values_offset.
  shifts_cancel.
Qed.

(** X12. The same for the rows of blocks: after
    [advance_bdb_post_op_regs] has run [bd_block2 - 1] times,
    [restore_bdb_post_op_regs bd_block2] leaves every slot of the frame
    with the value it had before. *)
Theorem bdb_post_op_regs_round_trip :
  forall (brg : brgemm_desc_t) (adj_bd_block bd_block2' : Z) (s : gstate),
    1 <= bd_block2' -> slots_64bit s ->
    exists s',
      exec_gpr_gen
        (times (bd_block2' - 1) (advance_bdb_post_op_regs brg adj_bd_block) ;;
         restore_bdb_post_op_regs brg bd_block2') s = Some s'
      /\ forall off, s'.(gslot) off = s.(gslot) off.
Proof.
  intros brg adj n s Hn Hs. apply shifts_none; [|exact Hs].
  eapply shifts_ext;
    [|apply shifts_andthen;
      [apply shifts_times; [lia|unfold advance_bdb_post_op_regs]
      |unfold restore_bdb_post_op_regs; cbv zeta]; shifts_walk].
  unfold bdb_zp_comp_b_offset, zp_comp_b_offset, bdb_compensation_offset.
  destruct (Z.gtb_spec n 1) as [Hgt|Hle].
  - shifts_cancel.
  - assert (Hone : n = 1) by lia. subst n. shifts_cancel.
Qed.

End Shifts.

Lemma ldb_post_op_regs_round_trip_witness :
  exists s',
    exec_gpr_gen
      (times (3 - 1) (advance_ldb_post_op_regs brg_int8_alpha2_bias) ;;
       restore_ldb_post_op_regs brg_int8_alpha2_bias 3)
      (const_gstate 4096) = Some s'
    /\ forall off, s'.(gslot) off = (const_gstate 4096).(gslot) off.
Proof.
  apply (ldb_post_op_regs_round_trip brg_int8_alpha2_bias 3
           (const_gstate 4096)).
  - lia.
  - intros off. simpl. lia.
Defined.

Lemma bdb_post_op_regs_round_trip_witness :
  exists s',
    exec_gpr_gen
      (times (2 - 1) (advance_bdb_post_op_regs brg_int8_alpha2_bias 2) ;;
       restore_bdb_post_op_regs brg_int8_alpha2_bias 2)
      (const_gstate 4096) = Some s'
    /\ forall off, s'.(gslot) off = (const_gstate 4096).(gslot) off.
Proof.
  apply (bdb_post_op_regs_round_trip brg_int8_alpha2_bias 2 2
           (const_gstate 4096)).
  - lia.
  - intros off. simpl. lia.
Defined.

(** ** Every cell is accumulated into *)

Section EveryCellAccumulates.
Context {T : isa_traits}.

Lemma dot_product_accumulates :
  forall (brg : brgemm_desc_t) (v1 v2 v3 : operand) (c : list code),
    brg.(is_f32) || brg.(is_f16) || brg.(is_bf16) || brg.(is_int8) = true ->
    dot_product brg v1 v2 v3 = Ok c ->
    exists i, In (I i) c /\ accumulates i = true /\ dest i = Some v1.
Proof.
  intros brg v1 v2 v3 c Hs H. unfold dot_product in H.
  destruct (is_f32 brg), (is_f16 brg), (is_bf16 brg), (is_int8 brg);
    try discriminate Hs; cbn in H;
    repeat match type of H with
           | context [if ?b then _ else _] => destruct b
           end;
    injection H as <-;
    first [ solve [eexists; split;
                   [left; reflexivity|split; reflexivity]]
          | solve [eexists; split;
                   [right; right; left; reflexivity|split; reflexivity]] ].
Qed.

(** X13. No cell is left out: when a default body of the microkernel is
    generated for a type [dot_product] supports and its reduction loop
    has an iteration, its code has for every cell [(bd, ld)] of its rows
    an instruction that accumulates into the register of the cell. *)
Theorem default_bodies_accumulate_every_cell :
  forall (brg : brgemm_desc_t) (n_bcast_1_load : bool) (ld_block2' : Z)
    (is_rd_tail is_ld_tail : bool) (bd_b bd_e rows_for_rd_tail : Z)
    (c : list code) (bd ld : Z),
    (if n_bcast_1_load
     then gemm_microkernel_1load brg n_bcast_1_load ld_block2' is_rd_tail
            is_ld_tail bd_b bd_e rows_for_rd_tail
     else gemm_microkernel_1bcst brg n_bcast_1_load ld_block2' is_rd_tail
            is_ld_tail bd_b bd_e rows_for_rd_tail) = Ok c ->
    brg.(is_f32) || brg.(is_f16) || brg.(is_bf16) || brg.(is_int8) = true ->
    0 < brg.(rd_step) -> 0 < rd_loop_of brg is_rd_tail ->
    bd_b <= bd < bd_e -> 0 <= ld < ld_block2' ->
    exists i,
      In i (insns c) /\ accumulates i = true
      /\ dest i = Some (Vmm (accm brg ld_block2' bd ld)).
Proof.
  intros brg nb n is_rd_tail is_ld_tail bd_b bd_e rows c bd ld H Hs Hstep
    Hloop Hbd Hld.
  assert (Hcell : forall g cx,
            (if embd_bcst brg
             then ins "uni_vfmadd231ps"
                    [Vmm (accm brg n bd ld); g;
                     MemB reg_aux_A (A_offset brg bd 0 false)]
             else let* vbcst := bcst brg nb (if nb then bd else 0) in
                  dot_product brg (Vmm (accm brg n bd ld)) g (Vmm vbcst))
            = Ok cx ->
            exists i, In (I i) cx /\ accumulates i = true
                      /\ dest i = Some (Vmm (accm brg n bd ld))).
  { intros g cx Hx. destruct (embd_bcst brg).
    - injection Hx as <-. eexists. split; [left; reflexivity|].
      split; reflexivity.
    - apply bindr_inv in Hx. destruct Hx as (v & _ & Hx).
      eapply dot_product_accumulates; eassumption. }
  destruct nb.
  - unfold gemm_microkernel_1load in H. cbv zeta in H.
    apply for_step_first in H; [|assumption|assumption].
    destruct H as (cx & post & H & ->).
    apply andthen_inv in H. destruct H as (x1 & x2 & _ & H & ->).
    destruct (for_member _ _ _ ld H) as (p1 & c1 & q1 & H1 & ->);
      [apply in_range; lia|].
    apply bindr_inv in H1. destruct H1 as (vload & _ & H1).
    apply andthen_inv in H1. destruct H1 as (x3 & x4 & _ & H1 & ->).
    destruct (for_member _ _ _ bd H1) as (p2 & c2 & q2 & H2 & ->);
      [apply in_range; lia|].
    destruct (Hcell _ _ H2) as (i & Hi & Ha & Hd).
    exists i. split; [|split; assumption]. apply In_I_insns.
    rewrite !in_app_iff. tauto.
  - unfold gemm_microkernel_1bcst in H. cbv zeta in H.
    apply for_step_first in H; [|assumption|assumption].
    destruct H as (cx & post & H & ->).
    apply andthen_inv in H. destruct H as (x1 & x2 & _ & H & ->).
    destruct (for_member _ _ _ bd H) as (p1 & c1 & q1 & H1 & ->);
      [apply in_range; lia|].
    apply andthen_inv in H1. destruct H1 as (x3 & x4 & _ & H1 & ->).
    apply andthen_inv in H1. destruct H1 as (x5 & x6 & _ & H1 & ->).
    destruct (for_member _ _ _ ld H1) as (p2 & c2 & q2 & H2 & ->);
      [apply in_range; lia|].
    apply bindr_inv in H2. destruct H2 as (vload & _ & H2).
    destruct (Hcell _ _ H2) as (i & Hi & Ha & Hd).
    exists i. split; [|split; assumption]. apply In_I_insns.
    rewrite !in_app_iff. tauto.
Qed.

End EveryCellAccumulates.

Lemma default_bodies_accumulate_every_cell_witness :
  exists i,
    In i (insns (code_of (gemm_microkernel_1bcst (T := zmm_traits)
                            brg_f32_alpha_zero false 1 false false 0 4 0)))
    /\ accumulates i = true
    /\ dest i = Some (Vmm (accm (T := zmm_traits) brg_f32_alpha_zero 1 3 0)).
Proof.
  apply (default_bodies_accumulate_every_cell (T := zmm_traits)
           brg_f32_alpha_zero false 1 false false
           0 4 0
           (code_of (gemm_microkernel_1bcst (T := zmm_traits)
                       brg_f32_alpha_zero false 1 false false 0 4 0))
           3 0).
  - vm_compute. reflexivity.
  - reflexivity.
  - reflexivity.
  - reflexivity.
  - lia.
  - lia.
Defined.

(** ** What generation refuses *)

Section Refusals.
Context {T : isa_traits} {E : brgemm_externals}.

Lemma bdb_loop_general_of_generate :
  forall (brg : brgemm_desc_t) (c : list code),
    generate brg = Ok c ->
    exists x,
      bdb_loop_general brg (vpad_exist_of brg) (need_comp_pads_of brg) false
      = Ok x.
Proof.
  intros brg c H. unfold generate in H. cbv zeta in H.
  do 5 (apply andthen_inv in H; destruct H as (? & ? & _ & H & _)).
  apply andthen_inv in H. destruct H as (loops & ? & H & _ & _).
  unfold bdb_loop in H.
  destruct (generate_skip_accumulation (brgattr brg)).
  - apply bindr_inv in H. destruct H as (a & Ha & _). exists a. exact Ha.
  - exists loops. exact H.
Qed.

Lemma bdb_loop_general_vpad_assert :
  forall (brg : brgemm_desc_t) (vpad_exist need_comp_pads : bool)
    (c : list code),
    bdb_loop_general brg vpad_exist need_comp_pads false = Ok c ->
    brg.(is_tmm) = false -> vpad_exist = true ->
    (brg.(brgattr).(max_top_vpad) <=? brg.(bd_block))
    && (brg.(brgattr).(max_bottom_vpad) <=? brg.(bd_block)) = true.
Proof.
  intros brg vpad_exist need c Hx Ht ->.
  unfold bdb_loop_general in Hx. rewrite Ht in Hx.
  apply andthen_inv in Hx. destruct Hx as (? & ? & _ & Hx & _).
  apply andthen_inv in Hx. destruct Hx as (? & nest & _ & Hx & _).
  unfold bdb_loop_avx512 in Hx. cbv zeta in Hx.
  assert (Hp : exists p, bdb_loop_avx512_vpad brg true need false = Ok p).
  { destruct (brgemm_batch_kind_t_beq (type brg) brgemm_strd).
    - apply bindr_inv in Hx. destruct Hx as (p & Hp & _). exists p. exact Hp.
    - exists nest. exact Hx. }
  destruct Hp as (p & Hp). unfold bdb_loop_avx512_vpad in Hp.
  cbv zeta in Hp. apply assert_andthen_inv in Hp. apply Hp.
Qed.

(** X14. Virtual padding is limited by the block: a vector kernel that
    is generated for a descriptor with virtual padding has
    [max_top_vpad <= bd_block] and [max_bottom_vpad <= bd_block]; for a
    larger padding the generation stops at the assertion of [bdb_loop]. *)
Theorem generated_vpad_is_within_bd_block :
  forall (brg : brgemm_desc_t) (c : list code),
    generate brg = Ok c ->
    brg.(is_tmm) = false ->
    vpad_exist_of brg = true ->
    brg.(brgattr).(max_top_vpad) <= brg.(bd_block)
    /\ brg.(brgattr).(max_bottom_vpad) <= brg.(bd_block).
Proof.
  intros brg c H Ht Hv.
  destruct (bdb_loop_general_of_generate brg c H) as (loops & Hx).
  pose proof (bdb_loop_general_vpad_assert brg _ _ _ Hx Ht Hv) as Hp.
  apply andb_prop in Hp. destruct Hp as (H1 & H2).
  split; apply Z.leb_le; assumption.
Qed.

Lemma aborts_andthen_r : forall (a b : gen),
  (exists msg, b = Abort msg) -> exists msg, (a ;; b) = Abort msg.
Proof.
  intros [x|m] b (msg & ->); [exists msg|exists m]; reflexivity.
Qed.

Lemma aborts_andthen_l : forall (a b : gen),
  (exists msg, a = Abort msg) -> exists msg, (a ;; b) = Abort msg.
Proof. intros a b (msg & ->). exists msg. reflexivity. Qed.

Lemma aborts_loop : forall cnt bound (body : gen),
  (exists msg, body = Abort msg) -> exists msg, loop cnt bound body = Abort msg.
Proof. intros cnt bound body (msg & ->). exists msg. reflexivity. Qed.

Lemma gemm_microkernel_refuses_fp8 :
  forall (brg : brgemm_desc_t) n_bcast_1_load need_comp_pads bd_block2'
    is_bdb_tail ld_block2' is_rd_tail is_ld_tail vpad rows_for_rd_tail,
    brg.(is_fp8_via_convert) = true ->
    exists msg,
      gemm_microkernel brg n_bcast_1_load need_comp_pads bd_block2'
        is_bdb_tail ld_block2' is_rd_tail is_ld_tail vpad rows_for_rd_tail
      = Abort msg.
Proof.
  intros. unfold gemm_microkernel. rewrite H.
  apply aborts_andthen_l. eexists. reflexivity.
Qed.

(** X15. There is no vector path for fp8 through conversion: for a
    descriptor that converts fp8 inputs and does not use tiles, the
    body of the batch loop is not generated as soon as the block has a
    row to compute and the reduction has a step. *)
Theorem fp8_via_convert_needs_tiles :
  forall (brg : brgemm_desc_t) (n_bcast_1_load vpad_exist need_comp_pads : bool)
    (bd_block2' : Z) (is_bdb_tail : bool) (ld_block2' : Z)
    (is_ld_tail : bool) (rows_for_rd_tail vpad : Z),
    brg.(is_tmm) = false ->
    brg.(is_fp8_via_convert) = true ->
    is_valid_bd need_comp_pads
      (if is_bdb_tail then brg.(bdb_tail) else brg.(bd_block)) vpad = true ->
    0 < brg.(rdb) \/ brg.(rdb_tail) <> 0 ->
    exists msg,
      ld_loop_body brg n_bcast_1_load vpad_exist need_comp_pads bd_block2'
        is_bdb_tail ld_block2' is_ld_tail rows_for_rd_tail vpad
      = Abort msg.
Proof.
  intros brg nb ve ncp bd2 tail n is_ld_tail rows vpad Ht Hf Hv Hr.
  unfold ld_loop_body. cbv zeta. rewrite Hv, Ht. cbn [negb].
  apply aborts_andthen_r.
  destruct Hr as [Hr|Hr].
  - apply aborts_andthen_l.
    apply Z.gtb_lt in Hr. rewrite Hr. cbn [when].
    apply aborts_andthen_r, aborts_loop, aborts_andthen_r, aborts_andthen_l.
    apply gemm_microkernel_refuses_fp8. exact Hf.
  - apply aborts_andthen_r. apply Z.eqb_neq in Hr. rewrite Hr. cbn [negb when].
    apply gemm_microkernel_refuses_fp8. exact Hf.
Qed.

End Refusals.

Lemma fp8_via_convert_needs_tiles_witness :
  exists msg,
    ld_loop_body (T := zmm_traits) (E := example_externals)
      brg_fp8_convert_vector false false false 1 false 1 false 0 0
    = Abort msg.
Proof.
  apply (fp8_via_convert_needs_tiles (T := zmm_traits)
           (E := example_externals) brg_fp8_convert_vector false false false
           1 false 1 false 0 0).
  - reflexivity.
  - reflexivity.
  - reflexivity.
  - left. reflexivity.
Defined.

Lemma generated_vpad_is_within_bd_block_witness :
  brg_f32_vpad.(brgattr).(max_top_vpad) <= brg_f32_vpad.(bd_block)
  /\ brg_f32_vpad.(brgattr).(max_bottom_vpad) <= brg_f32_vpad.(bd_block).
Proof.
  apply (generated_vpad_is_within_bd_block (T := zmm_traits)
           (E := example_externals) brg_f32_vpad
           (code_of (generate (T := zmm_traits) (E := example_externals)
                       brg_f32_vpad))).
  - vm_compute. reflexivity.
  - reflexivity.
  - reflexivity.
Defined.

(** ** Tiles are loaded before they are multiplied *)

Section Tiles.
Context {T : isa_traits} {E : brgemm_externals}.

Lemma maybe_tileloadd_nt_not_multiply :
  forall brg matrix_kind idx offset is_rd_tail is_tail,
    holds (on_insn (fun i => is_tile_multiply i = false))
      (maybe_tileloadd_nt brg matrix_kind idx offset is_rd_tail is_tail).
Proof.
  intros. unfold maybe_tileloadd_nt, maybe_pre_process_data,
    fp8_to_f16_upconvert, fp8_to_f16_upconvert_to_vnni.
  destruct matrix_kind; hwalk ltac:(idtac) ltac:(reflexivity).
Qed.

Lemma maybe_tileloadd_nt_loads :
  forall brg matrix_kind idx offset is_rd_tail is_tail c,
    maybe_tileloadd_nt brg matrix_kind idx offset is_rd_tail is_tail = Ok c ->
    exists i,
      In (I i) c
      /\ loads_tile
           (match matrix_kind with
            | matrix_A => get_A_tensor brg idx is_tail
            | matrix_B => get_B_tensor brg idx is_tail
            end) i.
Proof.
  intros brg kind idx offset is_rd_tail is_tail c H.
  unfold maybe_tileloadd_nt in H. cbv zeta in H.
  destruct (is_fp8_via_convert brg).
  - do 3 (apply andthen_inv in H; destruct H as (? & ? & _ & H & ->)).
    apply andthen_inv in H. destruct H as (pp & ? & H & _ & ->).
    unfold maybe_pre_process_data in H. cbv zeta in H.
    do 3 (apply andthen_inv in H; destruct H as (? & ? & _ & H & ->)).
    injection H as <-. eexists. split.
    + rewrite !in_app_iff. do 3 right. left. do 3 right. left. reflexivity.
    + destruct kind; do 2 eexists; (split; [reflexivity|left; reflexivity]).
  - match type of H with
    | (if ?b then _ else _) = _ => destruct b
    end; injection H as <-; eexists; (split; [left; reflexivity|]);
      destruct kind; do 2 eexists; (split; [reflexivity|]); auto.
Qed.

Lemma tdpbxxd_operands : forall brg x1 x2 x3 c i,
  tdpbxxd brg x1 x2 x3 = Ok c -> In (I i) c ->
  exists m, i = Ins m [Tmm x1; Tmm x2; Tmm x3].
Proof.
  intros brg x1 x2 x3 c i H Hi. unfold tdpbxxd in H. cbv zeta in H.
  repeat match type of H with
         | (if ?b then _ else _) = _ => destruct b
         end;
    try discriminate H; injection H as <-;
    destruct Hi as [Hi|[]]; injection Hi as <-; eexists; reflexivity.
Qed.

(** X16. In the tile microkernel every tile multiplication works on
    tiles loaded before it: the code of [gemm_microkernel_amx] has,
    before each multiplication of the tiles [a] and [b], a load of the
    tile [a] and a load of the tile [b]. *)
Theorem tiles_are_loaded_before_they_are_multiplied :
  forall (brg : brgemm_desc_t) (bd_block2' : Z) (is_bdb_tail : bool)
    (ld_block2' : Z) (is_rd_tail is_ld_tail : bool) (c : list code)
    (i : insn),
    gemm_microkernel_amx brg bd_block2' is_bdb_tail ld_block2' is_rd_tail
      is_ld_tail = Ok c ->
    In (I i) c -> is_tile_multiply i = true ->
    exists m tc ta tb la lb,
      i = Ins m [Tmm tc; Tmm ta; Tmm tb]
      /\ loads_tile ta la /\ before la i c
      /\ loads_tile tb lb /\ before lb i c.
Proof.
  intros brg bd2 is_bdb_tail ld2 is_rd_tail is_ld_tail c i H Hi Hm.
  unfold gemm_microkernel_amx in H. cbv zeta in H.
  apply andthen_inv in H. destruct H as (loops & tail & H & Htail & ->).
  apply in_app_or in Hi. destruct Hi as [Hi|Hi].
  2:{ destruct (negb is_rd_tail); cbn in Htail; injection Htail as <-;
      cbn in Hi; intuition; match goal with
                            | Hx : I _ = I i |- _ => injection Hx as <-
                            end; discriminate Hm. }
  destruct (for_In_inv _ _ _ _ H Hi)
    as (rdb' & p0 & c0 & q0 & _ & H0 & Hi0 & ->).
  apply andthen_inv in H0. destruct H0 as (cA & cL & HA & HL & ->).
  apply in_app_or in Hi0. destruct Hi0 as [Hi0|Hi0].
  { destruct (for_In_inv _ _ _ _ HA Hi0)
      as (bdb' & ? & cy & ? & _ & Hy & Hiy & _).
    pose proof (holds_In _ _ _ _
                  (maybe_tileloadd_nt_not_multiply brg matrix_A bdb' _
                     is_rd_tail is_bdb_tail) Hy Hiy) as Hn.
    cbn in Hn. congruence. }
  destruct (for_In_inv _ _ _ _ HL Hi0)
    as (ldb & p1 & c1 & q1 & Hldb & H1 & Hi1 & ->).
  apply andthen_inv in H1. destruct H1 as (cB & cM & HB & HM & ->).
  apply in_app_or in Hi1. destruct Hi1 as [Hi1|Hi1].
  { pose proof (holds_In _ _ _ _
                  (maybe_tileloadd_nt_not_multiply brg matrix_B _ _
                     is_rd_tail is_ld_tail) HB Hi1) as Hn.
    cbn in Hn. congruence. }
  destruct (for_In_inv _ _ _ _ HM Hi1)
    as (bdb' & p2 & c2 & q2 & Hbdb & H2 & Hi2 & ->).
  destruct (tdpbxxd_operands _ _ _ _ _ _ H2 Hi2) as (m & ->).
  destruct (for_member _ _ _ bdb' HA Hbdb) as (pa & ca & qa & Hca & ->).
  destruct (maybe_tileloadd_nt_loads _ _ _ _ _ _ _ Hca) as (la & Hla & Lla).
  destruct (maybe_tileloadd_nt_loads _ _ _ _ _ _ _ HB) as (lb & Hlb & Llb).
  exists m. do 3 eexists. exists la, lb. split; [reflexivity|].
  split; [exact Lla|]. split; [|split; [exact Llb|]].
  - rewrite <- !app_assoc.
    repeat first [ apply before_app; [exact Hla|rewrite !in_app_iff; tauto]
                 | apply before_skip ].
  - rewrite <- !app_assoc.
    repeat first [ apply before_app; [exact Hlb|rewrite !in_app_iff; tauto]
                 | apply before_skip ].
Qed.

End Tiles.

Lemma tiles_are_loaded_before_they_are_multiplied_witness :
  let c := code_of (gemm_microkernel_amx (T := zmm_traits)
                      (E := example_externals) brg_int8_amx 2 false 2 false
                      false) in
  let i := Ins "tdpbusd" [Tmm 3; Tmm 5; Tmm 7] in
  exists m tc ta tb la lb,
    i = Ins m [Tmm tc; Tmm ta; Tmm tb]
    /\ loads_tile ta la /\ before la i c
    /\ loads_tile tb lb /\ before lb i c.
Proof.
  intros c i.
  apply (tiles_are_loaded_before_they_are_multiplied (T := zmm_traits)
           (E := example_externals) brg_int8_amx 2 false 2 false false c i).
  - vm_compute. reflexivity.
  - vm_compute. repeat (first [left; reflexivity|right]).
  - reflexivity.
Defined.

Section TilesCleared.
Context {T : isa_traits} {E : brgemm_externals}.

(** X19. Tiles accumulate in place: every tile multiplication of
    [gemm_microkernel_amx] adds into a tile of C that [zero_accumulators],
    generated for the same block, has cleared with [tilezero]. *)
Theorem multiplied_tiles_are_cleared_first :
  forall (brg : brgemm_desc_t) (bd_block2' : Z) (is_bdb_tail : bool)
    (ld_block2' : Z) (is_rd_tail is_ld_tail : bool) (c z : list code)
    (i : insn),
    brg.(is_tmm) = true ->
    gemm_microkernel_amx brg bd_block2' is_bdb_tail ld_block2' is_rd_tail
      is_ld_tail = Ok c ->
    zero_accumulators brg bd_block2' is_bdb_tail ld_block2' is_ld_tail false
    = Ok z ->
    In (I i) c -> is_tile_multiply i = true ->
    exists tc, dest i = Some (Tmm tc) /\ In (I (Ins "tilezero" [Tmm tc])) z.
Proof.
  intros brg bd2 is_bdb_tail ld2 is_rd_tail is_ld_tail c z i Ht H Hz Hi Hm.
  unfold gemm_microkernel_amx in H. cbv zeta in H.
  apply andthen_inv in H. destruct H as (loops & tail & H & Htail & ->).
  apply in_app_or in Hi. destruct Hi as [Hi|Hi].
  2:{ destruct (negb is_rd_tail); cbn in Htail; injection Htail as <-;
      cbn in Hi; intuition; match goal with
                            | Hx : I _ = I i |- _ => injection Hx as <-
                            end; discriminate Hm. }
  destruct (for_In_inv _ _ _ _ H Hi)
    as (rdb' & p0 & c0 & q0 & _ & H0 & Hi0 & ->).
  apply andthen_inv in H0. destruct H0 as (cA & cL & HA & HL & ->).
  apply in_app_or in Hi0. destruct Hi0 as [Hi0|Hi0].
  { destruct (for_In_inv _ _ _ _ HA Hi0)
      as (bdb' & ? & cy & ? & _ & Hy & Hiy & _).
    pose proof (holds_In _ _ _ _
                  (maybe_tileloadd_nt_not_multiply brg matrix_A bdb' _
                     is_rd_tail is_bdb_tail) Hy Hiy) as Hn.
    cbn in Hn. congruence. }
  destruct (for_In_inv _ _ _ _ HL Hi0)
    as (ldb & p1 & c1 & q1 & Hldb & H1 & Hi1 & ->).
  apply andthen_inv in H1. destruct H1 as (cB & cM & HB & HM & ->).
  apply in_app_or in Hi1. destruct Hi1 as [Hi1|Hi1].
  { pose proof (holds_In _ _ _ _
                  (maybe_tileloadd_nt_not_multiply brg matrix_B _ _
                     is_rd_tail is_ld_tail) HB Hi1) as Hn.
    cbn in Hn. congruence. }
  destruct (for_In_inv _ _ _ _ HM Hi1)
    as (bdb' & p2 & c2 & q2 & Hbdb & H2 & Hi2 & ->).
  destruct (tdpbxxd_operands _ _ _ _ _ _ H2 Hi2) as (m & ->).
  eexists. split; [reflexivity|].
  unfold zero_accumulators in Hz. rewrite Ht in Hz.
  destruct (for_member _ _ _ bdb' Hz Hbdb) as (pz & cz & qz & Hcz & ->).
  destruct (for_member _ _ _ ldb Hcz Hldb) as (pz' & cz' & qz' & Hcz' & ->).
  injection Hcz' as <-. rewrite !in_app_iff. cbn [In]. tauto.
Qed.

End TilesCleared.

Lemma multiplied_tiles_are_cleared_first_witness :
  exists tc,
    dest (Ins "tdpbusd" [Tmm 3; Tmm 5; Tmm 7]) = Some (Tmm tc)
    /\ In (I (Ins "tilezero" [Tmm tc]))
         (code_of (zero_accumulators (T := zmm_traits)
                     (E := example_externals) brg_int8_amx 2 false 2 false
                     false)).
Proof.
  apply (multiplied_tiles_are_cleared_first (T := zmm_traits)
           (E := example_externals) brg_int8_amx 2 false 2 false false
           (code_of (gemm_microkernel_amx (T := zmm_traits)
                       (E := example_externals) brg_int8_amx 2 false 2 false
                       false))).
  - reflexivity.
  - vm_compute. reflexivity.
  - vm_compute. reflexivity.
  - vm_compute. repeat (first [left; reflexivity|right]).
  - reflexivity.
Defined.

Section TilesStored.
Context {T : isa_traits} {E : brgemm_externals}.

(** X20. Every tile of the block is stored: when accumulation is not
    skipped, the code of [store_accumulators_amx] has for every pair
    [(bdb, ldb)] a [tilestored] of the tile of C of that pair, to the
    scratch buffer when the values are post-processed and to C
    otherwise. *)
Theorem store_accumulators_amx_stores_every_tile :
  forall (brg : brgemm_desc_t) (bd_block2' : Z) (is_bdb_tail : bool)
    (ld_block2' : Z) (is_ld_tail apply_post_ops' apply_zp_a_compensation
       : bool)
    (c : list code) (bdb' ldb : Z),
    store_accumulators_amx brg bd_block2' is_bdb_tail ld_block2' is_ld_tail
      false apply_post_ops' apply_zp_a_compensation = Ok c ->
    0 <= bdb' < bd_block2' -> 0 <= ldb < ld_block2' ->
    let tile :=
      Tmm (get_C_tensor brg bdb'
             (if is_ld_tail then brg.(ld_block2) else ldb) is_bdb_tail
             is_ld_tail) in
    In (I (Ins "tilestored"
             [MemR (if need_to_apply_alpha_beta brg
                       || are_post_ops_applicable brg
                       || apply_zp_a_compensation
                    then reg_buf else reg_aux_C) reg_stride_ld_block 0;
              tile])) c.
Proof.
  intros brg bd2 is_bdb_tail ld2 is_ld_tail apo azc c bdb' ldb H Hb Hl tile.
  subst tile. unfold store_accumulators_amx in H. cbv zeta in H.
  do 4 (apply andthen_inv in H; destruct H as (? & ? & _ & H & ->)).
  apply andthen_inv in H. destruct H as (st & ? & H & _ & ->).
  destruct (for_member _ _ _ bdb' H) as (p1 & c1 & q1 & H1 & ->);
    [apply in_range; lia|].
  apply andthen_inv in H1. destruct H1 as (cl & ? & H1 & _ & ->).
  destruct (for_member _ _ _ ldb H1) as (p2 & c2 & q2 & H2 & ->);
    [apply in_range; lia|].
  apply andthen_inv in H2. destruct H2 as (cs & ? & Hs & _ & ->).
  assert (Hi : In (I (Ins "tilestored"
                        [MemR (if need_to_apply_alpha_beta brg
                                  || are_post_ops_applicable brg || azc
                               then reg_buf else reg_aux_C)
                           reg_stride_ld_block 0;
                         Tmm (get_C_tensor brg bdb'
                                (if is_ld_tail then ld_block2 brg else ldb)
                                is_bdb_tail is_ld_tail)])) cs).
  { destruct (need_to_apply_alpha_beta brg || are_post_ops_applicable brg
              || azc).
    - apply andthen_inv in Hs. destruct Hs as (ct & ? & Hs & _ & ->).
      apply andthen_inv in Hs. destruct Hs as (c0 & ? & Hs & _ & ->).
      injection Hs as <-. left. reflexivity.
    - cbn in Hs. injection Hs as <-. left. reflexivity. }
  rewrite !in_app_iff. tauto.
Qed.

End TilesStored.

Lemma store_accumulators_amx_stores_every_tile_witness :
  In (I (Ins "tilestored" [MemR reg_aux_C reg_stride_ld_block 0; Tmm 3]))
     (code_of (store_accumulators_amx (T := zmm_traits)
                 (E := example_externals) brg_int8_amx 2 false 2 false false
                 false false)).
Proof.
  apply (store_accumulators_amx_stores_every_tile (T := zmm_traits)
           (E := example_externals) brg_int8_amx 2 false 2 false false false
           (code_of (store_accumulators_amx (T := zmm_traits)
                       (E := example_externals) brg_int8_amx 2 false 2 false
                       false false false)) 1 1).
  - vm_compute. reflexivity.
  - lia.
  - lia.
Defined.

(** ** Conversion of integer bytes *)

Section BytesToFloats.
Context {T : isa_traits}.

Lemma signed32_sx8 : forall b, signed32 (sx8 b) = s8_value b.
Proof.
  intros b. unfold signed32, sx8, s8_value, wrap32. cbv zeta.
  assert (H : 0 <= b mod 256 < 256) by (apply Z.mod_pos_bound; lia).
  destruct (b mod 256 <? 128) eqn:Hb.
  - apply Z.ltb_lt in Hb. rewrite Zmod_mod.
    rewrite (Z.mod_small (b mod 256)) by lia.
    destruct (b mod 256 <? 2147483648) eqn:Hc; [reflexivity|].
    apply Z.ltb_ge in Hc. lia.
  - apply Z.ltb_ge in Hb. rewrite Zmod_mod.
    replace ((b mod 256 - 256) mod 4294967296)
      with (b mod 256 - 256 + 4294967296).
    + destruct (b mod 256 - 256 + 4294967296 <? 2147483648) eqn:Hc.
      * apply Z.ltb_lt in Hc. lia.
      * lia.
    + apply Z.mod_unique with (q := -1); lia.
Qed.

Lemma signed32_zx8 : forall b, signed32 (zx8 b) = u8_value b.
Proof.
  intros b. unfold signed32, zx8, u8_value, wrap32. cbv zeta.
  assert (H : 0 <= b mod 256 < 256) by (apply Z.mod_pos_bound; lia).
  rewrite (Z.mod_small (b mod 256)) by lia.
  destruct (b mod 256 <? 2147483648) eqn:Hc; [reflexivity|].
  apply Z.ltb_ge in Hc. lia.
Qed.

Lemma cvtdq2ps_masked :
  forall (ext value : Z -> Z) (k : list bool) (bytes : list Z)
    (old : list lane),
    (forall b, signed32 (ext b) = value b) ->
    List.length k = List.length bytes ->
    List.length old = List.length bytes ->
    cvtdq2ps_vec (masked k true (map (fun b => LInt (ext b)) bytes) old)
    = bytes_as_floats value k bytes.
Proof.
  intros ext value k bytes old He. revert k old.
  induction bytes as [|b bytes IH]; intros k old Hk Ho.
  - destruct k; [reflexivity|discriminate Hk].
  - destruct k as [|x k]; [discriminate Hk|].
    destruct old as [|o old]; [discriminate Ho|].
    cbn [map masked]. unfold cvtdq2ps_vec, bytes_as_floats in *.
    cbn [map combine fst snd]. f_equal.
    + destruct x; cbn [int_of]; [rewrite He; reflexivity|reflexivity].
    + apply IH; [injection Hk; auto|injection Ho; auto].
Qed.

Lemma cvtdq2ps_unmasked :
  forall (ext value : Z -> Z) (bytes : list Z),
    (forall b, signed32 (ext b) = value b) ->
    cvtdq2ps_vec (map (fun b => LInt (ext b)) bytes)
    = bytes_as_floats value (repeat true (List.length bytes)) bytes.
Proof.
  intros ext value bytes He. unfold cvtdq2ps_vec, bytes_as_floats.
  induction bytes as [|b bytes IH]; [reflexivity|].
  cbn [map List.length repeat combine fst snd int_of]. rewrite He, IH.
  reflexivity.
Qed.

(** X18. [cvt2ps] reads integer bytes by value: for [s8] and [u8] on a
    path with masks, the register holds afterwards, in every lane the
    mask selects, the float of the byte behind the address, sign-extended
    for [s8] and zero-extended for [u8], and zero in every other lane; no
    other register changes. *)
Theorem cvt2ps_reads_bytes_by_value :
  forall (brg : brgemm_desc_t) (type_in : data_type_t) (vmm_in : Z)
    (base : gpr) (off : Z) (mask_flag : bool) (ktail_mask tail_size : Z)
    (s : vstate),
    type_in = data_type.s8 \/ type_in = data_type.u8 ->
    IMPLICATION (negb (tail_size =? Z.quot vlen 4)) (is_avx512 brg) = true ->
    let bytes := firstn nlanes (s.(mem8) base off) in
    List.length (s.(kreg) ktail_mask) = List.length bytes ->
    List.length (s.(vreg) vmm_in) = List.length bytes ->
    exists s',
      exec_gen (cvt2ps brg type_in vmm_in (Mem base off) mask_flag false
                  ktail_mask tail_size) s = Some s'
      /\ s'.(vreg) vmm_in
         = bytes_as_floats
             (if data_type.eqb type_in data_type.s8 then s8_value
              else u8_value)
             (if mask_flag && is_avx512 brg then s.(kreg) ktail_mask
              else repeat true (List.length bytes))
             bytes
      /\ forall r, r <> vmm_in -> s'.(vreg) r = s.(vreg) r.
Proof.
  intros brg type_in vmm base off mask_flag k tail s Ht Hi bytes Hk Ho.
  unfold cvt2ps. cbn [isMEM andb]. rewrite Hi. cbv zeta. unfold vmm_mask.
  destruct Ht as [-> | ->]; cbn [data_type.is_integral_dt when data_type.eqb];
    destruct (mask_flag && is_avx512 brg); cbn; fold bytes;
    rewrite Z.eqb_refl; eexists; (split; [reflexivity|]); cbn;
    rewrite Z.eqb_refl; (split; [|intros r Hr; apply Z.eqb_neq in Hr;
                                  rewrite Hr; reflexivity]).
  - apply cvtdq2ps_masked; [apply signed32_sx8|assumption|assumption].
  - apply cvtdq2ps_unmasked. apply signed32_sx8.
  - apply cvtdq2ps_masked; [apply signed32_zx8|assumption|assumption].
  - apply cvtdq2ps_unmasked. apply signed32_zx8.
Qed.

End BytesToFloats.

Lemma cvt2ps_reads_bytes_by_value_witness :
  exists s',
    exec_gen (T := zmm_traits)
      (cvt2ps (T := zmm_traits) brg_int8_alpha2_bias data_type.s8 0
         (Mem reg_aux_bias 0) true false ld_tail_mask 5) bias_state
    = Some s'
    /\ s'.(vreg) 0
       = [LFlt 0; LFlt 1; LFlt 127; LFlt (-128); LFlt (-1);
          LFlt 0; LFlt 0; LFlt 0; LFlt 0; LFlt 0; LFlt 0; LFlt 0; LFlt 0;
          LFlt 0; LFlt 0; LFlt 0].
Proof.
  destruct (cvt2ps_reads_bytes_by_value (T := zmm_traits)
              brg_int8_alpha2_bias data_type.s8 0 reg_aux_bias 0 true
              ld_tail_mask 5 bias_state) as (s' & Hx & Hv & _).
  - left. reflexivity.
  - reflexivity.
  - reflexivity.
  - reflexivity.
  - exists s'. split; [exact Hx|]. rewrite Hv. reflexivity.
Defined.

(** ** The prologue reads the parameters *)

Section ReadParams.
Context {T : isa_traits} {E : brgemm_externals}.

Lemma exec_gpr_andthen : forall (a b : gen) (s : gstate),
  exec_gpr_gen (a ;; b) s
  = match exec_gpr_gen a s with
    | Some s' => exec_gpr_gen b s'
    | None => None
    end.
Proof.
  intros [ca|ma] [cb|mb] s; cbn; try reflexivity.
  - apply exec_gpr_app.
  - destruct (exec_gpr ca s); reflexivity.
Qed.

Lemma preserves_skip : forall R, preserves R skip.
Proof. intros R s. exists s. auto. Qed.

Lemma preserves_andthen : forall R (a b : gen),
  preserves R a -> preserves R b -> preserves R (a ;; b).
Proof.
  intros R a b Ha Hb s. destruct (Ha s) as (s1 & E1 & R1 & P1).
  destruct (Hb s1) as (s2 & E2 & R2 & P2). exists s2.
  rewrite exec_gpr_andthen, E1. split; [exact E2|]. split.
  - intros r Hr. rewrite R2, R1 by assumption. reflexivity.
  - congruence.
Qed.

Lemma preserves_when : forall R (c : bool) (g : gen),
  preserves R g -> preserves R (when c g).
Proof. intros R [|] g H; [exact H|apply preserves_skip]. Qed.

Lemma preserves_if : forall R (c : bool) (a b : gen),
  preserves R a -> preserves R b -> preserves R (if c then a else b).
Proof. intros R [|] a b Ha Hb; assumption. Qed.

Lemma not_in_spec : forall R r x,
  not_in R r = true -> In x R -> preg_beq x r = false.
Proof.
  intros R r x H Hx. unfold not_in in H. rewrite forallb_forall in H.
  apply negb_true_iff. apply H. exact Hx.
Qed.

Lemma preserves_load : forall R (r : gpr) (src : operand) (m : string),
  is_rsp r = false -> not_in R (phys r) = true ->
  (forall s, exists v, exec_gpr_insn (Ins m [Gpr r; src]) s
                       = Some (set_greg s (phys r) v)) ->
  preserves R (ins m [Gpr r; src]).
Proof.
  intros R r src m Hr Hn Hx s. destruct (Hx s) as (v & Hv).
  exists (set_greg s (phys r) v). cbn [exec_gpr_gen ins exec_gpr].
  rewrite Hv. split; [reflexivity|]. split; [|reflexivity].
  intros x Hin. cbn. rewrite (not_in_spec R (phys r) x Hn Hin). reflexivity.
Qed.

Lemma preserves_mov_param : forall R (r : gpr) (f : param_field),
  is_rsp r = false -> not_in R (phys r) = true ->
  preserves R (ins "mov" [Gpr r; Param f]).
Proof.
  intros R r f Hr Hn. apply preserves_load; [exact Hr|exact Hn|].
  intros s. eexists. cbn. rewrite Hr. reflexivity.
Qed.

Lemma preserves_shl : forall R (r : gpr) (n : Z),
  is_rsp r = false -> not_in R (phys r) = true ->
  preserves R (ins "shl" [Gpr r; Imm n]).
Proof.
  intros R r n Hr Hn. apply preserves_load; [exact Hr|exact Hn|].
  intros s. eexists. cbn. rewrite Hr. reflexivity.
Qed.

Lemma preserves_store : forall R (r : gpr) (off : Z),
  preserves R (ins "mov" [Mem reg_rsp off; Gpr r]).
Proof.
  intros R r off s. eexists. split; [reflexivity|]. split; reflexivity.
Qed.

Ltac pres :=
  repeat first
    [ apply preserves_andthen
    | apply preserves_when
    | apply preserves_if
    | apply preserves_store
    | apply preserves_mov_param; reflexivity
    | apply preserves_shl; reflexivity ].

(** A block that preserves the registers, then the rest. *)
Lemma seq_preserves :
  forall R rho gp (a b : gen) (s : gstate) (Q : gstate -> Prop),
    preserves R a -> regs_are R rho gp s ->
    (forall s', regs_are R rho gp s' ->
                exists s'', exec_gpr_gen b s' = Some s'' /\ Q s'') ->
    exists s'', exec_gpr_gen (a ;; b) s = Some s'' /\ Q s''.
Proof.
  intros R rho gp a b s Q Ha (Hr & Hp) Hb.
  destruct (Ha s) as (s1 & E1 & R1 & P1).
  destruct (Hb s1) as (s2 & E2 & Q2).
  - split; [|congruence]. intros r Hin. rewrite R1 by assumption.
    apply Hr. exact Hin.
  - exists s2. rewrite exec_gpr_andthen, E1. auto.
Qed.

(** One instruction, then the rest. *)
Lemma seq_insn : forall (m : string) (ops : list operand) (b : gen)
    (s s1 : gstate) (Q : gstate -> Prop),
  exec_gpr_insn (Ins m ops) s = Some s1 ->
  (exists s'', exec_gpr_gen b s1 = Some s'' /\ Q s'') ->
  exists s'', exec_gpr_gen (ins m ops ;; b) s = Some s'' /\ Q s''.
Proof.
  intros m ops b s s1 Q H (s2 & E2 & Q2). exists s2.
  rewrite exec_gpr_andthen. cbn [exec_gpr_gen ins exec_gpr]. rewrite H.
  auto.
Qed.

(** X21. The prologue delivers the parameters: from every state,
    [read_params] runs to the end and leaves the pointers to C and D and
    the batch size in their registers and the three runtime flags and the
    zero point of A in their stack slots, each with the value of its
    field of the parameter block that [param1] addressed on entry; the
    register [param1] itself is unchanged. *)
Theorem read_params_delivers_the_parameters :
  forall (brg : brgemm_desc_t) (s : gstate),
    let field := s.(gparam) (s.(greg) (phys param1)) in
    exists s',
      exec_gpr_gen (read_params brg) s = Some s'
      /\ s'.(greg) (phys param1) = s.(greg) (phys param1)
      /\ s'.(greg) (phys reg_C) = field ptr_C
      /\ s'.(greg) (phys reg_D) = field ptr_D
      /\ s'.(greg) (phys reg_BS) = field BS
      /\ s'.(gslot) reg_do_post_ops_offs_ = field do_post_ops
      /\ s'.(gslot) reg_skip_accm_offs_ = field skip_accm
      /\ s'.(gslot) reg_zp_a_val_offs_ = field zp_a_val
      /\ s'.(gslot) reg_do_comp_offs_ = field do_apply_comp.
Proof.
  intros brg s field. unfold read_params.
  set (R := [abi_param1; r15; r11; abi_not_param1]).
  set (rho0 := s.(greg)).
  eapply (seq_preserves R rho0 (gparam s)); [pres| |intros s0 H0].
  { split; [intros; reflexivity|reflexivity]. }
  eapply (seq_preserves [abi_param1] rho0 (gparam s)); [pres| |intros s1 H1].
  { destruct H0 as (Hr & Hp). split; [|exact Hp].
    intros r [<-|[]]. apply Hr. left. reflexivity. }
  destruct H1 as (Hr1 & Hp1).
  assert (Hparam : greg s1 abi_param1 = greg s abi_param1)
    by (apply Hr1; left; reflexivity).
  eapply seq_insn; [reflexivity|].
  eapply seq_insn; [reflexivity|].
  eapply seq_insn; [reflexivity|].
  set (rho := fun r =>
                if preg_beq r abi_param1 then greg s abi_param1
                else if preg_beq r r15 then field ptr_C
                else if preg_beq r r11 then field ptr_D
                else field BS).
  do 11 (eapply (seq_preserves R rho (gparam s)); [pres| |intros ? ?];
         [first [ eassumption
                | split; [|exact Hp1];
                  intros r [<-|[<-|[<-|[<-|[]]]]]; cbn;
                  rewrite ?Hp1, ?Hparam; reflexivity ]|]).
  match goal with
  | Hs : regs_are R rho (gparam s) ?st |- _ =>
      destruct Hs as (Hr & Hp);
      pose proof (Hr abi_param1 (or_introl eq_refl)) as Ha;
      pose proof (Hr r15 (or_intror (or_introl eq_refl))) as Hc;
      pose proof (Hr r11 (or_intror (or_intror (or_introl eq_refl)))) as Hd;
      pose proof (Hr abi_not_param1
                    (or_intror (or_intror (or_intror (or_introl eq_refl)))))
        as Hb
  end.
  cbn in Ha, Hc, Hd, Hb.
  eexists. split; [reflexivity|]. cbn. rewrite Hp, Ha, Hc, Hd, Hb.
  repeat split; reflexivity.
Qed.

End ReadParams.

(** ** Columns of B the microkernel reads *)

Section ColumnsOfB.
Context {T : isa_traits} {E : brgemm_externals}.

Ltac col_solve :=
  repeat match goal with
         | H : In _ (range _ _) |- _ => apply range_In in H
         | H : (_ <? _) = true |- _ => apply Z.ltb_lt in H
         end;
  first [ refine (ex_intro _ _ (ex_intro _ _
                    (conj _ (conj _ (or_introl eq_refl))))); lia
        | refine (ex_intro _ _ (ex_intro _ _
                    (conj _ (conj _ (or_intror eq_refl))))); lia ].

Ltac cols_leaf :=
  cbn; unfold reads_B_columns, reads_B_at, vmm_mask;
  repeat match goal with
         | |- context [if ?b then _ else _] => destruct b
         end;
  cbn;
  first [ exact Logic.I
        | intros off Hoff; cbn in Hoff;
          repeat match goal with
                 | H : _ \/ _ |- _ => destruct H
                 | H : False |- _ => destruct H
                 end;
          subst; col_solve ].

Ltac cols_walk :=
  repeat (first [ apply holds_for_step_bounds; intros ? ? _ | hstep ]);
  lazymatch goal with
  | |- holds _ (Ok [_]) => hnode ltac:(cols_leaf)
  | |- holds _ _ =>
      progress unfold dot_product, load_B_1load, load_B_1bcst, decode_B,
        load_zero_points, broadcast, prefetch_B, compensation_padding;
      cols_walk
  | |- _ => cols_leaf
  end.

Lemma compute_int8_compensation_colsB :
  forall brg n_bcast_1_load rd_loop bd_b bd_e bd_block' ld_block2' is_ld_tail
    vpad,
    holds (on_insn (reads_B_columns brg ld_block2' rd_loop))
      (compute_int8_compensation brg n_bcast_1_load rd_loop bd_b bd_e
         bd_block' ld_block2' is_ld_tail vpad).
Proof. intros. unfold compute_int8_compensation. cols_walk. Qed.

Lemma gemm_microkernel_1load_colsB :
  forall brg n_bcast_1_load ld_block2' is_rd_tail is_ld_tail bd_b bd_e
    rows_for_rd_tail,
    holds (on_insn (reads_B_columns brg ld_block2'
                      (rd_loop_of brg is_rd_tail)))
      (gemm_microkernel_1load brg n_bcast_1_load ld_block2' is_rd_tail
         is_ld_tail bd_b bd_e rows_for_rd_tail).
Proof. intros. unfold gemm_microkernel_1load. cols_walk. Qed.

Lemma gemm_microkernel_1bcst_colsB :
  forall brg n_bcast_1_load ld_block2' is_rd_tail is_ld_tail bd_b bd_e
    rows_for_rd_tail,
    holds (on_insn (reads_B_columns brg ld_block2'
                      (rd_loop_of brg is_rd_tail)))
      (gemm_microkernel_1bcst brg n_bcast_1_load ld_block2' is_rd_tail
         is_ld_tail bd_b bd_e rows_for_rd_tail).
Proof. intros. unfold gemm_microkernel_1bcst. cols_walk. Qed.

Lemma gemm_microkernel_wei_decomp_colsB :
  forall brg n_bcast_1_load ld_block2' is_rd_tail is_ld_tail bd_b bd_e
    rows_for_rd_tail,
    holds (on_insn (reads_B_columns brg ld_block2'
                      (rd_loop_of brg is_rd_tail)))
      (gemm_microkernel_wei_decomp brg n_bcast_1_load ld_block2' is_rd_tail
         is_ld_tail bd_b bd_e rows_for_rd_tail).
Proof. intros. unfold gemm_microkernel_wei_decomp. cols_walk. Qed.

Lemma gemm_microkernel_dyn_quant_colsB :
  forall brg n_bcast_1_load need_comp_pads bd_block2' (is_bdb_tail : bool)
    ld_block2' is_rd_tail is_ld_tail vpad rows_for_rd_tail,
    holds (on_insn (reads_B_columns brg ld_block2'
                      (rd_loop_of brg is_rd_tail)))
      (gemm_microkernel_dyn_quant brg n_bcast_1_load need_comp_pads
         bd_block2' is_bdb_tail ld_block2' is_rd_tail is_ld_tail vpad
         rows_for_rd_tail).
Proof. intros. unfold gemm_microkernel_dyn_quant. cols_walk. Qed.

(** X23. The vector microkernel reads B only inside the block of
    columns: every address it forms from [reg_aux_B] is the offset of a
    column block below [ld_block2] and a reduction index below the extent
    of the reduction loop, or, in a prefetch, the same place one
    reduction block further. *)
Theorem gemm_microkernel_reads_block_columns :
  forall brg n_bcast_1_load need_comp_pads bd_block2' (is_bdb_tail : bool)
    ld_block2' is_rd_tail is_ld_tail vpad rows_for_rd_tail,
    holds (on_insn (reads_B_columns brg ld_block2'
                      (rd_loop_of brg is_rd_tail)))
      (gemm_microkernel brg n_bcast_1_load need_comp_pads bd_block2'
         is_bdb_tail ld_block2' is_rd_tail is_ld_tail vpad rows_for_rd_tail).
Proof.
  intros. unfold gemm_microkernel.
  hwalk ltac:(solve [auto using gemm_microkernel_1load_colsB,
                       gemm_microkernel_1bcst_colsB,
                       gemm_microkernel_wei_decomp_colsB,
                       gemm_microkernel_dyn_quant_colsB,
                       compute_int8_compensation_colsB])
        ltac:(cols_leaf).
Qed.

End ColumnsOfB.

(** ** The reduction extent of a microkernel call *)

(** X24. The reduction tail is rounded up to whole steps, never further:
    for a tail call the extent [rd_loop] of the reduction loop is
    [rdb_tail] itself for the types that reduce element by element, and
    for bf16 and int8 the least multiple of [rd_step] that is not below
    [rdb_tail]; so the microkernel reads less than one step past the
    tail. *)
Theorem rd_loop_rounds_the_tail_up :
  forall (brg : brgemm_desc_t),
    0 < brg.(rd_step) -> 0 <= brg.(rdb_tail) ->
    let rd_loop := rd_loop_of brg true in
    brg.(rdb_tail) <= rd_loop < brg.(rdb_tail) + brg.(rd_step)
    /\ (brg.(is_bf16) || brg.(is_int8) = true ->
        exists k, rd_loop = k * brg.(rd_step))
    /\ (brg.(is_bf16) || brg.(is_int8) = false -> rd_loop = brg.(rdb_tail)).
Proof.
  intros brg Hs Ht rd_loop. subst rd_loop.
  unfold rd_loop_of, rd_tail_size_of. cbn [andb].
  destruct (is_bf16 brg || is_int8 brg).
  - rewrite Z.rem_mod_nonneg, Z.quot_div_nonneg by lia.
    pose proof (Z.div_mod (rdb_tail brg) (rd_step brg)) as Hd.
    pose proof (Z.mod_pos_bound (rdb_tail brg) (rd_step brg) Hs) as Hm.
    destruct (rdb_tail brg mod rd_step brg =? 0) eqn:He; cbn [negb].
    + apply Z.eqb_eq in He. split; [lia|]. split; [|discriminate].
      intros _. exists (rdb_tail brg / rd_step brg). lia.
    + apply Z.eqb_neq in He. split; [nia|]. split; [|discriminate].
      intros _. exists (rdb_tail brg / rd_step brg + 1). reflexivity.
  - split; [lia|]. split; [discriminate|]. reflexivity.
Qed.

Lemma rd_loop_rounds_the_tail_up_witness :
  6 <= rd_loop_of (brg_int8_rd_tail) true < 6 + 4
  /\ exists k, rd_loop_of (brg_int8_rd_tail) true = k * 4.
Proof.
  destruct (rd_loop_rounds_the_tail_up (brg_int8_rd_tail)) as (Hb & Hk & _).
  - reflexivity.
  - simpl. lia.
  - split; [exact Hb|]. apply Hk. reflexivity.
Defined.
